(** * Tile container files: header codec, chunk pipeline, writer, validator

    A shallow embedding of [old/main.py] (class [TileFile]) together with the
    parts of Python's [struct] module and of [bytes] the class relies on.

    Layout of this file:
    - bytes, little-endian integers, the [struct] format language;
    - hexadecimal strings ([bytes.hex], [bytes.fromhex]);
    - a reference block codec (LZ4 blocks made of one literal run);
    - the [TileFile] class, in a section over the external collaborators
      (the LZ4 block codec, the [readwrite.mip] functions, the file system);
    - the properties of the container format. *)

From Stdlib Require Import ZArith Lia String Ascii.
From Stdlib.Strings Require Import Byte.
From stdpp Require Import base option list.

Local Open Scope string_scope.
Local Open Scope list_scope.
Local Open Scope Z_scope.

(** ** Python exceptions and results *)

Inductive exn : Type :=
| ValueError (msg : string)
| StructError               (* struct.error *)
| KeyError (key : string)
| IndexError
| TypeError
| AttributeError
| OSError                   (* open() failed *)
| LZ4BlockError             (* lz4.block.decompress failed *)
| CodecError                (* a registered read function raised *)
| EncoderError (e : exn).   (* a registered write function raised [e] *)

Inductive result (A : Type) : Type :=
| Ok (a : A)
| Raise (e : exn).
Arguments Ok {A} a.
Arguments Raise {A} e.

Definition result_bind {A B} (c : result A) (k : A -> result B) : result B :=
  match c with
  | Ok a => k a
  | Raise e => Raise e
  end.

Notation "'let*' x ':=' c 'in' k" := (result_bind c (fun x => k))
  (at level 10, x pattern, c at level 100, k at level 200).

Definition of_option {A} (o : option A) (e : exn) : result A :=
  match o with
  | Some a => Ok a
  | None => Raise e
  end.

(** Evaluate a list of computations left to right, as Python evaluates the
    elements of a list display or the arguments of a call. *)
Fixpoint sequence {A} (l : list (result A)) : result (list A) :=
  match l with
  | [] => Ok []
  | c :: r => let* a := c in let* rs := sequence r in Ok (a :: rs)
  end.

(** ** Bytes and little-endian integers *)

Definition bytes := list byte.

Definition byte_to_Z (b : byte) : Z := Z.of_N (Byte.to_N b).

Definition byte_of_Z (z : Z) : byte :=
  match Byte.of_N (Z.to_N (z mod 256)) with
  | Some b => b
  | None => x00
  end.

(** [int.from_bytes(b, "little")] *)
Fixpoint int_from_bytes (b : bytes) : Z :=
  match b with
  | [] => 0
  | x :: r => byte_to_Z x + 256 * int_from_bytes r
  end.

(** The [n] low-order bytes of [z], least significant first. *)
Fixpoint int_to_bytes (n : nat) (z : Z) : bytes :=
  match n with
  | O => []
  | S k => byte_of_Z z :: int_to_bytes k (z / 256)
  end.

(** Python's [seq[a:b]] for arbitrary integers [a], [b] (step 1). *)
Definition clamp_index (len i : Z) : Z :=
  if i <? 0 then Z.max (i + len) 0 else Z.min i len.

Definition py_slice {A} (l : list A) (a b : Z) : list A :=
  let len := Z.of_nat (length l) in
  let a' := clamp_index len a in
  let b' := clamp_index len b in
  take (Z.to_nat (b' - a')) (drop (Z.to_nat a') l).

(** ** Python values that occur in headers *)

(** What [struct.unpack] yields and [struct.pack] accepts. *)
Inductive atom : Type :=
| AInt (z : Z)
| ABytes (b : bytes).

(** A field of a cell-header entry: an [int], a [tuple] (as sliced out of the
    unpacked record) or a [list] (after the writer made it mutable). *)
Inductive pyval : Type :=
| PAtom (a : atom)
| PTuple (l : list atom)
| PList (l : list atom).

Definition PInt (z : Z) : pyval := PAtom (AInt z).

(** ** The [struct] module, for the format codes this program uses *)

Inductive fmt_code : Type :=
| FmtI             (* I: unsigned 32 bit *)
| Fmti             (* i: signed 32 bit *)
| FmtQ             (* Q: unsigned 64 bit *)
| Fmts (n : nat).  (* ns: n raw bytes, one value *)

Definition is_space (c : ascii) : bool :=
  match c with
  | " "%char | "009"%char | "010"%char | "011"%char | "012"%char | "013"%char => true
  | _ => false
  end.

Definition digit_of_ascii (c : ascii) : option nat :=
  let n := nat_of_ascii c in
  if ((48 <=? n) && (n <=? 57))%nat then Some (n - 48)%nat else None.

(** The items of a format after the byte-order character.  A repeat count
    applies to the code that follows it; for [s] it is the length of the one
    byte string.  Codes this program never uses are rejected. *)
Fixpoint parse_items (s : string) (count : option nat) : option (list fmt_code) :=
  match s with
  | EmptyString =>
      match count with
      | None => Some []
      | Some _ => None
      end
  | String c r =>
      match digit_of_ascii c with
      | Some d => parse_items r (Some (10 * default 0 count + d))%nat
      | None =>
          let n := default 1%nat count in
          if is_space c then
            match count with
            | None => parse_items r None
            | Some _ => None
            end
          else if Ascii.eqb c "I" then option_map (app (replicate n FmtI)) (parse_items r None)
          else if Ascii.eqb c "i" then option_map (app (replicate n Fmti)) (parse_items r None)
          else if Ascii.eqb c "Q" then option_map (app (replicate n FmtQ)) (parse_items r None)
          else if Ascii.eqb c "s" then option_map (cons (Fmts n)) (parse_items r None)
          else None
      end
  end.

(** Only [<] formats (little-endian, standard sizes, no padding) are used. *)
Definition parse_format (fmt : string) : option (list fmt_code) :=
  match fmt with
  | String "<" r => parse_items r None
  | _ => None
  end.

Definition code_size (c : fmt_code) : nat :=
  match c with
  | FmtI | Fmti => 4
  | FmtQ => 8
  | Fmts n => n
  end.

Definition codes_size (codes : list fmt_code) : nat :=
  foldr (fun c n => code_size c + n)%nat 0%nat codes.

Definition calcsize (fmt : string) : result nat :=
  let* codes := of_option (parse_format fmt) StructError in
  Ok (codes_size codes).

Definition unpack_code (c : fmt_code) (b : bytes) : atom :=
  match c with
  | FmtI | FmtQ => AInt (int_from_bytes b)
  | Fmti =>
      let u := int_from_bytes b in
      AInt (if u <? 2 ^ 31 then u else u - 2 ^ 32)
  | Fmts _ => ABytes b
  end.

Fixpoint unpack_codes (codes : list fmt_code) (data : bytes) : list atom :=
  match codes with
  | [] => []
  | c :: r =>
      unpack_code c (take (code_size c) data) :: unpack_codes r (drop (code_size c) data)
  end.

(** [struct.unpack_from(fmt, data, offset)]: the buffer must hold at least
    [calcsize(fmt)] bytes from [offset] on. *)
Definition unpack_from (fmt : string) (data : bytes) (offset : nat) : result (list atom) :=
  let* codes := of_option (parse_format fmt) StructError in
  if (length data - offset <? codes_size codes)%nat then Raise StructError
  else Ok (unpack_codes codes (drop offset data)).

(** [struct.unpack(fmt, data)]: the buffer must hold exactly
    [calcsize(fmt)] bytes. *)
Definition unpack (fmt : string) (data : bytes) : result (list atom) :=
  let* codes := of_option (parse_format fmt) StructError in
  if (length data =? codes_size codes)%nat then Ok (unpack_codes codes data)
  else Raise StructError.

Definition pack_code (c : fmt_code) (v : pyval) : result bytes :=
  match c, v with
  | FmtI, PAtom (AInt z) =>
      if (0 <=? z) && (z <? 2 ^ 32) then Ok (int_to_bytes 4 z) else Raise StructError
  | Fmti, PAtom (AInt z) =>
      if (- 2 ^ 31 <=? z) && (z <? 2 ^ 31) then Ok (int_to_bytes 4 (z mod 2 ^ 32))
      else Raise StructError
  | FmtQ, PAtom (AInt z) =>
      if (0 <=? z) && (z <? 2 ^ 64) then Ok (int_to_bytes 8 z) else Raise StructError
  | Fmts n, PAtom (ABytes b) =>
      Ok (take n b ++ replicate (n - length b) x00)
  | _, _ => Raise StructError
  end.

Fixpoint pack_codes (codes : list fmt_code) (vals : list pyval) : result bytes :=
  match codes, vals with
  | [], [] => Ok []
  | c :: cr, v :: vr =>
      let* b := pack_code c v in
      let* rest := pack_codes cr vr in
      Ok (b ++ rest)
  | _, _ => Raise StructError
  end.

(** [struct.pack(fmt, *vals)] *)
Definition pack (fmt : string) (vals : list pyval) : result bytes :=
  let* codes := of_option (parse_format fmt) StructError in
  pack_codes codes vals.

(** ** [bytes.hex] and [bytes.fromhex] *)

Definition hex_digit (n : N) : ascii :=
  if (n <? 10)%N then ascii_of_N (48 + n) else ascii_of_N (87 + n).

Definition hex_value (c : ascii) : option N :=
  let n := N_of_ascii c in
  if ((48 <=? n) && (n <=? 57))%N then Some (n - 48)%N
  else if ((97 <=? n) && (n <=? 102))%N then Some (n - 87)%N
  else if ((65 <=? n) && (n <=? 70))%N then Some (n - 55)%N
  else None.

Fixpoint hex (b : bytes) : string :=
  match b with
  | [] => EmptyString
  | x :: r =>
      let n := Byte.to_N x in
      String (hex_digit (n / 16)) (String (hex_digit (n mod 16)) (hex r))
  end.

(** Whitespace between byte pairs is skipped; anything else that is not a
    pair of hexadecimal digits is an error. *)
Fixpoint fromhex (s : string) : option bytes :=
  match s with
  | EmptyString => Some []
  | String c r =>
      if is_space c then fromhex r
      else
        match r with
        | EmptyString => None
        | String d r' =>
            match hex_value c, hex_value d with
            | Some h, Some l =>
                option_map (cons (byte_of_Z (Z.of_N (16 * h + l)))) (fromhex r')
            | _, _ => None
            end
        end
  end.

(** The exception of [bytes.fromhex] (CPython 3.7 to 3.13): the position is
    that of the first character outside ASCII if there is one, else that of
    the character that should have been a hexadecimal digit (the length of
    the string when it ends in the middle of a pair). *)
Fixpoint decimal_digits (fuel n : nat) (acc : string) : string :=
  match fuel with
  | O => acc
  | S fuel' =>
      let acc' := String (ascii_of_nat (48 + n mod 10)) acc in
      if (n / 10 =? 0)%nat then acc' else decimal_digits fuel' (n / 10) acc'
  end.

(** [str(n)] *)
Definition decimal (n : nat) : string := decimal_digits (S n) n "".

Fixpoint first_non_ascii (s : string) (pos : nat) : option nat :=
  match s with
  | EmptyString => None
  | String c r =>
      if (128 <=? N_of_ascii c)%N then Some pos else first_non_ascii r (S pos)
  end.

Fixpoint fromhex_invalid (s : string) (pos : nat) : nat :=
  match s with
  | EmptyString => pos
  | String c r =>
      if is_space c then fromhex_invalid r (S pos)
      else
        match hex_value c, r with
        | None, _ => pos
        | Some _, EmptyString => S pos
        | Some _, String d r' =>
            match hex_value d with
            | None => S pos
            | Some _ => fromhex_invalid r' (S (S pos))
            end
        end
  end.

Definition fromhex_error (s : string) : exn :=
  ValueError
    ("non-hexadecimal number found in fromhex() arg at position "
     ++ decimal (match first_non_ascii s 0 with
                 | Some pos => pos
                 | None => fromhex_invalid s 0
                 end)).

(** ** A reference block codec

    LZ4 blocks that consist of a single run of literals: a token whose high
    nibble is the run length (15 meaning that length bytes follow: any number
    of 255 and one final smaller byte, all added up), then the literals.
    This is the encoding LZ4 gives data it cannot shorten, and every LZ4
    decoder reads it back.  It instantiates the external codec below. *)

Module LiteralLZ4.

Definition length_bytes (k : nat) : bytes :=
  replicate (k / 255)%nat xff ++ [byte_of_Z (Z.of_nat (k mod 255))].

Definition compress (raw : bytes) : bytes :=
  let n := length raw in
  if (n <? 15)%nat then byte_of_Z (16 * Z.of_nat n) :: raw
  else xf0 :: length_bytes (n - 15) ++ raw.

Fixpoint read_length (src : bytes) (acc : Z) : option (Z * bytes) :=
  match src with
  | [] => None
  | b :: r =>
      if byte_to_Z b =? 255 then read_length r (acc + 255)
      else Some (acc + byte_to_Z b, r)
  end.

(** [size] is the capacity of the output buffer. *)
Definition decompress (src : bytes) (size : Z) : option bytes :=
  match src with
  | [] => None
  | token :: r =>
      let t := byte_to_Z token in
      if negb (t mod 16 =? 0) then None
      else
        match (if t / 16 <? 15 then Some (t / 16, r) else read_length r 15) with
        | Some (n, literals) =>
            if (Z.of_nat (length literals) =? n) && (n <=? size) then Some literals
            else None
        | None => None
        end
  end.

End LiteralLZ4.

(** ** Dictionaries

    Python dictionaries keep insertion order and the program iterates over
    them, so they are association lists: assignment to an existing key keeps
    its position, assignment to a new key appends. *)

Definition dict (V : Type) : Type := list (string * V).

Fixpoint dict_get {V} (d : dict V) (k : string) : option V :=
  match d with
  | [] => None
  | (k', v) :: r => if String.eqb k' k then Some v else dict_get r k
  end.

Fixpoint dict_set {V} (d : dict V) (k : string) (v : V) : dict V :=
  match d with
  | [] => [(k, v)]
  | (k', v') :: r => if String.eqb k' k then (k', v) :: r else (k', v') :: dict_set r k v
  end.

Definition dict_keys {V} (d : dict V) : list string := map fst d.

(** [d[k]] *)
Definition getkey {V} (d : dict V) (k : string) : result V :=
  of_option (dict_get d k) (KeyError k).

(** [v[i]] for a non-negative index *)
Definition getitem (v : pyval) (i : nat) : result atom :=
  match v with
  | PAtom (AInt _) => Raise TypeError
  | PAtom (ABytes b) =>
      let* x := of_option (b !! i) IndexError in Ok (AInt (byte_to_Z x))
  | PTuple l | PList l => of_option (l !! i) IndexError
  end.

(** [len(v)] *)
Definition py_len (v : pyval) : result nat :=
  match v with
  | PAtom (AInt _) => Raise TypeError
  | PAtom (ABytes b) => Ok (length b)
  | PTuple l | PList l => Ok (length l)
  end.

(** [v[i] = x] for a non-negative index: only lists support it *)
Definition setitem (v : pyval) (i : nat) (x : atom) : result pyval :=
  match v with
  | PList l => if (i <? length l)%nat then Ok (PList (<[i := x]> l)) else Raise IndexError
  | PAtom _ | PTuple _ => Raise TypeError
  end.

Definition as_int (v : pyval) : result Z :=
  match v with
  | PAtom (AInt z) => Ok z
  | _ => Raise TypeError
  end.

(** ** The file header *)

Record Header : Type := mkHeader {
  version : Z;
  uuid : string;               (* hexadecimal text of the 16 raw bytes *)
  creator_id : Z;
  width : Z;
  height : Z;
  cell_header_offset : Z;
  cell_header_size : Z;
  some_val1 : Z;
  some_val2 : Z;
  v_type : Z                   (* key "type" *)
}.

Definition MAGIC_KEY : Z := 0x454C4954.  (* "TILE" *)
Definition CELL_HEADER_SIZE : nat := 97.
Definition CELL_DATA_SIZE : nat := 388.

Definition header_format : string := "<I I 16s Q I I I I I I I".

Definition cell_format : string :=
  "<6i 6i 6i i i i 4i 4i 4i 4i i i i i i i i i i i i i i i i i i i i i 4i 4i 4i 4i 4i 4i 4i 4i 4i i i i i".

(** ** Cell headers: a dictionary of dictionaries *)

Definition CellHeader : Type := dict (dict pyval).

(** [unpacked[i]]; used after the length of [unpacked] was checked. *)
Definition item (unpacked : list atom) (i : nat) : pyval :=
  PAtom (nth i unpacked (AInt 0)).
Arguments item unpacked i%_nat.

(** [unpacked[a:b]] *)
Definition items (unpacked : list atom) (a b : Z) : pyval :=
  PTuple (py_slice unpacked a b).

Definition cell_header_of (unpacked : list atom) : CellHeader :=
  [ ("mip",
      [ ("index", items unpacked 0 6);
        ("compressed", items unpacked 6 12);
        ("size", items unpacked 12 18) ]);
    ("clutter",
      [ ("index", item unpacked 18);
        ("compressed", item unpacked 19);
        ("size", item unpacked 20) ]);
    ("assets",
      [ ("count", items unpacked 21 25);
        ("index", items unpacked 25 29);
        ("compressed", items unpacked 29 33);
        ("size", items unpacked 33 37) ]);
    ("blueprint",
      [ ("count", item unpacked 37);
        ("index", item unpacked 38);
        ("compressed", item unpacked 39);
        ("size", item unpacked 40) ]);
    ("node",
      [ ("count", item unpacked 41);
        ("index", item unpacked 42);
        ("compressed", item unpacked 43);
        ("size", item unpacked 44) ]);
    ("script",
      [ ("count", item unpacked 45);
        ("index", item unpacked 46);
        ("compressed", item unpacked 47);
        ("size", item unpacked 48) ]);
    ("prefab",
      [ ("count", item unpacked 49);
        ("index", item unpacked 50);
        ("compressed", item unpacked 51);
        ("size", item unpacked 52) ]);
    ("decal",
      [ ("count", item unpacked 53);
        ("index", item unpacked 54);
        ("compressed", item unpacked 55);
        ("size", item unpacked 56) ]);
    ("harvestable",
      [ ("count", items unpacked 57 61);
        ("index", items unpacked 61 65);
        ("compressed", items unpacked 65 69);
        ("size", items unpacked 69 73) ]);
    ("kinematics",
      [ ("count", items unpacked 73 77);
        ("index", items unpacked 77 81);
        ("compressed", items unpacked 81 85);
        ("size", items unpacked 85 89) ]);
    ("unknown",
      [ ("count", item unpacked 89);
        ("index", item unpacked 90);
        ("compressed", item unpacked 91);
        ("size", item unpacked 92) ]);
    ("voxel_terrain",
      [ ("count", item unpacked 93);
        ("index", item unpacked 94);
        ("compressed", item unpacked 95);
        ("size", item unpacked 96) ]) ].

Definition parse_cell_header (cell_data : bytes) : result CellHeader :=
  let* unpacked := unpack cell_format cell_data in
  if negb (length unpacked =? CELL_HEADER_SIZE)%nat then
    Raise (ValueError "Invalid .tile file: Cell Header size mismatch")
  else Ok (cell_header_of unpacked).

(** [header[t][k]] and [header[t][k][i]] *)
Definition at2 (header : CellHeader) (t k : string) : result pyval :=
  let* chunk := getkey header t in getkey chunk k.

Definition at3 (header : CellHeader) (t k : string) (i : nat) : result pyval :=
  let* v := at2 header t k in
  let* a := getitem v i in
  Ok (PAtom a).
Arguments at3 header (t k)%_string i%_nat.

Definition cell_data_of (header : CellHeader) : list (result pyval) :=
  [ at3 header "mip" "index" 0; at3 header "mip" "index" 1; at3 header "mip" "index" 2;
    at3 header "mip" "index" 3; at3 header "mip" "index" 4; at3 header "mip" "index" 5;
    at3 header "mip" "compressed" 0; at3 header "mip" "compressed" 1; at3 header "mip" "compressed" 2;
    at3 header "mip" "compressed" 3; at3 header "mip" "compressed" 4; at3 header "mip" "compressed" 5;
    at3 header "mip" "size" 0; at3 header "mip" "size" 1; at3 header "mip" "size" 2;
    at3 header "mip" "size" 3; at3 header "mip" "size" 4; at3 header "mip" "size" 5;

    at2 header "clutter" "index";
    at2 header "clutter" "compressed";
    at2 header "clutter" "size";

    at3 header "assets" "count" 0; at3 header "assets" "count" 1;
    at3 header "assets" "count" 2; at3 header "assets" "count" 3;
    at3 header "assets" "index" 0; at3 header "assets" "index" 1;
    at3 header "assets" "index" 2; at3 header "assets" "index" 3;
    at3 header "assets" "compressed" 0; at3 header "assets" "compressed" 1;
    at3 header "assets" "compressed" 2; at3 header "assets" "compressed" 3;
    at3 header "assets" "size" 0; at3 header "assets" "size" 1;
    at3 header "assets" "size" 2; at3 header "assets" "size" 3;

    at2 header "blueprint" "count";
    at2 header "blueprint" "index";
    at2 header "blueprint" "compressed";
    at2 header "blueprint" "size";

    at2 header "node" "count";
    at2 header "node" "index";
    at2 header "node" "compressed";
    at2 header "node" "size";

    at2 header "script" "count";
    at2 header "script" "index";
    at2 header "script" "compressed";
    at2 header "script" "size";

    at2 header "prefab" "count";
    at2 header "prefab" "index";
    at2 header "prefab" "compressed";
    at2 header "prefab" "size";

    at2 header "decal" "count";
    at2 header "decal" "index";
    at2 header "decal" "compressed";
    at2 header "decal" "size";

    at3 header "harvestable" "count" 0; at3 header "harvestable" "count" 1;
    at3 header "harvestable" "count" 2; at3 header "harvestable" "count" 3;
    at3 header "harvestable" "index" 0; at3 header "harvestable" "index" 1;
    at3 header "harvestable" "index" 2; at3 header "harvestable" "index" 3;
    at3 header "harvestable" "compressed" 0; at3 header "harvestable" "compressed" 1;
    at3 header "harvestable" "compressed" 2; at3 header "harvestable" "compressed" 3;
    at3 header "harvestable" "size" 0; at3 header "harvestable" "size" 1;
    at3 header "harvestable" "size" 2; at3 header "harvestable" "size" 3;

    at3 header "kinematics" "count" 0; at3 header "kinematics" "count" 1;
    at3 header "kinematics" "count" 2; at3 header "kinematics" "count" 3;
    at3 header "kinematics" "index" 0; at3 header "kinematics" "index" 1;
    at3 header "kinematics" "index" 2; at3 header "kinematics" "index" 3;
    at3 header "kinematics" "compressed" 0; at3 header "kinematics" "compressed" 1;
    at3 header "kinematics" "compressed" 2; at3 header "kinematics" "compressed" 3;
    at3 header "kinematics" "size" 0; at3 header "kinematics" "size" 1;
    at3 header "kinematics" "size" 2; at3 header "kinematics" "size" 3;

    at2 header "unknown" "count";
    at2 header "unknown" "index";
    at2 header "unknown" "compressed";
    at2 header "unknown" "size";

    at2 header "voxel_terrain" "count";
    at2 header "voxel_terrain" "index";
    at2 header "voxel_terrain" "compressed";
    at2 header "voxel_terrain" "size" ].

Definition create_cell_header (header : CellHeader) : result bytes :=
  let* cell_data := sequence (cell_data_of header) in
  pack cell_format cell_data.

(** ** State and exceptions

    A method runs on an object that it may mutate before it raises: the
    state is returned in both cases. *)

Definition M (S A : Type) : Type := S -> S * result A.

Definition ret {S A} (a : A) : M S A := fun s => (s, Ok a).

Definition raise {S A} (e : exn) : M S A := fun s => (s, Raise e).

Definition lift {S A} (r : result A) : M S A := fun s => (s, r).

Definition bind {S A B} (c : M S A) (k : A -> M S B) : M S B :=
  fun s =>
    match c s with
    | (s', Ok a) => k a s'
    | (s', Raise e) => (s', Raise e)
    end.

Definition get {S} : M S S := fun s => (s, Ok s).

Definition modify {S} (f : S -> S) : M S unit := fun s => (f s, Ok tt).

Notation "x <- c ;; k" := (bind c (fun x => k))
  (at level 20, c at level 99, k at level 200).
Notation "' p <- c ;; k" := (bind c (fun p => k))
  (at level 20, p pattern, c at level 99, k at level 200).
Notation "c ;;; k" := (bind c (fun _ => k))
  (at level 100, k at level 200, right associativity).

(** [for x in l: acc = body(acc, x)] *)
Fixpoint for_fold {S A B} (l : list A) (acc : B) (body : B -> A -> M S B) : M S B :=
  match l with
  | [] => ret acc
  | x :: r => acc' <- body acc x ;; for_fold r acc' body
  end.

Definition for_each {S A} (l : list A) (body : A -> M S unit) : M S unit :=
  for_fold l tt (fun _ x => body x).

Fixpoint enumerate_from {A} (n : nat) (l : list A) : list (nat * A) :=
  match l with
  | [] => []
  | x :: r => (n, x) :: enumerate_from (S n) r
  end.

Definition enumerate {A} (l : list A) : list (nat * A) := enumerate_from 0 l.

(** ** Chunks *)

(** The [meta] dictionary of a decoded chunk. *)
Record Meta : Type := mkMeta {
  meta_index : Z;
  meta_compressed : Z;
  meta_size : Z;
  meta_count : option pyval    (* [None] for the categories without counts *)
}.

(** Calls of the header parsers, in order (ghost state). *)
Inductive call : Type :=
| CallParseHeader
| CallParseCellHeader (offset : Z).

(** What the validator prints. *)
Inductive hval : Type :=
| HInt (z : Z)
| HStr (s : string).

Inductive diag : Type :=
| ErrorFailedToValidate
| ErrorCaught (e : exn)
| DebugAttempting
| DebugCheckingHeader
| WarnHeaderMismatch (key : string) (expected got : hval)
| DebugCheckingMismatch
| WarnCellHeaderMismatch (cell_index : nat) (key : string) (loaded : dict pyval)
| DebugCheckingOverflow
| WarnCellHeaderOverflow (cell_index : nat) (key : string) (last : Z) (len : nat)
| DebugTileInitFailed.

Definition header_items (h : Header) : dict hval :=
  [ ("version", HInt (version h));
    ("uuid", HStr (uuid h));
    ("creator_id", HInt (creator_id h));
    ("width", HInt (width h));
    ("height", HInt (height h));
    ("cell_header_offset", HInt (cell_header_offset h));
    ("cell_header_size", HInt (cell_header_size h));
    ("some_val1", HInt (some_val1 h));
    ("some_val2", HInt (some_val2 h));
    ("type", HInt (v_type h)) ].

Definition hval_eqb (a b : hval) : bool :=
  match a, b with
  | HInt x, HInt y => x =? y
  | HStr s, HStr t => String.eqb s t
  | _, _ => false
  end.

Fixpoint bytes_eqb (s t : bytes) : bool :=
  match s, t with
  | [], [] => true
  | x :: r, y :: r' => Byte.eqb x y && bytes_eqb r r'
  | _, _ => false
  end.

Definition atom_eqb (a b : atom) : bool :=
  match a, b with
  | AInt x, AInt y => x =? y
  | ABytes s, ABytes t => bytes_eqb s t
  | _, _ => false
  end.

Fixpoint atoms_eqb (l1 l2 : list atom) : bool :=
  match l1, l2 with
  | [], [] => true
  | a :: r1, b :: r2 => atom_eqb a b && atoms_eqb r1 r2
  | _, _ => false
  end.

Definition is_int (v : pyval) : bool :=
  match v with
  | PAtom (AInt _) => true
  | _ => false
  end.

(** [tuple(v)] *)
Definition to_tuple (v : pyval) : result (list atom) :=
  match v with
  | PTuple l | PList l => Ok l
  | PAtom (ABytes b) => Ok (map (fun x => AInt (byte_to_Z x)) b)
  | PAtom (AInt _) => Raise TypeError
  end.

(** ** The [TileFile] class *)

Section TileFile.

(** External collaborators: the domain values and functions of
    [readwrite.mip], the LZ4 block codec ([mode="high_compression"],
    [store_size=False] on the way out, [uncompressed_size] given on the way
    in), and the file system ([None] where a call raises).  The encoder
    [write_mip] raises whatever exception it likes.  [open_wb path data]
    tells whether [with open(path, "wb") as f: f.write(data)] goes through
    for a path that can be given to the operating system.

    [run_as_script] tells how the module was loaded: in the script that is
    run, [__builtins__] is the module [builtins]; in a module that is
    imported, it is a dictionary. *)
Variable DomainValue : Type.
Variable lz4_block_decompress : bytes -> Z -> option bytes.
Variable lz4_block_compress : bytes -> bytes.
Variable read_mip : bytes -> Meta -> option DomainValue.
Variable write_mip : option DomainValue -> Meta -> result bytes.
Variable open_rb : string -> option bytes.
Variable open_wb : string -> bytes -> bool.
Variable run_as_script : bool.

Record SubCellData : Type := mkSubCellData {
  sub_type : string;
  sub_original_data : bytes;
  sub_data : option DomainValue;
  sub_meta_data : Meta
}.

(** An entry of [world_data[cell][data_type]]: the tuple
    [(index, size, compressed)] of an unused slot, or a decoded chunk. *)
Inductive SubCell : Type :=
| Placeholder (index size compressed : pyval)
| Chunk (sub_cell : SubCellData).

Definition WorldCell : Type := dict (list SubCell).

Record TileFile : Type := mkTileFile {
  file_path : option string;
  header : option Header;
  cell_headers : list CellHeader;
  world_data : list WorldCell;       (* [cell_index][data_type][index] *)
  original_data : option bytes;
  DEBUG : bool;
  calls : list call                  (* ghost: parser calls so far *)
}.

(** [TileFile(file_path)] *)
Definition TileFile_init (path : option string) : TileFile :=
  mkTileFile path None [] [] None false [].

Definition set_header (h : Header) (self : TileFile) : TileFile :=
  mkTileFile (file_path self) (Some h) (cell_headers self) (world_data self)
    (original_data self) (DEBUG self) (calls self).

Definition set_cell_headers (l : list CellHeader) (self : TileFile) : TileFile :=
  mkTileFile (file_path self) (header self) l (world_data self)
    (original_data self) (DEBUG self) (calls self).

Definition set_world_data (l : list WorldCell) (self : TileFile) : TileFile :=
  mkTileFile (file_path self) (header self) (cell_headers self) l
    (original_data self) (DEBUG self) (calls self).

Definition set_original_data (d : bytes) (self : TileFile) : TileFile :=
  mkTileFile (file_path self) (header self) (cell_headers self) (world_data self)
    (Some d) (DEBUG self) (calls self).

Definition set_DEBUG (b : bool) (self : TileFile) : TileFile :=
  mkTileFile (file_path self) (header self) (cell_headers self) (world_data self)
    (original_data self) b (calls self).

Definition log_call (c : call) (self : TileFile) : TileFile :=
  mkTileFile (file_path self) (header self) (cell_headers self) (world_data self)
    (original_data self) (DEBUG self) (calls self ++ [c]).

Definition read_fn : Type := bytes -> Meta -> option DomainValue.
Definition write_fn : Type := option DomainValue -> Meta -> result bytes.

Definition read_write_functions : dict (read_fn * write_fn) :=
  [ ("mip", (read_mip, write_mip)) ].

(** *** Reading *)

Definition parse_header (data : bytes) : M TileFile unit :=
  modify (log_call CallParseHeader) ;;;
  unpacked <- lift (unpack_from header_format data 0) ;;
  match unpacked with
  | [ AInt magic_key; AInt version_; ABytes uuid_; AInt creator_id_; AInt width_;
      AInt height_; AInt cell_header_offset_; AInt cell_header_size_;
      AInt some_val1_; AInt some_val2_; AInt v_type_ ] =>
      if negb (magic_key =? MAGIC_KEY) then
        raise (ValueError "Invalid .tile file: Missing MAGIC_KEY")
      else
        modify (set_header
          {| version := version_;
             uuid := hex uuid_;
             creator_id := creator_id_;
             width := width_;
             height := height_;
             cell_header_offset := cell_header_offset_;
             cell_header_size := cell_header_size_;
             some_val1 := some_val1_;
             some_val2 := some_val2_;
             v_type := v_type_ |})
  | _ => raise TypeError
  end.

Definition parse_cell_headers (data : bytes) : M TileFile unit :=
  self <- get ;;
  h <- lift (of_option (header self) TypeError) ;;
  let offset := cell_header_offset h in
  let cell_size := cell_header_size h in
  let cell_count := width h * height h in
  for_fold (seq 0 (Z.to_nat cell_count)) offset (fun offset _ =>
    let cell_data := py_slice data offset (offset + cell_size) in
    modify (log_call (CallParseCellHeader offset)) ;;;
    cell_header <- lift (parse_cell_header cell_data) ;;
    modify (fun self => set_cell_headers (cell_headers self ++ [cell_header]) self) ;;;
    ret (offset + cell_size)) ;;;
  ret tt.

Definition _decode_cell_chunk (data : bytes) (index size compressed : pyval)
    (count : option pyval) (header_name : string) (parse_function : option read_fn)
  : result SubCell :=
  let* i := as_int index in
  let* unused := (if i <=? 0 then Ok true
                  else let* c := as_int compressed in Ok (c <=? 0)) in
  if unused then Ok (Placeholder index size compressed)
  else
    let* c := as_int compressed in
    let compressed_data := py_slice data i (i + c) in
    let* sz := as_int size in
    let* decompressed_data :=
      of_option (lz4_block_decompress compressed_data sz) LZ4BlockError in
    let meta := mkMeta i c sz count in
    match parse_function with
    | Some f =>
        let* d := of_option (f decompressed_data meta) CodecError in
        Ok (Chunk (mkSubCellData header_name decompressed_data (Some d) meta))
    | None =>
        Ok (Chunk (mkSubCellData header_name decompressed_data None meta))
    end.

Definition decode_cell_chunk (data : bytes) (cell_header : CellHeader)
    (header_name : string) (parse_function : option read_fn)
  : result (list SubCell) :=
  let* cell_header_data := getkey cell_header header_name in
  let* indexes := getkey cell_header_data "index" in
  match indexes with
  | PTuple l =>
      sequence (map (fun level =>
        let* index := getitem indexes level in
        let* sizes := getkey cell_header_data "size" in
        let* size := getitem sizes level in
        let* compresseds := getkey cell_header_data "compressed" in
        let* compressed_size := getitem compresseds level in
        let* count :=
          match dict_get cell_header_data "count" with
          | None => Ok None
          | Some counts => let* c := getitem counts level in Ok (Some (PAtom c))
          end in
        _decode_cell_chunk data (PAtom index) (PAtom size) (PAtom compressed_size)
          count header_name parse_function) (seq 0 (length l)))
  | _ =>
      let index := indexes in
      let* size := getkey cell_header_data "size" in
      let* compressed_size := getkey cell_header_data "compressed" in
      let count := dict_get cell_header_data "count" in
      let* sub_cell :=
        _decode_cell_chunk data index size compressed_size count header_name
          parse_function in
      Ok [sub_cell]
  end.

(** The body of the loop over the cell headers in [read_file]: one
    [cell_header_data] dictionary, filled key by key. *)
Definition decode_cell (data : bytes) (cell_header : CellHeader) : result WorldCell :=
  foldl (fun acc data_type =>
    let* cell_header_data := acc in
    let* cell_data :=
      match dict_get read_write_functions data_type with
      | Some (read_func, write_func) =>
          decode_cell_chunk data cell_header data_type (Some read_func)
      | None =>
          decode_cell_chunk data cell_header data_type None
      end in
    Ok (dict_set cell_header_data data_type cell_data))
    (Ok []) (dict_keys cell_header).

Definition read_file (raw_input_bytes : option bytes) : M TileFile unit :=
  data <- match raw_input_bytes with
          | Some (b :: r) => ret (b :: r)
          | _ =>
              self <- get ;;
              match file_path self with
              | Some path => lift (of_option (open_rb path) OSError)
              | None => raise TypeError
              end
          end ;;
  modify (set_original_data data) ;;;
  parse_header data ;;;
  parse_cell_headers data ;;;
  self <- get ;;
  for_each (cell_headers self) (fun cell_header =>
    cell_header_data <- lift (decode_cell data cell_header) ;;
    modify (fun self => set_world_data (world_data self ++ [cell_header_data]) self)).

(** *** Writing *)

(** [SubCellData.encode] *)
Definition encode (sub_cell : SubCellData) (encode_func : option write_fn) : result bytes :=
  match encode_func with
  | None => Ok (sub_original_data sub_cell)
  | Some f =>
      match f (sub_data sub_cell) (sub_meta_data sub_cell) with
      | Ok raw => Ok raw
      | Raise e => Raise (EncoderError e)
      end
  end.

Definition write_header (self : TileFile) (new_data : bytes) : result bytes :=
  let* b := pack "<I" [PInt MAGIC_KEY] in
  let new_data := new_data ++ b in
  let* h := of_option (header self) TypeError in
  let* b := pack "<I" [PInt (version h)] in
  let new_data := new_data ++ b in
  let* raw_uuid := of_option (fromhex (uuid h)) (fromhex_error (uuid h)) in
  let* b := pack "<16s" [PAtom (ABytes raw_uuid)] in
  let new_data := new_data ++ b in
  let* b := pack "<Q" [PInt (creator_id h)] in
  let new_data := new_data ++ b in
  let* b := pack "<I" [PInt (width h)] in
  let new_data := new_data ++ b in
  let* b := pack "<I" [PInt (height h)] in
  let new_data := new_data ++ b in
  let* b := pack "<I" [PInt (cell_header_offset h)] in
  let new_data := new_data ++ b in
  let* b := pack "<I" [PInt (cell_header_size h)] in
  let new_data := new_data ++ b in
  let* b := pack "<I" [PInt (some_val1 h)] in
  let new_data := new_data ++ b in
  let* b := pack "<I" [PInt (some_val2 h)] in
  let new_data := new_data ++ b in
  let* b := pack "<I" [PInt (v_type h)] in
  let new_data := new_data ++ b in
  Ok new_data.

(** Reads and assignments on the cell header being rewritten:
    [cell_header[t][k]], [cell_header[t][k] = v], [cell_header[t][k][i] = x]
    and the conversion of a tuple into a list. *)
Definition cell_get (t k : string) : M CellHeader pyval :=
  fun cell_header => (cell_header, at2 cell_header t k).

Definition cell_set (t k : string) (v : pyval) : M CellHeader unit :=
  fun cell_header =>
    match dict_get cell_header t with
    | Some chunk => (dict_set cell_header t (dict_set chunk k v), Ok tt)
    | None => (cell_header, Raise (KeyError t))
    end.

Definition cell_listify (t k : string) : M CellHeader unit :=
  v <- cell_get t k ;;
  match v with
  | PTuple l => cell_set t k (PList l)
  | _ => ret tt
  end.

Definition cell_setitem (t k : string) (i : nat) (x : atom) : M CellHeader unit :=
  v <- cell_get t k ;;
  v' <- lift (setitem v i x) ;;
  cell_set t k v'.

(** The body of the innermost loop of [write_file]; returns the data blob. *)
Definition write_sub_cell (data_blob_offset : Z) (data_type : string)
    (data_blob : bytes) (sub_cell_index : nat) (sub_cell : SubCell)
  : M CellHeader bytes :=
  match sub_cell with
  | Placeholder _ _ _ => ret data_blob
  | Chunk sub_cell =>
      indexes <- cell_get data_type "index" ;;
      let multiple_sub_cells := negb (is_int indexes) in
      let encode_func := option_map snd (dict_get read_write_functions data_type) in
      raw_sub_cell_data <- lift (encode sub_cell encode_func) ;;
      let compressed_cell_data := lz4_block_compress raw_sub_cell_data in
      let new_index := Z.of_nat (length data_blob) + data_blob_offset in
      let new_compressed := Z.of_nat (length compressed_cell_data) in
      let new_size := Z.of_nat (length raw_sub_cell_data) in
      (if multiple_sub_cells then
         cell_listify data_type "index" ;;;
         cell_listify data_type "compressed" ;;;
         cell_listify data_type "size" ;;;
         cell_setitem data_type "index" sub_cell_index (AInt new_index) ;;;
         cell_setitem data_type "compressed" sub_cell_index (AInt new_compressed) ;;;
         cell_setitem data_type "size" sub_cell_index (AInt new_size)
       else
         cell_set data_type "index" (PInt new_index) ;;;
         cell_set data_type "compressed" (PInt new_compressed) ;;;
         cell_set data_type "size" (PInt new_size)) ;;;
      ret (data_blob ++ compressed_cell_data)
  end.

(** The two inner loops, over the categories of a cell and their slots. *)
Definition write_cell_chunks (data_blob_offset : Z) (cell_data : WorldCell)
    (data_blob : bytes) : M CellHeader bytes :=
  for_fold (dict_keys cell_data) data_blob (fun data_blob data_type =>
    sub_cells <- lift (getkey cell_data data_type) ;;
    for_fold (enumerate sub_cells) data_blob (fun data_blob '(sub_cell_index, sub_cell) =>
      write_sub_cell data_blob_offset data_type data_blob sub_cell_index sub_cell)).

(** Run a computation on [self.cell_headers[cell_index]], the object the
    loop variable [cell_header] is bound to. *)
Definition with_cell {A} (cell_index : nat) (c : M CellHeader A) : M TileFile A :=
  fun self =>
    match cell_headers self !! cell_index with
    | Some cell_header =>
        let '(cell_header', r) := c cell_header in
        (set_cell_headers (<[cell_index := cell_header']> (cell_headers self)) self, r)
    | None => (self, Raise IndexError)
    end.

(** The body of the loop over the cells. *)
Definition write_cell (data_blob_offset : Z) (acc : bytes * bytes) (cell_index : nat)
  : M TileFile (bytes * bytes) :=
  let '(new_data, data_blob) := acc in
  self <- get ;;
  cell_data <- lift (of_option (world_data self !! cell_index) IndexError) ;;
  data_blob <- with_cell cell_index
                 (write_cell_chunks data_blob_offset cell_data data_blob) ;;
  self <- get ;;
  cell_header <- lift (of_option (cell_headers self !! cell_index) IndexError) ;;
  header_data <- lift (create_cell_header cell_header) ;;
  if negb (length header_data =? CELL_DATA_SIZE)%nat then
    raise (ValueError "Header data is invalid size!")
  else
    h <- lift (of_option (header self) TypeError) ;;
    let start := cell_header_offset h + Z.of_nat CELL_DATA_SIZE * Z.of_nat cell_index in
    let end_ := start + Z.of_nat CELL_DATA_SIZE in
    if negb (Z.of_nat (length header_data) =? end_ - start) then
      raise (ValueError "Header Data Does not match the cell size")
    else if end_ >? Z.of_nat (length new_data) then
      raise (ValueError "Invalid Header Index (Out of bounds).")
    else
      ret (py_slice new_data 0 start ++ header_data
             ++ py_slice new_data end_ (Z.of_nat (length new_data)),
           data_blob).

(** The counting loop that precedes the writing: it only feeds the progress
    display, but it indexes [world_data] by cell. *)
Definition count_sub_cells (self : TileFile) : result nat :=
  foldl (fun acc i =>
    let* sub_cell_count := acc in
    let* cell_data := of_option (world_data self !! i) IndexError in
    Ok (sub_cell_count + sum_list (map (fun kv => length (snd kv)) cell_data))%nat)
    (Ok 0%nat) (seq 0 (length (cell_headers self))).

(** [write_file] up to and including [new_data += data_blob]. *)
Definition build_new_data : M TileFile bytes :=
  self <- get ;;
  new_data <- lift (write_header self []) ;;
  h <- lift (of_option (header self) TypeError) ;;
  if negb (Z.of_nat (length new_data) =? cell_header_offset h) then
    raise (ValueError "Header offset is incorrect, I have no setup for this :)")
  else
    _ <- lift (count_sub_cells self) ;;
    let new_data :=
      new_data ++ replicate (CELL_DATA_SIZE * length (cell_headers self)) "X"%byte in
    let data_blob_offset := Z.of_nat (length new_data) in
    ' (new_data, data_blob) <-
      for_fold (seq 0 (length (cell_headers self))) (new_data, [])
        (write_cell data_blob_offset) ;;
    ret (new_data ++ data_blob).

(** *** The round-trip validator

    Output goes to the list of printed diagnostics; the re-parse itself runs
    with [print] replaced. *)

(** [__builtins__.print = f]: an attribute of the module [builtins] can be
    set, a dictionary has no attribute [print] to set. *)
Definition set_builtins_print : result unit :=
  if run_as_script then Ok tt else Raise AttributeError.

Definition print (d : diag) : M (list diag) unit :=
  modify (fun out => out ++ [d]).

Definition check_header_values (self tile : TileFile) : M (list diag) unit :=
  tile_header <- lift (of_option (header tile) AttributeError) ;;
  for_each (header_items tile_header) (fun '(key, value) =>
    self_header <- lift (of_option (header self) TypeError) ;;
    expected <- lift (getkey (header_items self_header) key) ;;
    if negb (hval_eqb expected value) then print (WarnHeaderMismatch key expected value)
    else ret tt).

(** The loop over [chunk.items()] that computes [chunk_is_invalid]. *)
Definition chunk_is_invalid (true_header : CellHeader) (key : string)
    (chunk : dict pyval) : result bool :=
  foldl (fun acc '(sub_key, value) =>
    let* invalid := acc in
    let* both_int :=
      (if is_int value then
         let* expected := at2 true_header key sub_key in Ok (is_int expected)
       else Ok false) in
    if both_int then Ok invalid
    else
      let* loaded := to_tuple value in
      let* expected := at2 true_header key sub_key in
      let* expected := to_tuple expected in
      Ok (if negb (atoms_eqb loaded expected) then true else invalid))
    (Ok false) chunk.

Definition check_cell_headers (self tile : TileFile) : M (list diag) unit :=
  for_each (enumerate (cell_headers tile)) (fun '(cell_index, cell_header) =>
    true_header <- lift (of_option (cell_headers self !! cell_index) IndexError) ;;
    for_each cell_header (fun '(key, chunk) =>
      invalid <- lift (chunk_is_invalid true_header key chunk) ;;
      if invalid then print (WarnCellHeaderMismatch cell_index key chunk)
      else ret tt)).

(** The test of one pair of pointers in the overflow loop. *)
Definition check_pointer (new_data : bytes) (cell_index : nat) (key : string)
    (index_pointer size_pointer : pyval) : M (list diag) unit :=
  a <- lift (as_int index_pointer) ;;
  b <- lift (as_int size_pointer) ;;
  let last := a + b - 1 in
  if last >=? Z.of_nat (length new_data) then
    print (WarnCellHeaderOverflow cell_index key last (length new_data))
  else ret tt.

(** For an [int] index the two pointer lists are one-element lists, hence
    one round of the loop; otherwise they are the stored sequences. *)
Definition check_overflow (tile : TileFile) (new_data : bytes) : M (list diag) unit :=
  for_each (enumerate (cell_headers tile)) (fun '(cell_index, cell_header) =>
    for_each cell_header (fun '(key, chunk) =>
      indexes <- lift (getkey chunk "index") ;;
      if is_int indexes then
        compressed <- lift (getkey chunk "compressed") ;;
        check_pointer new_data cell_index key indexes compressed
      else
        let index_pointers := indexes in
        size_pointers <- lift (getkey chunk "compressed") ;;
        n <- lift (py_len index_pointers) ;;
        for_each (seq 0 n) (fun i =>
          index_pointer <- lift (getitem index_pointers i) ;;
          size_pointer <- lift (getitem size_pointers i) ;;
          check_pointer new_data cell_index key (PAtom index_pointer)
            (PAtom size_pointer)))).

(** The [try] block: [tile] stays [None] until [TileFile(None)] has run. *)
Definition validate_attempt (new_data : bytes) : option TileFile * result unit :=
  match set_builtins_print with
  | Ok _ =>
      let '(tile, r) :=
        read_file (Some new_data) (set_DEBUG true (TileFile_init None)) in
      (Some tile, let* _ := r in set_builtins_print)
  | Raise e => (None, Raise e)
  end.

Definition __validate_write (self : TileFile) (new_data : bytes) : M (list diag) bool :=
  let '(tile, r) := validate_attempt new_data in
  match r with
  | Ok _ => ret true
  | Raise e =>
      lift set_builtins_print ;;;
      print ErrorFailedToValidate ;;;
      print (ErrorCaught e) ;;;
      print DebugAttempting ;;;
      match tile with
      | Some tile =>
          print DebugCheckingHeader ;;;
          check_header_values self tile ;;;
          print DebugCheckingMismatch ;;;
          check_cell_headers self tile ;;;
          print DebugCheckingOverflow ;;;
          check_overflow tile new_data
      | None => print DebugTileInitFailed
      end ;;;
      ret false
  end.

(** [with open(output_file_path, "wb") as f: f.write(new_data)]: a path with
    a NUL character is refused before the operating system is asked. *)
Fixpoint has_nul (s : string) : bool :=
  match s with
  | EmptyString => false
  | String c r => (N_of_ascii c =? 0)%N || has_nul r
  end.

Definition write_bytes (output_file_path : string) (new_data : bytes) : result unit :=
  if has_nul output_file_path then Raise (ValueError "embedded null byte")
  else if open_wb output_file_path new_data then Ok tt
  else Raise OSError.

(** [write_file]: the result is the returned boolean, the bytes written to
    [output_file_path] (if any) and what the validator printed. *)
Definition write_file (output_file_path : string) (validate : bool)
  : M TileFile (bool * option bytes * list diag) :=
  new_data <- build_new_data ;;
  if negb validate then
    lift (write_bytes output_file_path new_data) ;;;
    ret (true, Some new_data, [])
  else
    self <- get ;;
    let '(out, r) := __validate_write self new_data [] in
    match r with
    | Ok true =>
        lift (write_bytes output_file_path new_data) ;;;
        ret (true, Some new_data, out)
    | Ok false => ret (false, None, out)
    | Raise e => raise e
    end.


(** ** Auxiliary definitions for the proofs *)

(** Unpacking what was packed gives the values back (for [s], cut or padded
    to its width). *)
Definition canon (c : fmt_code) (v : pyval) : atom :=
  match c, v with
  | Fmts n, PAtom (ABytes b) => ABytes (take n b ++ replicate (n - length b) x00)
  | _, PAtom a => a
  | _, _ => AInt 0
  end.


(** The header that [parse_header] builds from a buffer of at least 60
    bytes, field by field. *)
Definition u32_at (data : bytes) (off : nat) : Z :=
  int_from_bytes (take 4 (drop off data)).

Definition header_of_bytes (data : bytes) : Header :=
  {| version := u32_at data 4;
     uuid := hex (take 16 (drop 8 data));
     creator_id := int_from_bytes (take 8 (drop 24 data));
     width := u32_at data 32;
     height := u32_at data 36;
     cell_header_offset := u32_at data 40;
     cell_header_size := u32_at data 44;
     some_val1 := u32_at data 48;
     some_val2 := u32_at data 52;
     v_type := u32_at data 56 |}.

(** The signature: the bytes of ["TILE"]. *)
Definition magic_bytes : bytes := ["T"%byte; "I"%byte; "L"%byte; "E"%byte].

Definition invalid_magic : exn := ValueError "Invalid .tile file: Missing MAGIC_KEY".

(** A 60-byte header of a 1 x 1 grid, and a 10-byte buffer that does not
    start with the signature. *)
Definition example_header : bytes :=
  [ "T"; "I"; "L"; "E";  "009"; "000"; "000"; "000";
    "017"; "017"; "017"; "017"; "017"; "017"; "017"; "017";
    "017"; "017"; "017"; "017"; "017"; "017"; "017"; "017";
    "005"; "000"; "000"; "000"; "000"; "000"; "000"; "000";
    "001"; "000"; "000"; "000";  "001"; "000"; "000"; "000";
    "060"; "000"; "000"; "000";  "132"; "001"; "000"; "000";
    "000"; "000"; "000"; "000";  "000"; "000"; "000"; "000";
    "002"; "000"; "000"; "000" ]%byte.

Definition short_garbage : bytes := replicate 10 "X"%byte.

(** *** The layout of a cell header, as a table

    For each category, in record order: whether it has counts, and how many
    descriptors it has ([None] for a category stored as plain integers). *)
Definition layout : list (string * (bool * option nat)) :=
  [ ("mip", (false, Some 6%nat));
    ("clutter", (false, None));
    ("assets", (true, Some 4%nat));
    ("blueprint", (true, None));
    ("node", (true, None));
    ("script", (true, None));
    ("prefab", (true, None));
    ("decal", (true, None));
    ("harvestable", (true, Some 4%nat));
    ("kinematics", (true, Some 4%nat));
    ("unknown", (true, None));
    ("voxel_terrain", (true, None)) ].

Definition categories : list string := map fst layout.

Definition fields_of (has_count : bool) : list string :=
  (if has_count then ["count"] else []) ++ ["index"; "compressed"; "size"].

Definition slots (arity : option nat) : nat := default 1%nat arity.

(** The 97 places of the record, in order: category, field and, for the
    categories stored as sequences, the position in the sequence. *)
Definition places_of_field (t : string) (arity : option nat) (k : string)
  : list (string * string * option nat) :=
  match arity with
  | None => [(t, k, None)]
  | Some n => map (fun i => (t, k, Some i)) (seq 0 n)
  end.

Definition places : list (string * string * option nat) :=
  flat_map (fun '(t, (has_count, arity)) =>
    flat_map (places_of_field t arity) (fields_of has_count)) layout.

Definition cell_data_item (header : CellHeader) (p : string * string * option nat)
  : result pyval :=
  match p with
  | (t, k, None) => at2 header t k
  | (t, k, Some i) => at3 header t k i
  end.

(** *** Reading one integer of a cell header *)

Definition seq_item (v : pyval) (i : nat) : option atom :=
  match v with
  | PAtom a => if (i =? 0)%nat then Some a else None
  | PTuple l | PList l => l !! i
  end.

(** [cell_header[t][k]], if both keys exist *)
Definition field_val (cell_header : CellHeader) (t k : string) : option pyval :=
  match dict_get cell_header t with
  | Some chunk => dict_get chunk k
  | None => None
  end.

Definition int_item (v : pyval) (i : nat) : option Z :=
  match seq_item v i with
  | Some (AInt z) => Some z
  | _ => None
  end.

Definition field_at (cell_header : CellHeader) (t k : string) (i : nat) : option Z :=
  match field_val cell_header t k with
  | Some v => int_item v i
  | None => None
  end.

(** The cell header after [cell_header[t][k] = v] *)
Definition cell_assign (cell_header : CellHeader) (t k : string) (v : pyval)
  : CellHeader :=
  match dict_get cell_header t with
  | Some chunk => dict_set cell_header t (dict_set chunk k v)
  | None => cell_header
  end.

(** [list(v)] for a tuple, [v] itself otherwise *)
Definition listified (v : pyval) : pyval :=
  match v with
  | PTuple l => PList l
  | _ => v
  end.

Record Descriptor : Type := mkDescriptor {
  d_index : Z;
  d_compressed : Z;
  d_size : Z
}.

Definition descriptor (cell_header : CellHeader) (t : string) (i : nat)
  : option Descriptor :=
  match field_at cell_header t "index" i, field_at cell_header t "compressed" i,
        field_at cell_header t "size" i with
  | Some a, Some b, Some c => Some (mkDescriptor a b c)
  | _, _, _ => None
  end.

(** A descriptor that [_decode_cell_chunk] leaves alone. *)
Definition is_unused (d : Descriptor) : bool :=
  (d_index d <=? 0) || (d_compressed d <=? 0).

(** *** Well-formed cell headers: the shape [parse_cell_header] builds and
    the writer maintains *)

Definition is_AInt (a : atom) : bool :=
  match a with
  | AInt _ => true
  | ABytes _ => false
  end.

Definition wf_field (arity : option nat) (v : pyval) : bool :=
  match arity, v with
  | None, PAtom (AInt _) => true
  | Some n, PTuple l | Some n, PList l => (length l =? n)%nat && forallb is_AInt l
  | _, _ => false
  end.

Definition wf_chunk (has_count : bool) (arity : option nat) (chunk : dict pyval) : bool :=
  forallb (fun k =>
    match dict_get chunk k with
    | Some v => wf_field arity v
    | None => false
    end) (fields_of has_count).

Fixpoint strings_eqb (a b : list string) : bool :=
  match a, b with
  | [], [] => true
  | x :: r, y :: r' => String.eqb x y && strings_eqb r r'
  | _, _ => false
  end.

Definition wf_cell_header (cell_header : CellHeader) : bool :=
  strings_eqb (dict_keys cell_header) categories &&
  forallb (fun '(t, (has_count, arity)) =>
    match dict_get cell_header t with
    | Some chunk => wf_chunk has_count arity chunk
    | None => false
    end) layout.

(** *** Well-formed models: what [read_file] builds, whatever is then done
    to the payload of the decoded chunks *)

Definition wf_sub_cell (cell_header : CellHeader) (t : string) (i : nat)
    (sub : SubCell) : bool :=
  match descriptor cell_header t i with
  | Some d =>
      match sub with
      | Placeholder _ _ _ => is_unused d
      | Chunk _ => negb (is_unused d)
      end
  | None => false
  end.

Definition wf_world_cell (cell_header : CellHeader) (cell_data : WorldCell) : bool :=
  strings_eqb (dict_keys cell_data) categories &&
  forallb (fun '(t, (_, arity)) =>
    match dict_get cell_data t with
    | Some sub_cells =>
        (length sub_cells =? slots arity)%nat &&
        forallb (fun '(i, sub) => wf_sub_cell cell_header t i sub) (enumerate sub_cells)
    | None => false
    end) layout.

Definition wf_model (self : TileFile) : bool :=
  (length (world_data self) =? length (cell_headers self))%nat &&
  forallb (fun '(cell_header, cell_data) =>
    wf_cell_header cell_header && wf_world_cell cell_header cell_data)
    (zip (cell_headers self) (world_data self)).

(** *** The chunks of a model, in the order the writer visits them *)

(** The raw bytes the writer obtains for a chunk of category [t]. *)
Definition raw_of (t : string) (sub_cell : SubCellData) : result bytes :=
  encode sub_cell (option_map snd (dict_get read_write_functions t)).

Definition cell_slots (cell_data : WorldCell) : list (string * nat * SubCell) :=
  flat_map (fun t =>
    match dict_get cell_data t with
    | Some sub_cells => map (fun '(i, sub) => (t, i, sub)) (enumerate sub_cells)
    | None => []
    end) (dict_keys cell_data).

Definition chunk_of (s : string * nat * SubCell) : option (string * nat * SubCellData) :=
  match s with
  | (t, i, Chunk sub_cell) => Some (t, i, sub_cell)
  | (_, _, Placeholder _ _ _) => None
  end.

(** The decoded chunks of a cell: category, slot, chunk. *)
Definition cell_chunks (cell_data : WorldCell) : list (string * nat * SubCellData) :=
  omap chunk_of (cell_slots cell_data).

(** The decoded chunks of the cells that have a header: cell, category,
    slot, chunk. *)
Definition model_chunks (self : TileFile) : list (nat * string * nat * SubCellData) :=
  flat_map (fun '(c, cell_data) =>
    map (fun '(t, i, sub_cell) => (c, t, i, sub_cell)) (cell_chunks cell_data))
    (enumerate (take (length (cell_headers self)) (world_data self))).

(** The cell header stored for cell [c] in written bytes. *)
Definition written_cell_header (out : bytes) (c : nat) : result CellHeader :=
  parse_cell_header (take CELL_DATA_SIZE (drop (60 + CELL_DATA_SIZE * c) out)).

(** *** What storing a descriptor does to a cell header *)

(** The value of a field after slot [i] was set to [z]: a plain integer is
    replaced, a sequence becomes a list with item [i] replaced. *)
Definition store_item (v : pyval) (i : nat) (z : Z) : pyval :=
  match v with
  | PAtom _ => PInt z
  | PTuple l | PList l => PList (<[i := AInt z]> l)
  end.

Definition new_field (d : Descriptor) (k : string) : option Z :=
  if String.eqb k "index" then Some (d_index d)
  else if String.eqb k "compressed" then Some (d_compressed d)
  else if String.eqb k "size" then Some (d_size d)
  else None.

(** [ch'] is [ch] with descriptor [d] stored in slot [i] of category [t]. *)
Definition stored (ch ch' : CellHeader) (t : string) (i : nat) (d : Descriptor) : Prop :=
  dict_keys ch' = dict_keys ch /\
  forall t' k',
    field_val ch' t' k' =
      if String.eqb t t' then
        match new_field d k' with
        | Some z => option_map (fun v => store_item v i z) (field_val ch t k')
        | None => field_val ch t k'
        end
      else field_val ch t' k'.

(** The three fields of a descriptor (not the count). *)
Definition descriptor_field (k : string) : bool :=
  String.eqb k "index" || String.eqb k "compressed" || String.eqb k "size".

(** The two inner loops of the writer, as one loop over the slots of a cell. *)
Definition write_slots (data_blob_offset : Z) (sl : list (string * nat * SubCell))
    (data_blob : bytes) : M CellHeader bytes :=
  for_fold sl data_blob (fun data_blob '(t, i, sub) =>
    write_sub_cell data_blob_offset t data_blob i sub).

(** The raw and the compressed bytes of a chunk ([[]] where encoding fails). *)
Definition chunk_raw (x : string * nat * SubCellData) : bytes :=
  match raw_of x.1.1 x.2 with
  | Ok raw => raw
  | Raise _ => []
  end.

Definition chunk_payload (x : string * nat * SubCellData) : bytes :=
  lz4_block_compress (chunk_raw x).

Definition payloads (chunks : list (string * nat * SubCellData)) : bytes :=
  concat (map chunk_payload chunks).

Definition slot_key (s : string * nat * SubCell) : string * nat := s.1.

(** A slot of the record layout. *)
Definition valid_slot (t : string) (i : nat) : Prop :=
  exists hc ar, dict_get layout t = Some (hc, ar) /\ (i < slots ar)%nat.

Definition raw_ok (x : string * nat * SubCellData) : Prop :=
  exists raw, raw_of x.1.1 x.2 = Ok raw.

(** The descriptor the writer stores for chunk [x] when the data blob holds
    [before] bytes and starts at offset [off] of the file. *)
Definition new_descriptor (off : Z) (before : nat) (x : string * nat * SubCellData)
  : Descriptor :=
  mkDescriptor (Z.of_nat before + off)
    (Z.of_nat (length (chunk_payload x))) (Z.of_nat (length (chunk_raw x))).

(** All slots of the record layout, in order. *)
Definition all_slot_keys : list (string * nat) :=
  flat_map (fun '(t, (_, ar)) => map (pair t) (seq 0 (slots ar))) layout.

(** The integer at a place of the record, and the 97 integers in order. *)
Definition place_value (cell_header : CellHeader) (p : string * string * option nat)
  : option Z :=
  field_at cell_header p.1.1 p.1.2 (default 0%nat p.2).

Definition cell_values (cell_header : CellHeader) : list Z :=
  map (fun p => default 0 (place_value cell_header p)) places.

(** Two cell headers hold the same integers at every place of the record. *)
Definition same_fields (ch ch2 : CellHeader) : Prop :=
  forall t hc ar k i,
    dict_get layout t = Some (hc, ar) -> In k (fields_of hc) -> (i < slots ar)%nat ->
    field_at ch2 t k i = field_at ch t k i.

(** The compressed payloads of the chunks of a list of cells, in order. *)
Definition cells_payloads (cells : list WorldCell) : bytes :=
  concat (map (fun cell_data => payloads (cell_chunks cell_data)) cells).

(** The bytes of the header of cell [c] in a buffer. *)
Definition region (c : nat) (buffer : bytes) : bytes :=
  take 388 (drop (60 + 388 * c) buffer).

(** [ch'] is what the writer makes of cell header [ch] for the cell
    [cell_data], when the blob holds [blob] before the cell and starts at
    [off]: every chunk got its new descriptor, nothing else changed. *)
Definition cell_written (off : Z) (blob : bytes) (cell_data : WorldCell)
    (ch ch' : CellHeader) : Prop :=
  wf_cell_header ch' = true /\
  (forall j x, cell_chunks cell_data !! j = Some x ->
     descriptor ch' x.1.1 x.1.2
     = Some (new_descriptor off
               (length (blob ++ payloads (take j (cell_chunks cell_data)))) x)) /\
  (forall t k i,
     descriptor_field k = false \/
     (forall x, x ∈ cell_chunks cell_data -> x.1 <> (t, i)) ->
     field_at ch' t k i = field_at ch t k i).

(** The descriptor stored for slot [i] of category [t] of cell [c] in
    written bytes. *)
Definition written_descriptor (out : bytes) (c : nat) (t : string) (i : nat)
  : option Descriptor :=
  match written_cell_header out c with
  | Ok cell_header => descriptor cell_header t i
  | Raise _ => None
  end.

(** The stored descriptors of the decoded chunks of a model, in the order
    the writer visits them. *)
Definition written_descriptors (self : TileFile) (out : bytes)
  : list (option Descriptor) :=
  flat_map (fun '(c, cell_data) =>
    map (fun x => written_descriptor out c x.1.1 x.1.2) (cell_chunks cell_data))
    (enumerate (take (length (cell_headers self)) (world_data self))).

(** Descriptors that tile the byte range from [start] to [stop]: the first
    begins at [start], each next one where the previous one ends, the last
    one ends at [stop]. *)
Fixpoint contiguous (start : Z) (ds : list (option Descriptor)) (stop : Z) : Prop :=
  match ds with
  | [] => start = stop
  | None :: _ => False
  | Some d :: r =>
      d_index d = start /\ 0 <= d_compressed d /\
      contiguous (start + d_compressed d) r stop
  end.

(** *** What the overflow check prints *)

Definition overflow_flag (len cell_index : nat) (key : string) (a b : Z) : list diag :=
  if a + b - 1 >=? Z.of_nat len then
    [WarnCellHeaderOverflow cell_index key (a + b - 1) len]
  else [].

Definition pointer_count (v : pyval) : nat :=
  match v with
  | PAtom _ => 1
  | PTuple l | PList l => length l
  end.

Definition chunk_overflow (len cell_index : nat) (key : string) (chunk : dict pyval)
  : list diag :=
  match dict_get chunk "index", dict_get chunk "compressed" with
  | Some vi, Some vc =>
      flat_map (fun i =>
        match int_item vi i, int_item vc i with
        | Some a, Some b => overflow_flag len cell_index key a b
        | _, _ => []
        end) (seq 0 (pointer_count vi))
  | _, _ => []
  end.

Definition overflow_warnings (len : nat) (headers : list CellHeader) : list diag :=
  flat_map (fun '(cell_index, cell_header) =>
    flat_map (fun '(key, chunk) => chunk_overflow len cell_index key chunk)
      cell_header) (enumerate headers).

(** *** The reader, as a function of the bytes *)

(** The decoder of category [t], if it has one. *)
Definition read_for (t : string) : option read_fn :=
  option_map fst (dict_get read_write_functions t).

(** The [count] passed along with slot [i] of category [t]. *)
Definition count_at (cell_header : CellHeader) (t : string) (i : nat) : option pyval :=
  match field_val cell_header t "count" with
  | Some (PTuple l) => option_map PAtom (l !! i)
  | Some v => Some v
  | None => None
  end.

(** What the reader makes of slot [i] of category [t]. *)
Definition decode_slot (data : bytes) (cell_header : CellHeader) (t : string)
    (parse_function : option read_fn) (i : nat) : result SubCell :=
  match descriptor cell_header t i with
  | Some d =>
      _decode_cell_chunk data (PInt (d_index d)) (PInt (d_size d))
        (PInt (d_compressed d)) (count_at cell_header t i) t parse_function
  | None => Raise TypeError
  end.

(** The bytes of the record of cell [c]. *)
Definition cell_record_at (data : bytes) (offset cell_size : Z) (c : nat) : bytes :=
  py_slice data (offset + Z.of_nat c * cell_size)
    (offset + Z.of_nat c * cell_size + cell_size).

(** The header, the cell headers and the decoded cells of a buffer. *)
Definition read_model (data : bytes)
  : result (Header * list CellHeader * list WorldCell) :=
  if (length data <? 60)%nat then Raise StructError
  else if negb (u32_at data 0 =? MAGIC_KEY) then Raise invalid_magic
  else
    let h := header_of_bytes data in
    let* chs :=
      sequence (map (fun c =>
        parse_cell_header
          (cell_record_at data (cell_header_offset h) (cell_header_size h) c))
        (seq 0 (Z.to_nat (width h * height h)))) in
    let* wds := sequence (map (decode_cell data) chs) in
    Ok (h, chs, wds).

(** The bodies of the two loops of the reader. *)
Definition parse_cell_step (data : bytes) (cell_size : Z) (offset : Z) (_ : nat)
  : M TileFile Z :=
  let cell_data := py_slice data offset (offset + cell_size) in
  modify (log_call (CallParseCellHeader offset)) ;;;
  cell_header <- lift (parse_cell_header cell_data) ;;
  modify (fun self => set_cell_headers (cell_headers self ++ [cell_header]) self) ;;;
  ret (offset + cell_size).

Definition decode_cell_step (data : bytes) (cell_header : CellHeader)
  : M TileFile unit :=
  cell_header_data <- lift (decode_cell data cell_header) ;;
  modify (fun self => set_world_data (world_data self ++ [cell_header_data]) self).

(** The columns of a decoded cell: for each category, its slots. *)
Definition decode_columns (data : bytes) (cell_header : CellHeader)
  : result (list (list SubCell)) :=
  sequence (map (fun '(t, (_, ar)) =>
    sequence (map (decode_slot data cell_header t (read_for t)) (seq 0 (slots ar))))
    layout).

(** *** A small file

    One cell with two chunks: a [clutter] chunk of three raw bytes, stored
    as an LZ4 block of literals at offset 452, four bytes after the end of
    the cell record, and the first [mip] chunk, four raw bytes, stored right
    after it at offset 456. *)
Definition example_cell_values : list Z :=
  [456; 0; 0; 0; 0; 0] ++ [5; 0; 0; 0; 0; 0] ++ [4; 0; 0; 0; 0; 0]
  ++ [452; 4; 3] ++ replicate 76 0.

Definition example_cell_record : bytes :=
  match pack cell_format (map PInt example_cell_values) with
  | Ok b => b
  | Raise _ => []
  end.

Definition example_clutter_payload : bytes :=
  LiteralLZ4.compress ["a"; "b"; "c"]%byte.

Definition example_mip_payload : bytes :=
  LiteralLZ4.compress ["w"; "x"; "y"; "z"]%byte.

Definition example_file : bytes :=
  example_header ++ example_cell_record ++ replicate 4 x00
  ++ example_clutter_payload ++ example_mip_payload.

(** The model a buffer loads into, and what [write_file] makes of a model. *)
Definition loaded (data : bytes) : TileFile :=
  (read_file (Some data) (TileFile_init None)).1.

Definition written_model (self : TileFile) : TileFile := (build_new_data self).1.

Definition written_bytes (self : TileFile) : bytes :=
  match (build_new_data self).2 with
  | Ok out => out
  | Raise _ => []
  end.

(** ** Colours *)

(** [TileFile.decode_colour]: Python's [>>] and [&] on integers of any size
    and sign are [Z.shiftr] and [Z.land]. *)
Definition decode_colour (colour : Z) : Z * Z * Z * Z :=
  let alpha := Z.land (Z.shiftr colour 24) 255 in
  let red := Z.land (Z.shiftr colour 16) 255 in
  let green := Z.land (Z.shiftr colour 8) 255 in
  let blue := Z.land colour 255 in
  (red, green, blue, alpha).

(** ** Reading *)

(** [read_file] from the point where the input is known. *)
Definition read_file_from (data : bytes) : M TileFile unit :=
  modify (set_original_data data) ;;;
  parse_header data ;;;
  parse_cell_headers data ;;;
  self <- get ;;
  for_each (cell_headers self) (fun cell_header =>
    cell_header_data <- lift (decode_cell data cell_header) ;;
    modify (fun self => set_world_data (world_data self ++ [cell_header_data]) self)).

(** ** Cell records *)

(** The signed 32-bit little-endian integer at offset [off] of a buffer. *)
Definition i32_at (data : bytes) (off : nat) : Z :=
  let u := int_from_bytes (take 4 (drop off data)) in
  if u <? 2 ^ 31 then u else u - 2 ^ 32.

Definition fits_int32 (z : Z) : Prop := - 2 ^ 31 <= z < 2 ^ 31.

(** ** File headers *)

(** The integers of a header that fit their fields: 64 bits for the creator
    id, 32 bits for the others, without sign. *)
Definition header_fits (h : Header) : Prop :=
  0 <= version h < 2 ^ 32 /\ 0 <= creator_id h < 2 ^ 64 /\
  0 <= width h < 2 ^ 32 /\ 0 <= height h < 2 ^ 32 /\
  0 <= cell_header_offset h < 2 ^ 32 /\ 0 <= cell_header_size h < 2 ^ 32 /\
  0 <= some_val1 h < 2 ^ 32 /\ 0 <= some_val2 h < 2 ^ 32 /\
  0 <= v_type h < 2 ^ 32.

(** ** Which errors a computation can raise *)

(** [isinstance(e, ValueError)], whoever raised [e]. *)
Fixpoint is_ValueError (e : exn) : bool :=
  match e with
  | ValueError _ => true
  | EncoderError e => is_ValueError e
  | _ => false
  end.

(** What can come out of the loops of the writer: an exception of the
    program's own that is no [ValueError], or whatever the encoder raised. *)
Definition loop_error (e : exn) : Prop :=
  is_ValueError e = false \/
  exists data meta e', write_mip data meta = Raise e' /\ e = EncoderError e'.

(** Every error that [c] raises satisfies [P]. *)
Definition raises_only {S A} (P : exn -> Prop) (c : M S A) : Prop :=
  forall s s' e, c s = (s', Raise e) -> P e.

(** The state in which the loop over the cells of [write_file] runs: the
    header is [h], there are [n] cell headers, and the buffer has room for
    the header and [n] cell records. *)
Definition write_loop_state (h : Header) (n : nat) (acc : bytes * bytes)
    (self : TileFile) : Prop :=
  header self = Some h /\ length (cell_headers self) = n /\
  length acc.1 = (60 + 388 * n)%nat.

(** ** What the validator compares *)

(** What the header check prints for one item of the re-read header. *)
Definition header_warning (expected_items : dict hval) (item : string * hval)
  : list diag :=
  match dict_get expected_items item.1 with
  | Some expected =>
      if hval_eqb expected item.2 then []
      else [WarnHeaderMismatch item.1 expected item.2]
  | None => []
  end.

(** A field whose items differ from the items of the same field of
    [true_header]. *)
Definition field_differs (true_header : CellHeader) (key : string)
    (field : string * pyval) : bool :=
  match to_tuple field.2, at2 true_header key field.1 with
  | Ok loaded, Ok expected =>
      match to_tuple expected with
      | Ok expected => negb (atoms_eqb loaded expected)
      | Raise _ => false
      end
  | _, _ => false
  end.

(** ** Further examples *)

(** The header of the example with the cell headers announced at offset 64. *)
Definition moved_header : Header :=
  header_of_bytes (<[40%nat := "@"%byte]> example_file).

(** A header whose width does not fit in 32 bits. *)
Definition wide_header : Header :=
  {| version := 9; uuid := hex (replicate 16 x00); creator_id := 5;
     width := 2 ^ 32; height := 1; cell_header_offset := 60;
     cell_header_size := 388; some_val1 := 0; some_val2 := 0; v_type := 2 |}.

(** A header whose uuid is no hexadecimal text: the second character is
    no digit. *)
Definition bad_uuid_header : Header :=
  {| version := 9; uuid := "0g"; creator_id := 5;
     width := 1; height := 1; cell_header_offset := 60;
     cell_header_size := 388; some_val1 := 0; some_val2 := 0; v_type := 2 |}.

(** The example cut off in the middle of its cell record. *)
Definition truncated_file : bytes := take 400 example_file.

(** * Properties *)

(** ** Bytes and little-endian integers *)

Lemma byte_to_Z_range (b : byte) : 0 <= byte_to_Z b < 256.
Proof.
  unfold byte_to_Z. pose proof (Byte.to_N_bounded b) as Hb. lia.
Qed.

Lemma byte_of_to_Z (b : byte) : byte_of_Z (byte_to_Z b) = b.
Proof.
  unfold byte_of_Z. rewrite Z.mod_small by apply byte_to_Z_range.
  unfold byte_to_Z. by rewrite N2Z.id, Byte.of_to_N.
Qed.

Lemma byte_to_of_Z (z : Z) : byte_to_Z (byte_of_Z z) = z mod 256.
Proof.
  unfold byte_of_Z, byte_to_Z.
  assert (0 <= z mod 256 < 256) as Hr by (apply Z.mod_pos_bound; lia).
  destruct (Byte.of_N _) as [b|] eqn:E.
  - apply Byte.to_of_N in E. rewrite E, Z2N.id; lia.
  - apply Byte.of_N_None_iff in E. lia.
Qed.

Lemma length_int_to_bytes (n : nat) (z : Z) : length (int_to_bytes n z) = n.
Proof.
  revert z. induction n as [|n IH]; intros z; simpl; [done|]. by rewrite IH.
Qed.

Lemma int_from_bytes_range (b : bytes) :
  0 <= int_from_bytes b < 256 ^ Z.of_nat (length b).
Proof.
  induction b as [|x r IH]; simpl int_from_bytes; [simpl; lia|].
  pose proof (byte_to_Z_range x) as Hx.
  replace (Z.of_nat (length (x :: r))) with (Z.succ (Z.of_nat (length r)))
    by (simpl length; lia).
  rewrite Z.pow_succ_r by lia. lia.
Qed.

Lemma int_to_from_bytes (b : bytes) :
  int_to_bytes (length b) (int_from_bytes b) = b.
Proof.
  induction b as [|x r IH]; simpl; [done|].
  pose proof (byte_to_Z_range x) as Hx.
  f_equal.
  - unfold byte_of_Z.
    rewrite <- (Z.mod_unique_pos _ 256 (int_from_bytes r) (byte_to_Z x)) by lia.
    unfold byte_to_Z. by rewrite N2Z.id, Byte.of_to_N.
  - by rewrite <- (Z.div_unique_pos _ 256 (int_from_bytes r) (byte_to_Z x)) by lia.
Qed.

Lemma int_from_to_bytes (n : nat) (z : Z) :
  int_from_bytes (int_to_bytes n z) = z mod 256 ^ Z.of_nat n.
Proof.
  revert z. induction n as [|n IH]; intros z.
  - simpl. by rewrite Z.mod_1_r.
  - cbn [int_to_bytes int_from_bytes]. rewrite IH, byte_to_of_Z.
    rewrite Nat2Z.inj_succ, Z.pow_succ_r by lia.
    rewrite (Z.rem_mul_r z 256) by lia. done.
Qed.

(** ** The [struct] codec *)

Lemma length_unpack_codes (codes : list fmt_code) (data : bytes) :
  length (unpack_codes codes data) = length codes.
Proof.
  revert data. induction codes as [|c r IH]; intros data; simpl; [done|].
  by rewrite IH.
Qed.

(** Unpacking looks at the first [codes_size codes] bytes only. *)
Lemma unpack_codes_take (codes : list fmt_code) (data : bytes) (n : nat) :
  (codes_size codes <= n)%nat ->
  unpack_codes codes (take n data) = unpack_codes codes data.
Proof.
  revert data n. induction codes as [|c r IH]; intros data n Hn; [done|].
  cbn [codes_size foldr] in Hn. fold (codes_size r) in Hn.
  cbn [unpack_codes]. f_equal.
  - f_equal. rewrite take_take. f_equal. lia.
  - replace n with (code_size c + (n - code_size c))%nat by lia.
    rewrite <- take_drop_commute. apply IH. lia.
Qed.

Lemma length_pack_code (c : fmt_code) (v : pyval) (b : bytes) :
  pack_code c v = Ok b -> length b = code_size c.
Proof.
  destruct c, v as [[z|s]| |]; simpl; try discriminate;
    repeat case_match; intros [= <-]; rewrite ?length_int_to_bytes; try done.
  rewrite length_app, length_take, length_replicate. lia.
Qed.

Lemma length_pack_codes (codes : list fmt_code) (vals : list pyval) (b : bytes) :
  pack_codes codes vals = Ok b -> length b = codes_size codes.
Proof.
  revert vals b. induction codes as [|c r IH]; intros [|v vr] b; simpl;
    try discriminate.
  - by intros [= <-].
  - destruct (pack_code c v) as [b1|] eqn:E1; simpl; [|discriminate].
    destruct (pack_codes r vr) as [b2|] eqn:E2; simpl; [|discriminate].
    intros [= <-]. rewrite length_app.
    rewrite (length_pack_code _ _ _ E1), (IH _ _ E2). done.
Qed.

(** Packing what was unpacked gives the bytes back. *)
Lemma pack_unpack_code (c : fmt_code) (b : bytes) :
  length b = code_size c ->
  pack_code c (PAtom (unpack_code c b)) = Ok b.
Proof.
  intros Hlen. pose proof (int_from_bytes_range b) as Hr.
  pose proof (int_to_from_bytes b) as Hb. rewrite Hlen in Hr, Hb.
  destruct c; cbn [code_size] in *; cbn [pack_code unpack_code].
  - change (256 ^ Z.of_nat 4) with (2 ^ 32) in Hr.
    destruct (Z.leb_spec 0 (int_from_bytes b)); [|lia].
    destruct (Z.ltb_spec (int_from_bytes b) (2 ^ 32)); [|lia].
    cbn [andb]. by rewrite Hb.
  - change (256 ^ Z.of_nat 4) with (2 ^ 32) in Hr.
    destruct (Z.ltb_spec (int_from_bytes b) (2 ^ 31)).
    + destruct (Z.leb_spec (- 2 ^ 31) (int_from_bytes b)); [|lia].
      destruct (Z.ltb_spec (int_from_bytes b) (2 ^ 31)); [|lia].
      cbn [andb]. rewrite Z.mod_small by lia. by rewrite Hb.
    + destruct (Z.leb_spec (- 2 ^ 31) (int_from_bytes b - 2 ^ 32)); [|lia].
      destruct (Z.ltb_spec (int_from_bytes b - 2 ^ 32) (2 ^ 31)); [|lia].
      cbn [andb].
      replace ((int_from_bytes b - 2 ^ 32) mod 2 ^ 32) with (int_from_bytes b).
      * by rewrite Hb.
      * replace (int_from_bytes b - 2 ^ 32) with (int_from_bytes b + (-1) * 2 ^ 32)
          by lia.
        rewrite Z.mod_add by lia. by rewrite Z.mod_small by lia.
  - change (256 ^ Z.of_nat 8) with (2 ^ 64) in Hr.
    destruct (Z.leb_spec 0 (int_from_bytes b)); [|lia].
    destruct (Z.ltb_spec (int_from_bytes b) (2 ^ 64)); [|lia].
    cbn [andb]. by rewrite Hb.
  - rewrite take_ge by lia. rewrite Hlen, Nat.sub_diag. simpl.
    by rewrite app_nil_r.
Qed.

Lemma pack_unpack_codes (codes : list fmt_code) (b : bytes) :
  length b = codes_size codes ->
  pack_codes codes (map PAtom (unpack_codes codes b)) = Ok b.
Proof.
  revert b. induction codes as [|c r IH]; intros b Hlen.
  - destruct b; [done|discriminate].
  - cbn [codes_size foldr] in Hlen. fold (codes_size r) in Hlen.
    cbn [unpack_codes map pack_codes].
    rewrite pack_unpack_code by (rewrite length_take; lia). simpl.
    rewrite IH by (rewrite length_drop; lia). simpl.
    by rewrite take_drop.
Qed.

Lemma unpack_pack_code (c : fmt_code) (v : pyval) (b : bytes) :
  pack_code c v = Ok b -> unpack_code c b = canon c v.
Proof.
  destruct c, v as [[z|s]| |]; cbn [pack_code canon unpack_code]; try discriminate.
  - destruct (Z.leb_spec 0 z); [|discriminate].
    destruct (Z.ltb_spec z (2 ^ 32)); [|discriminate].
    cbn [andb]. intros Heq.
    assert (b = int_to_bytes 4 z) as -> by congruence.
    rewrite int_from_to_bytes.
    change (256 ^ Z.of_nat 4) with (2 ^ 32). by rewrite Z.mod_small by lia.
  - destruct (Z.leb_spec (- 2 ^ 31) z); [|discriminate].
    destruct (Z.ltb_spec z (2 ^ 31)); [|discriminate].
    cbn [andb]. intros Heq.
    assert (b = int_to_bytes 4 (z mod 2 ^ 32)) as -> by congruence.
    rewrite int_from_to_bytes.
    change (256 ^ Z.of_nat 4) with (2 ^ 32). rewrite Z.mod_mod by lia.
    destruct (Z.ltb_spec (z mod 2 ^ 32) (2 ^ 31)) as [Hlt|Hge]; f_equal.
    + destruct (Z.lt_ge_cases z 0) as [Hneg|Hpos].
      * replace z with (z + 2 ^ 32 + (-1) * 2 ^ 32) in Hlt by lia.
        rewrite Z.mod_add, Z.mod_small in Hlt by lia. lia.
      * rewrite Z.mod_small by lia. done.
    + destruct (Z.lt_ge_cases z 0) as [Hneg|Hpos].
      * replace z with (z + 2 ^ 32 + (-1) * 2 ^ 32) at 1 by lia.
        rewrite Z.mod_add, Z.mod_small by lia. lia.
      * rewrite Z.mod_small in Hge by lia. lia.
  - destruct (Z.leb_spec 0 z); [|discriminate].
    destruct (Z.ltb_spec z (2 ^ 64)); [|discriminate].
    cbn [andb]. intros Heq.
    assert (b = int_to_bytes 8 z) as -> by congruence.
    rewrite int_from_to_bytes.
    change (256 ^ Z.of_nat 8) with (2 ^ 64). by rewrite Z.mod_small by lia.
  - by intros [= <-].
Qed.

Lemma unpack_pack_codes (codes : list fmt_code) (vals : list pyval) (b : bytes) :
  pack_codes codes vals = Ok b ->
  unpack_codes codes b = zip_with canon codes vals.
Proof.
  revert vals b. induction codes as [|c r IH]; intros [|v vr] b; simpl;
    try discriminate; [done|].
  destruct (pack_code c v) as [b1|] eqn:E1; simpl; [|discriminate].
  destruct (pack_codes r vr) as [b2|] eqn:E2; simpl; [|discriminate].
  intros [= <-]. pose proof (length_pack_code _ _ _ E1) as Hl.
  rewrite take_app_length' by done. rewrite drop_app_length' by done.
  by rewrite (unpack_pack_code _ _ _ E1), (IH _ _ E2).
Qed.

(** ** The two fixed layouts *)

Lemma parse_cell_format : parse_format cell_format = Some (replicate 97 Fmti).
Proof. vm_compute. reflexivity. Qed.

Lemma parse_header_format :
  parse_format header_format
  = Some [FmtI; FmtI; Fmts 16; FmtQ; FmtI; FmtI; FmtI; FmtI; FmtI; FmtI; FmtI].
Proof. vm_compute. reflexivity. Qed.

Lemma parse_header_spec (data : bytes) (self : TileFile) :
  parse_header data self =
    let self' := log_call CallParseHeader self in
    if (length data <? 60)%nat then (self', Raise StructError)
    else if negb (u32_at data 0 =? MAGIC_KEY) then (self', Raise invalid_magic)
    else (set_header (header_of_bytes data) self', Ok tt).
Proof.
  unfold parse_header, bind, modify, lift, unpack_from.
  rewrite parse_header_format. cbn [of_option result_bind codes_size foldr code_size].
  rewrite Nat.sub_0_r. cbn [Nat.add].
  destruct (length data <? 60)%nat; [done|].
  cbn [unpack_codes code_size unpack_code drop]. rewrite ?drop_drop. cbn [Nat.add].
  unfold u32_at. cbn [drop].
  by destruct (negb _).
Qed.

(** The signature test, on bytes. *)
Lemma magic_key_bytes (data : bytes) :
  (4 <= length data)%nat ->
  (u32_at data 0 =? MAGIC_KEY) = true <-> take 4 data = magic_bytes.
Proof.
  intros Hlen. unfold u32_at. change (drop 0 data) with data. rewrite Z.eqb_eq. split.
  - intros Heq.
    rewrite <- (int_to_from_bytes (take 4 data)), Heq.
    rewrite length_take, Nat.min_l by lia. reflexivity.
  - intros ->. vm_compute. reflexivity.
Qed.

Lemma parse_header_take (data : bytes) (self : TileFile) :
  parse_header (take 60 data) self = parse_header data self.
Proof.
  rewrite !parse_header_spec. cbv zeta.
  assert (forall off n, (off + n <= 60)%nat ->
            take n (drop off (take 60 data)) = take n (drop off data)) as Hfield.
  { intros off n Hle. replace 60%nat with (off + (60 - off))%nat at 1 by lia.
    rewrite <- take_drop_commute, take_take. f_equal. lia. }
  rewrite length_take.
  destruct (Nat.ltb_spec (length data) 60) as [Hlt|Hge].
  - destruct (Nat.ltb_spec (60 `min` length data) 60); [done|lia].
  - destruct (Nat.ltb_spec (60 `min` length data) 60); [lia|].
    unfold header_of_bytes, u32_at. rewrite !Hfield by lia. done.
Qed.

Lemma pack_calcsize (fmt : string) (vals : list pyval) (b : bytes) :
  pack fmt vals = Ok b -> calcsize fmt = Ok (length b).
Proof.
  unfold pack, calcsize. destruct (parse_format fmt) as [codes|]; [|discriminate].
  simpl. intros Hp. by rewrite (length_pack_codes _ _ _ Hp).
Qed.

(** ** Hexadecimal text *)

Lemma fromhex_hex_cons (x : byte) (r : bytes) :
  fromhex (hex (x :: r)) = option_map (cons x) (fromhex (hex r)).
Proof. destruct x; reflexivity. Qed.

Lemma fromhex_hex (b : bytes) : fromhex (hex b) = Some b.
Proof.
  induction b as [|x r IH]; [done|]. by rewrite fromhex_hex_cons, IH.
Qed.

(** ** Serialising the header *)

Lemma write_header_length (self : TileFile) (new_data out : bytes) :
  write_header self new_data = Ok out ->
  length out = (length new_data + 60)%nat.
Proof.
  unfold write_header.
  repeat (match goal with
          | |- context [result_bind (pack ?f ?v) _] =>
              let E := fresh "E" in
              destruct (pack f v) eqn:E; cbn [result_bind]; [|discriminate];
              apply pack_calcsize in E;
              let n := eval vm_compute in (calcsize f) in
              change (calcsize f) with n in E;
              injection E as E
          | |- context [result_bind (of_option ?o ?e) _] =>
              destruct o; cbn [of_option result_bind]; [|discriminate]
          end).
  intros [= <-]. rewrite !length_app. lia.
Qed.

Lemma pack_field (fmt : string) (c : fmt_code) (b : bytes) :
  parse_format fmt = Some [c] ->
  length b = code_size c ->
  pack fmt [PAtom (unpack_code c b)] = Ok b.
Proof.
  intros Hf Hlen. unfold pack. rewrite Hf. cbn [of_option result_bind pack_codes].
  rewrite pack_unpack_code by done. cbn [result_bind]. by rewrite app_nil_r.
Qed.

Lemma pack_u32_at (data : bytes) (off : nat) :
  (off + 4 <= length data)%nat ->
  pack "<I" [PInt (u32_at data off)] = Ok (take 4 (drop off data)).
Proof.
  intros Hlen. apply (pack_field "<I" FmtI); [done|].
  rewrite length_take, length_drop. cbn [code_size]. lia.
Qed.

(** Serialising a parsed header gives back the 60 bytes it was parsed from. *)
Lemma write_header_of_bytes (data : bytes) (self : TileFile) :
  (60 <= length data)%nat ->
  take 4 data = magic_bytes ->
  header self = Some (header_of_bytes data) ->
  write_header self [] = Ok (take 60 data).
Proof.
  intros Hlen Hmagic Hh. unfold write_header. rewrite Hh.
  assert (pack "<I" [PInt MAGIC_KEY] = Ok (take 4 data)) as Hm
    by (rewrite Hmagic; vm_compute; reflexivity).
  assert (pack "<16s" [PAtom (ABytes (take 16 (drop 8 data)))]
          = Ok (take 16 (drop 8 data))) as H16.
  { apply (pack_field "<16s" (Fmts 16)); [done|].
    rewrite length_take, length_drop. cbn [code_size]. lia. }
  assert (pack "<Q" [PInt (int_from_bytes (take 8 (drop 24 data)))]
          = Ok (take 8 (drop 24 data))) as HQ.
  { apply (pack_field "<Q" FmtQ); [done|].
    rewrite length_take, length_drop. cbn [code_size]. lia. }
  rewrite Hm.
  cbn [result_bind of_option header_of_bytes version uuid creator_id width height
         cell_header_offset cell_header_size some_val1 some_val2 v_type].
  repeat (first [ rewrite pack_u32_at by lia | rewrite fromhex_hex
                | rewrite H16 | rewrite HQ ];
          cbn [result_bind of_option]).
  f_equal. cbn [app].
  repeat (rewrite take_take_drop; cbn [Nat.add]). done.
Qed.

(** ** Reasoning about state and exceptions *)

Lemma bind_Ok {S A B} (c : M S A) (k : A -> M S B) (s s' : S) (b : B) :
  bind c k s = (s', Ok b) ->
  exists s1 a, c s = (s1, Ok a) /\ k a s1 = (s', Ok b).
Proof.
  unfold bind. destruct (c s) as [s1 [a|e]]; [eauto|discriminate].
Qed.

Lemma bind_run {S A B} (c : M S A) (k : A -> M S B) (s s1 : S) (a : A) :
  c s = (s1, Ok a) -> bind c k s = k a s1.
Proof. unfold bind. by intros ->. Qed.

Lemma bind_raise {S A B} (c : M S A) (k : A -> M S B) (s s1 : S) (e : exn) :
  c s = (s1, Raise e) -> bind c k s = (s1, Raise e).
Proof. unfold bind. by intros ->. Qed.

Lemma lift_Ok {S A} (r : result A) (s s' : S) (a : A) :
  lift r s = (s', Ok a) -> s' = s /\ r = Ok a.
Proof. unfold lift. by intros [= -> ->]. Qed.

Lemma result_bind_Ok {A B} (c : result A) (k : A -> result B) (b : B) :
  result_bind c k = Ok b -> exists a, c = Ok a /\ k a = Ok b.
Proof. destruct c; [eauto|discriminate]. Qed.

Lemma of_option_Ok {A} (o : option A) (e : exn) (a : A) :
  of_option o e = Ok a -> o = Some a.
Proof. destruct o; [by intros [= ->]|discriminate]. Qed.

(** ** The cell-header record *)

(** C10.  Whatever bytes [parse_cell_header] receives, a buffer that is not
    exactly 388 bytes long makes [struct.unpack] itself raise; when
    unpacking succeeds it yields exactly 97 values; hence the error of the
    explicit length test, "Cell Header size mismatch", is never raised. *)
Theorem parse_cell_header_size_check_unreachable (cell_data : bytes) :
  (length cell_data <> 388%nat -> parse_cell_header cell_data = Raise StructError) /\
  (forall unpacked,
     unpack cell_format cell_data = Ok unpacked -> length unpacked = 97%nat) /\
  parse_cell_header cell_data
    <> Raise (ValueError "Invalid .tile file: Cell Header size mismatch").
Proof.
  unfold parse_cell_header, unpack. rewrite parse_cell_format.
  cbn [of_option result_bind].
  change (codes_size (replicate 97 Fmti)) with 388%nat.
  destruct (Nat.eqb_spec (length cell_data) 388) as [Heq|Hne].
  - pose proof (length_unpack_codes (replicate 97 Fmti) cell_data) as Hlen.
    rewrite length_replicate in Hlen.
    split; [done|]. cbn [result_bind]. rewrite Hlen.
    split.
    + intros unpacked Hu.
      assert (unpacked = unpack_codes (replicate 97 Fmti) cell_data) as ->
        by congruence.
      exact Hlen.
    + change (97 =? CELL_HEADER_SIZE)%nat with true. cbn [negb]. discriminate.
  - split; [done|]. split; done.
Qed.

(** ** The file header *)

(** C5 (as amended).  The header layout is 60 bytes, not 64: parsing reads
    the first 60 bytes of the input and nothing else, fails in
    [struct.unpack_from] on a shorter input, serialising a parsed header gives
    those 60 bytes back, [write_header] always appends exactly 60 bytes, and
    [write_file] goes on only if [cell_header_offset] is that length. *)
Theorem header_is_60_bytes (data : bytes) (self : TileFile) :
  parse_header data self = parse_header (take 60 data) self /\
  ((length data < 60)%nat -> snd (parse_header data self) = Raise StructError) /\
  (forall self', parse_header data self = (self', Ok tt) ->
     write_header self' [] = Ok (take 60 data) /\ length (take 60 data) = 60%nat) /\
  (forall new_data out, write_header self new_data = Ok out ->
     length out = (length new_data + 60)%nat) /\
  (forall self' out, build_new_data self = (self', Ok out) ->
     exists h, header self = Some h /\ cell_header_offset h = 60).
Proof.
  split; [by rewrite parse_header_take|].
  split.
  { intros Hlt. rewrite parse_header_spec. cbv zeta.
    by destruct (Nat.ltb_spec (length data) 60); [|lia]. }
  split.
  { intros self'. rewrite parse_header_spec. cbv zeta.
    destruct (Nat.ltb_spec (length data) 60) as [|Hge]; [discriminate|].
    destruct (u32_at data 0 =? MAGIC_KEY) eqn:Hm; [|discriminate].
    cbn [negb]. intros [= <-].
    apply magic_key_bytes in Hm; [|lia].
    split; [by apply write_header_of_bytes|].
    rewrite length_take. lia. }
  split; [apply write_header_length|].
  intros self' out Hb. unfold build_new_data in Hb.
  apply bind_Ok in Hb as (s1 & self0 & [= <- <-] & Hb).
  apply bind_Ok in Hb as (s1 & new_data & [-> Hw]%lift_Ok & Hb).
  apply bind_Ok in Hb as (s1 & h & [-> Hh%of_option_Ok]%lift_Ok & Hb).
  exists h. split; [done|].
  apply write_header_length in Hw. cbn [length] in Hw.
  destruct (Z.eqb_spec (Z.of_nat (length new_data)) (cell_header_offset h));
    [lia|discriminate].
Qed.

(** C6 (as amended).  An input of at least 60 bytes whose first four bytes
    are not the signature makes [parse_header] raise the invalid-signature
    error; a shorter one makes it raise in [struct.unpack_from].  Either way
    [read_file] stops there: the object has recorded the input and the call
    of [parse_header] and nothing else, so no cell header was parsed. *)
Theorem invalid_magic_aborts (data : bytes) (self : TileFile) :
  data <> [] ->
  take 4 data <> magic_bytes ->
  let e := if (length data <? 60)%nat then StructError else invalid_magic in
  parse_header data self = (log_call CallParseHeader self, Raise e) /\
  read_file (Some data) self
  = (log_call CallParseHeader (set_original_data data self), Raise e) /\
  calls (fst (read_file (Some data) self)) = calls self ++ [CallParseHeader] /\
  cell_headers (fst (read_file (Some data) self)) = cell_headers self.
Proof.
  intros Hne Hmagic e.
  assert (forall s, parse_header data s = (log_call CallParseHeader s, Raise e)) as Hp.
  { intros s. rewrite parse_header_spec. cbv zeta. subst e.
    destruct (Nat.ltb_spec (length data) 60) as [|Hge]; [done|].
    destruct (u32_at data 0 =? MAGIC_KEY) eqn:Hm; [|done].
    apply magic_key_bytes in Hm; [done|lia]. }
  split; [apply Hp|].
  assert (read_file (Some data) self
          = (log_call CallParseHeader (set_original_data data self), Raise e)) as Hr.
  { destruct data as [|b r]; [done|].
    unfold read_file.
    rewrite (bind_run _ _ self self (b :: r)) by done.
    rewrite (bind_run _ _ self (set_original_data (b :: r) self) tt) by done.
    by rewrite (bind_raise _ _ _ _ _ (Hp _)). }
  rewrite Hr. done.
Qed.

(** ** The round-trip validator *)

(** Run as a script, the validator is the re-parse followed by the report. *)
Lemma validate_write_script (self : TileFile) (new_data : bytes) (printed : list diag) :
  run_as_script = true ->
  __validate_write self new_data printed
  = match read_file (Some new_data) (set_DEBUG true (TileFile_init None)) with
    | (tile, Ok _) => (printed, Ok true)
    | (tile, Raise e) =>
        (print ErrorFailedToValidate ;;; print (ErrorCaught e) ;;;
         print DebugAttempting ;;; print DebugCheckingHeader ;;;
         check_header_values self tile ;;; print DebugCheckingMismatch ;;;
         check_cell_headers self tile ;;; print DebugCheckingOverflow ;;;
         check_overflow tile new_data ;;; ret false) printed
    end.
Proof.
  intros Hs. unfold __validate_write, validate_attempt, set_builtins_print.
  rewrite Hs.
  destruct (read_file (Some new_data) (set_DEBUG true (TileFile_init None)))
    as [tile [[]|e]]; cbn [result_bind]; [done|].
  unfold bind, lift, print, modify, ret.
  destruct (check_header_values self tile _) as [o1 [[]|e1]]; [|done].
  destruct (check_cell_headers self tile _) as [o2 [[]|e2]]; [|done].
  by destruct (check_overflow tile new_data _) as [o3 [[]|e3]].
Qed.

(** In an imported module the first assignment to [__builtins__.print]
    raises, the handler repeats it, and nothing else happens. *)
Lemma validate_write_imported (self : TileFile) (new_data : bytes)
    (printed : list diag) :
  run_as_script = false ->
  __validate_write self new_data printed = (printed, Raise AttributeError).
Proof.
  intros Hs. unfold __validate_write, validate_attempt, set_builtins_print.
  by rewrite Hs.
Qed.



(** ** The cell header as a table *)

Lemma cell_data_of_places (header : CellHeader) :
  cell_data_of header = map (cell_data_item header) places.
Proof. reflexivity. Qed.

(** ** Dictionaries *)

Lemma dict_get_set_eq {V} (d : dict V) (k : string) (v : V) :
  dict_get (dict_set d k v) k = Some v.
Proof.
  induction d as [|[k' v'] r IH]; simpl.
  - by rewrite String.eqb_refl.
  - destruct (String.eqb_spec k' k) as [->|Hne]; simpl.
    + by rewrite String.eqb_refl.
    + by destruct (String.eqb_spec k' k).
Qed.

Lemma dict_get_set_ne {V} (d : dict V) (k k' : string) (v : V) :
  k <> k' -> dict_get (dict_set d k v) k' = dict_get d k'.
Proof.
  intros Hne. induction d as [|[k0 v0] r IH]; simpl.
  - by destruct (String.eqb_spec k k').
  - destruct (String.eqb_spec k0 k) as [->|Hne0]; simpl.
    + by destruct (String.eqb_spec k k').
    + by rewrite IH.
Qed.

Lemma dict_keys_set {V} (d : dict V) (k : string) (v : V) :
  is_Some (dict_get d k) -> dict_keys (dict_set d k v) = dict_keys d.
Proof.
  unfold dict_keys. induction d as [|[k0 v0] r IH]; simpl.
  - by intros [? [=]].
  - destruct (String.eqb_spec k0 k) as [->|Hne0]; simpl; [done|].
    intros H. f_equal. by apply IH.
Qed.

Lemma dict_set_same {V} (d : dict V) (k : string) (v : V) :
  dict_get d k = Some v -> dict_set d k v = d.
Proof.
  induction d as [|[k0 v0] r IH]; simpl; [done|].
  destruct (String.eqb_spec k0 k) as [->|Hne0].
  - by intros [= ->].
  - intros H. by rewrite IH.
Qed.

Lemma dict_get_elem_of {V} (d : dict V) (k : string) (v : V) :
  dict_get d k = Some v -> (k, v) ∈ d.
Proof.
  induction d as [|[k0 v0] r IH]; simpl; [done|].
  destruct (String.eqb_spec k0 k) as [->|Hne0].
  - intros [= ->]. left.
  - intros H. right. by apply IH.
Qed.

Lemma strings_eqb_eq (a b : list string) : strings_eqb a b = true <-> a = b.
Proof.
  revert b. induction a as [|x r IH]; intros [|y r']; simpl; try done.
  rewrite andb_true_iff, String.eqb_eq, IH. split.
  - by intros [-> ->].
  - by intros [= -> ->].
Qed.

(** ** Assignments to a cell header *)

Lemma field_val_assign (ch : CellHeader) (t k : string) (v : pyval) (t' k' : string) :
  is_Some (dict_get ch t) ->
  field_val (cell_assign ch t k v) t' k'
  = if String.eqb t t' && String.eqb k k' then Some v else field_val ch t' k'.
Proof.
  intros [chunk Hc]. unfold cell_assign, field_val. rewrite Hc.
  destruct (String.eqb_spec t t') as [<-|Hne]; cbn [andb].
  - rewrite dict_get_set_eq, Hc.
    destruct (String.eqb_spec k k') as [<-|Hnek].
    + apply dict_get_set_eq.
    + by apply dict_get_set_ne.
  - by rewrite dict_get_set_ne.
Qed.

Lemma dict_keys_assign (ch : CellHeader) (t k : string) (v : pyval) :
  dict_keys (cell_assign ch t k v) = dict_keys ch.
Proof.
  unfold cell_assign. destruct (dict_get ch t) eqn:E; [|done].
  apply dict_keys_set. by rewrite E.
Qed.

Lemma is_Some_get_assign (ch : CellHeader) (t k : string) (v : pyval) (t' : string) :
  is_Some (dict_get ch t') -> is_Some (dict_get (cell_assign ch t k v) t').
Proof.
  unfold cell_assign. destruct (dict_get ch t) eqn:E; [|done].
  destruct (String.eqb_spec t t') as [<-|Hne].
  - by rewrite dict_get_set_eq.
  - by rewrite dict_get_set_ne.
Qed.

Lemma cell_get_spec (ch : CellHeader) (t k : string) (v : pyval) :
  field_val ch t k = Some v -> cell_get t k ch = (ch, Ok v).
Proof.
  unfold field_val, cell_get, at2, getkey.
  destruct (dict_get ch t) as [chunk|]; [|done]. cbn [of_option result_bind].
  by intros ->.
Qed.

Lemma cell_set_spec (ch : CellHeader) (t k : string) (v : pyval) :
  is_Some (dict_get ch t) -> cell_set t k v ch = (cell_assign ch t k v, Ok tt).
Proof.
  intros [chunk Hc]. unfold cell_set, cell_assign. by rewrite Hc.
Qed.

Lemma field_val_is_Some_get (ch : CellHeader) (t k : string) (v : pyval) :
  field_val ch t k = Some v -> is_Some (dict_get ch t).
Proof. unfold field_val. destruct (dict_get ch t); [eauto|done]. Qed.

Lemma cell_assign_same (ch : CellHeader) (t k : string) (v : pyval) :
  field_val ch t k = Some v -> cell_assign ch t k v = ch.
Proof.
  unfold field_val, cell_assign. destruct (dict_get ch t) as [chunk|] eqn:E; [|done].
  intros Hk. rewrite (dict_set_same chunk) by done. by apply dict_set_same.
Qed.

Lemma cell_listify_spec (ch : CellHeader) (t k : string) (v : pyval) :
  field_val ch t k = Some v ->
  cell_listify t k ch = (cell_assign ch t k (listified v), Ok tt).
Proof.
  intros Hv. unfold cell_listify.
  rewrite (bind_run _ _ _ _ _ (cell_get_spec _ _ _ _ Hv)).
  destruct v as [a|l|l]; cbn [listified].
  - by rewrite cell_assign_same.
  - apply cell_set_spec. by eapply field_val_is_Some_get.
  - by rewrite cell_assign_same.
Qed.

Lemma cell_setitem_spec (ch : CellHeader) (t k : string) (l : list atom)
    (i : nat) (x : atom) :
  field_val ch t k = Some (PList l) ->
  (i < length l)%nat ->
  cell_setitem t k i x ch = (cell_assign ch t k (PList (<[i := x]> l)), Ok tt).
Proof.
  intros Hv Hi. unfold cell_setitem.
  rewrite (bind_run _ _ _ _ _ (cell_get_spec _ _ _ _ Hv)).
  unfold lift, setitem, bind.
  destruct (Nat.ltb_spec i (length l)); [|lia].
  apply cell_set_spec. by eapply field_val_is_Some_get.
Qed.

(** ** Well-formed cell headers *)

Lemma layout_In_get (t : string) (x : bool * option nat) :
  In (t, x) layout -> dict_get layout t = Some x.
Proof.
  unfold layout. cbn [In].
  intros H. repeat (destruct H as [[= <- <-]|H]; [reflexivity|]). done.
Qed.

Lemma index_in_fields (hc : bool) : In "index" (fields_of hc).
Proof. destruct hc; cbn; tauto. Qed.

Lemma wf_cell_header_keys (ch : CellHeader) :
  wf_cell_header ch = true -> dict_keys ch = categories.
Proof.
  unfold wf_cell_header. rewrite andb_true_iff. intros [H _].
  by apply strings_eqb_eq.
Qed.

Lemma wf_cell_header_field (ch : CellHeader) (t : string) (hc : bool)
    (ar : option nat) (k : string) :
  wf_cell_header ch = true ->
  dict_get layout t = Some (hc, ar) ->
  In k (fields_of hc) ->
  exists v, field_val ch t k = Some v /\ wf_field ar v = true.
Proof.
  unfold wf_cell_header. rewrite andb_true_iff. intros [_ H] Hl Hk.
  rewrite forallb_forall in H.
  apply dict_get_elem_of, list_elem_of_In in Hl.
  specialize (H _ Hl). cbn beta iota in H. unfold field_val.
  destruct (dict_get ch t) as [chunk|]; [|done].
  unfold wf_chunk in H. rewrite forallb_forall in H. specialize (H _ Hk).
  destruct (dict_get chunk k) as [v|]; [eauto|done].
Qed.

Lemma wf_cell_header_intro (ch : CellHeader) :
  dict_keys ch = categories ->
  (forall t hc ar k, dict_get layout t = Some (hc, ar) -> In k (fields_of hc) ->
     exists v, field_val ch t k = Some v /\ wf_field ar v = true) ->
  wf_cell_header ch = true.
Proof.
  intros Hk Hf. unfold wf_cell_header. rewrite andb_true_iff. split.
  { by apply strings_eqb_eq. }
  apply forallb_forall. intros [t [hc ar]] Hin. apply layout_In_get in Hin.
  destruct (Hf t hc ar "index" Hin (index_in_fields hc)) as (v & Hv & _).
  pose proof (field_val_is_Some_get _ _ _ _ Hv) as [chunk Hc]. rewrite Hc.
  unfold wf_chunk. apply forallb_forall. intros k Hkin.
  destruct (Hf t hc ar k Hin Hkin) as (v' & Hv' & Hwf).
  unfold field_val in Hv'. rewrite Hc in Hv'. by rewrite Hv'.
Qed.

Lemma wf_field_store (ar : option nat) (v : pyval) (i : nat) (z : Z) :
  wf_field ar v = true -> wf_field ar (store_item v i z) = true.
Proof.
  destruct ar as [n|], v as [[z'|b]|l|l]; cbn; try done;
    rewrite !andb_true_iff, length_insert; intros [Hl Hall]; (split; [done|]);
    rewrite forallb_forall in *; intros x Hx;
    apply list_elem_of_In, list_elem_of_lookup in Hx as [j Hj];
    (destruct (decide (j = i)) as [->|Hne];
     [ destruct (decide (i < length l)%nat);
       [ rewrite list_lookup_insert_eq in Hj by done; by injection Hj as <-
       | rewrite list_insert_ge in Hj by lia ]
     | rewrite list_lookup_insert_ne in Hj by done ]);
    apply Hall, list_elem_of_In, list_elem_of_lookup; eauto.
Qed.

Lemma stored_wf (ch ch' : CellHeader) (t : string) (i : nat) (d : Descriptor) :
  stored ch ch' t i d -> wf_cell_header ch = true -> wf_cell_header ch' = true.
Proof.
  intros [Hk Hf] Hwf. apply wf_cell_header_intro.
  { rewrite Hk. by apply wf_cell_header_keys. }
  intros t' hc ar k Hl Hin. rewrite Hf.
  destruct (String.eqb_spec t t') as [<-|Hne].
  - destruct (wf_cell_header_field _ _ _ _ _ Hwf Hl Hin) as (v & -> & Hv).
    destruct (new_field d k); cbn [option_map]; eauto using wf_field_store.
  - by apply (wf_cell_header_field _ _ _ _ _ Hwf Hl Hin).
Qed.

(** ** One step of the writer: storing the descriptor of a chunk *)

Lemma wf_field_listified (n : nat) (v : pyval) :
  wf_field (Some n) v = true ->
  exists l, listified v = PList l /\ length l = n /\
            forall i z, store_item v i z = PList (<[i := AInt z]> l).
Proof.
  destruct v as [[z|b]|l|l]; cbn; try done; rewrite andb_true_iff;
    intros [Hl%Nat.eqb_eq _]; eauto.
Qed.

Lemma wf_field_scalar (v : pyval) :
  wf_field None v = true -> is_int v = true /\ forall i z, store_item v i z = PInt z.
Proof. destruct v as [[z|b]|l|l]; cbn; done. Qed.

Lemma wf_field_seq_not_int (n : nat) (v : pyval) :
  wf_field (Some n) v = true -> is_int v = false.
Proof. destruct v as [[z|b]|l|l]; cbn; done. Qed.

Ltac assigned :=
  repeat match goal with
         | |- is_Some (dict_get (cell_assign _ _ _ _) _) => apply is_Some_get_assign
         end;
  first [ eassumption | eapply field_val_is_Some_get; eassumption ].

(** Decide the comparisons of string literals in the goal. *)
Ltac eval_eqb :=
  repeat match goal with
         | |- context [String.eqb ?a ?b] =>
             let v := eval vm_compute in (String.eqb a b) in
             lazymatch v with
             | true => change (String.eqb a b) with true
             | false => change (String.eqb a b) with false
             end
         end.

Ltac fv_simpl :=
  rewrite !field_val_assign by assigned;
  rewrite ?String.eqb_refl; eval_eqb; cbn [andb].

Lemma store_scalar_fields (ch : CellHeader) (t : string) (a b c : pyval) :
  is_Some (dict_get ch t) ->
  (cell_set t "index" a ;;; cell_set t "compressed" b ;;; cell_set t "size" c) ch
  = (cell_assign (cell_assign (cell_assign ch t "index" a) t "compressed" b)
       t "size" c, Ok tt).
Proof.
  intros Hc.
  rewrite (bind_run _ _ _ _ _ (cell_set_spec _ _ _ _ Hc)).
  erewrite (bind_run _ _ _ _ tt); cycle 1.
  { apply cell_set_spec. assigned. }
  apply cell_set_spec. assigned.
Qed.

Lemma store_seq_fields (ch : CellHeader) (t : string) (i : nat) (a b c : atom)
    (vi vc vs : pyval) (li lc ls : list atom) :
  field_val ch t "index" = Some vi ->
  field_val ch t "compressed" = Some vc ->
  field_val ch t "size" = Some vs ->
  listified vi = PList li -> listified vc = PList lc -> listified vs = PList ls ->
  (i < length li)%nat -> (i < length lc)%nat -> (i < length ls)%nat ->
  (cell_listify t "index" ;;; cell_listify t "compressed" ;;;
   cell_listify t "size" ;;;
   cell_setitem t "index" i a ;;; cell_setitem t "compressed" i b ;;;
   cell_setitem t "size" i c) ch
  = (cell_assign (cell_assign (cell_assign
       (cell_assign (cell_assign (cell_assign ch
          t "index" (PList li)) t "compressed" (PList lc)) t "size" (PList ls))
       t "index" (PList (<[i := a]> li))) t "compressed" (PList (<[i := b]> lc)))
       t "size" (PList (<[i := c]> ls)), Ok tt).
Proof.
  intros Hvi Hvc Hvs Hli Hlc Hls Hi Hc Hs.
  pose proof (field_val_is_Some_get _ _ _ _ Hvi) as Hch.
  rewrite (bind_run _ _ _ _ _ (cell_listify_spec _ _ _ _ Hvi)). rewrite Hli.
  erewrite (bind_run _ _ _ _ tt); cycle 1.
  { apply cell_listify_spec. fv_simpl. exact Hvc. }
  rewrite Hlc.
  erewrite (bind_run _ _ _ _ tt); cycle 1.
  { apply cell_listify_spec. fv_simpl. exact Hvs. }
  rewrite Hls.
  erewrite (bind_run _ _ _ _ tt); cycle 1.
  { apply cell_setitem_spec; [|exact Hi].
    fv_simpl. done. }
  erewrite (bind_run _ _ _ _ tt); cycle 1.
  { apply cell_setitem_spec; [|exact Hc].
    fv_simpl. done. }
  apply cell_setitem_spec; [|exact Hs].
  fv_simpl. done.
Qed.

Lemma stored_assigned (ch ch' : CellHeader) (t : string) (i : nat) (d : Descriptor)
    (vi vc vs : pyval) :
  field_val ch t "index" = Some vi ->
  field_val ch t "compressed" = Some vc ->
  field_val ch t "size" = Some vs ->
  dict_keys ch' = dict_keys ch ->
  (forall t' k',
     field_val ch' t' k' =
       if String.eqb t t' && String.eqb "size" k' then Some (store_item vs i (d_size d))
       else if String.eqb t t' && String.eqb "compressed" k' then
         Some (store_item vc i (d_compressed d))
       else if String.eqb t t' && String.eqb "index" k' then
         Some (store_item vi i (d_index d))
       else field_val ch t' k') ->
  stored ch ch' t i d.
Proof.
  intros Hvi Hvc Hvs Hk Hf. split; [done|]. intros t' k'. rewrite Hf.
  destruct (String.eqb_spec t t') as [<-|Hne]; cbn [andb]; [|done].
  unfold new_field.
  destruct (String.eqb_spec k' "index") as [->|H1]; [by rewrite Hvi|].
  destruct (String.eqb_spec k' "compressed") as [->|H2]; [by rewrite Hvc|].
  destruct (String.eqb_spec k' "size") as [->|H3]; [by rewrite Hvs|].
  destruct (String.eqb_spec "size" k'); [congruence|].
  destruct (String.eqb_spec "compressed" k'); [congruence|].
  destruct (String.eqb_spec "index" k'); [congruence|]. done.
Qed.

Lemma write_sub_cell_chunk (off : Z) (t : string) (blob : bytes) (i : nat)
    (sc : SubCellData) (ch : CellHeader) (hc : bool) (ar : option nat) (raw : bytes) :
  wf_cell_header ch = true ->
  dict_get layout t = Some (hc, ar) ->
  (i < slots ar)%nat ->
  raw_of t sc = Ok raw ->
  exists ch',
    write_sub_cell off t blob i (Chunk sc) ch
    = (ch', Ok (blob ++ lz4_block_compress raw)) /\
    stored ch ch' t i
      (mkDescriptor (Z.of_nat (length blob) + off)
         (Z.of_nat (length (lz4_block_compress raw))) (Z.of_nat (length raw))).
Proof.
  intros Hwf Hl Hi Hraw.
  destruct (wf_cell_header_field _ _ _ _ "index" Hwf Hl) as (vi & Hvi & Hwi);
    [destruct hc; cbn; tauto|].
  destruct (wf_cell_header_field _ _ _ _ "compressed" Hwf Hl) as (vc & Hvc & Hwc);
    [destruct hc; cbn; tauto|].
  destruct (wf_cell_header_field _ _ _ _ "size" Hwf Hl) as (vs & Hvs & Hws);
    [destruct hc; cbn; tauto|].
  pose proof (field_val_is_Some_get _ _ _ _ Hvi) as Hch.
  unfold write_sub_cell.
  rewrite (bind_run _ _ _ _ _ (cell_get_spec _ _ _ _ Hvi)). cbv beta zeta.
  rewrite (bind_run _ _ ch ch raw) by (unfold lift; by rewrite <- Hraw).
  destruct ar as [n|]; unfold slots in Hi; simpl in Hi.
  - rewrite (wf_field_seq_not_int _ _ Hwi). cbn [negb].
    destruct (wf_field_listified _ _ Hwi) as (li & Hli & Hni & Hsi).
    destruct (wf_field_listified _ _ Hwc) as (lc & Hlc & Hnc & Hsc).
    destruct (wf_field_listified _ _ Hws) as (ls & Hls & Hns & Hss).
    eexists. split.
    { erewrite (bind_run _ _ _ _ tt); [reflexivity|].
      apply (store_seq_fields _ _ _ _ _ _ vi vc vs li lc ls); (done || lia). }
    eapply stored_assigned; eauto.
    { by rewrite !dict_keys_assign. }
    intros t' k'. fv_simpl. cbn [d_index d_compressed d_size].
    rewrite Hsi, Hsc, Hss.
    repeat (destruct (_ && _); [done|]). done.
  - destruct (wf_field_scalar _ Hwi) as [-> Hsi]. cbn [negb].
    destruct (wf_field_scalar _ Hwc) as [_ Hsc].
    destruct (wf_field_scalar _ Hws) as [_ Hss].
    eexists. split.
    { erewrite (bind_run _ _ _ _ tt); [reflexivity|].
      by apply store_scalar_fields. }
    eapply stored_assigned; eauto.
    { by rewrite !dict_keys_assign. }
    intros t' k'. fv_simpl. cbn [d_index d_compressed d_size].
    by rewrite Hsi, Hsc, Hss.
Qed.

Lemma write_sub_cell_raise (off : Z) (t : string) (blob : bytes) (i : nat)
    (sc : SubCellData) (ch : CellHeader) (hc : bool) (ar : option nat) (e : exn) :
  wf_cell_header ch = true ->
  dict_get layout t = Some (hc, ar) ->
  raw_of t sc = Raise e ->
  write_sub_cell off t blob i (Chunk sc) ch = (ch, Raise e).
Proof.
  intros Hwf Hl Hraw.
  destruct (wf_cell_header_field _ _ _ _ "index" Hwf Hl) as (vi & Hvi & Hwi);
    [destruct hc; cbn; tauto|].
  unfold write_sub_cell.
  rewrite (bind_run _ _ _ _ _ (cell_get_spec _ _ _ _ Hvi)). cbv beta zeta.
  apply bind_raise. unfold lift. by rewrite <- Hraw.
Qed.

Lemma new_field_None (d : Descriptor) (k : string) :
  descriptor_field k = false -> new_field d k = None.
Proof.
  unfold descriptor_field, new_field.
  destruct (String.eqb k "index"), (String.eqb k "compressed"),
    (String.eqb k "size"); done.
Qed.

Lemma int_item_store_eq (ar : option nat) (v : pyval) (i : nat) (z : Z) :
  wf_field ar v = true -> (i < slots ar)%nat ->
  int_item (store_item v i z) i = Some z.
Proof.
  unfold int_item.
  destruct ar as [n|], v as [[z'|b]|l|l]; cbn; try done;
    try (rewrite andb_true_iff; intros [Hl%Nat.eqb_eq _] Hi;
         by rewrite list_lookup_insert_eq by lia).
  intros _ Hi. by replace i with 0%nat by lia.
Qed.

Lemma int_item_store_ne (ar : option nat) (v : pyval) (i i' : nat) (z : Z) :
  wf_field ar v = true -> (i < slots ar)%nat -> i' <> i ->
  int_item (store_item v i z) i' = int_item v i'.
Proof.
  unfold int_item.
  destruct ar as [n|], v as [[z'|b]|l|l]; cbn; try done;
    try (intros _ _ Hne; by rewrite list_lookup_insert_ne by done).
  intros _ Hi Hne. by destruct (Nat.eqb_spec i' 0); [lia|].
Qed.

Lemma stored_field_at (ch ch' : CellHeader) (t : string) (i : nat) (d : Descriptor)
    (hc : bool) (ar : option nat) (t' k' : string) (i' : nat) :
  stored ch ch' t i d ->
  wf_cell_header ch = true ->
  dict_get layout t = Some (hc, ar) ->
  (i < slots ar)%nat ->
  field_at ch' t' k' i' =
    if String.eqb t t' && (i =? i')%nat && descriptor_field k' then new_field d k'
    else field_at ch t' k' i'.
Proof.
  intros [_ Hf] Hwf Hl Hi. unfold field_at. rewrite Hf.
  destruct (String.eqb_spec t t') as [<-|Hne]; cbn [andb]; [|done].
  destruct (descriptor_field k') eqn:Hk.
  - assert (In k' (fields_of hc)) as Hin.
    { unfold descriptor_field in Hk. rewrite !orb_true_iff, !String.eqb_eq in Hk.
      destruct Hk as [[-> | ->] | ->]; destruct hc; cbn; tauto. }
    destruct (wf_cell_header_field _ _ _ _ _ Hwf Hl Hin) as (v & -> & Hv).
    assert (exists z, new_field d k' = Some z) as [z Hz].
    { unfold descriptor_field in Hk. unfold new_field.
      destruct (String.eqb k' "index"); [eauto|].
      destruct (String.eqb k' "compressed"); [eauto|].
      destruct (String.eqb k' "size"); [eauto|done]. }
    rewrite Hz. cbn [option_map].
    destruct (Nat.eqb_spec i i') as [<-|Hnei]; cbn [andb].
    + by rewrite (int_item_store_eq ar).
    + by rewrite (int_item_store_ne ar) by done.
  - rewrite andb_false_r. by rewrite new_field_None.
Qed.

Lemma stored_descriptor (ch ch' : CellHeader) (t : string) (i : nat) (d : Descriptor)
    (hc : bool) (ar : option nat) :
  stored ch ch' t i d ->
  wf_cell_header ch = true ->
  dict_get layout t = Some (hc, ar) ->
  (i < slots ar)%nat ->
  descriptor ch' t i = Some d.
Proof.
  intros Hs Hwf Hl Hi. unfold descriptor.
  rewrite !(stored_field_at _ _ _ _ _ _ _ _ _ _ Hs Hwf Hl Hi).
  rewrite String.eqb_refl, Nat.eqb_refl. by destruct d.
Qed.

(** ** The slots of one cell *)

Lemma chunks_cons_chunk (t : string) (i : nat) (sc : SubCellData)
    (rest : list (string * nat * SubCell)) :
  omap chunk_of ((t, i, Chunk sc) :: rest) = (t, i, sc) :: omap chunk_of rest.
Proof. reflexivity. Qed.

Lemma chunks_cons_placeholder (t : string) (i : nat) (a b c : pyval)
    (rest : list (string * nat * SubCell)) :
  omap chunk_of ((t, i, Placeholder a b c) :: rest) = omap chunk_of rest.
Proof. reflexivity. Qed.

Lemma write_slots_raw_ok (off : Z) (sl : list (string * nat * SubCell)) :
  forall blob ch ch' blob',
    write_slots off sl blob ch = (ch', Ok blob') ->
    wf_cell_header ch = true ->
    Forall (fun s => valid_slot s.1.1 s.1.2) sl ->
    Forall raw_ok (omap chunk_of sl).
Proof.
  induction sl as [|[[t i] sub] rest IH]; intros blob ch ch' blob' Hrun Hwf Hvalid.
  { constructor. }
  apply Forall_cons in Hvalid as [(hc & ar & Hl & Hi) Hvalid]. cbn in Hl, Hi.
  unfold write_slots in Hrun. cbn [for_fold] in Hrun.
  apply bind_Ok in Hrun as (ch1 & blob1 & Hstep & Hrun).
  destruct sub as [a b c|sc];
    rewrite ?chunks_cons_chunk, ?chunks_cons_placeholder.
  - injection Hstep as <- <-. by eapply IH.
  - destruct (raw_of t sc) as [raw|e] eqn:Hraw.
    + destruct (write_sub_cell_chunk off t blob i sc ch hc ar raw Hwf Hl Hi Hraw)
        as (ch1' & Hstep' & Hst).
      rewrite Hstep' in Hstep. injection Hstep as <- <-.
      constructor; [by exists raw|].
      eapply IH; [exact Hrun| |done]. by eapply stored_wf.
    + rewrite (write_sub_cell_raise off t blob i sc ch hc ar e Hwf Hl Hraw) in Hstep.
      discriminate.
Qed.

Lemma write_slots_spec (off : Z) (sl : list (string * nat * SubCell)) :
  forall blob ch,
    wf_cell_header ch = true ->
    Forall (fun s => valid_slot s.1.1 s.1.2) sl ->
    NoDup (map slot_key sl) ->
    Forall raw_ok (omap chunk_of sl) ->
    exists ch',
      write_slots off sl blob ch = (ch', Ok (blob ++ payloads (omap chunk_of sl))) /\
      wf_cell_header ch' = true /\
      (forall j x, omap chunk_of sl !! j = Some x ->
         descriptor ch' x.1.1 x.1.2
         = Some (new_descriptor off
                   (length (blob ++ payloads (take j (omap chunk_of sl)))) x)) /\
      (forall t k i,
         descriptor_field k = false \/ (forall x, x ∈ omap chunk_of sl -> x.1 <> (t, i)) ->
         field_at ch' t k i = field_at ch t k i).
Proof.
  induction sl as [|[[t i] sub] rest IH]; intros blob ch Hwf Hvalid Hnd Hraw.
  { exists ch. cbn. unfold payloads. cbn. rewrite app_nil_r. done. }
  apply Forall_cons in Hvalid as [(hc & ar & Hl & Hi) Hvalid]. cbn in Hl, Hi.
  cbn [map] in Hnd. apply NoDup_cons in Hnd as [Hnotin Hnd].
  unfold write_slots. cbn [for_fold]. fold (write_slots off rest).
  destruct sub as [a b c|sc];
    rewrite ?chunks_cons_chunk, ?chunks_cons_placeholder in *.
  - destruct (IH blob ch Hwf Hvalid Hnd Hraw) as (ch' & Hrun & Hwf' & Hd & Hfr).
    exists ch'. split; [|done].
    by rewrite (bind_run _ _ ch ch blob).
  - apply Forall_cons in Hraw as [[raw Hr] Hraw].
    change (raw_of t sc = Ok raw) in Hr.
    destruct (write_sub_cell_chunk off t blob i sc ch hc ar raw Hwf Hl Hi Hr)
      as (ch1 & Hstep & Hst).
    pose proof (stored_wf _ _ _ _ _ Hst Hwf) as Hwf1.
    destruct (IH (blob ++ lz4_block_compress raw) ch1 Hwf1 Hvalid Hnd Hraw)
      as (ch' & Hrun & Hwf' & Hd & Hfr).
    assert (chunk_raw (t, i, sc) = raw) as Hcr.
    { unfold chunk_raw. change (raw_of (t, i, sc).1.1 (t, i, sc).2) with (raw_of t sc).
      by rewrite Hr. }
    assert (chunk_payload (t, i, sc) = lz4_block_compress raw) as Hcp
      by (unfold chunk_payload; by rewrite Hcr).
    assert (forall x, x ∈ omap chunk_of rest -> x.1 <> (t, i)) as Hfresh.
    { intros [[t' i'] sc'] Hx [= -> ->]. apply Hnotin.
      apply list_elem_of_omap in Hx as ([[t'' i''] sub''] & Hin & Hc).
      destruct sub''; [done|]. injection Hc as -> -> ->.
      apply list_elem_of_fmap. by exists (t, i, Chunk sc'). }
    exists ch'. split; [|split; [done|split]].
    + rewrite (bind_run _ _ _ _ _ Hstep), Hrun. unfold payloads. cbn [map concat].
      rewrite Hcp. by rewrite <- app_assoc.
    + intros [|j] x Hx; cbn in Hx.
      * injection Hx as <-. cbn [take fst snd]. unfold payloads at 1. cbn [map concat].
        rewrite app_nil_r.
        unfold descriptor.
        rewrite !Hfr by (right; exact Hfresh).
        fold (descriptor ch1 t i).
        rewrite (stored_descriptor _ _ _ _ _ _ _ Hst Hwf Hl Hi).
        unfold new_descriptor. by rewrite Hcp, Hcr.
      * rewrite (Hd j x Hx). cbn [take]. unfold payloads. cbn [map concat].
        rewrite Hcp. by rewrite <- app_assoc.
    + intros t' k' i' Hcase. rewrite Hfr.
      * rewrite (stored_field_at _ _ _ _ _ _ _ _ _ _ Hst Hwf Hl Hi).
        destruct Hcase as [Hk|Hne]; [by rewrite Hk, andb_false_r|].
        destruct (String.eqb_spec t t') as [<-|]; [|done].
        destruct (Nat.eqb_spec i i') as [<-|]; [|done].
        exfalso. apply (Hne (t, i, sc)); [left|done].
      * destruct Hcase as [Hk|Hne]; [by left|]. right.
        intros x Hx. apply Hne. by right.
Qed.

(** ** Loops *)

Lemma for_fold_ext {S A B} (l : list A) (body1 body2 : B -> A -> M S B) :
  (forall acc x s, body1 acc x s = body2 acc x s) ->
  forall acc s, for_fold l acc body1 s = for_fold l acc body2 s.
Proof.
  intros Hext. induction l as [|x r IH]; intros acc s; cbn [for_fold]; [done|].
  unfold bind. rewrite Hext. destruct (body2 acc x s) as [s1 [a|e]]; [apply IH|done].
Qed.

Lemma for_fold_app {S A B} (l1 l2 : list A) (body : B -> A -> M S B) :
  forall acc s,
    for_fold (l1 ++ l2) acc body s
    = bind (for_fold l1 acc body) (fun acc' => for_fold l2 acc' body) s.
Proof.
  induction l1 as [|x r IH]; intros acc s; cbn [for_fold app]; [done|].
  unfold bind. destruct (body acc x s) as [s1 [a|e]]; [|done].
  rewrite IH. by unfold bind.
Qed.

Lemma for_fold_map {S A A' B} (f : A -> A') (l : list A) (body : B -> A' -> M S B) :
  forall acc s,
    for_fold (map f l) acc body s = for_fold l acc (fun acc x => body acc (f x)) s.
Proof.
  induction l as [|x r IH]; intros acc s; cbn [for_fold map]; [done|].
  unfold bind. destruct (body acc (f x) s) as [s1 [a|e]]; [apply IH|done].
Qed.

Lemma dict_get_keys {V} (d : dict V) (k : string) :
  In k (dict_keys d) -> is_Some (dict_get d k).
Proof.
  unfold dict_keys. induction d as [|[k0 v0] r IH]; cbn; [done|].
  destruct (String.eqb_spec k0 k) as [->|Hne]; [eauto|].
  intros [?|?]; [done|by apply IH].
Qed.

Lemma write_slots_app (off : Z) (l1 l2 : list (string * nat * SubCell))
    (blob : bytes) (ch : CellHeader) :
  write_slots off (l1 ++ l2) blob ch
  = bind (write_slots off l1 blob) (fun blob' => write_slots off l2 blob') ch.
Proof. apply for_fold_app. Qed.

Lemma write_category_slots (off : Z) (t : string) (subs : list SubCell)
    (blob : bytes) (ch : CellHeader) :
  for_fold (enumerate subs) blob
    (fun data_blob '(sub_cell_index, sub_cell) =>
       write_sub_cell off t data_blob sub_cell_index sub_cell) ch
  = write_slots off (map (fun '(i, sub) => (t, i, sub)) (enumerate subs)) blob ch.
Proof.
  unfold write_slots. rewrite for_fold_map. apply for_fold_ext.
  by intros acc [i sub] s.
Qed.

Lemma write_cell_chunks_slots (off : Z) (wd : WorldCell) (blob : bytes) (ch : CellHeader) :
  write_cell_chunks off wd blob ch = write_slots off (cell_slots wd) blob ch.
Proof.
  unfold write_cell_chunks, cell_slots.
  assert (forall t, In t (dict_keys wd) -> is_Some (dict_get wd t)) as Hk
    by apply dict_get_keys.
  revert blob ch Hk. generalize (dict_keys wd) as ks.
  induction ks as [|t ks IH]; intros blob ch Hk; [done|].
  cbn [flat_map for_fold]. rewrite write_slots_app.
  destruct (Hk t) as [subs Hs]; [by left|]. rewrite Hs.
  unfold bind, getkey, lift. rewrite Hs. cbn [of_option].
  rewrite write_category_slots.
  destruct (write_slots off _ blob ch) as [ch1 [blob1|e]]; [|done].
  apply IH. intros t' Ht'. apply Hk. by right.
Qed.

(** ** The slots of a well-formed cell *)

Lemma enumerate_from_fst {A} (l : list A) (n : nat) :
  map fst (enumerate_from n l) = seq n (length l).
Proof.
  revert n. induction l as [|x r IH]; intros n; cbn; [done|]. by rewrite IH.
Qed.

Lemma enumerate_from_lookup {A} (l : list A) (n j : nat) (x : A) :
  l !! j = Some x -> enumerate_from n l !! j = Some ((n + j)%nat, x).
Proof.
  revert n j. induction l as [|y r IH]; intros n [|j]; try done.
  - intros [= ->]. cbn. by rewrite Nat.add_0_r.
  - intros H. change (enumerate_from (S n) r !! j = Some ((n + S j)%nat, x)).
    rewrite (IH (S n) j H). do 2 f_equal. lia.
Qed.

Lemma enumerate_from_In {A} (l : list A) (n i : nat) (x : A) :
  In (i, x) (enumerate_from n l) -> (n <= i)%nat /\ l !! (i - n)%nat = Some x.
Proof.
  revert n. induction l as [|y r IH]; intros n; cbn; [done|].
  intros [[= <- <-]|H].
  - by rewrite Nat.sub_diag.
  - apply IH in H as [Hle Hl]. split; [lia|].
    replace (i - n)%nat with (S (i - S n)) by lia. done.
Qed.

Lemma wf_world_cell_keys (ch : CellHeader) (wd : WorldCell) :
  wf_world_cell ch wd = true -> dict_keys wd = categories.
Proof.
  unfold wf_world_cell. rewrite andb_true_iff. intros [H _].
  by apply strings_eqb_eq.
Qed.

Lemma wf_world_cell_get (ch : CellHeader) (wd : WorldCell) (t : string)
    (hc : bool) (ar : option nat) :
  wf_world_cell ch wd = true ->
  In (t, (hc, ar)) layout ->
  exists subs, dict_get wd t = Some subs /\ length subs = slots ar /\
    forall i sub, subs !! i = Some sub -> wf_sub_cell ch t i sub = true.
Proof.
  unfold wf_world_cell. rewrite andb_true_iff. intros [_ H] Hin.
  rewrite forallb_forall in H. specialize (H _ Hin). cbn beta iota in H.
  destruct (dict_get wd t) as [subs|]; [|done].
  apply andb_true_iff in H as [Hlen%Nat.eqb_eq Hall].
  exists subs. split; [done|]. split; [done|].
  intros i sub Hs. rewrite forallb_forall in Hall.
  apply (Hall (i, sub)). unfold enumerate.
  apply list_elem_of_In, list_elem_of_lookup. exists i.
  by rewrite (enumerate_from_lookup _ 0 i sub Hs).
Qed.

Lemma wf_world_cell_slot_keys (ch : CellHeader) (wd : WorldCell) :
  wf_world_cell ch wd = true -> map slot_key (cell_slots wd) = all_slot_keys.
Proof.
  intros Hwf. unfold cell_slots, all_slot_keys.
  rewrite (wf_world_cell_keys _ _ Hwf). unfold categories.
  assert (forall t hc ar, In (t, (hc, ar)) layout ->
            exists subs, dict_get wd t = Some subs /\ length subs = slots ar) as Hg.
  { intros t hc ar Hin.
    destruct (wf_world_cell_get _ _ _ _ _ Hwf Hin) as (subs & ? & ? & _). eauto. }
  revert Hg. generalize layout as L.
  induction L as [|[t [hc ar]] L IH]; intros Hg; [done|].
  cbn [map fst flat_map]. rewrite map_app, IH by (intros; eapply Hg; by right).
  f_equal. destruct (Hg t hc ar) as (subs & -> & <-); [by left|].
  rewrite map_map. unfold enumerate. rewrite <- (enumerate_from_fst subs 0), map_map.
  apply map_ext. by intros [i sub].
Qed.

Lemma all_slot_keys_valid (t : string) (i : nat) :
  In (t, i) all_slot_keys -> valid_slot t i.
Proof.
  unfold all_slot_keys. rewrite in_flat_map. intros ([t' [hc ar]] & Hin & Hi).
  apply in_map_iff in Hi as (i' & [= <- <-] & Hi%in_seq).
  exists hc, ar. split; [by apply layout_In_get|lia].
Qed.

Lemma valid_slot_in (t : string) (i : nat) :
  valid_slot t i -> In (t, i) all_slot_keys.
Proof.
  intros (hc & ar & Hl & Hi). unfold all_slot_keys. rewrite in_flat_map.
  exists (t, (hc, ar)). split.
  - by apply list_elem_of_In, dict_get_elem_of.
  - apply in_map, in_seq. lia.
Qed.

Lemma wf_world_cell_valid (ch : CellHeader) (wd : WorldCell) :
  wf_world_cell ch wd = true ->
  Forall (fun s => valid_slot s.1.1 s.1.2) (cell_slots wd).
Proof.
  intros Hwf. apply Forall_forall. intros [[t i] sub] Hin.
  apply all_slot_keys_valid. rewrite <- (wf_world_cell_slot_keys _ _ Hwf).
  apply list_elem_of_In in Hin. by apply (in_map slot_key) in Hin.
Qed.

Lemma all_slot_keys_NoDup : NoDup all_slot_keys.
Proof.
  unfold all_slot_keys. cbn.
  repeat (apply NoDup_cons_2;
          [ intros H;
            repeat (apply elem_of_cons in H as [H|H]; [discriminate H|]);
            by apply elem_of_nil in H
          | ]).
  apply NoDup_nil_2.
Qed.

Lemma wf_world_cell_NoDup (ch : CellHeader) (wd : WorldCell) :
  wf_world_cell ch wd = true -> NoDup (map slot_key (cell_slots wd)).
Proof.
  intros Hwf. rewrite (wf_world_cell_slot_keys _ _ Hwf). apply all_slot_keys_NoDup.
Qed.

(** Every slot of a well-formed cell sits where the table says, and its
    kind matches its descriptor. *)
Lemma wf_world_cell_slot (ch : CellHeader) (wd : WorldCell) (t : string) (i : nat)
    (sub : SubCell) :
  wf_world_cell ch wd = true ->
  In (t, i, sub) (cell_slots wd) ->
  exists subs, dict_get wd t = Some subs /\ subs !! i = Some sub /\
               wf_sub_cell ch t i sub = true.
Proof.
  intros Hwf Hin. unfold cell_slots in Hin.
  rewrite (wf_world_cell_keys _ _ Hwf) in Hin.
  apply in_flat_map in Hin as (t' & Ht' & Hin).
  unfold categories in Ht'. apply in_map_iff in Ht' as ([t'' [hc ar]] & <- & Hl).
  cbn [fst] in Hin.
  destruct (wf_world_cell_get _ _ _ _ _ Hwf Hl) as (subs & Hs & Hlen & Hall).
  rewrite Hs in Hin. apply in_map_iff in Hin as ([i' sub'] & [= <- <- <-] & Hin).
  apply enumerate_from_In in Hin as [_ Hin]. rewrite Nat.sub_0_r in Hin.
  exists subs. eauto.
Qed.

(** Conversely, every slot of the table is a slot of the cell. *)
Lemma wf_world_cell_slot_at (ch : CellHeader) (wd : WorldCell) (t : string) (i : nat) :
  wf_world_cell ch wd = true ->
  valid_slot t i ->
  exists sub, In (t, i, sub) (cell_slots wd) /\ wf_sub_cell ch t i sub = true.
Proof.
  intros Hwf Hv. apply valid_slot_in in Hv.
  rewrite <- (wf_world_cell_slot_keys _ _ Hwf) in Hv.
  apply in_map_iff in Hv as ([[t' i'] sub] & [= -> ->] & Hin).
  exists sub. split; [done|].
  by destruct (wf_world_cell_slot _ _ _ _ _ Hwf Hin) as (? & _ & _ & ?).
Qed.

(** ** Serialising and re-parsing a cell header *)

Lemma sequence_map {A B} (f : A -> result B) (g : A -> B) (l : list A) :
  (forall x, In x l -> f x = Ok (g x)) -> sequence (map f l) = Ok (map g l).
Proof.
  induction l as [|x r IH]; intros H; cbn [map sequence]; [done|].
  rewrite (H x) by (by left). cbn [result_bind].
  rewrite IH by (intros; apply H; by right). done.
Qed.

Lemma in_places (p : string * string * option nat) :
  In p places <->
  exists t hc ar k, In (t, (hc, ar)) layout /\ In k (fields_of hc) /\
                    In p (places_of_field t ar k).
Proof.
  unfold places. rewrite in_flat_map. split.
  - intros ([t [hc ar]] & Hl & Hp). apply in_flat_map in Hp as (k & Hk & Hp).
    by exists t, hc, ar, k.
  - intros (t & hc & ar & k & Hl & Hk & Hp). exists (t, (hc, ar)).
    split; [done|]. apply in_flat_map. eauto.
Qed.

Lemma at2_field_val (ch : CellHeader) (t k : string) (v : pyval) :
  field_val ch t k = Some v -> at2 ch t k = Ok v.
Proof.
  unfold field_val, at2, getkey. destruct (dict_get ch t); [|done].
  cbn [of_option result_bind]. by intros ->.
Qed.

Lemma wf_field_seq_item (n : nat) (v : pyval) (i : nat) :
  wf_field (Some n) v = true -> (i < n)%nat ->
  exists z, getitem v i = Ok (AInt z) /\ int_item v i = Some z.
Proof.
  intros Hwf Hi.
  assert (exists l, (v = PTuple l \/ v = PList l) /\ length l = n /\
                    forallb is_AInt l = true) as (l & Hv & Hlen & Hall).
  { destruct v as [[z|b]|l|l]; cbn in Hwf; try done;
      apply andb_true_iff in Hwf as [Hlen%Nat.eqb_eq Hall]; eauto. }
  destruct (l !! i) as [a|] eqn:Ha; [|apply lookup_ge_None in Ha; lia].
  rewrite forallb_forall in Hall.
  assert (is_AInt a = true) as Hai
    by (apply Hall, list_elem_of_In, list_elem_of_lookup; eauto).
  destruct a as [z|b]; [|done]. exists z.
  unfold int_item. destruct Hv as [-> | ->]; cbn [getitem seq_item]; by rewrite Ha.
Qed.

Lemma wf_field_scalar_item (v : pyval) :
  wf_field None v = true -> exists z, v = PInt z.
Proof. destruct v as [[z|b]|l|l]; cbn; try done. eauto. Qed.

Lemma cell_data_item_wf (ch : CellHeader) (p : string * string * option nat) :
  wf_cell_header ch = true ->
  In p places ->
  exists z, cell_data_item ch p = Ok (PInt z) /\ place_value ch p = Some z.
Proof.
  intros Hwf (t & hc & ar & k & Hl%layout_In_get & Hk & Hp)%in_places.
  destruct (wf_cell_header_field _ _ _ _ _ Hwf Hl Hk) as (v & Hv & Hwfv).
  unfold place_value, field_at.
  destruct ar as [n|]; cbn [places_of_field] in Hp.
  - apply in_map_iff in Hp as (i & <- & Hi%in_seq). cbn [fst snd default from_option id].
    rewrite Hv. cbn [cell_data_item]. unfold at3. rewrite (at2_field_val _ _ _ _ Hv).
    cbn [result_bind].
    destruct (wf_field_seq_item _ _ i Hwfv) as (z & -> & ->); [lia|].
    cbn [result_bind]. by exists z.
  - destruct Hp as [<-|[]]. cbn [fst snd default from_option id cell_data_item].
    rewrite Hv, (at2_field_val _ _ _ _ Hv).
    destruct (wf_field_scalar_item _ Hwfv) as [z ->]. by exists z.
Qed.

Lemma cell_data_wf (ch : CellHeader) :
  wf_cell_header ch = true ->
  sequence (cell_data_of ch) = Ok (map PInt (cell_values ch)).
Proof.
  intros Hwf. rewrite cell_data_of_places. unfold cell_values. rewrite map_map.
  apply sequence_map. intros p Hp.
  destruct (cell_data_item_wf _ _ Hwf Hp) as (z & -> & ->). done.
Qed.

Lemma length_cell_values (ch : CellHeader) : length (cell_values ch) = 97%nat.
Proof. unfold cell_values. by rewrite length_map. Qed.

Lemma create_cell_header_wf (ch : CellHeader) :
  wf_cell_header ch = true ->
  create_cell_header ch = pack_codes (replicate 97 Fmti) (map PInt (cell_values ch)).
Proof.
  intros Hwf. unfold create_cell_header. rewrite (cell_data_wf _ Hwf).
  cbn [result_bind]. unfold pack. by rewrite parse_cell_format.
Qed.

Lemma canon_ints (zs : list Z) :
  zip_with canon (replicate (length zs) Fmti) (map PInt zs) = map AInt zs.
Proof. induction zs as [|z r IH]; cbn; [done|]. by rewrite IH. Qed.

Lemma parse_create_cell_header (ch : CellHeader) (b : bytes) :
  wf_cell_header ch = true ->
  create_cell_header ch = Ok b ->
  length b = 388%nat /\
  parse_cell_header b = Ok (cell_header_of (map AInt (cell_values ch))).
Proof.
  intros Hwf Hc. rewrite (create_cell_header_wf _ Hwf) in Hc.
  pose proof (length_pack_codes _ _ _ Hc) as Hlen.
  change (codes_size (replicate 97 Fmti)) with 388%nat in Hlen.
  split; [done|].
  unfold parse_cell_header, unpack. rewrite parse_cell_format.
  cbn [of_option result_bind].
  change (codes_size (replicate 97 Fmti)) with 388%nat.
  rewrite Hlen, Nat.eqb_refl. cbn [result_bind].
  rewrite (unpack_pack_codes _ _ _ Hc).
  rewrite <- (length_cell_values ch) at 1. rewrite canon_ints.
  rewrite length_map, length_cell_values. done.
Qed.

(** A list of 97 integers, spelled out. *)
Ltac spell_out zs H :=
  do 97 (destruct zs as [|? zs]; [discriminate H|]);
  destruct zs; [|discriminate H]; clear H.

Lemma cell_header_of_places (zs : list Z) :
  length zs = 97%nat ->
  map (place_value (cell_header_of (map AInt zs))) places = map Some zs.
Proof. intros H. spell_out zs H. vm_compute. reflexivity. Qed.

Lemma cell_header_of_wf (zs : list Z) :
  length zs = 97%nat -> wf_cell_header (cell_header_of (map AInt zs)) = true.
Proof. intros H. spell_out zs H. vm_compute. reflexivity. Qed.

Lemma field_at_place (t k : string) (i : nat) (hc : bool) (ar : option nat) :
  dict_get layout t = Some (hc, ar) -> In k (fields_of hc) -> (i < slots ar)%nat ->
  exists p, In p places /\ forall ch, place_value ch p = field_at ch t k i.
Proof.
  intros Hl Hk Hi.
  exists (t, k, match ar with Some _ => Some i | None => None end). split.
  - apply in_places. exists t, hc, ar, k.
    split; [by apply list_elem_of_In, dict_get_elem_of|]. split; [done|].
    unfold slots in Hi. destruct ar as [n|]; simpl in Hi; cbn [places_of_field];
      [|by left].
    apply in_map_iff. exists i. split; [done|]. apply in_seq. lia.
  - intros ch. unfold place_value, slots in *.
    destruct ar as [n|]; simpl in Hi; cbn [fst snd default from_option id]; [done|].
    by replace i with 0%nat by lia.
Qed.

Lemma same_fields_descriptor (ch ch2 : CellHeader) (t : string) (i : nat) :
  same_fields ch ch2 -> valid_slot t i -> descriptor ch2 t i = descriptor ch t i.
Proof.
  intros Hs (hc & ar & Hl & Hi). unfold descriptor.
  rewrite !(Hs t hc ar _ i Hl) by (done || destruct hc; cbn; tauto). done.
Qed.

(** What was serialised parses back to the same integers. *)
Lemma reparse_cell_header (ch : CellHeader) (b : bytes) :
  wf_cell_header ch = true ->
  create_cell_header ch = Ok b ->
  length b = 388%nat /\
  exists ch2, parse_cell_header b = Ok ch2 /\ wf_cell_header ch2 = true /\
              same_fields ch ch2.
Proof.
  intros Hwf Hc. destruct (parse_create_cell_header _ _ Hwf Hc) as [Hlen Hp].
  split; [done|]. eexists. split; [exact Hp|].
  split; [apply cell_header_of_wf, length_cell_values|].
  intros t hc ar k i Hl Hk Hi.
  destruct (field_at_place t k i hc ar Hl Hk Hi) as (p & Hin & Hpv).
  rewrite <- !Hpv.
  pose proof (cell_header_of_places _ (length_cell_values ch)) as Hm.
  unfold cell_values in Hm at 2. rewrite map_map in Hm.
  destruct (cell_data_item_wf _ _ Hwf Hin) as (z & _ & Hz).
  rewrite (proj1 map_ext_in_iff Hm p Hin). by rewrite Hz.
Qed.

(** ** Slices of the output buffer *)

Lemma py_slice_prefix {A} (l : list A) (n : nat) :
  (n <= length l)%nat -> py_slice l 0 (Z.of_nat n) = take n l.
Proof.
  intros Hn. unfold py_slice, clamp_index.
  destruct (Z.ltb_spec (Z.of_nat n) 0); [lia|]. cbn [Z.ltb Z.compare].
  rewrite !Z.min_l by lia. cbn [Z.to_nat drop]. f_equal. lia.
Qed.

Lemma py_slice_suffix {A} (l : list A) (n : nat) :
  (n <= length l)%nat -> py_slice l (Z.of_nat n) (Z.of_nat (length l)) = drop n l.
Proof.
  intros Hn. unfold py_slice, clamp_index.
  destruct (Z.ltb_spec (Z.of_nat n) 0); [lia|].
  destruct (Z.ltb_spec (Z.of_nat (length l)) 0); [lia|].
  rewrite !Z.min_l by lia. rewrite Nat2Z.id.
  apply take_ge. rewrite length_drop. lia.
Qed.

Lemma py_slice_range {A} (l : list A) (a n : nat) :
  py_slice l (Z.of_nat a) (Z.of_nat a + Z.of_nat n) = take n (drop a l).
Proof.
  unfold py_slice, clamp_index.
  destruct (Z.ltb_spec (Z.of_nat a) 0); [lia|].
  destruct (Z.ltb_spec (Z.of_nat a + Z.of_nat n) 0); [lia|].
  destruct (Nat.le_gt_cases a (length l)) as [Hle|Hgt].
  - rewrite (Z.min_l (Z.of_nat a)) by lia. rewrite Nat2Z.id.
    destruct (Nat.le_gt_cases (a + n) (length l)).
    + rewrite Z.min_l by lia. f_equal. lia.
    + rewrite Z.min_r by lia.
      transitivity (drop a l); [|symmetry]; apply take_ge; rewrite length_drop; lia.
  - rewrite !Z.min_r by lia. rewrite Nat2Z.id, Z.sub_diag.
    rewrite !drop_ge by lia. cbn. by destruct n.
Qed.

Lemma splice_length (nd b : bytes) (c : nat) :
  length b = 388%nat -> (60 + 388 * (c + 1) <= length nd)%nat ->
  length (take (60 + 388 * c) nd ++ b ++ drop (60 + 388 * (c + 1)) nd) = length nd.
Proof.
  intros Hb Hn. rewrite !length_app, length_take, length_drop. lia.
Qed.

Lemma splice_before (nd b : bytes) (c n : nat) :
  (n <= 60 + 388 * c)%nat -> (60 + 388 * (c + 1) <= length nd)%nat ->
  take n (take (60 + 388 * c) nd ++ b ++ drop (60 + 388 * (c + 1)) nd) = take n nd.
Proof.
  intros Hn Hlen. rewrite take_app_le by (rewrite length_take; lia).
  rewrite take_take. f_equal. lia.
Qed.

Lemma splice_after (nd b : bytes) (c n : nat) :
  length b = 388%nat ->
  (60 + 388 * (c + 1) <= n)%nat -> (60 + 388 * (c + 1) <= length nd)%nat ->
  drop n (take (60 + 388 * c) nd ++ b ++ drop (60 + 388 * (c + 1)) nd) = drop n nd.
Proof.
  intros Hb Hn Hlen.
  rewrite drop_app_ge by (rewrite length_take; lia).
  rewrite length_take, Nat.min_l by lia.
  rewrite drop_app_ge by lia. rewrite drop_drop. f_equal. lia.
Qed.

Lemma splice_region (nd b : bytes) (c : nat) :
  length b = 388%nat -> (60 + 388 * (c + 1) <= length nd)%nat ->
  region c (take (60 + 388 * c) nd ++ b ++ drop (60 + 388 * (c + 1)) nd) = b.
Proof.
  intros Hb Hlen. unfold region.
  rewrite drop_app_length' by (rewrite length_take; lia).
  by rewrite take_app_length'.
Qed.

Lemma take_prefix_mono {A} (l1 l2 : list A) (n m : nat) :
  take m l1 = take m l2 -> (n <= m)%nat -> take n l1 = take n l2.
Proof.
  intros H Hn. replace n with (Nat.min n m) by lia.
  rewrite <- !take_take. by rewrite H.
Qed.

Lemma region_take (l1 l2 : bytes) (c n : nat) :
  (60 + 388 * (c + 1) <= n)%nat ->
  take n l1 = take n l2 -> region c l1 = region c l2.
Proof.
  intros Hn Heq. unfold region.
  replace 388%nat with (60 + 388 * (c + 1) - (60 + 388 * c))%nat at 1 3 by lia.
  rewrite !take_drop_commute.
  replace (60 + 388 * c + (60 + 388 * (c + 1) - (60 + 388 * c)))%nat
    with (60 + 388 * (c + 1))%nat by lia.
  replace (60 + 388 * (c + 1))%nat with (Nat.min (60 + 388 * (c + 1)) n) by lia.
  by rewrite <- !take_take, Heq.
Qed.

(** ** One cell of the writer *)

Lemma with_cell_run {A} (c : nat) (m : M CellHeader A) (self : TileFile)
    (ch ch' : CellHeader) (r : result A) :
  cell_headers self !! c = Some ch ->
  m ch = (ch', r) ->
  with_cell c m self = (set_cell_headers (<[c := ch']> (cell_headers self)) self, r).
Proof. intros Hc Hm. unfold with_cell. by rewrite Hc, Hm. Qed.

Lemma write_cell_chunks_spec (off : Z) (wd : WorldCell) (blob : bytes)
    (ch ch' : CellHeader) (blob' : bytes) :
  wf_cell_header ch = true ->
  wf_world_cell ch wd = true ->
  write_cell_chunks off wd blob ch = (ch', Ok blob') ->
  Forall raw_ok (cell_chunks wd) /\
  blob' = blob ++ payloads (cell_chunks wd) /\
  cell_written off blob wd ch ch'.
Proof.
  intros Hwf Hwd Hrun. rewrite write_cell_chunks_slots in Hrun.
  pose proof (wf_world_cell_valid _ _ Hwd) as Hvalid.
  pose proof (write_slots_raw_ok _ _ _ _ _ _ Hrun Hwf Hvalid) as Hraw.
  destruct (write_slots_spec off (cell_slots wd) blob ch Hwf Hvalid
              (wf_world_cell_NoDup _ _ Hwd) Hraw) as (ch2 & Hrun2 & Hspec).
  rewrite Hrun2 in Hrun. injection Hrun as <- <-. done.
Qed.

Lemma write_cell_spec (off : Z) (nd blob : bytes) (c : nat) (self self' : TileFile)
    (nd' blob' : bytes) (h : Header) (ch : CellHeader) (wd : WorldCell) :
  header self = Some h ->
  cell_header_offset h = 60 ->
  cell_headers self !! c = Some ch ->
  world_data self !! c = Some wd ->
  wf_cell_header ch = true ->
  wf_world_cell ch wd = true ->
  (60 + 388 * (c + 1) <= length nd)%nat ->
  write_cell off (nd, blob) c self = (self', Ok (nd', blob')) ->
  exists ch' b,
    self' = set_cell_headers (<[c := ch']> (cell_headers self)) self /\
    Forall raw_ok (cell_chunks wd) /\
    blob' = blob ++ payloads (cell_chunks wd) /\
    cell_written off blob wd ch ch' /\
    create_cell_header ch' = Ok b /\
    length b = 388%nat /\
    nd' = take (60 + 388 * c) nd ++ b ++ drop (60 + 388 * (c + 1)) nd.
Proof.
  intros Hh Hoff Hch Hwd Hwf Hwfw Hlen Hrun. unfold write_cell in Hrun.
  rewrite (bind_run _ _ self self self) in Hrun by done.
  rewrite Hwd in Hrun. cbn [of_option] in Hrun.
  rewrite (bind_run _ _ self self wd) in Hrun by done.
  destruct (write_cell_chunks off wd blob ch) as [ch' [blob1|e]] eqn:Hchunks.
  2:{ rewrite (bind_raise _ _ _ _ _ (with_cell_run _ _ _ _ _ _ Hch Hchunks)) in Hrun.
      discriminate. }
  rewrite (bind_run _ _ _ _ _ (with_cell_run _ _ _ _ _ _ Hch Hchunks)) in Hrun.
  destruct (write_cell_chunks_spec _ _ _ _ _ _ Hwf Hwfw Hchunks)
    as (Hraw & -> & Hwritten).
  set (self1 := set_cell_headers _ self) in Hrun.
  rewrite (bind_run _ _ self1 self1 self1) in Hrun by done.
  assert (cell_headers self1 !! c = Some ch') as Hch1.
  { subst self1. cbn [cell_headers set_cell_headers].
    apply list_lookup_insert_eq. by eapply lookup_lt_Some. }
  rewrite Hch1 in Hrun. cbn [of_option] in Hrun.
  rewrite (bind_run _ _ self1 self1 ch') in Hrun by done.
  destruct (create_cell_header ch') as [b|e] eqn:Hcreate.
  2:{ rewrite (bind_raise _ _ self1 self1 e) in Hrun by done. discriminate. }
  rewrite (bind_run _ _ self1 self1 b) in Hrun by done.
  destruct Hwritten as (Hwf' & Hrest).
  destruct (reparse_cell_header _ _ Hwf' Hcreate) as [Hb _].
  rewrite Hb in Hrun. change (388 =? CELL_DATA_SIZE)%nat with true in Hrun.
  cbn [negb] in Hrun.
  assert (header self1 = Some h) as Hh1 by done.
  rewrite Hh1 in Hrun. cbn [of_option] in Hrun.
  rewrite (bind_run _ _ self1 self1 h) in Hrun by done.
  cbv zeta in Hrun. rewrite Hoff in Hrun.
  change (Z.of_nat CELL_DATA_SIZE) with 388 in Hrun.
  destruct (Z.eqb_spec (Z.of_nat 388) (60 + 388 * Z.of_nat c + 388
                                         - (60 + 388 * Z.of_nat c))); [|lia].
  cbn [negb] in Hrun.
  destruct (Z.gtb_spec (60 + 388 * Z.of_nat c + 388) (Z.of_nat (length nd))); [lia|].
  injection Hrun as <- <- <-.
  exists ch', b. split; [done|]. split; [done|]. split; [done|].
  split; [by split|]. split; [done|]. split; [done|].
  replace (60 + 388 * Z.of_nat c) with (Z.of_nat (60 + 388 * c)) by lia.
  rewrite py_slice_prefix by lia.
  replace (Z.of_nat (60 + 388 * c) + 388) with (Z.of_nat (60 + 388 * (c + 1))) by lia.
  rewrite py_slice_suffix by lia. done.
Qed.

(** ** The loop over the cells *)

Lemma wf_model_lengths (self : TileFile) :
  wf_model self = true -> length (world_data self) = length (cell_headers self).
Proof.
  unfold wf_model. rewrite andb_true_iff. by intros [H%Nat.eqb_eq _].
Qed.

Lemma wf_model_cell (self : TileFile) (c : nat) (ch : CellHeader) (wd : WorldCell) :
  wf_model self = true ->
  cell_headers self !! c = Some ch ->
  world_data self !! c = Some wd ->
  wf_cell_header ch = true /\ wf_world_cell ch wd = true.
Proof.
  unfold wf_model. rewrite andb_true_iff. intros [_ H] Hc Hw.
  rewrite forallb_forall in H. apply andb_true_iff.
  apply (H (ch, wd)). apply list_elem_of_In.
  by apply (elem_of_lookup_zip_with_2 pair _ _ ch wd (ch, wd) c).
Qed.

Lemma drop_lookup_cons {A} (l : list A) (c : nat) (x : A) :
  l !! c = Some x -> drop c l = x :: drop (S c) l.
Proof.
  revert c. induction l as [|y r IH]; intros [|c]; cbn; try done.
  - by intros [= ->].
  - apply IH.
Qed.

Lemma write_cells_spec (off : Z) (k : nat) :
  forall c nd blob self self' nd' blob' h,
    header self = Some h ->
    cell_header_offset h = 60 ->
    (c + k <= length (cell_headers self))%nat ->
    length (world_data self) = length (cell_headers self) ->
    (forall c' ch wd, (c <= c' < c + k)%nat ->
       cell_headers self !! c' = Some ch -> world_data self !! c' = Some wd ->
       wf_cell_header ch = true /\ wf_world_cell ch wd = true) ->
    (60 + 388 * (c + k) <= length nd)%nat ->
    for_fold (seq c k) (nd, blob) (write_cell off) self = (self', Ok (nd', blob')) ->
    header self' = Some h /\
    world_data self' = world_data self /\
    length (cell_headers self') = length (cell_headers self) /\
    length nd' = length nd /\
    take (60 + 388 * c) nd' = take (60 + 388 * c) nd /\
    drop (60 + 388 * (c + k)) nd' = drop (60 + 388 * (c + k)) nd /\
    blob' = blob ++ cells_payloads (take k (drop c (world_data self))) /\
    (forall c', (c' < c \/ c + k <= c')%nat ->
       cell_headers self' !! c' = cell_headers self !! c') /\
    (forall c' ch wd, (c <= c' < c + k)%nat ->
       cell_headers self !! c' = Some ch -> world_data self !! c' = Some wd ->
       Forall raw_ok (cell_chunks wd) /\
       exists ch' b,
         cell_headers self' !! c' = Some ch' /\
         cell_written off
           (blob ++ cells_payloads (take (c' - c) (drop c (world_data self))))
           wd ch ch' /\
         create_cell_header ch' = Ok b /\
         region c' nd' = b).
Proof.
  induction k as [|k IH];
    intros c nd blob self self' nd' blob' h Hh Hoff Hck Hlw Hwf Hlen Hrun.
  { injection Hrun as <- <- <-. unfold cells_payloads. cbn [take map concat].
    rewrite app_nil_r. split_and!; try done. intros; lia. }
  cbn [seq for_fold] in Hrun.
  apply bind_Ok in Hrun as (self1 & [nd1 blob1] & Hcell & Hrun).
  destruct (lookup_lt_is_Some_2 (cell_headers self) c) as [ch Hch]; [lia|].
  destruct (lookup_lt_is_Some_2 (world_data self) c) as [wd Hwd]; [lia|].
  destruct (Hwf c ch wd) as [Hwfc Hwfw]; [lia|done|done|].
  destruct (write_cell_spec off nd blob c self self1 nd1 blob1 h ch wd
              Hh Hoff Hch Hwd Hwfc Hwfw ltac:(lia) Hcell)
    as (ch1 & b & Hs1 & Hraw & Hb1 & Hwritten & Hcreate & Hb & Hnd1).
  assert (cell_headers self1 = <[c := ch1]> (cell_headers self)) as Hchs
    by (by rewrite Hs1).
  assert (world_data self1 = world_data self) as Hws by (by rewrite Hs1).
  assert (header self1 = Some h) as Hh1 by (by rewrite Hs1).
  specialize (IH (S c) nd1 blob1 self1 self' nd' blob' h).
  destruct IH as (Hh' & Hw' & Hl' & Hln' & Htk' & Hdr' & Hbl' & Hout' & Hin');
    [done|done| | | | |exact Hrun|]; rewrite ?Hnd1 in *; rewrite ?Hb1 in *;
    clear Hs1 Hnd1 Hb1.
  { rewrite Hchs, length_insert. lia. }
  { by rewrite Hchs, length_insert, Hws. }
  { intros c' ch' wd' Hc' Hch' Hwd'. rewrite Hchs in Hch'.
    rewrite list_lookup_insert_ne in Hch' by lia. rewrite Hws in Hwd'.
    apply (Hwf c' ch' wd'); [lia|done|done]. }
  { rewrite splice_length by (done || lia). lia. }
  rewrite Hws in *. rewrite Hchs, length_insert in Hl'.
  rewrite splice_length in Hln' by (done || lia).
  pose proof (drop_lookup_cons _ _ _ Hwd) as Hdrop.
  split; [done|]. split; [done|]. split; [done|]. split; [done|].
  split.
  { rewrite (take_prefix_mono _ _ (60 + 388 * c) _ Htk') by lia.
    apply splice_before; lia. }
  split.
  { replace (c + S k)%nat with (S c + k)%nat by lia. rewrite Hdr'.
    apply splice_after; [done|lia|lia]. }
  split.
  { rewrite Hbl', Hdrop. unfold cells_payloads. cbn [take map concat].
    by rewrite <- app_assoc. }
  split.
  { intros c' Hc'. rewrite Hout' by lia. rewrite Hchs.
    apply list_lookup_insert_ne. lia. }
  intros c' ch' wd' Hc' Hch' Hwd'.
  destruct (decide (c' = c)) as [->|Hne].
  - rewrite Hch in Hch'. rewrite Hwd in Hwd'. injection Hch' as <-. injection Hwd' as <-.
    split; [done|]. exists ch1, b.
    split.
    { rewrite Hout' by lia. rewrite Hchs. apply list_lookup_insert_eq.
      by eapply lookup_lt_Some. }
    split.
    { rewrite Nat.sub_diag. unfold cells_payloads. cbn [take map concat].
      by rewrite app_nil_r. }
    split; [done|].
    rewrite (region_take nd' _ c (60 + 388 * S c) ltac:(lia) Htk').
    apply splice_region; [done|lia].
  - destruct (Hin' c' ch' wd') as (Hraw' & ch2 & b2 & Hch2 & Hwr2 & Hcr2 & Hrg2);
      [lia| |done|].
    { rewrite Hchs. rewrite list_lookup_insert_ne by lia. done. }
    split; [done|]. exists ch2, b2. split; [done|]. split; [|done].
    rewrite Hdrop. replace (c' - c)%nat with (S (c' - S c)) by lia.
    unfold cells_payloads in *. cbn [take map concat].
    by rewrite <- app_assoc in Hwr2.
Qed.

(** ** The written file *)

Lemma build_new_data_spec (self self' : TileFile) (out : bytes) :
  wf_model self = true ->
  build_new_data self = (self', Ok out) ->
  let n := length (cell_headers self) in
  exists h nd',
    header self = Some h /\
    cell_header_offset h = 60 /\
    header self' = Some h /\
    world_data self' = world_data self /\
    length (cell_headers self') = n /\
    write_header self [] = Ok (take 60 nd') /\
    length nd' = (60 + 388 * n)%nat /\
    out = nd' ++ cells_payloads (world_data self) /\
    (forall c ch wd,
       cell_headers self !! c = Some ch -> world_data self !! c = Some wd ->
       Forall raw_ok (cell_chunks wd) /\
       exists ch' b,
         cell_headers self' !! c = Some ch' /\
         cell_written (Z.of_nat (60 + 388 * n))
           (cells_payloads (take c (world_data self))) wd ch ch' /\
         create_cell_header ch' = Ok b /\
         region c nd' = b).
Proof.
  intros Hwf Hrun n. unfold build_new_data in Hrun.
  rewrite (bind_run _ _ self self self) in Hrun by done.
  destruct (write_header self []) as [hdr|e] eqn:Hhdr.
  2:{ rewrite (bind_raise _ _ self self e) in Hrun by done. discriminate. }
  rewrite (bind_run _ _ self self hdr) in Hrun by done.
  pose proof (write_header_length _ _ _ Hhdr) as Hlh. cbn [length Nat.add] in Hlh.
  destruct (header self) as [h|] eqn:Hh.
  2:{ rewrite (bind_raise _ _ self self TypeError) in Hrun by done. discriminate. }
  rewrite (bind_run _ _ self self h) in Hrun by done.
  destruct (Z.eqb_spec (Z.of_nat (length hdr)) (cell_header_offset h)) as [Hoff|];
    [|discriminate].
  cbn [negb] in Hrun.
  destruct (count_sub_cells self) as [cnt|e] eqn:Hcnt.
  2:{ rewrite (bind_raise _ _ self self e) in Hrun by done. discriminate. }
  rewrite (bind_run _ _ self self cnt) in Hrun by done.
  cbv zeta in Hrun. fold n in Hrun.
  apply bind_Ok in Hrun as (self1 & [nd' blob'] & Hloop & Hret).
  injection Hret as <- <-.
  pose proof (wf_model_lengths _ Hwf) as Hlw.
  assert (length (hdr ++ replicate (CELL_DATA_SIZE * n) "X"%byte)
          = (60 + 388 * n)%nat) as Hl0.
  { rewrite length_app, length_replicate, Hlh. unfold CELL_DATA_SIZE. lia. }
  rewrite Hl0 in Hloop.
  destruct (write_cells_spec (Z.of_nat (60 + 388 * n)) n 0
              (hdr ++ replicate (CELL_DATA_SIZE * n) "X"%byte) [] self self1
              nd' blob' h Hh ltac:(lia) ltac:(unfold n; lia) Hlw) as
    (Hh' & Hw' & Hl' & Hln' & Htk' & _ & Hbl' & _ & Hin'); [| |exact Hloop|].
  { intros c' ch wd _ Hc Hw. by eapply wf_model_cell. }
  { rewrite Hl0. lia. }
  exists h, nd'. split; [done|]. split; [lia|]. split; [done|]. split; [done|].
  split; [done|]. split.
  { cbn [Nat.mul Nat.add] in Htk'. replace (60 + 388 * 0)%nat with 60%nat in Htk' by lia.
    rewrite Htk'. rewrite take_app_length' by done. done. }
  split; [lia|]. split.
  { rewrite Hbl', drop_0. cbn [app]. rewrite take_ge by (unfold n; lia). done. }
  intros c ch wd Hc Hw.
  destruct (Hin' c ch wd) as (Hraw & ch' & b & H1 & H2 & H3 & H4); [|done|done|].
  { apply lookup_lt_Some in Hc. unfold n. lia. }
  split; [done|]. exists ch', b. rewrite Nat.sub_0_r, drop_0 in H2. done.
Qed.

Lemma payloads_app (l1 l2 : list (string * nat * SubCellData)) :
  payloads (l1 ++ l2) = payloads l1 ++ payloads l2.
Proof. unfold payloads. by rewrite map_app, concat_app. Qed.

Lemma cells_payloads_app (l1 l2 : list WorldCell) :
  cells_payloads (l1 ++ l2) = cells_payloads l1 ++ cells_payloads l2.
Proof. unfold cells_payloads. by rewrite map_app, concat_app. Qed.

Lemma payloads_split (chunks : list (string * nat * SubCellData)) (j : nat)
    (x : string * nat * SubCellData) :
  chunks !! j = Some x ->
  payloads chunks
  = payloads (take j chunks) ++ chunk_payload x ++ payloads (drop (S j) chunks).
Proof.
  intros Hj. rewrite <- (take_drop_middle _ _ _ Hj) at 1.
  rewrite payloads_app. by f_equal.
Qed.

Lemma cells_payloads_split (cells : list WorldCell) (c : nat) (wd : WorldCell) :
  cells !! c = Some wd ->
  cells_payloads cells
  = cells_payloads (take c cells) ++ payloads (cell_chunks wd)
      ++ cells_payloads (drop (S c) cells).
Proof.
  intros Hc. rewrite <- (take_drop_middle _ _ _ Hc) at 1.
  rewrite cells_payloads_app. by f_equal.
Qed.

Lemma chunk_raw_ok (t : string) (i : nat) (sc : SubCellData) :
  raw_ok (t, i, sc) -> raw_of t sc = Ok (chunk_raw (t, i, sc)).
Proof.
  intros [raw Hr]. unfold chunk_raw.
  change (raw_of (t, i, sc).1.1 (t, i, sc).2) with (raw_of t sc) in *.
  by rewrite Hr.
Qed.

(** The cell headers stored in the written bytes. *)
Lemma build_new_data_written (self self' : TileFile) (out : bytes) :
  wf_model self = true ->
  build_new_data self = (self', Ok out) ->
  let n := length (cell_headers self) in
  length out = (60 + 388 * n + length (cells_payloads (world_data self)))%nat /\
  drop (60 + 388 * n) out = cells_payloads (world_data self) /\
  (exists h, header self = Some h /\ cell_header_offset h = 60 /\
             header self' = Some h /\ exists hdr, write_header self [] = Ok hdr /\
             take 60 out = hdr) /\
  (forall c ch wd,
     cell_headers self !! c = Some ch -> world_data self !! c = Some wd ->
     Forall raw_ok (cell_chunks wd) /\
     exists ch' ch2,
       cell_headers self' !! c = Some ch' /\
       cell_written (Z.of_nat (60 + 388 * n))
         (cells_payloads (take c (world_data self))) wd ch ch' /\
       written_cell_header out c = Ok ch2 /\
       wf_cell_header ch2 = true /\
       same_fields ch' ch2).
Proof.
  intros Hwf Hrun n.
  destruct (build_new_data_spec _ _ _ Hwf Hrun)
    as (h & nd' & Hh & Hoff & Hh' & Hw' & Hl' & Hhdr & Hlen & -> & Hcells).
  fold n in Hlen, Hcells.
  split; [rewrite length_app; lia|]. split; [by rewrite drop_app_length'|].
  split.
  { exists h. split; [done|]. split; [done|]. split; [done|]. eexists.
    split; [exact Hhdr|]. rewrite take_app_le by lia. done. }
  intros c ch wd Hc Hw.
  destruct (Hcells c ch wd Hc Hw) as (Hraw & ch' & b & Hc' & Hwr & Hcr & Hrg).
  split; [done|].
  destruct (reparse_cell_header ch' b (proj1 Hwr) Hcr) as (Hb & ch2 & Hp & Hwf2 & Hsf).
  exists ch', ch2. split; [done|]. split; [done|]. split; [|done].
  unfold written_cell_header. change CELL_DATA_SIZE with 388%nat.
  fold (region c (nd' ++ cells_payloads (world_data self))).
  apply lookup_lt_Some in Hc. fold n in Hc.
  rewrite (region_take _ nd' c (60 + 388 * n)); [by rewrite Hrg| |].
  - assert (c + 1 <= n)%nat by lia. nia.
  - rewrite take_app_length' by done. by rewrite take_ge by lia.
Qed.

(** ** Chunks and slots *)

Lemma cell_chunks_slot (wd : WorldCell) (t : string) (i : nat) (sc : SubCellData) :
  (t, i, sc) ∈ cell_chunks wd <-> (t, i, Chunk sc) ∈ cell_slots wd.
Proof.
  unfold cell_chunks. rewrite list_elem_of_omap. split.
  - intros ([[t' i'] sub] & Hin & Hc). destruct sub; [done|].
    by injection Hc as -> -> ->.
  - intros Hin. by exists (t, i, Chunk sc).
Qed.

Lemma dict_get_Some_keys {V} (d : dict V) (k : string) (v : V) :
  dict_get d k = Some v -> In k (dict_keys d).
Proof.
  unfold dict_keys. induction d as [|[k0 v0] r IH]; cbn; [done|].
  destruct (String.eqb_spec k0 k) as [->|Hne]; [by left|].
  intros H. right. by apply IH.
Qed.

Lemma cell_slots_In (wd : WorldCell) (t : string) (i : nat) (sub : SubCell)
    (subs : list SubCell) :
  dict_get wd t = Some subs -> subs !! i = Some sub -> In (t, i, sub) (cell_slots wd).
Proof.
  intros Hs Hi. unfold cell_slots. apply in_flat_map. exists t.
  split; [by eapply dict_get_Some_keys|]. rewrite Hs.
  apply in_map_iff. exists (i, sub). split; [done|].
  apply list_elem_of_In, list_elem_of_lookup. exists i.
  unfold enumerate. by rewrite (enumerate_from_lookup _ 0 i sub Hi).
Qed.

Lemma slot_key_inj (sl : list (string * nat * SubCell)) (t : string) (i : nat)
    (s1 s2 : SubCell) :
  NoDup (map slot_key sl) -> In (t, i, s1) sl -> In (t, i, s2) sl -> s1 = s2.
Proof.
  induction sl as [|[[t' i'] s] r IH]; cbn [map In]; [done|].
  rewrite NoDup_cons. intros [Hnotin Hnd] [H1|H1] [H2|H2].
  - congruence.
  - injection H1 as -> -> ->. exfalso. apply Hnotin.
    apply list_elem_of_In. by apply (in_map slot_key) in H2.
  - injection H2 as -> -> ->. exfalso. apply Hnotin.
    apply list_elem_of_In. by apply (in_map slot_key) in H1.
  - by apply IH.
Qed.

(** The stored descriptor of a decoded chunk. *)
Lemma written_descriptor_chunk (self self' : TileFile) (out : bytes) (c j : nat)
    (wd : WorldCell) (x : string * nat * SubCellData) :
  wf_model self = true ->
  build_new_data self = (self', Ok out) ->
  (c < length (cell_headers self))%nat ->
  world_data self !! c = Some wd ->
  cell_chunks wd !! j = Some x ->
  let d := new_descriptor (Z.of_nat (60 + 388 * length (cell_headers self)))
             (length (cells_payloads (take c (world_data self))
                      ++ payloads (take j (cell_chunks wd)))) x in
  raw_ok x /\
  written_descriptor out c x.1.1 x.1.2 = Some d /\
  exists ch', cell_headers self' !! c = Some ch' /\ descriptor ch' x.1.1 x.1.2 = Some d.
Proof.
  intros Hwf Hrun Hc Hw Hj d.
  destruct (lookup_lt_is_Some_2 (cell_headers self) c Hc) as [ch Hch].
  destruct (build_new_data_written _ _ _ Hwf Hrun) as (_ & _ & _ & Hcells).
  destruct (Hcells c ch wd Hch Hw)
    as (Hraw & ch' & ch2 & Hch' & (Hwf' & Hd & _) & Hwr & Hwf2 & Hsf).
  split.
  { rewrite Forall_forall in Hraw. apply Hraw. apply list_elem_of_lookup. eauto. }
  assert (valid_slot x.1.1 x.1.2) as Hv.
  { destruct (wf_model_cell _ _ _ _ Hwf Hch Hw) as [_ Hwfw].
    pose proof (wf_world_cell_valid _ _ Hwfw) as Hvalid.
    rewrite Forall_forall in Hvalid. destruct x as [[t i] sc].
    apply (Hvalid (t, i, Chunk sc)). apply cell_chunks_slot.
    apply list_elem_of_lookup. eauto. }
  split.
  - unfold written_descriptor. rewrite Hwr.
    rewrite (same_fields_descriptor _ _ _ _ Hsf Hv). by apply Hd.
  - exists ch'. split; [done|]. by apply Hd.
Qed.

(** ** Contiguous descriptors *)

Lemma contiguous_chunks (D : string -> nat -> option Descriptor) (off : Z) :
  forall chunks before rest stop,
    (forall j x, chunks !! j = Some x ->
       D x.1.1 x.1.2
       = Some (new_descriptor off (before + length (payloads (take j chunks))) x)) ->
    contiguous (Z.of_nat (before + length (payloads chunks)) + off) rest stop ->
    contiguous (Z.of_nat before + off)
      (map (fun x => D x.1.1 x.1.2) chunks ++ rest) stop.
Proof.
  induction chunks as [|x r IH]; intros before rest stop HD Hrest.
  { unfold payloads in Hrest. cbn in *. by rewrite Nat.add_0_r in Hrest. }
  cbn [map app contiguous]. rewrite (HD 0%nat x eq_refl).
  unfold payloads at 1. cbn [take map concat length new_descriptor d_index d_compressed].
  rewrite Nat.add_0_r. split; [done|]. split; [lia|].
  replace (Z.of_nat before + off + Z.of_nat (length (chunk_payload x)))
    with (Z.of_nat (before + length (chunk_payload x)) + off) by lia.
  apply IH.
  - intros j y Hj. rewrite (HD (S j) y Hj). f_equal. f_equal.
    cbn [take]. unfold payloads. cbn [map concat]. rewrite length_app. lia.
  - unfold payloads in *. cbn [map concat] in Hrest. rewrite length_app in Hrest.
    by rewrite <- Nat.add_assoc.
Qed.

Lemma contiguous_cells (D : nat -> string -> nat -> option Descriptor) (off : Z) :
  forall cells c before stop,
    (forall c' wd j x, cells !! c' = Some wd -> cell_chunks wd !! j = Some x ->
       D (c + c')%nat x.1.1 x.1.2
       = Some (new_descriptor off
                 (before + length (cells_payloads (take c' cells))
                  + length (payloads (take j (cell_chunks wd)))) x)) ->
    Z.of_nat (before + length (cells_payloads cells)) + off = stop ->
    contiguous (Z.of_nat before + off)
      (flat_map (fun '(c', wd) =>
         map (fun x => D c' x.1.1 x.1.2) (cell_chunks wd)) (enumerate_from c cells))
      stop.
Proof.
  induction cells as [|wd r IH]; intros c before stop HD Hstop.
  { unfold cells_payloads in Hstop. cbn in *. by rewrite Nat.add_0_r in Hstop. }
  cbn [enumerate_from flat_map]. apply contiguous_chunks.
  - intros j x Hj. specialize (HD 0%nat wd j x eq_refl Hj).
    rewrite Nat.add_0_r in HD. rewrite HD. unfold cells_payloads.
    cbn [take map concat length]. by rewrite Nat.add_0_r.
  - apply IH.
    + intros c' wd' j x Hc' Hj. specialize (HD (S c') wd' j x Hc' Hj).
      rewrite Nat.add_succ_r in HD. cbn [Nat.add]. rewrite HD. f_equal. f_equal.
      unfold cells_payloads. cbn [take map concat]. rewrite length_app. lia.
    + rewrite <- Hstop. unfold cells_payloads. cbn [map concat].
      rewrite length_app. lia.
Qed.

(** ** The writer *)

(** C2.  When [write_file] reaches the [j]-th decoded chunk of cell [c]
    (slot [i] of category [t]), the data blob holds the compressed payloads
    of all chunks visited before; the chunk is encoded and compressed, and
    the slot's descriptor becomes: index = length of that blob + offset of
    the blob in the file, compressed size = length of the compressed bytes,
    size = length of the raw bytes; the compressed bytes follow in the blob
    of the written file. *)
Theorem offset_reconstruction (self self' : TileFile) (out : bytes) (c j : nat)
    (wd : WorldCell) (t : string) (i : nat) (sub_cell : SubCellData) :
  wf_model self = true ->
  build_new_data self = (self', Ok out) ->
  (c < length (cell_headers self))%nat ->
  world_data self !! c = Some wd ->
  cell_chunks wd !! j = Some (t, i, sub_cell) ->
  let data_blob_offset := (60 + 388 * length (cell_headers self))%nat in
  let data_blob :=
    cells_payloads (take c (world_data self)) ++ payloads (take j (cell_chunks wd)) in
  exists raw_sub_cell_data cell_header,
    raw_of t sub_cell = Ok raw_sub_cell_data /\
    cell_headers self' !! c = Some cell_header /\
    descriptor cell_header t i
    = Some (mkDescriptor
              (Z.of_nat (length data_blob) + Z.of_nat data_blob_offset)
              (Z.of_nat (length (lz4_block_compress raw_sub_cell_data)))
              (Z.of_nat (length raw_sub_cell_data))) /\
    exists rest,
      drop data_blob_offset out
      = data_blob ++ lz4_block_compress raw_sub_cell_data ++ rest.
Proof.
  intros Hwf Hrun Hc Hw Hj off blob. subst off blob.
  destruct (written_descriptor_chunk _ _ _ _ _ _ _ Hwf Hrun Hc Hw Hj)
    as (Hraw & _ & ch' & Hch' & Hd).
  exists (chunk_raw (t, i, sub_cell)), ch'.
  split; [by apply chunk_raw_ok|]. split; [done|]. split; [exact Hd|].
  destruct (build_new_data_written _ _ _ Hwf Hrun) as (_ & -> & _).
  rewrite (cells_payloads_split _ _ _ Hw), (payloads_split _ _ _ Hj).
  eexists. rewrite <- !app_assoc. reflexivity.
Qed.

(** C3.  In the bytes [write_file] produces, the descriptor stored for a
    slot that held a decoded chunk ends within the file:
    index + compressed size <= length of the output. *)
Theorem bounds_invariant (self self' : TileFile) (out : bytes) (c : nat)
    (wd : WorldCell) (t : string) (i : nat) (sub_cells : list SubCell)
    (sub_cell : SubCellData) :
  wf_model self = true ->
  build_new_data self = (self', Ok out) ->
  (c < length (cell_headers self))%nat ->
  world_data self !! c = Some wd ->
  dict_get wd t = Some sub_cells ->
  sub_cells !! i = Some (Chunk sub_cell) ->
  exists d,
    written_descriptor out c t i = Some d /\
    d_index d + d_compressed d <= Z.of_nat (length out).
Proof.
  intros Hwf Hrun Hc Hw Hs Hi.
  assert ((t, i, sub_cell) ∈ cell_chunks wd) as Hin.
  { apply cell_chunks_slot, list_elem_of_In. by eapply cell_slots_In. }
  apply list_elem_of_lookup in Hin as [j Hj].
  destruct (written_descriptor_chunk _ _ _ _ _ _ _ Hwf Hrun Hc Hw Hj)
    as (_ & Hd & _).
  eexists. split; [exact Hd|].
  destruct (build_new_data_written _ _ _ Hwf Hrun) as (Hlen & _).
  rewrite Hlen, (cells_payloads_split _ _ _ Hw), (payloads_split _ _ _ Hj).
  cbn [new_descriptor d_index d_compressed]. rewrite !length_app. lia.
Qed.

(** C4.  A descriptor that is unused before writing (index <= 0 or
    compressed size <= 0) belongs to a slot that holds a placeholder, and
    the cell header written out by [write_file] holds exactly the same
    index, compressed size and size for it; so does the cell header in
    memory. *)
Theorem absent_descriptor_stability (self self' : TileFile) (out : bytes) (c : nat)
    (ch : CellHeader) (t : string) (i : nat) (d : Descriptor) :
  wf_model self = true ->
  build_new_data self = (self', Ok out) ->
  cell_headers self !! c = Some ch ->
  valid_slot t i ->
  descriptor ch t i = Some d ->
  is_unused d = true ->
  written_descriptor out c t i = Some d /\
  (exists ch', cell_headers self' !! c = Some ch' /\ descriptor ch' t i = Some d) /\
  (exists wd sub_cells a b c0,
     world_data self !! c = Some wd /\ dict_get wd t = Some sub_cells /\
     sub_cells !! i = Some (Placeholder a b c0)).
Proof.
  intros Hwf Hrun Hch Hv Hd Hunused.
  destruct (lookup_lt_is_Some_2 (world_data self) c) as [wd Hw].
  { rewrite (wf_model_lengths _ Hwf). by eapply lookup_lt_Some. }
  destruct (wf_model_cell _ _ _ _ Hwf Hch Hw) as [Hwfc Hwfw].
  destruct (wf_world_cell_slot_at _ _ _ _ Hwfw Hv) as (sub & Hin & Hsub).
  destruct (wf_world_cell_slot _ _ _ _ _ Hwfw Hin) as (subs & Hs & Hi & _).
  unfold wf_sub_cell in Hsub. rewrite Hd in Hsub.
  destruct sub as [a b c0|sc]; [|by rewrite Hunused in Hsub].
  assert (forall x, x ∈ cell_chunks wd -> x.1 <> (t, i)) as Hfresh.
  { intros [[t' i'] sc] Hx [= -> ->]. apply cell_chunks_slot, list_elem_of_In in Hx.
    by pose proof (slot_key_inj _ _ _ _ _ (wf_world_cell_NoDup _ _ Hwfw) Hin Hx). }
  destruct (build_new_data_written _ _ _ Hwf Hrun) as (_ & _ & _ & Hcells).
  destruct (Hcells c ch wd Hch Hw)
    as (_ & ch' & ch2 & Hch' & (_ & _ & Hframe) & Hwr & _ & Hsf).
  assert (descriptor ch' t i = Some d) as Hd'.
  { rewrite <- Hd. unfold descriptor. by rewrite !Hframe by (by right). }
  split.
  { unfold written_descriptor. rewrite Hwr.
    by rewrite (same_fields_descriptor _ _ _ _ Hsf Hv). }
  split; [by exists ch'|]. by exists wd, subs, a, b, c0.
Qed.

(** C9.  In the bytes [write_file] produces, the stored descriptors of the
    decoded chunks, in the order the writer visits them, tile the data
    blob: the first one starts at [cell_header_offset + cell_count * 388],
    each next one starts where the previous one ends (its index plus its
    compressed size), and the last one ends with the file. *)
Theorem data_blob_contiguity (self self' : TileFile) (out : bytes) (h : Header) :
  wf_model self = true ->
  build_new_data self = (self', Ok out) ->
  header self = Some h ->
  contiguous
    (cell_header_offset h + 388 * Z.of_nat (length (cell_headers self)))
    (written_descriptors self out)
    (Z.of_nat (length out)).
Proof.
  intros Hwf Hrun Hh.
  destruct (build_new_data_written _ _ _ Hwf Hrun)
    as (Hlen & _ & (h' & Hh' & Hoff & _) & _).
  rewrite Hh in Hh'. injection Hh' as <-. rewrite Hoff.
  pose proof (wf_model_lengths _ Hwf) as Hlw.
  set (n := length (cell_headers self)) in *.
  replace (60 + 388 * Z.of_nat n)
    with (Z.of_nat 0 + Z.of_nat (60 + 388 * n)) by lia.
  unfold written_descriptors, enumerate. fold n.
  apply (contiguous_cells (written_descriptor out)).
  - intros c' wd j x Hc' Hj. apply lookup_take_Some in Hc' as [Hc' Hlt].
    destruct (written_descriptor_chunk _ _ _ _ _ _ _ Hwf Hrun Hlt Hc' Hj)
      as (_ & Hd & _).
    cbn [Nat.add]. rewrite Hd. fold n. rewrite length_app.
    rewrite take_take. by replace (Nat.min c' n) with c' by lia.
  - rewrite take_ge by lia. rewrite Hlen. lia.
Qed.

(** ** The overflow check of the validator *)

Lemma for_each_prints {A} (l : list A) (body : A -> M (list diag) unit)
    (f : A -> list diag) :
  (forall x out, In x l -> body x out = (out ++ f x, Ok tt)) ->
  forall out, for_each l body out = (out ++ flat_map f l, Ok tt).
Proof.
  unfold for_each. induction l as [|x r IH]; intros H out; cbn [for_fold flat_map].
  - by rewrite app_nil_r.
  - rewrite (bind_run _ _ _ _ _ (H x out (or_introl eq_refl))).
    rewrite IH by (intros; apply H; by right). by rewrite <- app_assoc.
Qed.

Lemma check_pointer_spec (new_data : bytes) (c : nat) (key : string) (a b : Z)
    (out : list diag) :
  check_pointer new_data c key (PInt a) (PInt b) out
  = (out ++ overflow_flag (length new_data) c key a b, Ok tt).
Proof.
  unfold check_pointer, overflow_flag.
  rewrite (bind_run _ _ out out a) by done.
  rewrite (bind_run _ _ out out b) by done. cbv zeta.
  destruct (a + b - 1 >=? Z.of_nat (length new_data)); [done|].
  unfold ret. by rewrite app_nil_r.
Qed.

Lemma wf_chunk_field (hc : bool) (ar : option nat) (chunk : dict pyval) (k : string) :
  wf_chunk hc ar chunk = true -> In k (fields_of hc) ->
  exists v, dict_get chunk k = Some v /\ wf_field ar v = true.
Proof.
  unfold wf_chunk. rewrite forallb_forall. intros H Hk. specialize (H k Hk).
  destruct (dict_get chunk k) as [v|]; [eauto|done].
Qed.

Lemma check_chunk_overflow (new_data : bytes) (c : nat) (key : string)
    (chunk : dict pyval) (hc : bool) (ar : option nat) (out : list diag) :
  wf_chunk hc ar chunk = true ->
  (indexes <- lift (getkey chunk "index") ;;
   if is_int indexes then
     compressed <- lift (getkey chunk "compressed") ;;
     check_pointer new_data c key indexes compressed
   else
     let index_pointers := indexes in
     size_pointers <- lift (getkey chunk "compressed") ;;
     n <- lift (py_len index_pointers) ;;
     for_each (seq 0 n) (fun i =>
       index_pointer <- lift (getitem index_pointers i) ;;
       size_pointer <- lift (getitem size_pointers i) ;;
       check_pointer new_data c key (PAtom index_pointer) (PAtom size_pointer))) out
  = (out ++ chunk_overflow (length new_data) c key chunk, Ok tt).
Proof.
  intros Hwf.
  destruct (wf_chunk_field _ _ _ "index" Hwf) as (vi & Hvi & Hwi);
    [destruct hc; cbn; tauto|].
  destruct (wf_chunk_field _ _ _ "compressed" Hwf) as (vc & Hvc & Hwc);
    [destruct hc; cbn; tauto|].
  unfold chunk_overflow. rewrite Hvi, Hvc.
  rewrite (bind_run _ _ out out vi) by (unfold lift, getkey; by rewrite Hvi).
  destruct ar as [n|].
  - rewrite (wf_field_seq_not_int _ _ Hwi). cbv zeta.
    rewrite (bind_run _ _ out out vc) by (unfold lift, getkey; by rewrite Hvc).
    assert (py_len vi = Ok n /\ pointer_count vi = n) as [Hlen ->].
    { destruct vi as [[z|b]|l|l]; cbn in Hwi; try done;
        apply andb_true_iff in Hwi as [Hl%Nat.eqb_eq _]; cbn; by rewrite Hl. }
    rewrite (bind_run _ _ out out n) by (unfold lift; by rewrite Hlen).
    apply for_each_prints. intros i out' Hi%in_seq.
    destruct (wf_field_seq_item _ _ i Hwi) as (a & Ha & ->); [lia|].
    destruct (wf_field_seq_item _ _ i Hwc) as (b & Hb & ->); [lia|].
    rewrite (bind_run _ _ out' out' (AInt a)) by (unfold lift; by rewrite Ha).
    rewrite (bind_run _ _ out' out' (AInt b)) by (unfold lift; by rewrite Hb).
    apply check_pointer_spec.
  - destruct (wf_field_scalar_item _ Hwi) as [a ->].
    destruct (wf_field_scalar_item _ Hwc) as [b ->]. cbn [is_int PInt].
    rewrite (bind_run _ _ out out (PInt b)) by (unfold lift, getkey; by rewrite Hvc).
    rewrite check_pointer_spec. cbn. by rewrite app_nil_r.
Qed.

Lemma categories_NoDup : NoDup categories.
Proof.
  unfold categories. cbn.
  repeat (apply NoDup_cons_2;
          [ intros H;
            repeat (apply elem_of_cons in H as [H|H]; [discriminate H|]);
            by apply elem_of_nil in H
          | ]).
  apply NoDup_nil_2.
Qed.

Lemma dict_get_NoDup {V} (d : dict V) (k : string) (v : V) :
  NoDup (dict_keys d) -> (k, v) ∈ d -> dict_get d k = Some v.
Proof.
  unfold dict_keys. induction d as [|[k0 v0] r IH]; cbn [map fst dict_get].
  - by intros _ ?%elem_of_nil.
  - rewrite NoDup_cons. intros [Hnotin Hnd] [[= -> ->]|Hin]%elem_of_cons.
    + by rewrite String.eqb_refl.
    + destruct (String.eqb_spec k0 k) as [->|Hne]; [|by apply IH].
      exfalso. apply Hnotin. apply list_elem_of_fmap. by exists (k, v).
Qed.

Lemma wf_cell_header_item (ch : CellHeader) (key : string) (chunk : dict pyval) :
  wf_cell_header ch = true -> (key, chunk) ∈ ch ->
  exists hc ar, dict_get layout key = Some (hc, ar) /\ wf_chunk hc ar chunk = true.
Proof.
  intros Hwf Hin.
  pose proof (wf_cell_header_keys _ Hwf) as Hk.
  assert (dict_get ch key = Some chunk) as Hg.
  { apply dict_get_NoDup; [|done]. rewrite Hk. apply categories_NoDup. }
  assert (In key categories) as Hc.
  { rewrite <- Hk. by eapply dict_get_Some_keys. }
  unfold categories in Hc. apply in_map_iff in Hc as ([t [hc ar]] & Ht & Hl).
  cbn in Ht. subst t. exists hc, ar. split; [by apply layout_In_get|].
  unfold wf_cell_header in Hwf. apply andb_true_iff in Hwf as [_ Hall].
  rewrite forallb_forall in Hall. specialize (Hall _ Hl). cbn beta iota in Hall.
  by rewrite Hg in Hall.
Qed.

Lemma enumerate_from_snd {A} (l : list A) (n i : nat) (x : A) :
  In (i, x) (enumerate_from n l) -> In x l.
Proof.
  intros [_ H]%enumerate_from_In. apply list_elem_of_In, list_elem_of_lookup. eauto.
Qed.

Lemma check_overflow_spec (tile : TileFile) (new_data : bytes) (out : list diag) :
  Forall (fun ch => wf_cell_header ch = true) (cell_headers tile) ->
  check_overflow tile new_data out
  = (out ++ overflow_warnings (length new_data) (cell_headers tile), Ok tt).
Proof.
  intros Hwf. unfold check_overflow, overflow_warnings.
  apply for_each_prints. intros [c ch] out1 Hin.
  apply for_each_prints. intros [key chunk] out2 Hin2.
  rewrite Forall_forall in Hwf.
  destruct (wf_cell_header_item ch key chunk) as (hc & ar & _ & Hwc).
  { apply Hwf. apply list_elem_of_In. by eapply enumerate_from_snd. }
  { by apply list_elem_of_In. }
  by apply (check_chunk_overflow _ _ _ _ hc ar).
Qed.

(** *** What the reader leaves in the model *)

Lemma unpack_codes_ints (n : nat) (data : bytes) :
  exists zs, unpack_codes (replicate n Fmti) data = map AInt zs /\ length zs = n.
Proof.
  revert data. induction n as [|n IH]; intros data.
  - by exists [].
  - cbn [replicate unpack_codes unpack_code].
    destruct (IH (drop (code_size Fmti) data)) as (zs & -> & Hlen).
    eexists (_ :: zs). split; [reflexivity|]. cbn. by rewrite Hlen.
Qed.

Lemma parse_cell_header_inv (b : bytes) (ch : CellHeader) :
  parse_cell_header b = Ok ch ->
  length b = 388%nat /\
  exists zs, length zs = 97%nat /\ ch = cell_header_of (map AInt zs).
Proof.
  unfold parse_cell_header, unpack. rewrite parse_cell_format.
  cbn [of_option result_bind].
  change (codes_size (replicate 97 Fmti)) with 388%nat.
  destruct (Nat.eqb_spec (length b) 388) as [Hb|Hb]; [|discriminate].
  destruct (unpack_codes_ints 97 b) as (zs & -> & Hlen).
  cbn [result_bind]. rewrite length_map, Hlen.
  change (97 =? CELL_HEADER_SIZE)%nat with true. cbn [negb].
  intros [= <-]. eauto.
Qed.

Lemma parse_cell_header_wf (b : bytes) (ch : CellHeader) :
  parse_cell_header b = Ok ch -> wf_cell_header ch = true.
Proof.
  intros (_ & zs & Hlen & ->)%parse_cell_header_inv. by apply cell_header_of_wf.
Qed.

Lemma bind_state {S A B} (P : S -> Prop) (c : M S A) (k : A -> M S B) (s : S) :
  P (c s).1 -> (forall a s1, P s1 -> P (k a s1).1) -> P (bind c k s).1.
Proof.
  unfold bind. destruct (c s) as [s1 [a|e]]; cbn; [|done]. intros H Hk. by apply Hk.
Qed.

Lemma for_fold_state {S A B} (P : S -> Prop) (l : list A) (body : B -> A -> M S B) :
  (forall acc x s, P s -> P (body acc x s).1) ->
  forall acc s, P s -> P (for_fold l acc body s).1.
Proof.
  intros Hb. induction l as [|x r IH]; intros acc s Hs; cbn [for_fold]; [done|].
  apply bind_state; [by apply Hb|]. intros a s1 Hs1. by apply IH.
Qed.

Lemma parse_header_cell_headers (data : bytes) (self : TileFile) :
  cell_headers (parse_header data self).1 = cell_headers self.
Proof.
  rewrite parse_header_spec. cbn zeta.
  destruct (_ <? _)%nat; [done|]. by destruct (negb _).
Qed.

Lemma parse_cell_headers_wf (data : bytes) (self : TileFile) :
  Forall (fun ch => wf_cell_header ch = true) (cell_headers self) ->
  Forall (fun ch => wf_cell_header ch = true)
    (cell_headers (parse_cell_headers data self).1).
Proof.
  intros Hs. unfold parse_cell_headers.
  apply (bind_state (fun s => Forall _ (cell_headers s))); [done|]. intros s0 s1 H1.
  apply (bind_state (fun s => Forall _ (cell_headers s))); [done|]. intros h s2 H2.
  apply (bind_state (fun s => Forall _ (cell_headers s))); [|done].
  apply (for_fold_state (fun s => Forall _ (cell_headers s))); [|done].
  intros off _ s Hs'.
  apply (bind_state (fun s => Forall _ (cell_headers s))); [done|]. intros _ s3 H3.
  unfold lift, bind at 1.
  destruct (parse_cell_header _) as [ch|e] eqn:E; [|done].
  apply (bind_state (fun s => Forall _ (cell_headers s))); [|done].
  cbn. apply Forall_app. split; [done|]. apply Forall_singleton.
  by eapply parse_cell_header_wf.
Qed.

Lemma read_file_cell_headers_wf (raw : option bytes) (self : TileFile) :
  Forall (fun ch => wf_cell_header ch = true) (cell_headers self) ->
  Forall (fun ch => wf_cell_header ch = true) (cell_headers (read_file raw self).1).
Proof.
  intros Hs. unfold read_file.
  apply (bind_state (fun s => Forall _ (cell_headers s))).
  { destruct raw as [[|b r]|]; cbn; try done;
      destruct (file_path self); cbn; done. }
  intros data s1 H1.
  apply (bind_state (fun s => Forall _ (cell_headers s))); [done|]. intros _ s2 H2.
  apply (bind_state (fun s => Forall _ (cell_headers s))).
  { by rewrite parse_header_cell_headers. }
  intros _ s3 H3.
  apply (bind_state (fun s => Forall _ (cell_headers s)));
    [by apply parse_cell_headers_wf|].
  intros _ s4 H4.
  apply (bind_state (fun s => Forall _ (cell_headers s))); [done|]. intros s5 s6 H6.
  apply (for_fold_state (fun s => Forall _ (cell_headers s))); [|done].
  intros _ ch s Hs'. unfold lift, bind.
  by destruct (decode_cell _ _).
Qed.

Lemma int_item_count (v : pyval) (i : nat) (z : Z) :
  int_item v i = Some z -> (i < pointer_count v)%nat.
Proof.
  unfold int_item. destruct (seq_item v i) as [a|] eqn:E; [|done]. intros _.
  destruct v as [a0|l|l]; cbn in *.
  - destruct (Nat.eqb_spec i 0); [lia|done].
  - by eapply lookup_lt_Some.
  - by eapply lookup_lt_Some.
Qed.

Lemma overflow_warnings_In (len : nat) (headers : list CellHeader) (w : diag) :
  In w (overflow_warnings len headers) <->
  exists c ch t chunk vi vc i a b,
    headers !! c = Some ch /\ (t, chunk) ∈ ch /\
    dict_get chunk "index" = Some vi /\ dict_get chunk "compressed" = Some vc /\
    int_item vi i = Some a /\ int_item vc i = Some b /\
    a + b - 1 >= Z.of_nat len /\
    w = WarnCellHeaderOverflow c t (a + b - 1) len.
Proof.
  unfold overflow_warnings. rewrite in_flat_map. split.
  - intros ([c ch] & Hin & Hw). apply enumerate_from_In in Hin as [_ Hc].
    rewrite Nat.sub_0_r in Hc.
    apply in_flat_map in Hw as ([t chunk] & Hin & Hw).
    unfold chunk_overflow in Hw.
    destruct (dict_get chunk "index") as [vi|] eqn:Ei; [|done].
    destruct (dict_get chunk "compressed") as [vc|] eqn:Ec; [|done].
    apply in_flat_map in Hw as (i & _ & Hw).
    destruct (int_item vi i) as [a|] eqn:Ea; [|done].
    destruct (int_item vc i) as [b|] eqn:Eb; [|done].
    unfold overflow_flag in Hw.
    destruct (Z.geb_spec (a + b - 1) (Z.of_nat len)) as [Hge|]; [|done].
    destruct Hw as [<-|[]].
    exists c, ch, t, chunk, vi, vc, i, a, b.
    split_and!; try done; [by apply list_elem_of_In|lia].
  - intros (c & ch & t & chunk & vi & vc & i & a & b
            & Hc & Hin & Ei & Ec & Ea & Eb & Hge & ->).
    exists (c, ch). split.
    { apply list_elem_of_In, list_elem_of_lookup. exists c.
      apply (enumerate_from_lookup _ 0%nat) in Hc. by rewrite Nat.add_0_l in Hc. }
    apply in_flat_map. exists (t, chunk). split; [by apply list_elem_of_In|].
    unfold chunk_overflow. rewrite Ei, Ec. apply in_flat_map. exists i. split.
    { apply in_seq. apply int_item_count in Ea. lia. }
    rewrite Ea, Eb. unfold overflow_flag.
    destruct (Z.geb_spec (a + b - 1) (Z.of_nat len)); [by left|lia].
Qed.

Lemma descriptor_fields (ch : CellHeader) (t : string) (i : nat) (d : Descriptor) :
  descriptor ch t i = Some d ->
  field_at ch t "index" i = Some (d_index d) /\
  field_at ch t "compressed" i = Some (d_compressed d) /\
  field_at ch t "size" i = Some (d_size d).
Proof.
  unfold descriptor.
  destruct (field_at ch t "index" i), (field_at ch t "compressed" i),
    (field_at ch t "size" i); try done.
  by intros [= <-].
Qed.

Lemma field_at_item (ch : CellHeader) (t k : string) (i : nat) (z : Z) :
  field_at ch t k i = Some z <->
  exists chunk v, dict_get ch t = Some chunk /\ dict_get chunk k = Some v /\
                  int_item v i = Some z.
Proof.
  unfold field_at, field_val. split.
  - destruct (dict_get ch t) as [chunk|]; [|done].
    destruct (dict_get chunk k) as [v|] eqn:E; [|done]. eauto.
  - intros (chunk & v & -> & -> & H). done.
Qed.

(** C8. The overflow loop of the validator, run on the model [tile] that the
    re-parse of the written bytes left behind: for every descriptor of every
    cell header of [tile] it takes [index + compressed - 1], and it prints
    the overflow warning for that value exactly when the value is greater
    than or equal to the length of the written buffer; it prints nothing
    else, and its warnings are the last thing the validator prints when the
    re-parse failed. *)
Theorem overflow_flagged_iff_last_ge_length
    (self : TileFile) (new_data : bytes) (printed : list diag) :
  let tile := (read_file (Some new_data) (set_DEBUG true (TileFile_init None))).1 in
  let len := length new_data in
  let warnings := overflow_warnings len (cell_headers tile) in
  check_overflow tile new_data printed = (printed ++ warnings, Ok tt) /\
  (forall c ch t i d,
     cell_headers tile !! c = Some ch -> descriptor ch t i = Some d ->
     (In (WarnCellHeaderOverflow c t (d_index d + d_compressed d - 1) len) warnings
      <-> d_index d + d_compressed d - 1 >= Z.of_nat len)) /\
  (forall w, In w warnings ->
     exists c ch t i a b,
       cell_headers tile !! c = Some ch /\
       field_at ch t "index" i = Some a /\ field_at ch t "compressed" i = Some b /\
       a + b - 1 >= Z.of_nat len /\
       w = WarnCellHeaderOverflow c t (a + b - 1) len) /\
  (forall out, __validate_write self new_data printed = (out, Ok false) ->
     exists before, out = before ++ warnings).
Proof.
  intros tile len warnings.
  assert (Forall (fun ch => wf_cell_header ch = true) (cell_headers tile)) as Hwf.
  { apply read_file_cell_headers_wf. by apply Forall_nil. }
  split_and!.
  - by apply check_overflow_spec.
  - intros c ch t i d Hc Hd.
    apply descriptor_fields in Hd as (Hi & Hco & _).
    apply field_at_item in Hi as (chunk & vi & Hch & Hvi & Hi).
    apply field_at_item in Hco as (chunk' & vc & Hch' & Hvc & Hco).
    assert (chunk' = chunk) as -> by congruence.
    unfold warnings. rewrite overflow_warnings_In. split.
    + intros (c' & ch' & t' & chunk' & vi' & vc' & i' & a & b & _ & _ & _ & _ & _ & _
              & Hge & [= _ _ Hl]). lia.
    + intros Hge. exists c, ch, t, chunk, vi, vc, i, (d_index d), (d_compressed d).
      split_and!; try done. by apply dict_get_elem_of.
  - intros w (c & ch & t & chunk & vi & vc & i & a & b
              & Hc & Hin & Ei & Ec & Ea & Eb & Hge & ->)%overflow_warnings_In.
    assert (dict_get ch t = Some chunk) as Hch.
    { apply dict_get_NoDup; [|done].
      rewrite Forall_forall in Hwf.
      rewrite (wf_cell_header_keys ch); [apply categories_NoDup|].
      apply Hwf. apply list_elem_of_lookup. eauto. }
    exists c, ch, t, i, a, b. split_and!; try done.
    + apply field_at_item. by exists chunk, vi.
    + apply field_at_item. by exists chunk, vc.
  - intros out. destruct run_as_script eqn:Hs.
    2:{ by rewrite (validate_write_imported self new_data printed Hs). }
    rewrite (validate_write_script self new_data printed Hs). fold tile.
    destruct (read_file _ _) as [tile0 r] eqn:E. subst tile. cbn [fst] in *.
    destruct r as [[]|e]; [discriminate|].
    unfold bind, print, modify, ret.
    destruct (check_header_values _ _ _) as [o1 [[]|e1]]; [|discriminate].
    destruct (check_cell_headers _ _ _) as [o2 [[]|e2]]; [|discriminate].
    rewrite (check_overflow_spec _ _ _ Hwf). intros [= <-]. eauto.
Qed.

(** *** The reader as a function of the bytes *)

Lemma sequence_map_Ok {A} (ys : list A) : sequence (map Ok ys) = Ok ys.
Proof. induction ys as [|y r IH]; cbn; [done|]. by rewrite IH. Qed.

Lemma sequence_Ok {A} (l : list (result A)) (ys : list A) :
  sequence l = Ok ys <-> l = map Ok ys.
Proof.
  split; [|intros ->; apply sequence_map_Ok].
  revert ys. induction l as [|x r IH]; intros ys; cbn [sequence].
  - by intros [= <-].
  - destruct x as [a|e]; cbn [result_bind]; [|done].
    destruct (sequence r) as [rs|e]; cbn [result_bind]; [|done].
    intros [= <-]. cbn. f_equal. by apply IH.
Qed.

Lemma sequence_lookup {A} (l : list (result A)) (ys : list A) (j : nat) (y : A) :
  sequence l = Ok ys -> (ys !! j = Some y <-> l !! j = Some (Ok y)).
Proof.
  intros ->%sequence_Ok. rewrite list_lookup_fmap.
  destruct (ys !! j) as [y'|]; cbn; [|done]. split; congruence.
Qed.

Lemma sequence_length {A} (l : list (result A)) (ys : list A) :
  sequence l = Ok ys -> length ys = length l.
Proof. intros ->%sequence_Ok. by rewrite length_map. Qed.

Lemma sequence_all_Ok {A} (l : list (result A)) :
  (forall x, x ∈ l -> exists y, x = Ok y) -> exists ys, sequence l = Ok ys.
Proof.
  induction l as [|x r IH]; intros H; cbn [sequence]; [eauto|].
  destruct (H x) as [y ->]; [left|].
  destruct IH as [ys ->]; [intros; apply H; by right|]. cbn. eauto.
Qed.

Lemma parse_cell_step_run (data : bytes) (cell_size offset : Z) (x : nat)
    (self : TileFile) :
  parse_cell_step data cell_size offset x self
  = let self1 := log_call (CallParseCellHeader offset) self in
    match parse_cell_header (py_slice data offset (offset + cell_size)) with
    | Ok ch => (set_cell_headers (cell_headers self1 ++ [ch]) self1,
                Ok (offset + cell_size))
    | Raise e => (self1, Raise e)
    end.
Proof.
  unfold parse_cell_step, bind, modify, lift, ret. cbn zeta.
  by destruct (parse_cell_header _).
Qed.

Lemma parse_cell_headers_loop (data : bytes) (cell_size : Z) (l : list nat) :
  forall (offset : Z) (self : TileFile),
  match sequence (map (fun c => parse_cell_header (cell_record_at data offset cell_size c))
                   (seq 0 (length l))) with
  | Ok chs =>
      exists self',
        for_fold l offset (parse_cell_step data cell_size) self
        = (self', Ok (offset + Z.of_nat (length l) * cell_size)) /\
        cell_headers self' = cell_headers self ++ chs /\
        header self' = header self /\ world_data self' = world_data self
  | Raise e =>
      exists self',
        for_fold l offset (parse_cell_step data cell_size) self = (self', Raise e)
  end.
Proof.
  induction l as [|x r IH]; intros offset self.
  - cbn. exists self. rewrite app_nil_r. split_and!; try done.
    unfold ret. do 2 f_equal. lia.
  - assert (for_fold (x :: r) offset (parse_cell_step data cell_size) self
            = let self1 := log_call (CallParseCellHeader offset) self in
              match parse_cell_header (py_slice data offset (offset + cell_size)) with
              | Ok ch =>
                  for_fold r (offset + cell_size) (parse_cell_step data cell_size)
                    (set_cell_headers (cell_headers self1 ++ [ch]) self1)
              | Raise e => (self1, Raise e)
              end) as ->.
    { cbn [for_fold]. unfold bind. rewrite parse_cell_step_run. cbn zeta.
      by destruct (parse_cell_header _). }
    cbn [length seq map sequence]. cbn zeta.
    rewrite <- seq_shift, map_map.
    assert (cell_record_at data offset cell_size 0 = py_slice data offset (offset + cell_size))
      as ->.
    { unfold cell_record_at. f_equal; lia. }
    rewrite (map_ext _ (fun c => parse_cell_header
                                   (cell_record_at data (offset + cell_size) cell_size c))).
    2:{ intros c. unfold cell_record_at. do 2 f_equal; lia. }
    destruct (parse_cell_header (py_slice data offset (offset + cell_size)))
      as [ch|e] eqn:E; cbn [result_bind]; [|eauto].
    specialize (IH (offset + cell_size)
                  (set_cell_headers (cell_headers (log_call (CallParseCellHeader offset) self)
                                     ++ [ch])
                     (log_call (CallParseCellHeader offset) self))).
    destruct (sequence _) as [chs|e]; cbn [result_bind].
    + destruct IH as (self' & -> & Hc & Hh & Hw). exists self'.
      split_and!; try done.
      * do 2 f_equal. lia.
      * rewrite Hc. cbn. by rewrite <- app_assoc.
    + exact IH.
Qed.

Lemma decode_cells_loop (data : bytes) (chs : list CellHeader) :
  forall self : TileFile,
  match sequence (map (decode_cell data) chs) with
  | Ok wds =>
      exists self',
        for_each chs (decode_cell_step data) self = (self', Ok tt) /\
        world_data self' = world_data self ++ wds /\
        cell_headers self' = cell_headers self /\ header self' = header self
  | Raise e =>
      exists self', for_each chs (decode_cell_step data) self = (self', Raise e)
  end.
Proof.
  unfold for_each. induction chs as [|ch r IH]; intros self.
  - cbn. exists self. by rewrite app_nil_r.
  - assert (for_fold (ch :: r) tt (fun _ x => decode_cell_step data x) self
            = match decode_cell data ch with
              | Ok wd =>
                  for_fold r tt (fun _ x => decode_cell_step data x)
                    (set_world_data (world_data self ++ [wd]) self)
              | Raise e => (self, Raise e)
              end) as ->.
    { cbn [for_fold]. unfold bind at 1. unfold decode_cell_step at 1.
      unfold bind, lift, modify. by destruct (decode_cell data ch) as [wd|e]. }
    cbn [map sequence].
    destruct (decode_cell data ch) as [wd|e]; cbn [result_bind]; [|eauto].
    specialize (IH (set_world_data (world_data self ++ [wd]) self)).
    destruct (sequence _) as [wds|e]; cbn [result_bind]; [|exact IH].
    destruct IH as (self' & -> & Hw & Hc & Hh). exists self'.
    split_and!; try done. rewrite Hw. cbn. by rewrite <- app_assoc.
Qed.

Lemma read_file_unfold (data : bytes) (self : TileFile) :
  data <> [] ->
  read_file (Some data) self
  = let self0 := log_call CallParseHeader (set_original_data data self) in
    let h := header_of_bytes data in
    if (length data <? 60)%nat then (self0, Raise StructError)
    else if negb (u32_at data 0 =? MAGIC_KEY) then (self0, Raise invalid_magic)
    else
      match for_fold (seq 0 (Z.to_nat (width h * height h))) (cell_header_offset h)
              (parse_cell_step data (cell_header_size h)) (set_header h self0) with
      | (self2, Ok _) => for_each (cell_headers self2) (decode_cell_step data) self2
      | (self2, Raise e) => (self2, Raise e)
      end.
Proof.
  intros Hne. unfold read_file.
  destruct data as [|b0 r0]; [done|]. set (data := b0 :: r0) in *.
  unfold bind at 1 2. unfold ret at 1, modify at 1.
  unfold bind at 1. rewrite parse_header_spec. cbn zeta.
  destruct (length data <? 60)%nat; [done|].
  destruct (negb (u32_at data 0 =? MAGIC_KEY)); [done|].
  unfold bind at 1. unfold parse_cell_headers.
  unfold bind at 1 2 3. unfold get at 1, lift at 1.
  cbn [header set_header of_option]. fold (parse_cell_step data).
  destruct (for_fold _ _ _ _) as [s2 [off|e]]; [|done].
  unfold ret at 1. unfold bind at 1. unfold get at 1. reflexivity.
Qed.

Lemma read_file_model (data : bytes) (self : TileFile) :
  data <> [] -> cell_headers self = [] -> world_data self = [] ->
  match read_model data with
  | Ok (h, chs, wds) =>
      exists self',
        read_file (Some data) self = (self', Ok tt) /\
        header self' = Some h /\ cell_headers self' = chs /\ world_data self' = wds
  | Raise e => exists self', read_file (Some data) self = (self', Raise e)
  end.
Proof.
  intros Hne Hc0 Hw0. rewrite (read_file_unfold _ _ Hne). unfold read_model. cbn zeta.
  destruct (length data <? 60)%nat; [eauto|].
  destruct (negb (u32_at data 0 =? MAGIC_KEY)); [eauto|].
  set (h := header_of_bytes data).
  set (s1 := set_header _ _).
  pose proof (parse_cell_headers_loop data (cell_header_size h)
                (seq 0 (Z.to_nat (width h * height h))) (cell_header_offset h) s1) as HL.
  rewrite length_seq in HL.
  destruct (sequence _) as [chs|e]; cbn [result_bind].
  - destruct HL as (s2 & -> & Hc2 & Hh2 & Hw2).
    pose proof (decode_cells_loop data (cell_headers s2) s2) as HD.
    change (cell_headers s1) with (cell_headers self) in Hc2.
    rewrite Hc0 in Hc2. cbn [app] in Hc2. rewrite Hc2 in HD |- *.
    destruct (sequence _) as [wds|e]; cbn [result_bind].
    + destruct HD as (s3 & -> & Hw3 & Hc3 & Hh3). exists s3.
      assert (world_data s1 = []) as Hw1 by done.
      assert (header s1 = Some h) as Hh1 by done.
      rewrite Hw2, Hw1 in Hw3. cbn [app] in Hw3.
      split_and!; try done; congruence.
    + destruct HD as (s3 & ->). eauto.
  - destruct HL as (s2 & ->). eauto.
Qed.

Lemma decode_cell_chunk_parsed (data : bytes) (zs : list Z) (t : string)
    (hc : bool) (ar : option nat) (f : option read_fn) :
  length zs = 97%nat -> In (t, (hc, ar)) layout ->
  decode_cell_chunk data (cell_header_of (map AInt zs)) t f
  = sequence (map (decode_slot data (cell_header_of (map AInt zs)) t f)
                (seq 0 (slots ar))).
Proof.
  intros H Hin. spell_out zs H. unfold layout in Hin.
  repeat (destruct Hin as [[= <- <- <-]|Hin]; [reflexivity|]). destruct Hin.
Qed.

Lemma dict_set_fresh {V} (d : dict V) (k : string) (v : V) :
  dict_get d k = None -> dict_set d k v = d ++ [(k, v)].
Proof.
  induction d as [|[k0 v0] r IH]; cbn [dict_get dict_set app]; [done|].
  destruct (String.eqb k0 k); [done|]. intros H. by rewrite IH.
Qed.

Lemma dict_get_app {V} (d1 d2 : dict V) (k : string) :
  dict_get (d1 ++ d2) k
  = match dict_get d1 k with Some v => Some v | None => dict_get d2 k end.
Proof.
  induction d1 as [|[k0 v0] r IH]; cbn [dict_get app]; [done|].
  by destruct (String.eqb k0 k).
Qed.

Lemma dict_build (ks : list string) :
  forall (cols : list (list SubCell)) (d0 : WorldCell),
    NoDup ks -> length cols = length ks ->
    (forall k, k ∈ ks -> dict_get d0 k = None) ->
    foldl (fun d kc => dict_set d kc.1 kc.2) d0 (zip ks cols) = d0 ++ zip ks cols.
Proof.
  induction ks as [|k r IH]; intros [|col cols] d0 Hnd Hlen Hfresh; try done.
  - cbn. by rewrite app_nil_r.
  - apply NoDup_cons in Hnd as [Hk Hnd]. cbn [zip zip_with foldl fst snd].
    rewrite dict_set_fresh by (apply Hfresh; left).
    rewrite IH; [by rewrite <- app_assoc|done|by injection Hlen|].
    intros k' Hk'. rewrite dict_get_app, Hfresh by (by right).
    cbn. destruct (String.eqb_spec k k') as [->|]; [done|done].
Qed.

Lemma decode_cell_fold (g : string -> result (list SubCell)) (ks : list string) :
  forall d0 : WorldCell,
    foldl (fun acc data_type =>
             let* cell_header_data := acc in
             let* cell_data := g data_type in
             Ok (dict_set cell_header_data data_type cell_data)) (Ok d0) ks
    = let* cols := sequence (map g ks) in
      Ok (foldl (fun d kc => dict_set d kc.1 kc.2) d0 (zip ks cols)).
Proof.
  induction ks as [|k r IH]; intros d0; cbn [foldl map sequence result_bind]; [done|].
  destruct (g k) as [col|e]; cbn [result_bind].
  - rewrite IH. by destruct (sequence (map g r)).
  - clear. induction r as [|k' r IH]; cbn [foldl result_bind]; [done|]. exact IH.
Qed.

Lemma decode_cell_parsed (data : bytes) (zs : list Z) :
  length zs = 97%nat ->
  let ch := cell_header_of (map AInt zs) in
  decode_cell data ch
  = let* cols := decode_columns data ch in Ok (zip categories cols).
Proof.
  intros Hlen ch. unfold decode_cell.
  rewrite (wf_cell_header_keys ch) by (by apply cell_header_of_wf).
  rewrite decode_cell_fold. unfold decode_columns, categories at 1.
  rewrite map_map.
  rewrite (map_ext_in _ (fun '(t, (_, ar)) =>
             sequence (map (decode_slot data ch t (read_for t)) (seq 0 (slots ar))))).
  2:{ intros [t [hc ar]] Hin. cbn [fst].
      rewrite <- (decode_cell_chunk_parsed data zs t hc ar) by done.
      unfold read_for. by destruct (dict_get read_write_functions t) as [[rf wf]|]. }
  destruct (sequence _) as [cols|e] eqn:E; cbn [result_bind]; [|done].
  f_equal. apply sequence_length in E. rewrite length_map in E.
  rewrite dict_build; [done|apply categories_NoDup| |done].
  unfold categories. by rewrite length_map.
Qed.

Lemma _decode_cell_chunk_int (data : bytes) (a s c : Z) (count : option pyval)
    (t : string) (f : option read_fn) :
  _decode_cell_chunk data (PInt a) (PInt s) (PInt c) count t f
  = if is_unused (mkDescriptor a c s) then Ok (Placeholder (PInt a) (PInt s) (PInt c))
    else
      let* raw := of_option (lz4_block_decompress (py_slice data a (a + c)) s)
                    LZ4BlockError in
      let meta := mkMeta a c s count in
      match f with
      | Some f =>
          let* d := of_option (f raw meta) CodecError in
          Ok (Chunk (mkSubCellData t raw (Some d) meta))
      | None => Ok (Chunk (mkSubCellData t raw None meta))
      end.
Proof.
  unfold _decode_cell_chunk, is_unused. cbn [as_int PInt result_bind d_index d_compressed].
  destruct (a <=? 0); cbn [result_bind orb]; [done|].
  by destruct (c <=? 0).
Qed.

Lemma decode_slot_wf (data : bytes) (ch : CellHeader) (t : string)
    (f : option read_fn) (i : nat) (sub : SubCell) :
  decode_slot data ch t f i = Ok sub -> wf_sub_cell ch t i sub = true.
Proof.
  unfold decode_slot, wf_sub_cell.
  destruct (descriptor ch t i) as [[a c s]|]; [|done].
  rewrite _decode_cell_chunk_int. cbn [d_index d_size d_compressed].
  destruct (is_unused _) eqn:E; [by intros [= <-]|].
  destruct (lz4_block_decompress _ _) as [raw|]; cbn [of_option result_bind]; [|done].
  destruct f as [f|]; [|by intros [= <-]].
  destruct (f raw _); cbn [of_option result_bind]; [|done]. by intros [= <-].
Qed.

Lemma dict_get_zip {V} (ks : list string) :
  forall (cols : list V) (j : nat) (k : string) (col : V),
    NoDup ks -> ks !! j = Some k -> cols !! j = Some col ->
    dict_get (zip ks cols) k = Some col.
Proof.
  induction ks as [|k0 r IH]; intros [|c0 cols] [|j] k col Hnd Hk Hc; try done.
  - injection Hk as ->. injection Hc as ->. cbn. by rewrite String.eqb_refl.
  - apply NoDup_cons in Hnd as [Hk0 Hnd]. cbn [zip zip_with dict_get].
    destruct (String.eqb_spec k0 k) as [->|Hne].
    + exfalso. apply Hk0. apply list_elem_of_lookup. by exists j.
    + by apply (IH cols j).
Qed.

Lemma decode_columns_wf (data : bytes) (ch : CellHeader) (cols : list (list SubCell)) :
  decode_columns data ch = Ok cols -> wf_world_cell ch (zip categories cols) = true.
Proof.
  intros E. unfold wf_world_cell. apply andb_true_iff.
  pose proof (sequence_length _ _ E) as Hlen. rewrite length_map in Hlen.
  split.
  { apply strings_eqb_eq. unfold dict_keys.
    change (map fst (zip categories cols)) with ((zip categories cols).*1).
    apply fst_zip. unfold categories. rewrite length_map. lia. }
  apply forallb_forall. intros [t [hc ar]] Hin.
  apply list_elem_of_In, list_elem_of_lookup in Hin as [j Hj].
  destruct (lookup_lt_is_Some_2 cols j) as [col Hcol].
  { rewrite Hlen. by eapply lookup_lt_Some. }
  rewrite (dict_get_zip categories cols j t col);
    [|apply categories_NoDup| |done].
  2:{ unfold categories. by rewrite list_lookup_fmap, Hj. }
  pose proof (proj1 (sequence_lookup _ _ j col E) Hcol) as Hs.
  rewrite list_lookup_fmap, Hj in Hs. cbn in Hs. injection Hs as Hs.
  apply andb_true_iff. split.
  { apply Nat.eqb_eq. apply sequence_length in Hs.
    by rewrite Hs, length_map, length_seq. }
  apply forallb_forall. intros [i sub] Hi.
  apply enumerate_from_In in Hi as [_ Hi]. rewrite Nat.sub_0_r in Hi.
  apply (sequence_lookup _ _ i sub Hs) in Hi.
  rewrite list_lookup_fmap in Hi.
  destruct (seq 0 (slots ar) !! i) as [i'|] eqn:Ei; [|done].
  apply lookup_seq in Ei as [-> _]. cbn in Hi. injection Hi as Hi.
  by eapply decode_slot_wf.
Qed.

Lemma decode_cell_wf (data : bytes) (b : bytes) (ch : CellHeader) (wd : WorldCell) :
  parse_cell_header b = Ok ch -> decode_cell data ch = Ok wd ->
  wf_world_cell ch wd = true.
Proof.
  intros (_ & zs & Hlen & ->)%parse_cell_header_inv.
  rewrite (decode_cell_parsed data zs Hlen).
  destruct (decode_columns _ _) as [cols|e] eqn:E; cbn [result_bind]; [|done].
  intros [= <-]. by apply (decode_columns_wf data).
Qed.

Lemma read_file_Ok (data : bytes) (self m : TileFile) :
  data <> [] -> cell_headers self = [] -> world_data self = [] ->
  read_file (Some data) self = (m, Ok tt) ->
  exists h chs wds,
    read_model data = Ok (h, chs, wds) /\
    header m = Some h /\ cell_headers m = chs /\ world_data m = wds.
Proof.
  intros Hne Hc Hw Hrun. pose proof (read_file_model data self Hne Hc Hw) as H.
  destruct (read_model data) as [[[h chs] wds]|e].
  - destruct H as (m0 & Hrun0 & Hh & Hchs & Hwds).
    assert (m0 = m) as -> by congruence. by exists h, chs, wds.
  - destruct H as (m0 & Hrun0). congruence.
Qed.

Lemma read_model_Ok (data : bytes) (h : Header) (chs : list CellHeader)
    (wds : list WorldCell) :
  read_model data = Ok (h, chs, wds) ->
  (60 <= length data)%nat /\ take 4 data = magic_bytes /\ h = header_of_bytes data /\
  sequence (map (fun c =>
      parse_cell_header
        (cell_record_at data (cell_header_offset h) (cell_header_size h) c))
      (seq 0 (Z.to_nat (width h * height h)))) = Ok chs /\
  sequence (map (decode_cell data) chs) = Ok wds.
Proof.
  unfold read_model.
  destruct (Nat.ltb_spec (length data) 60) as [|Hlen]; [done|].
  destruct (u32_at data 0 =? MAGIC_KEY) eqn:Em; cbn [negb]; [|done].
  apply magic_key_bytes in Em; [|lia]. cbn zeta.
  destruct (sequence _) as [chs0|e] eqn:E1; cbn [result_bind]; [|done].
  destruct (sequence (map (decode_cell data) chs0)) as [wds0|e] eqn:E2;
    cbn [result_bind]; [|done].
  intros [= <- <- <-]. done.
Qed.

Lemma read_model_wf (data : bytes) (h : Header) (chs : list CellHeader)
    (wds : list WorldCell) (m : TileFile) :
  read_model data = Ok (h, chs, wds) ->
  cell_headers m = chs -> world_data m = wds -> wf_model m = true.
Proof.
  intros (_ & _ & _ & Hp & Hd)%read_model_Ok <- <-.
  unfold wf_model. apply andb_true_iff. split.
  { apply Nat.eqb_eq. apply sequence_length in Hd. by rewrite length_map in Hd. }
  apply forallb_forall. intros [ch wd] Hin.
  apply list_elem_of_In, list_elem_of_lookup in Hin as [c Hc].
  apply lookup_zip_with_Some in Hc as (ch0 & wd0 & [= <- <-] & Hch & Hwd).
  pose proof Hch as Hch0.
  apply (sequence_lookup _ _ c ch Hp) in Hch.
  apply (sequence_lookup _ _ c wd Hd) in Hwd.
  rewrite list_lookup_fmap in Hch. rewrite list_lookup_fmap, Hch0 in Hwd.
  destruct (seq _ _ !! c) as [c'|]; [|done]. cbn in Hch. injection Hch as Hch.
  cbn in Hwd. injection Hwd as Hwd.
  apply andb_true_iff. split; [by eapply parse_cell_header_wf|].
  by eapply decode_cell_wf.
Qed.

(** *** Reading back what the writer wrote *)

Lemma header_field_take (data : bytes) (off n : nat) :
  (off + n <= 60)%nat ->
  take n (drop off (take 60 data)) = take n (drop off data).
Proof.
  intros Hle. replace 60%nat with (off + (60 - off))%nat at 1 by lia.
  rewrite <- take_drop_commute, take_take. f_equal. lia.
Qed.

Lemma header_of_bytes_take (data data' : bytes) :
  take 60 data = take 60 data' ->
  header_of_bytes data = header_of_bytes data' /\ u32_at data 0 = u32_at data' 0.
Proof.
  intros H.
  assert (forall off n, (off + n <= 60)%nat ->
            take n (drop off data) = take n (drop off data')) as Hf.
  { intros off n Hle.
    by rewrite <- (header_field_take data), <- (header_field_take data'), H by done. }
  unfold header_of_bytes, u32_at. by rewrite !Hf by lia.
Qed.

Lemma read_for_mip (t : string) (f : read_fn) :
  read_for t = Some f -> t = "mip" /\ f = read_mip.
Proof.
  unfold read_for, read_write_functions. cbn [dict_get].
  destruct (String.eqb_spec "mip" t) as [<-|]; [|done]. cbn. by intros [= <-].
Qed.

Lemma raw_of_mip (sub_cell : SubCellData) (raw : bytes) :
  raw_of "mip" sub_cell = Ok raw ->
  write_mip (sub_data sub_cell) (sub_meta_data sub_cell) = Ok raw.
Proof.
  unfold raw_of, encode, read_write_functions. cbn.
  destruct (write_mip _ _); [by intros [= ->]|done].
Qed.

Lemma write_file_build (output_file_path : string) (validate : bool)
    (self self' : TileFile) (b : bool) (out : bytes) (printed : list diag) :
  write_file output_file_path validate self = (self', Ok (b, Some out, printed)) ->
  build_new_data self = (self', Ok out).
Proof.
  unfold write_file, bind, ret, raise, lift.
  destruct (build_new_data self) as [s1 [nd|e]]; [|done].
  destruct validate; cbn [negb].
  - unfold get. destruct (__validate_write _ _ _) as [o [[]|e]]; try done.
    destruct (write_bytes output_file_path nd) as [[]|e]; [|done].
    intros H. inversion H. by subst.
  - destruct (write_bytes output_file_path nd) as [[]|e]; [|done].
    intros H. inversion H. by subst.
Qed.

Lemma decode_written_slot (out : bytes) (ch2 : CellHeader) (t : string) (i : nat)
    (d : Descriptor) :
  descriptor ch2 t i = Some d ->
  (is_unused d = true \/
   exists raw,
     lz4_block_decompress (py_slice out (d_index d) (d_index d + d_compressed d))
       (d_size d) = Some raw /\
     forall f meta, read_for t = Some f -> is_Some (f raw meta)) ->
  exists sub, decode_slot out ch2 t (read_for t) i = Ok sub.
Proof.
  intros Hd H. unfold decode_slot. rewrite Hd, _decode_cell_chunk_int.
  destruct d as [a c s]. cbn [d_index d_compressed d_size] in *.
  destruct (is_unused _) eqn:E; [eauto|].
  destruct H as [H|(raw & -> & Hf)]; [done|]. cbn [of_option result_bind].
  destruct (read_for t) as [f|] eqn:Ef; [|eauto].
  destruct (Hf f (mkMeta a c s (count_at ch2 t i)) eq_refl) as [v ->].
  cbn. eauto.
Qed.

Lemma decode_cell_all_slots (out b : bytes) (ch2 : CellHeader) :
  parse_cell_header b = Ok ch2 ->
  (forall t i, valid_slot t i ->
     exists sub, decode_slot out ch2 t (read_for t) i = Ok sub) ->
  exists wd, decode_cell out ch2 = Ok wd.
Proof.
  intros (_ & zs & Hlen & ->)%parse_cell_header_inv Hall.
  rewrite (decode_cell_parsed out zs Hlen).
  destruct (sequence_all_Ok
              (map (fun '(t, (_, ar)) =>
                      sequence (map (decode_slot out (cell_header_of (map AInt zs)) t
                                       (read_for t)) (seq 0 (slots ar)))) layout))
    as [cols E].
  { intros x ([t [hc ar]] & -> & Hin)%list_elem_of_fmap.
    apply sequence_all_Ok. intros y (i & -> & Hi)%list_elem_of_fmap.
    apply Hall. exists hc, ar. split; [by apply layout_In_get, list_elem_of_In|].
    apply elem_of_seq in Hi. lia. }
  unfold decode_columns. rewrite E. cbn. eauto.
Qed.

Lemma payload_in_output (self self' : TileFile) (out : bytes) (c j : nat)
    (wd : WorldCell) (x : string * nat * SubCellData) :
  wf_model self = true ->
  build_new_data self = (self', Ok out) ->
  world_data self !! c = Some wd ->
  cell_chunks wd !! j = Some x ->
  take (length (chunk_payload x))
    (drop (length (cells_payloads (take c (world_data self))
                   ++ payloads (take j (cell_chunks wd)))
           + (60 + 388 * length (cell_headers self))) out)
  = chunk_payload x.
Proof.
  intros Hwf Hrun Hw Hj.
  destruct (build_new_data_written _ _ _ Hwf Hrun) as (_ & Hdrop & _).
  rewrite Nat.add_comm, <- drop_drop, Hdrop.
  rewrite (cells_payloads_split _ _ _ Hw), (payloads_split _ _ _ Hj).
  rewrite <- !app_assoc, (app_assoc (cells_payloads _) (payloads _)).
  rewrite drop_app_length. by rewrite take_app_length.
Qed.

Section RoundTrip.

(** The two codecs undo themselves: an LZ4 block decompresses to the bytes it
    was made from when given their length, and [readwrite.mip] can read what
    it wrote. *)
Hypothesis lz4_round_trip :
  forall raw,
    lz4_block_decompress (lz4_block_compress raw) (Z.of_nat (length raw)) = Some raw.
Hypothesis mip_reads_written :
  forall v meta raw meta', write_mip v meta = Ok raw -> is_Some (read_mip raw meta').

Lemma reparse_cell (self self' : TileFile) (out : bytes) (c : nat)
    (ch : CellHeader) (wd : WorldCell) :
  wf_model self = true ->
  build_new_data self = (self', Ok out) ->
  cell_headers self !! c = Some ch ->
  world_data self !! c = Some wd ->
  exists ch' ch2,
    cell_headers self' !! c = Some ch' /\
    cell_written (Z.of_nat (60 + 388 * length (cell_headers self)))
      (cells_payloads (take c (world_data self))) wd ch ch' /\
    written_cell_header out c = Ok ch2 /\
    same_fields ch' ch2 /\
    exists wd2, decode_cell out ch2 = Ok wd2.
Proof.
  intros Hwf Hrun Hch Hw.
  destruct (wf_model_cell _ _ _ _ Hwf Hch Hw) as [Hwfc Hwfw].
  destruct (build_new_data_written _ _ _ Hwf Hrun) as (_ & _ & _ & Hcells).
  destruct (Hcells c ch wd Hch Hw)
    as (Hraw & ch' & ch2 & Hch' & Hcw & Hwr & Hwf2 & Hsf).
  exists ch', ch2. split_and!; try done.
  destruct Hcw as (_ & Hnew & Hframe).
  apply (decode_cell_all_slots out _ ch2 Hwr). intros t i Hv.
  destruct (wf_world_cell_slot_at _ _ _ _ Hwfw Hv) as (sub & Hin & Hsub).
  pose proof (same_fields_descriptor _ _ _ _ Hsf Hv) as Hd2.
  unfold wf_sub_cell in Hsub.
  destruct (descriptor ch t i) as [d|] eqn:Hd; [|done].
  destruct sub as [a b c0|sc].
  - assert (forall x, x ∈ cell_chunks wd -> x.1 <> (t, i)) as Hfresh.
    { intros [[t' i'] sc] Hx [= -> ->]. apply cell_chunks_slot, list_elem_of_In in Hx.
      by pose proof (slot_key_inj _ _ _ _ _ (wf_world_cell_NoDup _ _ Hwfw) Hin Hx). }
    assert (descriptor ch' t i = Some d) as Hd'.
    { rewrite <- Hd. unfold descriptor. by rewrite !Hframe by (by right). }
    apply (decode_written_slot out ch2 t i d); [congruence|by left].
  - assert ((t, i, sc) ∈ cell_chunks wd) as Hx.
    { by apply cell_chunks_slot, list_elem_of_In. }
    pose proof Hx as Hx'. apply list_elem_of_lookup in Hx' as [j Hj].
    specialize (Hnew j _ Hj). cbn [fst snd] in Hnew.
    rewrite <- Hd2 in Hnew. apply (decode_written_slot out ch2 t i _ Hnew). right.
    exists (chunk_raw (t, i, sc)). cbn [new_descriptor d_index d_compressed d_size].
    split.
    + rewrite <- Nat2Z.inj_add, py_slice_range.
      rewrite (payload_in_output _ _ _ _ _ _ _ Hwf Hrun Hw Hj).
      apply lz4_round_trip.
    + intros f meta [-> ->]%read_for_mip.
      rewrite Forall_forall in Hraw. specialize (Hraw _ Hx).
      apply chunk_raw_ok in Hraw. apply raw_of_mip in Hraw.
      by eapply mip_reads_written.
Qed.

Lemma written_record (out : bytes) (c : nat) :
  parse_cell_header (cell_record_at out 60 388 c) = written_cell_header out c.
Proof.
  unfold written_cell_header, cell_record_at, CELL_DATA_SIZE. f_equal.
  replace (60 + Z.of_nat c * 388) with (Z.of_nat (60 + 388 * c)) by lia.
  change 388 with (Z.of_nat 388). apply py_slice_range.
Qed.

(** C1 (amended). A file that parses, with 388-byte cell records, is written
    and parsed again: the second parse succeeds and gives the same file
    header and as many cell headers; every stored integer of the second
    parse is the one the model holds after writing; the counts and the
    descriptors of the unused slots are those of the first parse; the
    descriptor of a decoded chunk is the one the writer computed (its offset
    in the new data blob, the length of its compressed bytes, the length of
    its raw bytes), whatever it was in the first parse. *)
Theorem roundtrip_descriptors
    (data : bytes) (path path' : option string) (output_file_path : string)
    (validate : bool) (m m' : TileFile) (out : bytes) (printed : list diag) :
  data <> [] ->
  read_file (Some data) (TileFile_init path) = (m, Ok tt) ->
  (forall h, header m = Some h -> cell_header_size h = 388) ->
  write_file output_file_path validate m = (m', Ok (true, Some out, printed)) ->
  exists m2,
    read_file (Some out) (TileFile_init path') = (m2, Ok tt) /\
    header m2 = header m /\
    length (cell_headers m2) = length (cell_headers m) /\
    forall c ch ch2,
      cell_headers m !! c = Some ch -> cell_headers m2 !! c = Some ch2 ->
      (exists ch', cell_headers m' !! c = Some ch' /\ same_fields ch' ch2) /\
      forall t i, valid_slot t i ->
        (forall ar, dict_get layout t = Some (true, ar) ->
           field_at ch2 t "count" i = field_at ch t "count" i) /\
        (forall d, descriptor ch t i = Some d -> is_unused d = true ->
           descriptor ch2 t i = Some d) /\
        (forall d, descriptor ch t i = Some d -> is_unused d = false ->
           exists wd j sub_cell,
             world_data m !! c = Some wd /\
             cell_chunks wd !! j = Some (t, i, sub_cell)) /\
        (forall wd j sub_cell,
           world_data m !! c = Some wd ->
           cell_chunks wd !! j = Some (t, i, sub_cell) ->
           descriptor ch2 t i
           = Some (new_descriptor (Z.of_nat (60 + 388 * length (cell_headers m)))
                     (length (cells_payloads (take c (world_data m))
                              ++ payloads (take j (cell_chunks wd))))
                     (t, i, sub_cell))).
Proof.
  intros Hne Hread Hsize Hwrite.
  apply write_file_build in Hwrite as Hrun.
  destruct (read_file_Ok data (TileFile_init path) m Hne eq_refl eq_refl Hread)
    as (h & chs & wds & Hrm & Hh & Hchs & Hwds).
  pose proof (read_model_wf _ _ _ _ m Hrm Hchs Hwds) as Hwf.
  apply read_model_Ok in Hrm as (Hlen & Hmagic & Hheq & Hp & Hd).
  specialize (Hsize h Hh).
  destruct (build_new_data_written _ _ _ Hwf Hrun)
    as (Hlo & _ & (h0 & Hh0 & Hoff & _ & hdr & Hwh & Htake) & _).
  assert (h0 = h) as -> by congruence.
  assert (take 60 out = take 60 data) as Htake'.
  { rewrite Htake. rewrite (write_header_of_bytes data m) in Hwh by congruence.
    by injection Hwh as <-. }
  destruct (header_of_bytes_take _ _ Htake') as [Hhb Hu].
  pose proof (wf_model_lengths _ Hwf) as Hwl.
  set (n := length (cell_headers m)) in *.
  assert (Z.to_nat (width h * height h) = n) as Hn.
  { apply sequence_length in Hp. rewrite length_map, length_seq in Hp.
    unfold n. by rewrite Hchs. }
  assert (forall c, (c < n)%nat ->
            exists ch wd, cell_headers m !! c = Some ch /\ world_data m !! c = Some wd)
    as Hcell.
  { intros c Hc. destruct (lookup_lt_is_Some_2 (cell_headers m) c) as [ch Hch]; [done|].
    destruct (lookup_lt_is_Some_2 (world_data m) c) as [wd Hw]; [lia|]. eauto. }
  (* the cell headers of the second parse *)
  destruct (sequence_all_Ok
              (map (fun c => parse_cell_header (cell_record_at out 60 388 c)) (seq 0 n)))
    as [chs2 E1].
  { intros x (c & -> & Hc)%list_elem_of_fmap. apply elem_of_seq in Hc.
    destruct (Hcell c) as (ch & wd & Hch & Hw); [lia|].
    destruct (reparse_cell _ _ _ _ _ _ Hwf Hrun Hch Hw) as (_ & ch2 & _ & _ & Hwr & _).
    rewrite written_record. eauto. }
  assert (forall c ch2, chs2 !! c = Some ch2 ->
            (c < n)%nat /\ written_cell_header out c = Ok ch2) as Hchs2.
  { intros c ch2 Hc. apply (sequence_lookup _ _ c ch2 E1) in Hc.
    rewrite list_lookup_fmap in Hc.
    destruct (seq 0 n !! c) as [c'|] eqn:Ec; [|done].
    apply lookup_seq in Ec as [-> Hlt]. cbn in Hc. injection Hc as Hc.
    by rewrite written_record in Hc. }
  (* the cells of the second parse *)
  destruct (sequence_all_Ok (map (decode_cell out) chs2)) as [wds2 E2].
  { intros x (ch2 & -> & [c Hc]%list_elem_of_lookup)%list_elem_of_fmap.
    destruct (Hchs2 c ch2 Hc) as [Hlt Hwr].
    destruct (Hcell c Hlt) as (ch & wd & Hch & Hw).
    destruct (reparse_cell _ _ _ _ _ _ Hwf Hrun Hch Hw)
      as (_ & ch2' & _ & _ & Hwr' & _ & wd2 & Hdec).
    assert (ch2' = ch2) as -> by congruence. eauto. }
  assert (read_model out = Ok (h, chs2, wds2)) as Hrm2.
  { unfold read_model.
    destruct (Nat.ltb_spec (length out) 60) as [|_]; [lia|].
    rewrite Hu. rewrite (proj2 (magic_key_bytes data ltac:(lia)) Hmagic). cbn [negb].
    rewrite Hhb, <- Hheq. cbn zeta. rewrite Hoff, Hsize, Hn, E1. cbn [result_bind].
    by rewrite E2. }
  assert (out <> []) as Hne2.
  { intros ->. cbn in Hlo. lia. }
  pose proof (read_file_model out (TileFile_init path') Hne2 eq_refl eq_refl) as Hm2.
  rewrite Hrm2 in Hm2. destruct Hm2 as (m2 & Hread2 & Hh2 & Hc2 & Hw2).
  exists m2. split; [done|]. split; [congruence|]. split.
  { rewrite Hc2. apply sequence_length in E1.
    by rewrite E1, length_map, length_seq. }
  intros c ch ch2 Hch Hch2. rewrite Hc2 in Hch2.
  destruct (Hchs2 c ch2 Hch2) as [Hlt Hwr].
  destruct (Hcell c Hlt) as (ch0 & wd & Hch0 & Hw).
  assert (ch0 = ch) as -> by congruence.
  destruct (wf_model_cell _ _ _ _ Hwf Hch Hw) as [Hwfc Hwfw].
  destruct (reparse_cell _ _ _ _ _ _ Hwf Hrun Hch Hw)
    as (ch' & ch2' & Hch' & (_ & Hnew & Hframe) & Hwr' & Hsf & _).
  assert (ch2' = ch2) as -> by congruence.
  split; [by exists ch'|].
  intros t i Hv.
  pose proof (same_fields_descriptor _ _ _ _ Hsf Hv) as Hd2.
  destruct (wf_world_cell_slot_at _ _ _ _ Hwfw Hv) as (sub & Hin & Hsub).
  unfold wf_sub_cell in Hsub.
  split_and!.
  - intros ar Hl. destruct Hv as (hc & ar' & Hl' & Hi).
    assert (ar' = ar) as -> by congruence.
    rewrite (Hsf t true ar "count" i Hl); [|by left|done].
    apply Hframe. by left.
  - intros d Hdesc Hunused. rewrite Hdesc in Hsub.
    destruct sub as [a b c0|sc]; [|by rewrite Hunused in Hsub].
    assert (forall x, x ∈ cell_chunks wd -> x.1 <> (t, i)) as Hfresh.
    { intros [[t' i'] sc] Hx [= -> ->]. apply cell_chunks_slot, list_elem_of_In in Hx.
      by pose proof (slot_key_inj _ _ _ _ _ (wf_world_cell_NoDup _ _ Hwfw) Hin Hx). }
    rewrite Hd2, <- Hdesc. unfold descriptor. by rewrite !Hframe by (by right).
  - intros d Hdesc Hused. rewrite Hdesc, Hused in Hsub.
    destruct sub as [a b c0|sc]; [done|].
    assert ((t, i, sc) ∈ cell_chunks wd) as [j Hj]%list_elem_of_lookup.
    { by apply cell_chunks_slot, list_elem_of_In. }
    by exists wd, j, sc.
  - intros wd0 j sc Hw0 Hj. assert (wd0 = wd) as -> by congruence.
    rewrite Hd2. apply (Hnew j _ Hj).
Qed.

End RoundTrip.

(** * Further properties of the code *)

(** ** Colours *)

Lemma land_255 (x : Z) : Z.land x 255 = x mod 256.
Proof. change 255 with (Z.ones 8). by rewrite Z.land_ones by lia. Qed.

Lemma byte_of_shift (x : Z) (n : Z) :
  0 <= n -> Z.land (Z.shiftr x n) 255 = (x / 2 ^ n) mod 256.
Proof. intros Hn. by rewrite land_255, Z.shiftr_div_pow2 by done. Qed.

Lemma mod_split (x a b : Z) :
  0 < a -> 0 < b -> x mod (a * b) = x mod a + a * ((x / a) mod b).
Proof.
  intros Ha Hb.
  pose proof (Z.div_mod x a ltac:(lia)) as H1.
  pose proof (Z.div_mod (x / a) b ltac:(lia)) as H2.
  pose proof (Z.mod_pos_bound x a Ha) as H3.
  pose proof (Z.mod_pos_bound (x / a) b Hb) as H4.
  symmetry. apply (Z.mod_unique x (a * b) (x / a / b)); [left; nia|nia].
Qed.

(** [decode_colour] reads a colour as four bytes, alpha first: each
    component is a byte, together they are the colour modulo 2^32, and a
    colour put together from four bytes gives these bytes back, in the order
    red, green, blue, alpha. *)
Theorem decode_colour_argb (colour : Z) :
  let '(red, green, blue, alpha) := decode_colour colour in
  (0 <= red < 256 /\ 0 <= green < 256 /\ 0 <= blue < 256 /\ 0 <= alpha < 256) /\
  alpha * 2 ^ 24 + red * 2 ^ 16 + green * 2 ^ 8 + blue = colour mod 2 ^ 32 /\
  forall r g b a,
    0 <= r < 256 -> 0 <= g < 256 -> 0 <= b < 256 -> 0 <= a < 256 ->
    decode_colour (a * 2 ^ 24 + r * 2 ^ 16 + g * 2 ^ 8 + b) = (r, g, b, a).
Proof.
  unfold decode_colour. cbv zeta.
  rewrite !byte_of_shift by lia. rewrite land_255.
  split; [|split].
  - pose proof (Z.mod_pos_bound (colour / 2 ^ 16) 256 ltac:(lia)).
    pose proof (Z.mod_pos_bound (colour / 2 ^ 8) 256 ltac:(lia)).
    pose proof (Z.mod_pos_bound colour 256 ltac:(lia)).
    pose proof (Z.mod_pos_bound (colour / 2 ^ 24) 256 ltac:(lia)). lia.
  - change (2 ^ 32) with (2 ^ 24 * 256).
    rewrite (mod_split colour (2 ^ 24) 256) by lia.
    change (2 ^ 24) with (2 ^ 16 * 256) at 3.
    rewrite (mod_split colour (2 ^ 16) 256) by lia.
    change (2 ^ 16) with (2 ^ 8 * 256) at 3.
    rewrite (mod_split colour (2 ^ 8) 256) by lia.
    change (2 ^ 8) with 256 at 3. lia.
  - intros r g b a Hr Hg Hb Ha.
    rewrite !byte_of_shift by lia. rewrite land_255.
    set (c := a * 2 ^ 24 + r * 2 ^ 16 + g * 2 ^ 8 + b).
    assert (c / 2 ^ 24 = a) as ->.
    { symmetry. apply (Z.div_unique c (2 ^ 24) a (r * 2 ^ 16 + g * 2 ^ 8 + b)); lia. }
    assert (c / 2 ^ 16 = a * 256 + r) as ->.
    { symmetry. apply (Z.div_unique c (2 ^ 16) _ (g * 2 ^ 8 + b)); lia. }
    assert (c / 2 ^ 8 = a * 2 ^ 16 + r * 256 + g) as ->.
    { symmetry. apply (Z.div_unique c (2 ^ 8) _ b); lia. }
    assert (c mod 256 = b) as ->.
    { symmetry. apply (Z.mod_unique c 256 (a * 2 ^ 16 + r * 256 + g) b); lia. }
    rewrite (Z.mod_small a) by lia.
    assert ((a * 256 + r) mod 256 = r) as ->.
    { symmetry. apply (Z.mod_unique _ 256 a r); lia. }
    assert ((a * 2 ^ 16 + r * 256 + g) mod 256 = g) as ->.
    { symmetry. apply (Z.mod_unique _ 256 (a * 256 + r) g); lia. }
    reflexivity.
Qed.

(** ** Reading *)

Lemma read_file_given (data : bytes) (self : TileFile) :
  data <> [] -> read_file (Some data) self = read_file_from data self.
Proof. intros H. destruct data; [done|reflexivity]. Qed.


Lemma read_file_from_original (data : bytes) (self : TileFile) :
  original_data (read_file_from data self).1 = Some data.
Proof.
  unfold read_file_from.
  apply (bind_state (fun s => original_data s = Some data)); [done|].
  intros _ s0 H0.
  apply (bind_state (fun s => original_data s = Some data)).
  { rewrite parse_header_spec. cbn zeta.
    destruct (length data <? 60)%nat; [done|]. by destruct (negb _). }
  intros _ s1 H1.
  apply (bind_state (fun s => original_data s = Some data)).
  { unfold parse_cell_headers.
    apply (bind_state (fun s => original_data s = Some data)); [done|].
    intros s2 s3 H3.
    apply (bind_state (fun s => original_data s = Some data)); [done|].
    intros h s4 H4.
    apply (bind_state (fun s => original_data s = Some data)); [|done].
    apply (for_fold_state (fun s => original_data s = Some data)); [|done].
    intros off x s Hs.
    change (original_data (parse_cell_step data (cell_header_size h) off x s).1
            = Some data).
    rewrite parse_cell_step_run. cbn zeta. by destruct (parse_cell_header _). }
  intros _ s2 H2.
  apply (bind_state (fun s => original_data s = Some data)); [done|].
  intros s3 s4 H4.
  apply (for_fold_state (fun s => original_data s = Some data)); [|done].
  intros _ ch s Hs. unfold bind, lift, modify. by destruct (decode_cell _ _).
Qed.


Lemma loaded_cell (data : bytes) (h : Header) (chs : list CellHeader)
    (wds : list WorldCell) (c : nat) (ch : CellHeader) (wd : WorldCell) :
  read_model data = Ok (h, chs, wds) ->
  chs !! c = Some ch -> wds !! c = Some wd ->
  parse_cell_header
    (cell_record_at data (cell_header_offset h) (cell_header_size h) c) = Ok ch /\
  exists cols, decode_columns data ch = Ok cols /\ wd = zip categories cols.
Proof.
  intros (_ & _ & _ & Hp & Hd)%read_model_Ok Hch Hwd.
  pose proof Hch as Hch0.
  apply (sequence_lookup _ _ c ch Hp) in Hch.
  apply (sequence_lookup _ _ c wd Hd) in Hwd.
  rewrite list_lookup_fmap in Hch. rewrite list_lookup_fmap, Hch0 in Hwd.
  destruct (seq _ _ !! c) as [c'|] eqn:Ec; [|done].
  apply lookup_seq in Ec as [-> _]. cbn in Hch. injection Hch as Hch.
  cbn in Hwd. injection Hwd as Hwd. split; [done|].
  destruct (parse_cell_header_inv _ _ Hch) as (_ & zs & Hlen & ->).
  rewrite (decode_cell_parsed data zs Hlen) in Hwd.
  destruct (decode_columns _ _) as [cols|e]; cbn [result_bind] in Hwd; [|done].
  injection Hwd as <-. eauto.
Qed.

Lemma decode_columns_slot (data : bytes) (ch : CellHeader)
    (cols : list (list SubCell)) (t : string) (subs : list SubCell) (i : nat)
    (sub : SubCell) :
  decode_columns data ch = Ok cols ->
  dict_get (zip categories cols) t = Some subs ->
  subs !! i = Some sub ->
  valid_slot t i /\ decode_slot data ch t (read_for t) i = Ok sub.
Proof.
  intros E Ht Hi.
  pose proof (sequence_length _ _ E) as Hlen. rewrite length_map in Hlen.
  assert (In t categories) as Hin.
  { apply dict_get_Some_keys in Ht. unfold dict_keys in Ht.
    change (map fst (zip categories cols)) with ((zip categories cols).*1) in Ht.
    rewrite fst_zip in Ht; [done|]. unfold categories. rewrite length_map. lia. }
  unfold categories in Hin. apply in_map_iff in Hin as ([t' [hc ar]] & Heq & Hin).
  cbn in Heq. subst t'.
  apply list_elem_of_In, list_elem_of_lookup in Hin as [j Hj].
  destruct (lookup_lt_is_Some_2 cols j) as [col Hcol].
  { rewrite Hlen. by eapply lookup_lt_Some. }
  rewrite (dict_get_zip categories cols j t col) in Ht;
    [|apply categories_NoDup| |done].
  2:{ unfold categories. by rewrite list_lookup_fmap, Hj. }
  injection Ht as ->.
  pose proof (proj1 (sequence_lookup _ _ j subs E) Hcol) as Hs.
  rewrite list_lookup_fmap, Hj in Hs. cbn in Hs. injection Hs as Hs.
  apply (sequence_lookup _ _ i sub Hs) in Hi.
  rewrite list_lookup_fmap in Hi.
  destruct (seq 0 (slots ar) !! i) as [i'|] eqn:Ei; [|done].
  apply lookup_seq in Ei as [-> Hlt]. cbn in Hi. injection Hi as Hi.
  split; [|done]. exists hc, ar. split; [|lia].
  apply layout_In_get, list_elem_of_In, list_elem_of_lookup. eauto.
Qed.

(** A file that loads into a fresh object gives a model with the header
    read from its first 60 bytes, the input kept in [original_data], one cell
    header and one decoded cell for each of the [width * height] cells, the
    cell header of cell [c] read from the record at
    [cell_header_offset + c * cell_header_size], and every cell of the shape
    the writer expects. *)
Theorem read_file_builds_grid (data : bytes) (path : option string) (m : TileFile) :
  data <> [] ->
  read_file (Some data) (TileFile_init path) = (m, Ok tt) ->
  exists h,
    header m = Some h /\ h = header_of_bytes data /\
    (60 <= length data)%nat /\ take 4 data = magic_bytes /\
    original_data m = Some data /\
    length (cell_headers m) = Z.to_nat (width h * height h) /\
    length (world_data m) = length (cell_headers m) /\
    (forall c ch, cell_headers m !! c = Some ch ->
       parse_cell_header
         (cell_record_at data (cell_header_offset h) (cell_header_size h) c) = Ok ch) /\
    wf_model m = true.
Proof.
  intros Hne Hread.
  destruct (read_file_Ok data (TileFile_init path) m Hne eq_refl eq_refl Hread)
    as (h & chs & wds & Hrm & Hh & Hchs & Hwds).
  pose proof (read_model_wf _ _ _ _ m Hrm Hchs Hwds) as Hwf.
  pose proof Hrm as (Hlen & Hmagic & Hheq & Hp & Hd)%read_model_Ok.
  exists h. split_and!; try done.
  - rewrite (read_file_given _ _ Hne) in Hread.
    pose proof (read_file_from_original data (TileFile_init path)) as Ho.
    by rewrite Hread in Ho.
  - apply sequence_length in Hp. by rewrite length_map, length_seq, <- Hchs in Hp.
  - by apply wf_model_lengths.
  - intros c ch Hch. rewrite Hchs in Hch.
    destruct (lookup_lt_is_Some_2 wds c) as [wd Hwd].
    { apply sequence_length in Hd. rewrite length_map in Hd. rewrite Hd.
      by eapply lookup_lt_Some. }
    by destruct (loaded_cell _ _ _ _ _ _ _ Hrm Hch Hwd).
Qed.

(** What [read_file] puts into a slot of a decoded cell.  For an unused
    descriptor it is the tuple [(index, size, compressed)] as stored; no
    byte of the file is looked at.  Otherwise it is a chunk of the category,
    whose [meta_data] repeats the descriptor, whose [original_data] is what
    the block codec made of [data[index:index + compressed]] with the stored
    size, and whose [data] is what the reader of the category made of it
    ([None] for a category without one). *)
Theorem loaded_slot (data : bytes) (path : option string) (m : TileFile)
    (c : nat) (ch : CellHeader) (wd : WorldCell) (t : string)
    (sub_cells : list SubCell) (i : nat) (sub : SubCell) :
  data <> [] ->
  read_file (Some data) (TileFile_init path) = (m, Ok tt) ->
  cell_headers m !! c = Some ch ->
  world_data m !! c = Some wd ->
  dict_get wd t = Some sub_cells ->
  sub_cells !! i = Some sub ->
  exists d,
    descriptor ch t i = Some d /\
    match sub with
    | Placeholder index size compressed =>
        is_unused d = true /\
        index = PInt (d_index d) /\ size = PInt (d_size d) /\
        compressed = PInt (d_compressed d)
    | Chunk sub_cell =>
        is_unused d = false /\
        sub_type sub_cell = t /\
        sub_meta_data sub_cell
        = mkMeta (d_index d) (d_compressed d) (d_size d) (count_at ch t i) /\
        lz4_block_decompress
          (py_slice data (d_index d) (d_index d + d_compressed d)) (d_size d)
        = Some (sub_original_data sub_cell) /\
        sub_data sub_cell
        = match read_for t with
          | Some read_func =>
              read_func (sub_original_data sub_cell) (sub_meta_data sub_cell)
          | None => None
          end /\
        (read_for t = None -> raw_of t sub_cell = Ok (sub_original_data sub_cell))
    end.
Proof.
  intros Hne Hread Hch Hwd Ht Hi.
  destruct (read_file_Ok data (TileFile_init path) m Hne eq_refl eq_refl Hread)
    as (h & chs & wds & Hrm & Hh & Hchs & Hwds).
  rewrite Hchs in Hch. rewrite Hwds in Hwd.
  destruct (loaded_cell _ _ _ _ _ _ _ Hrm Hch Hwd) as (_ & cols & Hcols & ->).
  destruct (decode_columns_slot _ _ _ _ _ _ _ Hcols Ht Hi) as [_ Hslot].
  unfold decode_slot in Hslot.
  destruct (descriptor ch t i) as [[a co s]|] eqn:Hd; [|done].
  exists (mkDescriptor a co s). split; [done|].
  rewrite _decode_cell_chunk_int in Hslot. cbn [d_index d_size d_compressed] in *.
  destruct (is_unused _) eqn:Eu.
  { injection Hslot as <-. done. }
  destruct (lz4_block_decompress _ _) as [raw|]; cbn [of_option result_bind] in Hslot;
    [|done].
  destruct (read_for t) as [f|] eqn:Ef.
  - destruct (f raw _) as [v|] eqn:Ev; cbn [of_option result_bind] in Hslot; [|done].
    injection Hslot as <-. cbn. split_and!; try done.
  - injection Hslot as <-. cbn. split_and!; try done.
    intros _. unfold raw_of, encode. unfold read_for in Ef.
    by destruct (dict_get read_write_functions t).
Qed.

(** ** Cell records *)

Lemma unpack_ints_lookup (n : nat) :
  forall (b : bytes) (p : nat),
    (p < n)%nat ->
    unpack_codes (replicate n Fmti) b !! p = Some (AInt (i32_at b (4 * p))).
Proof.
  induction n as [|n IH]; intros b p Hp; [lia|].
  cbn [replicate unpack_codes unpack_code code_size]. destruct p as [|p].
  - cbn [lookup list_lookup]. unfold i32_at. by rewrite Nat.mul_0_r, drop_0.
  - change ((?x :: ?l) !! S p) with (l !! p). rewrite IH by lia.
    unfold i32_at. rewrite drop_drop.
    by replace (4 * S p)%nat with (4 + 4 * p)%nat by lia.
Qed.

Lemma parse_cell_header_unpack (b : bytes) (ch : CellHeader) :
  parse_cell_header b = Ok ch ->
  length b = 388%nat /\
  exists zs, length zs = 97%nat /\
             unpack_codes (replicate 97 Fmti) b = map AInt zs /\
             ch = cell_header_of (map AInt zs).
Proof.
  unfold parse_cell_header, unpack. rewrite parse_cell_format.
  cbn [of_option result_bind].
  change (codes_size (replicate 97 Fmti)) with 388%nat.
  destruct (Nat.eqb_spec (length b) 388) as [Hb|Hb]; [|discriminate].
  destruct (unpack_codes_ints 97 b) as (zs & E & Hlen). rewrite E.
  cbn [result_bind]. rewrite length_map, Hlen.
  change (97 =? CELL_HEADER_SIZE)%nat with true. cbn [negb].
  intros [= <-]. eauto.
Qed.

Lemma place_value_parsed (zs : list Z) (p : nat) (place : string * string * option nat) :
  length zs = 97%nat -> places !! p = Some place ->
  place_value (cell_header_of (map AInt zs)) place = zs !! p.
Proof.
  intros Hlen Hp. pose proof (cell_header_of_places zs Hlen) as H.
  apply (f_equal (fun l => l !! p)) in H.
  rewrite !list_lookup_fmap, Hp in H. cbn in H.
  destruct (zs !! p) as [z|] eqn:E; cbn in H; [by injection H|].
  apply lookup_ge_None in E. apply lookup_lt_Some in Hp.
  assert (length places = 97%nat) as Hl by reflexivity. lia.
Qed.

(** The layout of a cell record: a buffer of 388 bytes parses, and the
    integer at place [p] of the record (for instance the [clutter] index at
    place 18) is the signed little-endian 32-bit integer at bytes
    [4 * p .. 4 * p + 3]. *)
Theorem cell_record_layout (cell_data : bytes) :
  length cell_data = 388%nat ->
  exists cell_header,
    parse_cell_header cell_data = Ok cell_header /\
    (forall p place, places !! p = Some place ->
       place_value cell_header place = Some (i32_at cell_data (4 * p))) /\
    field_at cell_header "mip" "index" 5 = Some (i32_at cell_data 20) /\
    field_at cell_header "clutter" "index" 0 = Some (i32_at cell_data 72) /\
    field_at cell_header "assets" "count" 0 = Some (i32_at cell_data 84) /\
    field_at cell_header "voxel_terrain" "size" 0 = Some (i32_at cell_data 384).
Proof.
  intros Hlen.
  assert (exists ch, parse_cell_header cell_data = Ok ch) as [ch Hp].
  { unfold parse_cell_header, unpack. rewrite parse_cell_format.
    cbn [of_option result_bind].
    change (codes_size (replicate 97 Fmti)) with 388%nat.
    rewrite Hlen, Nat.eqb_refl. cbn [result_bind].
    rewrite length_unpack_codes, length_replicate.
    change (97 =? CELL_HEADER_SIZE)%nat with true. cbn [negb]. eauto. }
  exists ch. split; [done|].
  destruct (parse_cell_header_unpack _ _ Hp) as (_ & zs & Hzs & Hu & ->).
  assert (forall p place, places !! p = Some place ->
            place_value (cell_header_of (map AInt zs)) place
            = Some (i32_at cell_data (4 * p))) as Hall.
  { intros p place Hpl. rewrite (place_value_parsed zs p place Hzs Hpl).
    assert (p < 97)%nat as Hlt.
    { apply lookup_lt_Some in Hpl. by change (length places) with 97%nat in Hpl. }
    pose proof (unpack_ints_lookup 97 cell_data p Hlt) as Hi.
    rewrite Hu, list_lookup_fmap in Hi.
    destruct (zs !! p) as [z|]; cbn in Hi; [|done]. by injection Hi as ->. }
  split; [exact Hall|]. split_and!.
  - exact (Hall 5%nat ("mip", "index", Some 5%nat) eq_refl).
  - exact (Hall 18%nat ("clutter", "index", None) eq_refl).
  - exact (Hall 21%nat ("assets", "count", Some 0%nat) eq_refl).
  - exact (Hall 96%nat ("voxel_terrain", "size", None) eq_refl).
Qed.

(** Bytes to cell header to bytes: what [parse_cell_header] read,
    [create_cell_header] writes back byte for byte. *)
Theorem parse_then_create_cell_header (cell_data : bytes) (cell_header : CellHeader) :
  parse_cell_header cell_data = Ok cell_header ->
  create_cell_header cell_header = Ok cell_data.
Proof.
  intros (Hlen & zs & Hzs & Hu & ->)%parse_cell_header_unpack.
  rewrite create_cell_header_wf by (by apply cell_header_of_wf).
  assert (cell_values (cell_header_of (map AInt zs)) = zs) as ->.
  { unfold cell_values. pose proof (cell_header_of_places zs Hzs) as H.
    rewrite <- (map_map (place_value _) (default 0)), H, map_map. cbn.
    apply map_id. }
  replace (map PInt zs) with (map PAtom (unpack_codes (replicate 97 Fmti) cell_data)).
  - by apply pack_unpack_codes.
  - rewrite Hu, map_map. done.
Qed.

Lemma pack_ints_iff (vals : list pyval) :
  (exists b, pack_codes (replicate (length vals) Fmti) vals = Ok b) <->
  Forall (fun v => exists z, v = PInt z /\ fits_int32 z) vals.
Proof.
  induction vals as [|v r IH]; cbn [length replicate pack_codes].
  - split; [by constructor|eauto].
  - rewrite Forall_cons, <- IH. unfold fits_int32. split.
    + intros [b Hb].
      destruct (pack_code Fmti v) as [b1|] eqn:E1; cbn [result_bind] in Hb; [|done].
      destruct (pack_codes _ r) as [b2|] eqn:E2; cbn [result_bind] in Hb; [|done].
      split; [|eauto].
      destruct v as [[z|?]|?|?]; cbn in E1; try done. exists z. split; [done|].
      destruct (Z.leb_spec (- 2 ^ 31) z), (Z.ltb_spec z (2 ^ 31)); cbn in E1;
        done.
    + intros [(z & -> & Hz) [b2 E2]]. rewrite E2. cbn [pack_code PInt].
      destruct (Z.leb_spec (- 2 ^ 31) z), (Z.ltb_spec z (2 ^ 31)); try lia.
      cbn. eauto.
Qed.

Lemma pack_ints_error (vals : list pyval) (e : exn) :
  pack_codes (replicate (length vals) Fmti) vals = Raise e -> e = StructError.
Proof.
  induction vals as [|v r IH]; cbn [length replicate pack_codes]; [done|].
  destruct (pack_code Fmti v) as [b1|e1] eqn:E1; cbn [result_bind].
  - destruct (pack_codes _ r) as [b2|e2] eqn:E2; cbn [result_bind]; [done|].
    intros [= <-]. by apply IH.
  - intros [= <-].
    destruct v as [[z|?]|?|?]; cbn in E1; try by injection E1.
    destruct (_ && _); [done|by injection E1].
Qed.

Lemma create_cell_header_pack (header : CellHeader) :
  create_cell_header header
  = let* cell_data := sequence (map (cell_data_item header) places) in
    pack_codes (replicate 97 Fmti) cell_data.
Proof.
  unfold create_cell_header. rewrite cell_data_of_places.
  destruct (sequence _); cbn [result_bind]; [|done].
  unfold pack. by rewrite parse_cell_format.
Qed.

(** [create_cell_header] succeeds exactly on the headers that hold, at each
    of the 97 places, an integer that fits in 32 bits with sign; it then
    gives 388 bytes.  A header whose places all hold integers, one of them
    too large, makes [struct.pack] raise. *)
Theorem create_cell_header_succeeds_iff (header : CellHeader) :
  ((exists header_data, create_cell_header header = Ok header_data) <->
   (forall place, In place places ->
      exists z, cell_data_item header place = Ok (PInt z) /\ fits_int32 z)) /\
  (forall header_data,
     create_cell_header header = Ok header_data -> length header_data = 388%nat) /\
  ((forall place, In place places ->
      exists z, cell_data_item header place = Ok (PInt z)) ->
   (exists place z, In place places /\ cell_data_item header place = Ok (PInt z) /\
                    ~ fits_int32 z) ->
   create_cell_header header = Raise StructError).
Proof.
  rewrite create_cell_header_pack.
  assert (length places = 97%nat) as Hpl by reflexivity.
  split_and!.
  - split.
    + intros [b Hb].
      destruct (sequence _) as [vals|] eqn:E; cbn [result_bind] in Hb; [|done].
      pose proof (sequence_length _ _ E) as Hlen. rewrite length_map, Hpl in Hlen.
      rewrite <- Hlen in Hb.
      assert (exists b, pack_codes (replicate (length vals) Fmti) vals = Ok b) as Hex
        by eauto.
      apply pack_ints_iff in Hex. rewrite Forall_forall in Hex.
      intros place [p Hp]%list_elem_of_In%list_elem_of_lookup.
      destruct (lookup_lt_is_Some_2 vals p) as [v Hv].
      { rewrite Hlen, <- Hpl. by eapply lookup_lt_Some. }
      destruct (Hex v) as (z & -> & Hz); [apply list_elem_of_lookup; eauto|].
      apply (sequence_lookup _ _ p (PInt z) E) in Hv.
      rewrite list_lookup_fmap, Hp in Hv. cbn in Hv. injection Hv as Hv. eauto.
    + intros Hall.
      destruct (sequence_all_Ok (map (cell_data_item header) places)) as [vals E].
      { intros x (place & -> & Hin)%list_elem_of_fmap.
        destruct (Hall place) as (z & -> & _); [by apply list_elem_of_In|]. eauto. }
      rewrite E. cbn [result_bind].
      pose proof (sequence_length _ _ E) as Hlen. rewrite length_map, Hpl in Hlen.
      rewrite <- Hlen. apply pack_ints_iff. apply Forall_forall.
      intros v [p Hv]%list_elem_of_lookup.
      apply (sequence_lookup _ _ p v E) in Hv. rewrite list_lookup_fmap in Hv.
      destruct (places !! p) as [place|] eqn:Hp; [|done]. cbn in Hv.
      injection Hv as Hv.
      destruct (Hall place) as (z & Hz & Hfit).
      { apply list_elem_of_In, list_elem_of_lookup. eauto. }
      exists z. split; [congruence|done].
  - intros b Hb.
    destruct (sequence _) as [vals|]; cbn [result_bind] in Hb; [|done].
    apply length_pack_codes in Hb. exact Hb.
  - intros Hall (place & z & Hin & Hz & Hbad).
    destruct (sequence_all_Ok (map (cell_data_item header) places)) as [vals E].
    { intros x (place' & -> & Hin')%list_elem_of_fmap.
      destruct (Hall place') as (z' & ->); [by apply list_elem_of_In|]. eauto. }
    rewrite E. cbn [result_bind].
    pose proof (sequence_length _ _ E) as Hlen. rewrite length_map, Hpl in Hlen.
    rewrite <- Hlen.
    destruct (pack_codes _ vals) as [b|e] eqn:Hp.
    + exfalso. assert (Forall (fun v => exists z, v = PInt z /\ fits_int32 z) vals)
        as Hf by (apply pack_ints_iff; eauto).
      rewrite Forall_forall in Hf.
      apply list_elem_of_In, list_elem_of_lookup in Hin as [p Hpp].
      assert (vals !! p = Some (PInt z)) as Hv.
      { apply (sequence_lookup _ _ p (PInt z) E).
        by rewrite list_lookup_fmap, Hpp; cbn; rewrite Hz. }
      destruct (Hf (PInt z)) as (z' & [= <-] & Hfit);
        [apply list_elem_of_lookup; eauto|]. done.
    + f_equal. by eapply pack_ints_error.
Qed.

(** Cell header to bytes to cell header: the bytes [create_cell_header]
    gives parse, and the parsed header holds at every place the integer the
    given header held there. *)
Theorem create_then_parse_cell_header (header : CellHeader) (header_data : bytes) :
  create_cell_header header = Ok header_data ->
  exists cell_header,
    parse_cell_header header_data = Ok cell_header /\
    forall place z,
      In place places -> cell_data_item header place = Ok (PInt z) ->
      place_value cell_header place = Some z.
Proof.
  rewrite create_cell_header_pack. intros Hb.
  assert (length places = 97%nat) as Hpl by reflexivity.
  destruct (sequence _) as [vals|] eqn:E; cbn [result_bind] in Hb; [|done].
  pose proof (sequence_length _ _ E) as Hlen. rewrite length_map, Hpl in Hlen.
  assert (exists zs, vals = map PInt zs) as [zs ->].
  { assert (Forall (fun v => exists z, v = PInt z /\ fits_int32 z) vals) as Hf.
    { apply pack_ints_iff. rewrite Hlen. eauto. }
    clear -Hf. induction Hf as [|v r (z & -> & _) _ [zs ->]]; [by exists []|].
    by exists (z :: zs). }
  rewrite length_map in Hlen.
  exists (cell_header_of (map AInt zs)). split.
  - pose proof (length_pack_codes _ _ _ Hb) as Hl.
    change (codes_size (replicate 97 Fmti)) with 388%nat in Hl.
    unfold parse_cell_header, unpack. rewrite parse_cell_format.
    cbn [of_option result_bind].
    change (codes_size (replicate 97 Fmti)) with 388%nat.
    rewrite Hl, Nat.eqb_refl. cbn [result_bind].
    rewrite (unpack_pack_codes _ _ _ Hb).
    assert (zip_with canon (replicate 97 Fmti) (map PInt zs) = map AInt zs) as ->
      by (rewrite <- Hlen; apply canon_ints).
    rewrite length_map, Hlen.
    change (97 =? CELL_HEADER_SIZE)%nat with true. reflexivity.
  - intros place z [p Hp]%list_elem_of_In%list_elem_of_lookup Hitem.
    rewrite (place_value_parsed zs p place Hlen Hp).
    destruct (lookup_lt_is_Some_2 zs p) as [z' Hz'].
    { rewrite Hlen, <- Hpl. by eapply lookup_lt_Some. }
    assert (map PInt zs !! p = Some (PInt z')) as Hv
      by (by rewrite list_lookup_fmap, Hz').
    apply (sequence_lookup _ _ p (PInt z') E) in Hv.
    rewrite list_lookup_fmap, Hp in Hv. cbn in Hv. injection Hv as Hv.
    rewrite Hitem in Hv. injection Hv as ->. done.
Qed.

(** ** File headers *)

Lemma pack_I (z : Z) :
  pack "<I" [PInt z]
  = if (0 <=? z) && (z <? 2 ^ 32) then Ok (int_to_bytes 4 z) else Raise StructError.
Proof.
  unfold pack. change (parse_format "<I") with (Some [FmtI]).
  cbn [of_option result_bind pack_codes pack_code PInt].
  destruct (_ && _); cbn [result_bind]; [|done]. by rewrite app_nil_r.
Qed.

Lemma pack_Q (z : Z) :
  pack "<Q" [PInt z]
  = if (0 <=? z) && (z <? 2 ^ 64) then Ok (int_to_bytes 8 z) else Raise StructError.
Proof.
  unfold pack. change (parse_format "<Q") with (Some [FmtQ]).
  cbn [of_option result_bind pack_codes pack_code PInt].
  destruct (_ && _); cbn [result_bind]; [|done]. by rewrite app_nil_r.
Qed.

Lemma pack_16s (raw : bytes) :
  length raw = 16%nat -> pack "<16s" [PAtom (ABytes raw)] = Ok raw.
Proof.
  intros Hlen. unfold pack. change (parse_format "<16s") with (Some [Fmts 16]).
  cbn [of_option result_bind pack_codes pack_code].
  rewrite Hlen, Nat.sub_diag. cbn [replicate result_bind].
  rewrite <- Hlen, firstn_all. by rewrite !app_nil_r.
Qed.

Lemma fits_test (z hi : Z) :
  (0 <=? z) && (z <? hi) = true <-> 0 <= z < hi.
Proof. rewrite andb_true_iff, Z.leb_le, Z.ltb_lt. done. Qed.

Lemma int_from_4 (z : Z) :
  0 <= z < 2 ^ 32 ->
  int_from_bytes [byte_of_Z z; byte_of_Z (z / 256); byte_of_Z (z / 256 / 256);
                  byte_of_Z (z / 256 / 256 / 256)] = z.
Proof.
  intros Hz. change (int_from_bytes (int_to_bytes 4 z) = z).
  rewrite int_from_to_bytes. change (256 ^ Z.of_nat 4) with (2 ^ 32).
  by apply Z.mod_small.
Qed.

Lemma int_from_8 (z : Z) :
  0 <= z < 2 ^ 64 ->
  int_from_bytes
    [byte_of_Z z; byte_of_Z (z / 256); byte_of_Z (z / 256 / 256);
     byte_of_Z (z / 256 / 256 / 256); byte_of_Z (z / 256 / 256 / 256 / 256);
     byte_of_Z (z / 256 / 256 / 256 / 256 / 256);
     byte_of_Z (z / 256 / 256 / 256 / 256 / 256 / 256);
     byte_of_Z (z / 256 / 256 / 256 / 256 / 256 / 256 / 256)] = z.
Proof.
  intros Hz. change (int_from_bytes (int_to_bytes 8 z) = z).
  rewrite int_from_to_bytes. change (256 ^ Z.of_nat 8) with (2 ^ 64).
  by apply Z.mod_small.
Qed.

(** Header to bytes to header.  For a header whose uuid is the hexadecimal
    text of 16 bytes (as [parse_header] makes it): [write_header] succeeds
    exactly when every integer fits its field; the 60 bytes it then gives
    parse back to the same header; an integer that does not fit makes
    [struct.pack] raise. *)
Theorem write_then_parse_header (self : TileFile) (h : Header) (raw : bytes) :
  header self = Some h -> uuid h = hex raw -> length raw = 16%nat ->
  (header_fits h ->
   exists new_data,
     write_header self [] = Ok new_data /\ length new_data = 60%nat /\
     forall tile,
       parse_header new_data tile
       = (set_header h (log_call CallParseHeader tile), Ok tt)) /\
  (~ header_fits h -> write_header self [] = Raise StructError).
Proof.
  intros Hh Hu Hraw. unfold write_header. rewrite Hh, pack_I.
  change ((0 <=? MAGIC_KEY) && (MAGIC_KEY <? 2 ^ 32)) with true.
  cbn [of_option result_bind app].
  assert (forall z hi (r : result bytes),
            (0 <=? z) && (z <? hi) = false -> (header_fits h -> 0 <= z < hi) ->
            (header_fits h -> exists new_data,
               r = Ok new_data /\ length new_data = 60%nat /\
               forall tile, parse_header new_data tile
                            = (set_header h (log_call CallParseHeader tile), Ok tt)) /\
            (~ header_fits h -> Raise StructError = Raise StructError :> result bytes))
    as Hbad.
  { intros z hi r E Hf. split; [|done]. intros Hfit. specialize (Hf Hfit).
    apply fits_test in Hf. congruence. }
  rewrite pack_I.
  destruct ((0 <=? version h) && (version h <? 2 ^ 32)) eqn:E1;
    [apply fits_test in E1|apply (Hbad _ _ _ E1); by intros (H & _)].
  cbn [result_bind]. rewrite Hu, fromhex_hex. cbn [of_option result_bind].
  rewrite (pack_16s raw Hraw). cbn [result_bind]. rewrite pack_Q.
  destruct ((0 <=? creator_id h) && (creator_id h <? 2 ^ 64)) eqn:E2;
    [apply fits_test in E2|apply (Hbad _ _ _ E2); by intros (_ & H & _)].
  cbn [result_bind]. rewrite pack_I.
  destruct ((0 <=? width h) && (width h <? 2 ^ 32)) eqn:E3;
    [apply fits_test in E3|apply (Hbad _ _ _ E3); by intros (_ & _ & H & _)].
  cbn [result_bind]. rewrite pack_I.
  destruct ((0 <=? height h) && (height h <? 2 ^ 32)) eqn:E4;
    [apply fits_test in E4|apply (Hbad _ _ _ E4); by intros (_ & _ & _ & H & _)].
  cbn [result_bind]. rewrite pack_I.
  destruct ((0 <=? cell_header_offset h) && (cell_header_offset h <? 2 ^ 32)) eqn:E5;
    [apply fits_test in E5
    |apply (Hbad _ _ _ E5); by intros (_ & _ & _ & _ & H & _)].
  cbn [result_bind]. rewrite pack_I.
  destruct ((0 <=? cell_header_size h) && (cell_header_size h <? 2 ^ 32)) eqn:E6;
    [apply fits_test in E6
    |apply (Hbad _ _ _ E6); by intros (_ & _ & _ & _ & _ & H & _)].
  cbn [result_bind]. rewrite pack_I.
  destruct ((0 <=? some_val1 h) && (some_val1 h <? 2 ^ 32)) eqn:E7;
    [apply fits_test in E7
    |apply (Hbad _ _ _ E7); by intros (_ & _ & _ & _ & _ & _ & H & _)].
  cbn [result_bind]. rewrite pack_I.
  destruct ((0 <=? some_val2 h) && (some_val2 h <? 2 ^ 32)) eqn:E8;
    [apply fits_test in E8
    |apply (Hbad _ _ _ E8); by intros (_ & _ & _ & _ & _ & _ & _ & H & _)].
  cbn [result_bind]. rewrite pack_I.
  destruct ((0 <=? v_type h) && (v_type h <? 2 ^ 32)) eqn:E9;
    [apply fits_test in E9
    |apply (Hbad _ _ _ E9); by intros (_ & _ & _ & _ & _ & _ & _ & _ & H)].
  cbn [result_bind]. clear Hbad.
  split; [|intros Hn; exfalso; apply Hn; done].
  intros _. eexists. split; [reflexivity|].
  do 16 (destruct raw as [|? raw]; [discriminate Hraw|]).
  destruct raw; [|discriminate Hraw].
  split; [reflexivity|].
  intros tile. rewrite parse_header_spec. cbn zeta.
  change (int_to_bytes 4 MAGIC_KEY) with magic_bytes.
  cbn [int_to_bytes app magic_bytes length Nat.ltb Nat.leb].
  unfold header_of_bytes, u32_at. cbn [take drop firstn skipn].
  change (int_from_bytes ["T"%byte; "I"%byte; "L"%byte; "E"%byte]) with MAGIC_KEY.
  rewrite Z.eqb_refl. cbn [negb].
  rewrite !int_from_4, int_from_8 by done.
  rewrite <- Hu. by destruct h.
Qed.

(** ** Which errors the writer raises *)

Lemma raises_only_bind {S A B} (P : exn -> Prop) (c : M S A) (k : A -> M S B) :
  raises_only P c -> (forall a, raises_only P (k a)) -> raises_only P (bind c k).
Proof.
  intros Hc Hk s s' e. unfold bind.
  destruct (c s) as [s1 [a|e1]] eqn:E.
  - apply Hk.
  - intros [= <- <-]. by eapply Hc.
Qed.

Lemma raises_only_lift {S A} (P : exn -> Prop) (r : result A) :
  (forall e, r = Raise e -> P e) -> raises_only P (@lift S A r).
Proof. intros H s s' e [= _ ->]. by apply H. Qed.

Lemma raises_only_ret {S A} (P : exn -> Prop) (a : A) : raises_only P (@ret S A a).
Proof. by intros s s' e. Qed.

Lemma raises_only_weaken {S A} (P Q : exn -> Prop) (c : M S A) :
  (forall e, P e -> Q e) -> raises_only P c -> raises_only Q c.
Proof. intros HPQ Hc s s' e H. apply HPQ. by eapply Hc. Qed.

Lemma raises_only_for_fold {S A B} (P : exn -> Prop) (l : list A)
    (body : B -> A -> M S B) :
  (forall acc x, raises_only P (body acc x)) ->
  forall acc, raises_only P (for_fold l acc body).
Proof.
  intros Hb. induction l as [|x r IH]; intros acc; cbn [for_fold].
  - apply raises_only_ret.
  - apply raises_only_bind; [apply Hb|]. intros a. apply IH.
Qed.

Lemma getkey_error {V} (d : dict V) (k : string) (e : exn) :
  getkey d k = Raise e -> e = KeyError k.
Proof. unfold getkey. destruct (dict_get d k); [done|]. by intros [= <-]. Qed.

Lemma at2_error (header : CellHeader) (t k : string) (e : exn) :
  at2 header t k = Raise e -> is_ValueError e = false.
Proof.
  unfold at2. destruct (getkey header t) as [chunk|e1] eqn:E1; cbn [result_bind].
  - by intros ->%getkey_error.
  - intros [= <-]. by apply getkey_error in E1 as ->.
Qed.

Lemma getitem_error (v : pyval) (i : nat) (e : exn) :
  getitem v i = Raise e -> is_ValueError e = false.
Proof.
  destruct v as [[z|b]|l|l]; cbn.
  - by intros [= <-].
  - destruct (b !! i); cbn; [done|]. by intros [= <-].
  - destruct (l !! i); cbn; [done|]. by intros [= <-].
  - destruct (l !! i); cbn; [done|]. by intros [= <-].
Qed.

Lemma setitem_error (v : pyval) (i : nat) (x : atom) (e : exn) :
  setitem v i x = Raise e -> is_ValueError e = false.
Proof.
  destruct v as [a|l|l]; cbn [setitem]; try by intros [= <-].
  destruct (i <? length l)%nat; [done|]. by intros [= <-].
Qed.

Lemma encode_error (sub_cell : SubCellData) (f : option write_fn) (e : exn) :
  encode sub_cell f = Raise e ->
  exists g e',
    f = Some g /\ g (sub_data sub_cell) (sub_meta_data sub_cell) = Raise e' /\
    e = EncoderError e'.
Proof.
  unfold encode. destruct f as [f|]; [|done].
  destruct (f _ _) as [raw|e'] eqn:E; [done|]. intros [= <-]. by exists f, e'.
Qed.

Lemma encode_func_mip (t : string) (g : write_fn) :
  option_map snd (dict_get read_write_functions t) = Some g -> g = write_mip.
Proof.
  unfold read_write_functions. cbn [dict_get].
  destruct (String.eqb _ _); cbn; [by intros [= <-]|done].
Qed.

Lemma write_bytes_error (output_file_path : string) (new_data : bytes) (e : exn) :
  write_bytes output_file_path new_data = Raise e ->
  e = ValueError "embedded null byte" \/ e = OSError.
Proof.
  unfold write_bytes. destruct (has_nul _); [intros [= <-]; by left|].
  destruct (open_wb _ _); [done|]. intros [= <-]. by right.
Qed.

Lemma pack_codes_error (codes : list fmt_code) :
  forall (vals : list pyval) (e : exn),
    pack_codes codes vals = Raise e -> e = StructError.
Proof.
  induction codes as [|c r IH]; intros [|v vr] e; cbn [pack_codes]; try done;
    try by intros [= <-].
  destruct (pack_code c v) as [b1|e1] eqn:E1; cbn [result_bind].
  - destruct (pack_codes r vr) as [b2|e2] eqn:E2; cbn [result_bind]; [done|].
    intros [= <-]. by eapply IH.
  - intros [= <-].
    destruct c, v as [[z|b]|l|l]; cbn [pack_code] in E1;
      try (by injection E1); try done;
      (destruct (_ && _); [done|by injection E1]).
Qed.

Lemma pack_error (fmt : string) (vals : list pyval) (e : exn) :
  pack fmt vals = Raise e -> e = StructError.
Proof.
  unfold pack. destruct (parse_format fmt) as [codes|]; cbn [of_option result_bind].
  - apply pack_codes_error.
  - by intros [= <-].
Qed.

Lemma sequence_error {A} (l : list (result A)) (e : exn) :
  sequence l = Raise e -> Raise e ∈ l.
Proof.
  induction l as [|x r IH]; cbn [sequence]; [done|].
  destruct x as [a|e1]; cbn [result_bind].
  - destruct (sequence r) as [rs|e2]; cbn [result_bind]; [done|].
    intros [= <-]. right. by apply IH.
  - intros [= <-]. left.
Qed.

Lemma cell_data_item_error (header : CellHeader) (place : string * string * option nat)
    (e : exn) :
  cell_data_item header place = Raise e -> is_ValueError e = false.
Proof.
  destruct place as [[t k] [i|]]; cbn [cell_data_item].
  - unfold at3. destruct (at2 header t k) as [v|e1] eqn:E1; cbn [result_bind].
    + destruct (getitem v i) as [a|e2] eqn:E2; cbn [result_bind]; [done|].
      intros [= <-]. by eapply getitem_error.
    + intros [= <-]. by eapply at2_error.
  - apply at2_error.
Qed.

Lemma create_cell_header_error (header : CellHeader) (e : exn) :
  create_cell_header header = Raise e -> is_ValueError e = false.
Proof.
  rewrite create_cell_header_pack.
  destruct (sequence _) as [vals|e1] eqn:E; cbn [result_bind].
  - by intros ->%pack_codes_error.
  - intros [= <-]. apply sequence_error in E.
    apply list_elem_of_fmap in E as (place & E & _). symmetry in E.
    by eapply cell_data_item_error.
Qed.

Lemma create_cell_header_length (header : CellHeader) (header_data : bytes) :
  create_cell_header header = Ok header_data -> length header_data = 388%nat.
Proof.
  rewrite create_cell_header_pack. intros Hb.
  destruct (sequence _) as [vals|]; cbn [result_bind] in Hb; [|done].
  by apply length_pack_codes in Hb.
Qed.

Lemma raises_only_cell_get (t k : string) :
  raises_only (fun e => is_ValueError e = false) (cell_get t k).
Proof. intros s s' e [= _ H]. by eapply at2_error. Qed.

Lemma raises_only_cell_set (t k : string) (v : pyval) :
  raises_only (fun e => is_ValueError e = false) (cell_set t k v).
Proof.
  intros s s' e. unfold cell_set. destruct (dict_get s t); [done|]. by intros [= _ <-].
Qed.

Lemma raises_only_cell_listify (t k : string) :
  raises_only (fun e => is_ValueError e = false) (cell_listify t k).
Proof.
  apply raises_only_bind; [apply raises_only_cell_get|].
  intros [a|l|l]; try apply raises_only_ret. apply raises_only_cell_set.
Qed.

Lemma raises_only_cell_setitem (t k : string) (i : nat) (x : atom) :
  raises_only (fun e => is_ValueError e = false) (cell_setitem t k i x).
Proof.
  apply raises_only_bind; [apply raises_only_cell_get|]. intros v.
  apply raises_only_bind; [|intros v'; apply raises_only_cell_set].
  apply raises_only_lift. intros e. apply setitem_error.
Qed.

Lemma raises_only_own {S A} (c : M S A) :
  raises_only (fun e => is_ValueError e = false) c -> raises_only loop_error c.
Proof. apply raises_only_weaken. intros e He. by left. Qed.

Lemma raises_only_write_sub_cell (off : Z) (t : string) (blob : bytes) (i : nat)
    (sub : SubCell) :
  raises_only loop_error (write_sub_cell off t blob i sub).
Proof.
  destruct sub as [a b c|sc]; cbn [write_sub_cell]; [apply raises_only_ret|].
  apply raises_only_bind; [apply raises_only_own, raises_only_cell_get|].
  intros indexes.
  apply raises_only_bind.
  { apply raises_only_lift. intros e (g & e' & ->%encode_func_mip & Hg & ->)%encode_error.
    right. eauto. }
  intros raw. cbn zeta.
  apply raises_only_bind; [|intros; apply raises_only_ret].
  apply raises_only_own.
  destruct (negb (is_int indexes)).
  - repeat (apply raises_only_bind;
            [first [apply raises_only_cell_listify|apply raises_only_cell_setitem]
            |intros _]).
    apply raises_only_cell_setitem.
  - repeat (apply raises_only_bind; [apply raises_only_cell_set|intros _]).
    apply raises_only_cell_set.
Qed.

Lemma raises_only_write_cell_chunks (off : Z) (wd : WorldCell) (blob : bytes) :
  raises_only loop_error (write_cell_chunks off wd blob).
Proof.
  unfold write_cell_chunks. apply raises_only_for_fold. intros acc t.
  apply raises_only_bind.
  { apply raises_only_lift. intros e ->%getkey_error. by left. }
  intros subs. apply raises_only_for_fold. intros acc' [i sub].
  apply raises_only_write_sub_cell.
Qed.

Lemma write_cell_unfold (off : Z) (nd blob : bytes) (idx : nat) (self : TileFile) :
  write_cell off (nd, blob) idx self
  = match world_data self !! idx with
    | None => (self, Raise IndexError)
    | Some cell_data =>
        match cell_headers self !! idx with
        | None => (self, Raise IndexError)
        | Some cell_header =>
            let '(cell_header', r) := write_cell_chunks off cell_data blob cell_header in
            let self1 :=
              set_cell_headers (<[idx := cell_header']> (cell_headers self)) self in
            match r with
            | Raise e => (self1, Raise e)
            | Ok blob' =>
                match create_cell_header cell_header' with
                | Raise e => (self1, Raise e)
                | Ok header_data =>
                    if negb (length header_data =? CELL_DATA_SIZE)%nat then
                      (self1, Raise (ValueError "Header data is invalid size!"))
                    else
                      match header self with
                      | None => (self1, Raise TypeError)
                      | Some h =>
                          let start :=
                            cell_header_offset h
                            + Z.of_nat CELL_DATA_SIZE * Z.of_nat idx in
                          let end_ := start + Z.of_nat CELL_DATA_SIZE in
                          if negb (Z.of_nat (length header_data) =? end_ - start) then
                            (self1,
                             Raise (ValueError "Header Data Does not match the cell size"))
                          else if end_ >? Z.of_nat (length nd) then
                            (self1,
                             Raise (ValueError "Invalid Header Index (Out of bounds)."))
                          else
                            (self1,
                             Ok (py_slice nd 0 start ++ header_data
                                   ++ py_slice nd end_ (Z.of_nat (length nd)),
                                 blob'))
                      end
                end
            end
        end
    end.
Proof.
  unfold write_cell. unfold bind at 1 2. unfold get at 1, lift at 1.
  destruct (world_data self !! idx) as [wd|]; cbn [of_option]; [|done].
  unfold bind at 1. unfold with_cell.
  destruct (cell_headers self !! idx) as [ch|] eqn:Hch; [|done].
  destruct (write_cell_chunks off wd blob ch) as [ch' [blob'|e]]; [|done].
  unfold bind at 1 2. unfold get at 1, lift at 1.
  cbn [cell_headers set_cell_headers].
  rewrite list_lookup_insert_eq by (by eapply lookup_lt_Some).
  cbn [of_option]. unfold bind at 1. unfold lift at 1.
  destruct (create_cell_header ch') as [hd|e]; [|done].
  destruct (negb (length hd =? CELL_DATA_SIZE)%nat); [done|].
  unfold bind at 1. unfold lift at 1. cbn [header set_cell_headers].
  destruct (header self) as [h|]; cbn [of_option]; [|done].
  cbn zeta. destruct (negb _); [done|]. by destruct (_ >? _).
Qed.

Lemma for_fold_raises {S A B} (I : B -> S -> Prop) (P : exn -> Prop) (l : list A)
    (body : B -> A -> M S B) :
  (forall acc x s s' acc',
     In x l -> I acc s -> body acc x s = (s', Ok acc') -> I acc' s') ->
  (forall acc x s s' e, In x l -> I acc s -> body acc x s = (s', Raise e) -> P e) ->
  forall acc s s' e, I acc s -> for_fold l acc body s = (s', Raise e) -> P e.
Proof.
  induction l as [|x r IH]; intros Hok Hraise acc s s' e HI; cbn [for_fold]; [done|].
  unfold bind. destruct (body acc x s) as [s1 [acc1|e1]] eqn:E.
  - apply (IH (fun acc x s s' acc' Hin => Hok acc x s s' acc' (or_intror Hin))
              (fun acc x s s' e Hin => Hraise acc x s s' e (or_intror Hin))).
    by apply (Hok acc x s s1 acc1 (or_introl eq_refl)).
  - intros [= <- <-]. by apply (Hraise acc x s s1 e1 (or_introl eq_refl)).
Qed.

Lemma write_cell_step (off : Z) (h : Header) (n : nat) (acc : bytes * bytes)
    (idx : nat) (self : TileFile) :
  cell_header_offset h = 60 -> (idx < n)%nat ->
  write_loop_state h n acc self ->
  match write_cell off acc idx self with
  | (self', Ok acc') => write_loop_state h n acc' self'
  | (self', Raise e) => loop_error e
  end.
Proof.
  intros Hoff Hidx (Hh & Hn & Hlen). destruct acc as [nd blob]. cbn [fst] in Hlen.
  rewrite write_cell_unfold.
  destruct (world_data self !! idx) as [wd|]; [|by left].
  destruct (cell_headers self !! idx) as [ch|]; [|by left].
  destruct (write_cell_chunks off wd blob ch) as [ch' [blob'|e]] eqn:Hw.
  2:{ by eapply raises_only_write_cell_chunks. }
  destruct (create_cell_header ch') as [hd|e] eqn:Hc.
  2:{ left. by eapply create_cell_header_error. }
  pose proof (create_cell_header_length _ _ Hc) as Hhd.
  unfold CELL_DATA_SIZE. rewrite Hhd, Nat.eqb_refl. cbn [negb].
  rewrite Hh, Hoff. cbn zeta.
  replace (60 + Z.of_nat 388 * Z.of_nat idx + Z.of_nat 388
           - (60 + Z.of_nat 388 * Z.of_nat idx)) with (Z.of_nat 388) by lia.
  rewrite Z.eqb_refl. cbn [negb].
  destruct (Z.gtb_spec (60 + Z.of_nat 388 * Z.of_nat idx + Z.of_nat 388)
              (Z.of_nat (length nd))) as [Hgt|Hle]; [nia|].
  split; [done|]. split; [cbn [cell_headers set_cell_headers]; by rewrite length_insert|].
  cbn [fst].
  replace (60 + Z.of_nat 388 * Z.of_nat idx) with (Z.of_nat (60 + 388 * idx)) by lia.
  replace (Z.of_nat (60 + 388 * idx) + Z.of_nat 388)
    with (Z.of_nat (60 + 388 * (idx + 1))) by lia.
  rewrite py_slice_prefix, py_slice_suffix by nia.
  rewrite splice_length by (done || nia). done.
Qed.

Lemma write_header_error (self : TileFile) (new_data : bytes) (e : exn) :
  write_header self new_data = Raise e ->
  e = StructError \/ e = TypeError \/
  exists h, header self = Some h /\ fromhex (uuid h) = None /\
            e = fromhex_error (uuid h).
Proof.
  unfold write_header.
  repeat (match goal with
          | |- context [result_bind (pack ?f ?v) _] =>
              let E := fresh "E" in
              destruct (pack f v) eqn:E; cbn [result_bind];
              [|apply pack_error in E; intros [= <-]; by left]
          | |- context [result_bind (of_option ?o ?e) _] =>
              let E := fresh "E" in
              destruct o eqn:E; cbn [of_option result_bind];
              [|intros [= <-];
                first [by (right; left)|right; right; by eexists]]
          end).
  done.
Qed.

Lemma fromhex_error_not_offset (s : string) :
  fromhex_error s
  <> ValueError "Header offset is incorrect, I have no setup for this :)".
Proof. unfold fromhex_error. cbn [append]. discriminate. Qed.

Lemma count_sub_cells_error (self : TileFile) (e : exn) :
  count_sub_cells self = Raise e -> e = IndexError.
Proof.
  unfold count_sub_cells.
  generalize (seq 0 (length (cell_headers self))). intros l.
  revert e.
  assert (forall (acc : result nat) e,
            (forall e0, acc = Raise e0 -> e0 = IndexError) ->
            foldl (fun acc i =>
                     let* sub_cell_count := acc in
                     let* cell_data := of_option (world_data self !! i) IndexError in
                     Ok (sub_cell_count
                         + sum_list (map (fun kv => length (snd kv)) cell_data))%nat)
              acc l = Raise e -> e = IndexError) as H.
  { induction l as [|i r IH]; intros acc e Hacc; cbn [foldl]; [apply Hacc|].
    apply IH. intros e0. destruct acc as [k|e1]; cbn [result_bind].
    - destruct (world_data self !! i); cbn [of_option result_bind]; [done|].
      by intros [= <-].
    - intros [= <-]. by apply Hacc. }
  intros e. by apply H.
Qed.

Lemma to_tuple_error (v : pyval) (e : exn) : to_tuple v = Raise e -> e = TypeError.
Proof. destruct v as [[?|?]|?|?]; cbn; try done. by intros [= <-]. Qed.

Lemma as_int_error (v : pyval) (e : exn) : as_int v = Raise e -> e = TypeError.
Proof. destruct v as [[?|?]|?|?]; cbn; try done; by intros [= <-]. Qed.

Lemma py_len_error (v : pyval) (e : exn) : py_len v = Raise e -> e = TypeError.
Proof. destruct v as [[?|?]|?|?]; cbn; try done. by intros [= <-]. Qed.

Lemma build_new_data_error (self self' : TileFile) (e : exn) :
  build_new_data self = (self', Raise e) ->
  match write_header self [] with
  | Raise e0 => e = e0 /\ self' = self
  | Ok _ =>
      match header self with
      | None => e = TypeError
      | Some h =>
          if cell_header_offset h =? 60 then loop_error e
          else
            e = ValueError "Header offset is incorrect, I have no setup for this :)"
            /\ self' = self
      end
  end.
Proof.
  unfold build_new_data.
  unfold bind at 1 2. unfold get at 1, lift at 1.
  destruct (write_header self []) as [hdr|e0] eqn:Hw; [|by intros [= <- <-]].
  unfold bind at 1. unfold lift at 1.
  destruct (header self) as [h|] eqn:Hh; cbn [of_option];
    [|by intros [= _ <-]].
  pose proof (write_header_length _ _ _ Hw) as Hlen. cbn [length] in Hlen.
  rewrite Hlen. change (Z.of_nat (0 + 60)) with 60.
  rewrite (Z.eqb_sym 60).
  destruct (Z.eqb_spec (cell_header_offset h) 60) as [Hoff|Hoff];
    cbn [negb]; [|by intros [= <- <-]].
  unfold bind at 1. unfold lift at 1.
  destruct (count_sub_cells self) as [cnt|e0] eqn:Hc.
  2:{ intros [= _ <-]. apply count_sub_cells_error in Hc as ->. by left. }
  cbn zeta. unfold bind at 1.
  destruct (for_fold _ _ _ self) as [s1 [[nd blob]|e1]] eqn:Hloop; [done|].
  intros [= _ <-].
  apply (for_fold_raises (write_loop_state h (length (cell_headers self)))
           loop_error _ _) in Hloop; [done| | |].
  - intros acc x s2 s3 acc' Hx HI Hb. apply in_seq in Hx.
    assert (x < length (cell_headers self))%nat as Hlt by lia.
    pose proof (write_cell_step
                  (Z.of_nat (length (hdr ++ replicate
                     (CELL_DATA_SIZE * length (cell_headers self)) "X"%byte)))
                  h _ acc x s2 Hoff Hlt HI) as Hs.
    by rewrite Hb in Hs.
  - intros acc x s2 s3 e2 Hx HI Hb. apply in_seq in Hx.
    assert (x < length (cell_headers self))%nat as Hlt by lia.
    pose proof (write_cell_step
                  (Z.of_nat (length (hdr ++ replicate
                     (CELL_DATA_SIZE * length (cell_headers self)) "X"%byte)))
                  h _ acc x s2 Hoff Hlt HI) as Hs.
    by rewrite Hb in Hs.
  - split; [done|]. split; [done|]. cbn [fst].
    rewrite length_app, length_replicate. unfold CELL_DATA_SIZE. lia.
Qed.

Lemma validate_write_error (s1 : TileFile) (nd : bytes) (printed out : list diag)
    (e1 : exn) :
  __validate_write s1 nd printed = (out, Raise e1) -> is_ValueError e1 = false.
Proof.
  destruct run_as_script eqn:Hs.
  2:{ rewrite (validate_write_imported s1 nd printed Hs). by intros [= _ <-]. }
  rewrite (validate_write_script s1 nd printed Hs).
  destruct (read_file _ _) as [tile [[]|e0]]; [done|].
  assert (forall (c : M (list diag) unit),
            raises_only (fun e => is_ValueError e = false) c ->
            raises_only (fun e => is_ValueError e = false)
              (bind c (fun _ => ret false))) as Hlast.
  { intros c Hc. apply raises_only_bind; [done|]. intros. apply raises_only_ret. }
  intros Hv. revert Hv.
  apply (raises_only_bind (fun e => is_ValueError e = false)); [by intros ? ? ?|].
  intros _. apply raises_only_bind; [by intros ? ? ?|]. intros _.
  apply raises_only_bind; [by intros ? ? ?|]. intros _.
  apply raises_only_bind; [by intros ? ? ?|]. intros _.
  apply raises_only_bind.
  { unfold check_header_values. apply raises_only_bind.
    { apply raises_only_lift. intros e2. destruct (header tile); cbn; [done|].
      by intros [= <-]. }
    intros th. apply raises_only_for_fold. intros _ [key value].
    apply raises_only_bind.
    { apply raises_only_lift. intros e2. destruct (header s1); cbn; [done|].
      by intros [= <-]. }
    intros sh. apply raises_only_bind.
    { apply raises_only_lift. by intros e2 ->%getkey_error. }
    intros expected. destruct (negb _); by intros ? ? ?. }
  intros _. apply raises_only_bind; [by intros ? ? ?|]. intros _.
  apply raises_only_bind.
  { unfold check_cell_headers. apply raises_only_for_fold. intros _ [ci ch].
    apply raises_only_bind.
    { apply raises_only_lift. intros e2. destruct (_ !! _); cbn; [done|].
      by intros [= <-]. }
    intros true_header. apply raises_only_for_fold. intros _ [key chunk].
    apply raises_only_bind.
    { apply raises_only_lift. intros e2. unfold chunk_is_invalid.
      assert (forall (l : dict pyval) (acc : result bool),
                (forall e0, acc = Raise e0 -> is_ValueError e0 = false) ->
                foldl (fun acc '(sub_key, value) =>
                   let* invalid := acc in
                   let* both_int :=
                     (if is_int value then
                        let* expected := at2 true_header key sub_key in
                        Ok (is_int expected)
                      else Ok false) in
                   if both_int then Ok invalid
                   else
                     let* loaded := to_tuple value in
                     let* expected := at2 true_header key sub_key in
                     let* expected := to_tuple expected in
                     Ok (if negb (atoms_eqb loaded expected) then true else invalid))
                  acc l = Raise e2 -> is_ValueError e2 = false) as Hf.
      { induction l as [|[sk v] r IH]; intros acc Hacc; cbn [foldl]; [apply Hacc|].
        apply IH. intros err. destruct acc as [inv|err1]; cbn [result_bind];
          [|intros [= <-]; by apply Hacc].
        destruct (is_int v).
        - destruct (at2 true_header key sk) as [ex|e3] eqn:E3; cbn [result_bind];
            [|intros [= <-]; by eapply at2_error].
          destruct (is_int ex); [done|].
          destruct (to_tuple v) as [lo|e4] eqn:E4; cbn [result_bind].
          + destruct (to_tuple ex) as [ex'|e5] eqn:E5; cbn [result_bind]; [done|].
            intros [= <-]. by apply to_tuple_error in E5 as ->.
          + intros [= <-]. by apply to_tuple_error in E4 as ->.
        - cbn [result_bind].
          destruct (to_tuple v) as [lo|e4] eqn:E4; cbn [result_bind].
          + destruct (at2 true_header key sk) as [ex|e3] eqn:E3; cbn [result_bind];
              [|intros [= <-]; by eapply at2_error].
            destruct (to_tuple ex) as [ex'|e5] eqn:E5; cbn [result_bind]; [done|].
            intros [= <-]. by apply to_tuple_error in E5 as ->.
          + intros [= <-]. by apply to_tuple_error in E4 as ->. }
      apply Hf. done. }
    intros invalid. destruct invalid; by intros ? ? ?. }
  intros _. apply raises_only_bind; [by intros ? ? ?|]. intros _.
  apply Hlast. unfold check_overflow. apply raises_only_for_fold. intros _ [ci ch].
  apply raises_only_for_fold. intros _ [key chunk].
  assert (forall a b, raises_only (fun e => is_ValueError e = false)
                        (check_pointer nd ci key a b)) as Hcp.
  { intros a b. unfold check_pointer. apply raises_only_bind.
    { apply raises_only_lift. by intros e2 ->%as_int_error. }
    intros za. apply raises_only_bind.
    { apply raises_only_lift. by intros e2 ->%as_int_error. }
    intros zb. cbn zeta. destruct (_ >=? _); by intros ? ? ?. }
  apply raises_only_bind.
  { apply raises_only_lift. by intros e2 ->%getkey_error. }
  intros indexes. destruct (is_int indexes).
  - apply raises_only_bind.
    { apply raises_only_lift. by intros e2 ->%getkey_error. }
    intros compressed. apply Hcp.
  - cbn zeta. apply raises_only_bind.
    { apply raises_only_lift. by intros e2 ->%getkey_error. }
    intros sp. apply raises_only_bind.
    { apply raises_only_lift. by intros e2 ->%py_len_error. }
    intros len. apply raises_only_for_fold. intros _ i.
    apply raises_only_bind.
    { apply raises_only_lift. intros e2. apply getitem_error. }
    intros ip. apply raises_only_bind.
    { apply raises_only_lift. intros e2. apply getitem_error. }
    intros szp. apply Hcp.
Qed.

Lemma write_file_error (output_file_path : string) (validate : bool)
    (self self' : TileFile) (e : exn) :
  write_file output_file_path validate self = (self', Raise e) ->
  build_new_data self = (self', Raise e) \/
  (validate = true /\ is_ValueError e = false) \/
  (exists new_data,
     build_new_data self = (self', Ok new_data) /\
     write_bytes output_file_path new_data = Raise e).
Proof.
  unfold write_file. unfold bind at 1.
  destruct (build_new_data self) as [s1 [nd|e1]] eqn:Hb.
  2:{ intros [= <- <-]. by left. }
  destruct validate; cbn [negb].
  - unfold bind, get, lift, ret.
    destruct (__validate_write s1 nd []) as [out [[]|e1]] eqn:Hv; try done.
    + destruct (write_bytes output_file_path nd) as [[]|e1] eqn:Ho; [done|].
      intros [= <- <-]. right. right. by exists nd.
    + unfold raise. intros [= _ <-]. right. left. split; [done|].
      by eapply validate_write_error.
  - unfold bind, lift, ret.
    destruct (write_bytes output_file_path nd) as [[]|e1] eqn:Ho; [done|].
    intros [= <- <-]. right. right. by exists nd.
Qed.

(** A [ValueError] that comes out of [write_file] is the one of
    [bytes.fromhex] on the uuid, the one of the header-offset test, the one
    of [open] on a path with a NUL character, or one that the encoder
    raised: the three tests inside the loop over the cells ("Header data is
    invalid size!", "Header Data Does not match the cell size", "Invalid
    Header Index (Out of bounds).") never fail, whatever the model holds. *)
Theorem write_file_value_errors (output_file_path : string) (validate : bool)
    (self self' : TileFile) (e : exn) :
  write_file output_file_path validate self = (self', Raise e) ->
  is_ValueError e = true ->
  (exists h, header self = Some h /\ fromhex (uuid h) = None /\
             e = fromhex_error (uuid h)) \/
  e = ValueError "Header offset is incorrect, I have no setup for this :)" \/
  (has_nul output_file_path = true /\ e = ValueError "embedded null byte") \/
  (exists data meta e', write_mip data meta = Raise e' /\ e = EncoderError e').
Proof.
  intros [Hb|[[_ Hn]|(nd & _ & Ho)]]%write_file_error Hve; [|congruence|].
  2:{ right. right. left. unfold write_bytes in Ho.
      destruct (has_nul output_file_path); [by injection Ho as <-|].
      destruct (open_wb _ _); [done|]. injection Ho as <-. done. }
  apply build_new_data_error in Hb.
  destruct (write_header self []) as [hdr|e0] eqn:Hw.
  - destruct (header self) as [h|]; [|by subst].
    destruct (cell_header_offset h =? 60).
    + destruct Hb as [Hb|Hb]; [congruence|]. by right; right; right.
    + right. left. by destruct Hb.
  - destruct Hb as [-> _].
    destruct (write_header_error _ _ _ Hw) as [->|[->|Hf]]; try done. by left.
Qed.

(** [write_file] requires the cell headers to start right after the header:
    it raises "Header offset is incorrect" exactly when the header can be
    serialised and its [cell_header_offset] is not 60, and it then leaves the
    model as it was and writes nothing. *)
Theorem write_file_offset_check (output_file_path : string) (validate : bool)
    (self : TileFile) :
  let offset_error :=
    ValueError "Header offset is incorrect, I have no setup for this :)" in
  ((exists self', write_file output_file_path validate self
                  = (self', Raise offset_error)) <->
   (exists h new_data,
      header self = Some h /\ write_header self [] = Ok new_data /\
      cell_header_offset h <> 60)) /\
  (forall self', write_file output_file_path validate self = (self', Raise offset_error) ->
                 self' = self).
Proof.
  cbv zeta.
  assert (forall self',
            write_file output_file_path validate self
            = (self', Raise (ValueError
                 "Header offset is incorrect, I have no setup for this :)")) ->
            self' = self /\
            exists h new_data,
              header self = Some h /\ write_header self [] = Ok new_data /\
              cell_header_offset h <> 60) as Hinv.
  { intros self' [Hb|[[_ Hn]|(nd & _ & Ho)]]%write_file_error; [|done|].
    2:{ by apply write_bytes_error in Ho as [Ho|Ho]. }
    apply build_new_data_error in Hb.
    destruct (write_header self []) as [hdr|e0] eqn:Hw.
    - destruct (header self) as [h|]; [|done].
      destruct (Z.eqb_spec (cell_header_offset h) 60).
      { by destruct Hb as [Hb|(? & ? & ? & _ & Hb)]. }
      destruct Hb as [_ ->]. split; [done|]. by exists h, hdr.
    - destruct Hb as [He _].
      destruct (write_header_error _ _ _ Hw) as [->|[->|(h & _ & _ & ->)]];
        first [done|symmetry in He; by apply fromhex_error_not_offset in He]. }
  split; [split|].
  - intros [self' H]. by apply Hinv in H as [_ H].
  - intros (h & hdr & Hh & Hw & Hoff). exists self.
    unfold write_file, build_new_data.
    unfold bind at 1 2 3. unfold get at 1, lift at 1. rewrite Hw.
    unfold bind at 1. unfold lift at 1. rewrite Hh. cbn [of_option].
    pose proof (write_header_length _ _ _ Hw) as Hlen. cbn [length] in Hlen.
    rewrite Hlen. change (Z.of_nat (0 + 60)) with 60.
    destruct (Z.eqb_spec 60 (cell_header_offset h)); [congruence|]. reflexivity.
  - intros self' H. by apply Hinv in H as [-> _].
Qed.

(** ** What [write_file] returns and writes *)

Lemma validate_write_run (self : TileFile) (new_data : bytes) (printed : list diag) :
  match (read_file (Some new_data) (set_DEBUG true (TileFile_init None))).2 with
  | Ok _ =>
      forall out b, __validate_write self new_data printed = (out, Ok b) ->
                    out = printed /\ b = true
  | Raise _ =>
      forall out b, __validate_write self new_data printed = (out, Ok b) -> b = false
  end.
Proof.
  destruct run_as_script eqn:Hs.
  2:{ rewrite (validate_write_imported self new_data printed Hs).
      by destruct (read_file _ _) as [tile [[]|e]]. }
  rewrite (validate_write_script self new_data printed Hs).
  destruct (read_file _ _) as [tile [[]|e]]; cbn [snd]; [by intros out b [= <- <-]|].
  intros out b. unfold bind, print, modify, ret.
  destruct (check_header_values _ _ _) as [o1 [[]|e1]]; [|done].
  destruct (check_cell_headers _ _ _) as [o2 [[]|e2]]; [|done].
  destruct (check_overflow _ _ _) as [o3 [[]|e3]]; [|done].
  by intros [= _ <-].
Qed.

(** When [write_file] returns, it has built the bytes [new_data]; it
    returns [True] and writes them to the file, or returns [False] and writes
    nothing.  Without validation it always returns [True] and prints no
    diagnostics; with validation it returns [True] exactly when reading
    [new_data] back raised nothing, and it then prints no diagnostics
    either. *)
Theorem write_file_outcome (output_file_path : string) (validate : bool)
    (self self' : TileFile) (result : bool) (written : option bytes)
    (printed : list diag) :
  write_file output_file_path validate self = (self', Ok (result, written, printed)) ->
  exists new_data,
    build_new_data self = (self', Ok new_data) /\
    written = (if result then Some new_data else None) /\
    (result = true -> printed = []) /\
    (validate = false -> result = true) /\
    (validate = true ->
     result = match (read_file (Some new_data)
                       (set_DEBUG true (TileFile_init None))).2 with
              | Ok _ => true
              | Raise _ => false
              end).
Proof.
  unfold write_file. unfold bind at 1.
  destruct (build_new_data self) as [s1 [nd|e1]] eqn:Hb; [|done].
  destruct validate; cbn [negb].
  - unfold bind, get, ret, raise, lift.
    pose proof (validate_write_run s1 nd []) as Hv.
    destruct (__validate_write s1 nd []) as [out [b|e]] eqn:E; cbn beta iota;
      [|discriminate].
    destruct (read_file _ _) as [tile [[]|e]] eqn:Er; cbn [snd] in Hv.
    + destruct (Hv out b eq_refl) as [-> ->].
      destruct (write_bytes output_file_path nd) as [[]|e]; [|done].
      intros H. inversion H; subst.
      exists nd. rewrite Er. by split_and!.
    + rewrite (Hv out b eq_refl). intros H. inversion H; subst.
      exists nd. rewrite Er. by split_and!.
  - unfold bind, lift, ret.
    destruct (write_bytes output_file_path nd) as [[]|e]; [|done].
    intros H. inversion H; subst. exists nd. by split_and!.
Qed.

Lemma write_file_built (output_file_path : string) (validate : bool)
    (self self' : TileFile) (r : bool * option bytes * list diag) :
  write_file output_file_path validate self = (self', Ok r) ->
  exists new_data,
    build_new_data self = (self', Ok new_data) /\
    (r.1.2 = Some new_data \/ r.1.2 = None).
Proof.
  unfold write_file. unfold bind at 1.
  destruct (build_new_data self) as [s1 [nd|e1]] eqn:Hb; [|done].
  destruct validate; cbn [negb].
  - unfold bind, get, ret, raise, lift.
    destruct (__validate_write s1 nd []) as [out [[]|e]]; cbn beta iota;
      [| |discriminate]; destruct (write_bytes output_file_path nd) as [[]|e];
      try done; intros H; inversion H; subst; exists nd; cbn; eauto.
  - unfold bind, lift, ret.
    destruct (write_bytes output_file_path nd) as [[]|e]; [|done].
    intros H. inversion H; subst. exists nd. cbn. eauto.
Qed.

(** The bytes [write_file] builds for a model of the shape [read_file]
    gives: the 60 bytes of [write_header], then for each cell the 388 bytes
    [create_cell_header] makes of its cell header as it is after the write,
    then the compressed chunks, cell after cell in the order of the slots;
    nothing else. *)
Theorem written_file_layout (output_file_path : string) (validate : bool)
    (self self' : TileFile) (new_data : bytes) (printed : list diag) :
  wf_model self = true ->
  write_file output_file_path validate self
  = (self', Ok (true, Some new_data, printed)) ->
  let n := length (cell_headers self) in
  length new_data = (60 + 388 * n + length (cells_payloads (world_data self)))%nat /\
  write_header self [] = Ok (take 60 new_data) /\
  (forall c cell_header,
     cell_headers self' !! c = Some cell_header ->
     create_cell_header cell_header = Ok (region c new_data)) /\
  drop (60 + 388 * n) new_data = cells_payloads (world_data self).
Proof.
  intros Hwf Hrun%write_file_build n.
  destruct (build_new_data_written _ _ _ Hwf Hrun) as (Hlen & Hdrop & _ & _).
  destruct (build_new_data_spec _ _ _ Hwf Hrun)
    as (h & nd' & Hh & Hoff & Hh' & Hw & Hn & Hhdr & Hnd & Hout & Hcells).
  fold n in Hlen, Hdrop, Hn, Hnd, Hcells.
  split; [done|]. split.
  { rewrite Hhdr. f_equal. rewrite Hout, take_app_le by lia. done. }
  split; [|done].
  intros c ch' Hc.
  assert (c < n)%nat as Hlt by (rewrite <- Hn; by eapply lookup_lt_Some).
  destruct (lookup_lt_is_Some_2 (cell_headers self) c) as [ch Hch]; [done|].
  destruct (lookup_lt_is_Some_2 (world_data self) c) as [wd Hwd].
  { rewrite (wf_model_lengths _ Hwf). done. }
  destruct (Hcells c ch wd Hch Hwd) as (_ & ch0 & b & Hc0 & _ & Hb & Hreg).
  assert (ch0 = ch') as -> by congruence.
  rewrite Hb. f_equal. rewrite <- Hreg.
  apply (region_take _ _ c (60 + 388 * n)); [nia|].
  rewrite Hout, take_app_le by lia. done.
Qed.

(** Whatever [write_file] returns, it has rewritten the cell headers of the
    model in place and nothing else: header and decoded cells are as before,
    and each cell header in memory holds, at every place of the record, the
    integer that the record built for it holds. *)
Theorem write_file_updates_cell_headers (output_file_path : string) (validate : bool)
    (self self' : TileFile) (r : bool * option bytes * list diag) :
  wf_model self = true ->
  write_file output_file_path validate self = (self', Ok r) ->
  header self' = header self /\
  world_data self' = world_data self /\
  length (cell_headers self') = length (cell_headers self) /\
  exists new_data,
    build_new_data self = (self', Ok new_data) /\
    forall c cell_header,
      cell_headers self' !! c = Some cell_header ->
      exists stored,
        parse_cell_header (region c new_data) = Ok stored /\
        same_fields cell_header stored.
Proof.
  intros Hwf (nd & Hrun & _)%write_file_built.
  destruct (build_new_data_spec _ _ _ Hwf Hrun)
    as (h & nd' & Hh & Hoff & Hh' & Hw & Hn & _).
  destruct (build_new_data_written _ _ _ Hwf Hrun) as (_ & _ & _ & Hcells).
  split; [congruence|]. split; [done|]. split; [done|].
  exists nd. split; [done|]. intros c ch' Hc.
  assert (c < length (cell_headers self))%nat as Hlt
    by (rewrite <- Hn; by eapply lookup_lt_Some).
  destruct (lookup_lt_is_Some_2 (cell_headers self) c) as [ch Hch]; [done|].
  destruct (lookup_lt_is_Some_2 (world_data self) c) as [wd Hwd].
  { rewrite (wf_model_lengths _ Hwf). done. }
  destruct (Hcells c ch wd Hch Hwd) as (_ & ch0 & ch2 & Hc0 & _ & Hwr & _ & Hsf).
  assert (ch0 = ch') as -> by congruence.
  exists ch2. split; [|done]. exact Hwr.
Qed.

(** ** The validator *)

Lemma validate_write_no_header (self tile : TileFile) (new_data : bytes)
    (printed : list diag) (e : exn) :
  run_as_script = true ->
  read_file (Some new_data) (set_DEBUG true (TileFile_init None)) = (tile, Raise e) ->
  header tile = None ->
  __validate_write self new_data printed
  = (printed ++ [ErrorFailedToValidate; ErrorCaught e; DebugAttempting;
                 DebugCheckingHeader], Raise AttributeError).
Proof.
  intros Hs Hr Hh. rewrite (validate_write_script self new_data printed Hs), Hr.
  unfold bind, print, modify, check_header_values, lift. rewrite Hh.
  cbn [of_option]. by rewrite <- !app_assoc.
Qed.

(** When reading the bytes back fails before a header is there (no bytes at
    all, fewer than 60 bytes, or a wrong signature), the validator does not
    return [False], it raises [AttributeError]: in the script that is run,
    after announcing the failure it looks into the header of the re-read
    tile, which is [None]; in an imported module, at the assignment to
    [__builtins__.print], with nothing printed. *)
Theorem validator_raises_without_header (self : TileFile) (new_data : bytes)
    (printed : list diag) :
  new_data = [] \/ (length new_data < 60)%nat \/ take 4 new_data <> magic_bytes ->
  exists e,
    (read_file (Some new_data) (set_DEBUG true (TileFile_init None))).2 = Raise e /\
    __validate_write self new_data printed
    = (if run_as_script
       then printed ++ [ErrorFailedToValidate; ErrorCaught e; DebugAttempting;
                        DebugCheckingHeader]
       else printed,
       Raise AttributeError).
Proof.
  intros H.
  assert (exists tile e,
            read_file (Some new_data) (set_DEBUG true (TileFile_init None))
            = (tile, Raise e) /\ header tile = None) as (tile & e & Hr & Hh).
  { destruct new_data as [|b0 r0] eqn:Hnd.
    - eexists _, _. split; reflexivity.
    - rewrite <- Hnd in *. assert (new_data <> []) as Hne by (by rewrite Hnd).
      rewrite (read_file_unfold _ _ Hne). cbn zeta.
      destruct (Nat.ltb_spec (length new_data) 60) as [Hlt|Hge].
      { eexists _, _. split; reflexivity. }
      destruct H as [H|[H|H]]; [congruence|lia|].
      destruct (u32_at new_data 0 =? MAGIC_KEY) eqn:Em; cbn [negb].
      { apply magic_key_bytes in Em; [done|lia]. }
      eexists _, _. split; reflexivity. }
  exists e. rewrite Hr. split; [done|]. destruct run_as_script eqn:Hs.
  - by apply (validate_write_no_header _ tile).
  - by apply validate_write_imported.
Qed.

Lemma bytes_eqb_eq (s t : bytes) : bytes_eqb s t = true <-> s = t.
Proof.
  revert t. induction s as [|x r IH]; intros [|y r']; cbn; try done.
  rewrite andb_true_iff, IH. split.
  - intros [H ->]. by apply Byte.byte_dec_bl in H as ->.
  - intros [= -> ->]. split; [by apply Byte.byte_dec_lb|done].
Qed.

Lemma atom_eqb_eq (a b : atom) : atom_eqb a b = true <-> a = b.
Proof.
  destruct a as [x|s], b as [y|t]; cbn; try done.
  - rewrite Z.eqb_eq. split; congruence.
  - rewrite bytes_eqb_eq. split; congruence.
Qed.

Lemma atoms_eqb_eq (l1 l2 : list atom) : atoms_eqb l1 l2 = true <-> l1 = l2.
Proof.
  revert l2. induction l1 as [|a r IH]; intros [|b r']; cbn; try done.
  rewrite andb_true_iff, atom_eqb_eq, IH. split.
  - by intros [-> ->].
  - by intros [= -> ->].
Qed.

Lemma hval_eqb_eq (a b : hval) : hval_eqb a b = true <-> a = b.
Proof.
  destruct a as [x|s], b as [y|t]; cbn; try done.
  - rewrite Z.eqb_eq. split; congruence.
  - rewrite String.eqb_eq. split; congruence.
Qed.

(** The "Cell Header Mismatch" test of the validator never compares
    integers: a category whose fields are plain integers in both cell headers
    (clutter, blueprint, node, ...) is never reported, whatever the integers
    are.  A category whose fields are sequences is reported exactly when the
    items of some field differ. *)
Theorem cell_mismatch_check (true_header : CellHeader) (key : string)
    (chunk : dict pyval) :
  ((forall sub_key value,
      (sub_key, value) ∈ chunk ->
      is_int value = true /\
      exists z, at2 true_header key sub_key = Ok (PInt z)) ->
   chunk_is_invalid true_header key chunk = Ok false) /\
  ((forall sub_key value,
      (sub_key, value) ∈ chunk ->
      is_int value = false /\
      exists loaded expected items,
        to_tuple value = Ok loaded /\
        at2 true_header key sub_key = Ok expected /\
        to_tuple expected = Ok items) ->
   chunk_is_invalid true_header key chunk
   = Ok (existsb (field_differs true_header key) chunk) /\
   (existsb (field_differs true_header key) chunk = true <->
    exists sub_key value loaded expected items,
      (sub_key, value) ∈ chunk /\ to_tuple value = Ok loaded /\
      at2 true_header key sub_key = Ok expected /\
      to_tuple expected = Ok items /\ loaded <> items)).
Proof.
  unfold chunk_is_invalid. split.
  - assert (forall acc : bool,
              (forall sub_key value,
                 (sub_key, value) ∈ chunk ->
                 is_int value = true /\
                 exists z, at2 true_header key sub_key = Ok (PInt z)) ->
              foldl (fun acc '(sub_key, value) =>
                 let* invalid := acc in
                 let* both_int :=
                   (if is_int value then
                      let* expected := at2 true_header key sub_key in
                      Ok (is_int expected)
                    else Ok false) in
                 if both_int then Ok invalid
                 else
                   let* loaded := to_tuple value in
                   let* expected := at2 true_header key sub_key in
                   let* expected := to_tuple expected in
                   Ok (if negb (atoms_eqb loaded expected) then true else invalid))
                (Ok acc) chunk = Ok acc) as H; [|apply H].
    induction chunk as [|[sk v] r IH]; intros acc Hall; cbn [foldl]; [done|].
    destruct (Hall sk v) as (Hint & z & Hz); [left|].
    cbn [result_bind]. rewrite Hint, Hz. cbn [result_bind is_int PInt].
    apply IH. intros sk' v' Hin. apply Hall. by right.
  - intros Hall. split.
    + assert (forall acc : bool,
                (forall sub_key value,
                   (sub_key, value) ∈ chunk ->
                   is_int value = false /\
                   exists loaded expected items,
                     to_tuple value = Ok loaded /\
                     at2 true_header key sub_key = Ok expected /\
                     to_tuple expected = Ok items) ->
                foldl (fun acc '(sub_key, value) =>
                   let* invalid := acc in
                   let* both_int :=
                     (if is_int value then
                        let* expected := at2 true_header key sub_key in
                        Ok (is_int expected)
                      else Ok false) in
                   if both_int then Ok invalid
                   else
                     let* loaded := to_tuple value in
                     let* expected := at2 true_header key sub_key in
                     let* expected := to_tuple expected in
                     Ok (if negb (atoms_eqb loaded expected) then true else invalid))
                  (Ok acc) chunk
                = Ok (acc || existsb (field_differs true_header key) chunk)) as H;
        [|by rewrite (H false Hall)].
      clear Hall.
      induction chunk as [|[sk v] r IH]; intros acc Hall; cbn [foldl existsb].
      { by rewrite orb_false_r. }
      destruct (Hall sk v) as (Hint & lo & ex & it & Hlo & Hex & Hit); [left|].
      cbn [result_bind]. rewrite Hint. cbn [result_bind].
      rewrite Hlo, Hex. cbn [result_bind]. rewrite Hit. cbn [result_bind].
      rewrite IH by (intros sk' v' Hin; apply Hall; by right).
      f_equal. unfold field_differs at 2. cbn [fst snd]. rewrite Hlo, Hex, Hit.
      destruct (negb (atoms_eqb lo it)), acc; cbn; done.
    + rewrite existsb_exists. split.
      * intros ([sk v] & Hin%list_elem_of_In & Hd).
        destruct (Hall sk v Hin) as (_ & lo & ex & it & Hlo & Hex & Hit).
        unfold field_differs in Hd. cbn [fst snd] in Hd.
        rewrite Hlo, Hex, Hit in Hd.
        exists sk, v, lo, ex, it. split_and!; try done.
        intros ->. apply negb_true_iff in Hd.
        by rewrite (proj2 (atoms_eqb_eq it it) eq_refl) in Hd.
      * intros (sk & v & lo & ex & it & Hin & Hlo & Hex & Hit & Hne).
        exists (sk, v). split; [by apply list_elem_of_In|].
        unfold field_differs. cbn [fst snd]. rewrite Hlo, Hex, Hit.
        apply negb_true_iff. destruct (atoms_eqb lo it) eqn:E; [|done].
        by apply atoms_eqb_eq in E.
Qed.

Lemma header_items_get (hs : Header) (key : string) (value : hval) (ht : Header) :
  (key, value) ∈ header_items ht -> is_Some (dict_get (header_items hs) key).
Proof.
  unfold header_items.
  intros H. repeat (apply elem_of_cons in H as [[= -> _]|H]; [by eexists|]).
  by apply elem_of_nil in H.
Qed.

(** After a failed re-read that got past the header, the validator prints
    one "Header Mismatch" warning for each field of the header in which the
    re-read header differs from the model's, in the order of the fields, and
    none exactly when the two headers are equal. *)
Theorem header_mismatch_check (self tile : TileFile) (hs ht : Header)
    (printed : list diag) :
  header self = Some hs -> header tile = Some ht ->
  let warnings := flat_map (header_warning (header_items hs)) (header_items ht) in
  check_header_values self tile printed = (printed ++ warnings, Ok tt) /\
  (warnings = [] <-> hs = ht) /\
  (forall key expected got,
     In (WarnHeaderMismatch key expected got) warnings <->
     dict_get (header_items hs) key = Some expected /\
     (key, got) ∈ header_items ht /\ expected <> got).
Proof.
  intros Hs Ht warnings. split; [|split].
  - unfold check_header_values, bind at 1, lift at 1. rewrite Ht. cbn [of_option].
    apply for_each_prints. intros [key value] out Hin.
    unfold bind, lift. rewrite Hs. cbn [of_option].
    destruct (header_items_get hs key value ht) as [expected He];
      [by apply list_elem_of_In|].
    unfold getkey, header_warning. cbn [fst snd]. rewrite He. cbn [of_option].
    destruct (hval_eqb expected value); cbn [negb].
    + unfold ret. by rewrite app_nil_r.
    + reflexivity.
  - unfold warnings, header_items, header_warning.
    cbn [flat_map dict_get fst snd String.eqb Ascii.eqb Bool.eqb hval_eqb app].
    split.
    + intros H.
      destruct (Z.eqb_spec (version hs) (version ht)) as [E1|]; [|done].
      destruct (String.eqb_spec (uuid hs) (uuid ht)) as [E2|]; [|done].
      destruct (Z.eqb_spec (creator_id hs) (creator_id ht)) as [E3|]; [|done].
      destruct (Z.eqb_spec (width hs) (width ht)) as [E4|]; [|done].
      destruct (Z.eqb_spec (height hs) (height ht)) as [E5|]; [|done].
      destruct (Z.eqb_spec (cell_header_offset hs) (cell_header_offset ht)) as [E6|];
        [|done].
      destruct (Z.eqb_spec (cell_header_size hs) (cell_header_size ht)) as [E7|];
        [|done].
      destruct (Z.eqb_spec (some_val1 hs) (some_val1 ht)) as [E8|]; [|done].
      destruct (Z.eqb_spec (some_val2 hs) (some_val2 ht)) as [E9|]; [|done].
      destruct (Z.eqb_spec (v_type hs) (v_type ht)) as [E10|]; [|done].
      destruct hs, ht. cbn in *. congruence.
    + intros ->. rewrite !Z.eqb_refl, String.eqb_refl. reflexivity.
  - intros key expected got. unfold warnings. rewrite in_flat_map. split.
    + intros ([k v] & Hin & Hw). unfold header_warning in Hw. cbn [fst snd] in Hw.
      destruct (dict_get (header_items hs) k) as [ex|] eqn:He; [|done].
      destruct (hval_eqb ex v) eqn:Eq; [done|].
      destruct Hw as [[= <- <- <-]|[]]. split; [done|].
      split; [by apply list_elem_of_In|].
      intros ->. by rewrite (proj2 (hval_eqb_eq v v) eq_refl) in Eq.
    + intros (He & Hin & Hne). exists (key, got). split; [by apply list_elem_of_In|].
      unfold header_warning. cbn [fst snd]. rewrite He.
      destruct (hval_eqb expected got) eqn:Eq; [by apply hval_eqb_eq in Eq|by left].
Qed.

(** ** Validating what was loaded *)

Section Revalidation.

Hypothesis lz4_round_trip :
  forall raw,
    lz4_block_decompress (lz4_block_compress raw) (Z.of_nat (length raw)) = Some raw.
Hypothesis mip_reads_written :
  forall v meta raw meta', write_mip v meta = Ok raw -> is_Some (read_mip raw meta').

Lemma written_rereads (data : bytes) (self m m' tile : TileFile) (out : bytes) :
  data <> [] -> cell_headers self = [] -> world_data self = [] ->
  read_file (Some data) self = (m, Ok tt) ->
  (forall h, header m = Some h -> cell_header_size h = 388) ->
  build_new_data m = (m', Ok out) ->
  cell_headers tile = [] -> world_data tile = [] ->
  exists m2, read_file (Some out) tile = (m2, Ok tt).
Proof.
  intros Hne Hc0 Hw0 Hread Hsize Hrun Hct Hwt.
  destruct (read_file_Ok data self m Hne Hc0 Hw0 Hread)
    as (h & chs & wds & Hrm & Hh & Hchs & Hwds).
  pose proof (read_model_wf _ _ _ _ m Hrm Hchs Hwds) as Hwf.
  apply read_model_Ok in Hrm as (Hlen & Hmagic & Hheq & Hp & Hd).
  specialize (Hsize h Hh).
  destruct (build_new_data_written _ _ _ Hwf Hrun)
    as (Hlo & _ & (h0 & Hh0 & Hoff & _ & hdr & Hwh & Htake) & _).
  assert (h0 = h) as -> by congruence.
  assert (take 60 out = take 60 data) as Htake'.
  { rewrite Htake. rewrite (write_header_of_bytes data m) in Hwh by congruence.
    by injection Hwh as <-. }
  destruct (header_of_bytes_take _ _ Htake') as [Hhb Hu].
  pose proof (wf_model_lengths _ Hwf) as Hwl.
  set (n := length (cell_headers m)) in *.
  assert (Z.to_nat (width h * height h) = n) as Hn.
  { apply sequence_length in Hp. rewrite length_map, length_seq in Hp.
    unfold n. by rewrite Hchs. }
  assert (forall c, (c < n)%nat ->
            exists ch wd, cell_headers m !! c = Some ch /\ world_data m !! c = Some wd)
    as Hcell.
  { intros c Hc. destruct (lookup_lt_is_Some_2 (cell_headers m) c) as [ch Hch]; [done|].
    destruct (lookup_lt_is_Some_2 (world_data m) c) as [wd Hw]; [lia|]. eauto. }
  destruct (sequence_all_Ok
              (map (fun c => parse_cell_header (cell_record_at out 60 388 c)) (seq 0 n)))
    as [chs2 E1].
  { intros x (c & -> & Hc)%list_elem_of_fmap. apply elem_of_seq in Hc.
    destruct (Hcell c) as (ch & wd & Hch & Hw); [lia|].
    destruct (reparse_cell lz4_round_trip mip_reads_written _ _ _ _ _ _ Hwf Hrun Hch Hw)
      as (_ & ch2 & _ & _ & Hwr & _).
    rewrite written_record. eauto. }
  assert (forall c ch2, chs2 !! c = Some ch2 ->
            (c < n)%nat /\ written_cell_header out c = Ok ch2) as Hchs2.
  { intros c ch2 Hc. apply (sequence_lookup _ _ c ch2 E1) in Hc.
    rewrite list_lookup_fmap in Hc.
    destruct (seq 0 n !! c) as [c'|] eqn:Ec; [|done].
    apply lookup_seq in Ec as [-> Hlt]. cbn in Hc. injection Hc as Hc.
    by rewrite written_record in Hc. }
  destruct (sequence_all_Ok (map (decode_cell out) chs2)) as [wds2 E2].
  { intros x (ch2 & -> & [c Hc]%list_elem_of_lookup)%list_elem_of_fmap.
    destruct (Hchs2 c ch2 Hc) as [Hlt Hwr].
    destruct (Hcell c Hlt) as (ch & wd & Hch & Hw).
    destruct (reparse_cell lz4_round_trip mip_reads_written _ _ _ _ _ _ Hwf Hrun Hch Hw)
      as (_ & ch2' & _ & _ & Hwr' & _ & wd2 & Hdec).
    assert (ch2' = ch2) as -> by congruence. eauto. }
  assert (read_model out = Ok (h, chs2, wds2)) as Hrm2.
  { unfold read_model.
    destruct (Nat.ltb_spec (length out) 60) as [|_]; [lia|].
    rewrite Hu. rewrite (proj2 (magic_key_bytes data ltac:(lia)) Hmagic). cbn [negb].
    rewrite Hhb, <- Hheq. cbn zeta. rewrite Hoff, Hsize, Hn, E1. cbn [result_bind].
    by rewrite E2. }
  assert (out <> []) as Hne2.
  { intros ->. cbn in Hlo. lia. }
  pose proof (read_file_model out tile Hne2 Hct Hwt) as Hm2.
  rewrite Hrm2 in Hm2. destruct Hm2 as (m2 & Hread2 & _). by exists m2.
Qed.

(** With codecs that undo themselves, and in the script that is run, the
    validator never rejects what [write_file] builds from a file that
    [read_file] loaded (with 388-byte cell records): validation changes
    nothing in what [write_file] does, it returns [True] with the same bytes
    written and prints no diagnostic, and raises what it raises without
    validation.  In an imported module [write_file] with validation never
    writes: once the bytes are built it raises [AttributeError]. *)
Theorem loaded_file_passes_validation (data : bytes) (path : option string)
    (output_file_path : string) (m : TileFile) :
  data <> [] ->
  read_file (Some data) (TileFile_init path) = (m, Ok tt) ->
  (forall h, header m = Some h -> cell_header_size h = 388) ->
  (run_as_script = true ->
   write_file output_file_path true m = write_file output_file_path false m /\
   forall m' result written printed,
     write_file output_file_path true m = (m', Ok (result, written, printed)) ->
     result = true /\ printed = [] /\
     exists new_data,
       written = Some new_data /\ build_new_data m = (m', Ok new_data) /\
       __validate_write m' new_data [] = ([], Ok true) /\
       write_bytes output_file_path new_data = Ok tt) /\
  (run_as_script = false ->
   forall m' new_data,
     build_new_data m = (m', Ok new_data) ->
     write_file output_file_path true m = (m', Raise AttributeError)).
Proof.
  intros Hne Hread Hsize. split.
  - intros Hs.
    assert (forall m' out, build_new_data m = (m', Ok out) ->
              __validate_write m' out [] = ([], Ok true)) as Hval.
    { intros m' out Hrun.
      destruct (written_rereads data (TileFile_init path) m m'
                  (set_DEBUG true (TileFile_init None)) out
                  Hne eq_refl eq_refl Hread Hsize Hrun eq_refl eq_refl) as [m2 Hm2].
      by rewrite (validate_write_script m' out [] Hs), Hm2. }
    split.
    + unfold write_file, bind, get.
      destruct (build_new_data m) as [m' [out|e]] eqn:Hrun; [|done].
      cbn [negb]. by rewrite (Hval m' out eq_refl).
    + intros m' result written printed. unfold write_file. unfold bind at 1.
      destruct (build_new_data m) as [m1 [out|e]] eqn:Hrun; [|done].
      cbn [negb]. unfold bind at 1, get at 1.
      rewrite (Hval m1 out eq_refl). unfold bind, lift, ret.
      destruct (write_bytes output_file_path out) as [[]|e] eqn:Ho; [|done].
      intros [= <- <- <- <-]. split_and!; try done.
      exists out. split_and!; try done. by apply Hval.
  - intros Hs m' out Hrun. unfold write_file. unfold bind at 1. rewrite Hrun.
    cbn [negb]. unfold bind at 1, get at 1.
    by rewrite (validate_write_imported m' out [] Hs).
Qed.

End Revalidation.

(** ** Truncated files *)

Lemma parse_cell_header_raises (b : bytes) (e : exn) :
  parse_cell_header b = Raise e -> e = StructError /\ length b <> 388%nat.
Proof.
  unfold parse_cell_header, unpack. rewrite parse_cell_format.
  cbn [of_option result_bind].
  change (codes_size (replicate 97 Fmti)) with 388%nat.
  destruct (Nat.eqb_spec (length b) 388) as [Heq|Hne].
  - pose proof (length_unpack_codes (replicate 97 Fmti) b) as Hlen.
    rewrite length_replicate in Hlen. cbn [result_bind]. rewrite Hlen.
    change (97 =? CELL_HEADER_SIZE)%nat with true. cbn [negb]. discriminate.
  - by intros [= <-].
Qed.

Lemma parse_cell_header_short (b : bytes) :
  length b <> 388%nat -> parse_cell_header b = Raise StructError.
Proof.
  intros Hne. destruct (parse_cell_header b) as [ch|e] eqn:E.
  - by apply parse_cell_header_inv in E as [? _].
  - by apply parse_cell_header_raises in E as [-> _].
Qed.

Lemma parse_cell_step_world_data (data : bytes) (cell_size offset : Z) (x : nat)
    (s : TileFile) :
  world_data (parse_cell_step data cell_size offset x s).1 = world_data s.
Proof.
  unfold parse_cell_step, bind, modify, lift, ret.
  by destruct (parse_cell_header _).
Qed.

Lemma short_record_raises (data : bytes) (self : TileFile) :
  (60 <= length data)%nat -> take 4 data = magic_bytes ->
  world_data self = [] ->
  (exists c, (c < Z.to_nat (width (header_of_bytes data) * height (header_of_bytes data)))%nat /\
     length (cell_record_at data (cell_header_offset (header_of_bytes data))
               (cell_header_size (header_of_bytes data)) c) <> 388%nat) ->
  exists m,
    read_file (Some data) self = (m, Raise StructError) /\ world_data m = [].
Proof.
  intros Hlen Hmagic Hw0 (c & Hc & Hshort).
  assert (data <> []) as Hne by (intros ->; cbn in Hlen; lia).
  rewrite (read_file_unfold _ _ Hne). cbn zeta.
  destruct (Nat.ltb_spec (length data) 60) as [|_]; [lia|].
  rewrite (proj2 (magic_key_bytes data ltac:(lia)) Hmagic). cbn [negb].
  set (h := header_of_bytes data) in *.
  set (s1 := set_header _ _).
  pose proof (parse_cell_headers_loop data (cell_header_size h)
                (seq 0 (Z.to_nat (width h * height h))) (cell_header_offset h) s1) as HL.
  assert (world_data
            (for_fold (seq 0 (Z.to_nat (width h * height h))) (cell_header_offset h)
               (parse_cell_step data (cell_header_size h)) s1).1 = []) as HS.
  { apply (for_fold_state (fun s => world_data s = [])); [|done].
    intros acc x s Hs. by rewrite parse_cell_step_world_data. }
  rewrite length_seq in HL.
  destruct (sequence _) as [chs|e] eqn:E.
  - apply sequence_Ok in E.
    assert (map (fun c => parse_cell_header
                   (cell_record_at data (cell_header_offset h) (cell_header_size h) c))
              (seq 0 (Z.to_nat (width h * height h))) !! c
            = Some (Raise StructError)) as Hl.
    { rewrite list_lookup_fmap, lookup_seq_lt by done. cbn.
      by rewrite parse_cell_header_short. }
    rewrite E, list_lookup_fmap in Hl. by destruct (chs !! c).
  - apply sequence_error in E.
    apply list_elem_of_fmap in E as (c' & E & _). symmetry in E.
    apply parse_cell_header_raises in E as [-> _].
    destruct HL as (s2 & HL). rewrite HL in HS |- *. by exists s2.
Qed.

(** A file whose header and signature are in order but which holds a cell
    record that is not 388 bytes long is refused: [read_file] raises
    [struct.error] and decodes no cell.  This is what happens to a truncated
    file: a grid of at least one cell with 388-byte records that ends before
    the last record does. *)
Theorem truncated_file_raises (data : bytes) (path : option string) :
  (60 <= length data)%nat -> take 4 data = magic_bytes ->
  let h := header_of_bytes data in
  let n := Z.to_nat (width h * height h) in
  ((exists c, (c < n)%nat /\
      length (cell_record_at data (cell_header_offset h) (cell_header_size h) c)
      <> 388%nat) \/
   (cell_header_size h = 388 /\ (0 < n)%nat /\
    Z.of_nat (length data) < cell_header_offset h + 388 * Z.of_nat n)) ->
  exists m,
    read_file (Some data) (TileFile_init path) = (m, Raise StructError) /\
    world_data m = [].
Proof.
  intros Hlen Hmagic h n Hshort.
  apply short_record_raises; try done.
  destruct Hshort as [H|(Hsize & Hn & Hend)]; [done|].
  fold h. fold n. exists (n - 1)%nat. split; [lia|].
  unfold cell_record_at. rewrite Hsize.
  assert (0 <= cell_header_offset h) as Hoff.
  { unfold h, header_of_bytes, cell_header_offset, u32_at.
    apply int_from_bytes_range. }
  replace (cell_header_offset h + Z.of_nat (n - 1) * 388)
    with (Z.of_nat (Z.to_nat (cell_header_offset h) + 388 * (n - 1))) by lia.
  change 388 with (Z.of_nat 388). rewrite py_slice_range.
  rewrite length_take, length_drop. lia.
Qed.

(** ** Writing twice *)

Lemma regions_determine (a b : bytes) (n : nat) :
  length a = (60 + 388 * n)%nat -> length b = (60 + 388 * n)%nat ->
  take 60 a = take 60 b ->
  (forall c, (c < n)%nat -> region c a = region c b) ->
  a = b.
Proof.
  intros Ha Hb Hhead Hreg. apply list_eq. intros i.
  destruct (Nat.lt_ge_cases i 60) as [Hi|Hi].
  { rewrite <- (lookup_take_lt a 60 i), <- (lookup_take_lt b 60 i) by done.
    by rewrite Hhead. }
  destruct (Nat.lt_ge_cases i (60 + 388 * n)) as [Hlt|Hge].
  2:{ rewrite !(proj2 (lookup_ge_None _ _)) by lia. done. }
  pose proof (Nat.div_mod_eq (i - 60) 388) as Hdm.
  pose proof (Nat.mod_upper_bound (i - 60) 388 ltac:(lia)) as Hr.
  set (c := ((i - 60) / 388)%nat) in *. set (r := ((i - 60) mod 388)%nat) in *.
  assert (c < n)%nat as Hc by nia.
  specialize (Hreg c Hc). unfold region in Hreg.
  assert (forall l : bytes, take 388 (drop (60 + 388 * c) l) !! r = l !! i) as Hl.
  { intros l. rewrite lookup_take_lt by done. rewrite lookup_drop. f_equal. lia. }
  etrans; [symmetry; apply (Hl a)|]. etrans; [|apply (Hl b)]. by rewrite Hreg.
Qed.

Lemma write_header_same (a b : TileFile) (new_data : bytes) :
  header a = header b -> write_header a new_data = write_header b new_data.
Proof. unfold write_header. by intros ->. Qed.

Lemma cell_values_same (ch1 ch2 : CellHeader) :
  same_fields ch1 ch2 -> cell_values ch2 = cell_values ch1.
Proof.
  intros Hs. unfold cell_values. apply map_ext_in. intros p Hp.
  apply in_places in Hp as (t & hc & ar & k & Hl%layout_In_get & Hk & Hp).
  unfold place_value. destruct ar as [n|]; cbn [places_of_field] in Hp.
  - apply in_map_iff in Hp as (i & <- & Hi%in_seq). cbn [fst snd default from_option id].
    rewrite (Hs t hc (Some n) k i Hl Hk); [done|]. cbn. lia.
  - destruct Hp as [<-|[]]. cbn [fst snd default from_option id].
    rewrite (Hs t hc None k 0%nat Hl Hk); [done|]. cbn. lia.
Qed.

Lemma descriptor_field_cases (k : string) :
  descriptor_field k = true -> k = "index" \/ k = "compressed" \/ k = "size".
Proof.
  unfold descriptor_field. rewrite !orb_true_iff, !String.eqb_eq. tauto.
Qed.

Lemma chunk_slot_dec (wd : WorldCell) (t : string) (i : nat) :
  (exists j x, cell_chunks wd !! j = Some x /\ x.1 = (t, i)) \/
  (forall x, x ∈ cell_chunks wd -> x.1 <> (t, i)).
Proof.
  induction (cell_chunks wd) as [|[[t' i'] sc] r IH].
  - right. intros x Hx. by apply elem_of_nil in Hx.
  - destruct (String.eqb_spec t' t) as [->|Ht].
    + destruct (Nat.eq_dec i' i) as [->|Hi].
      * left. by exists 0%nat, (t, i, sc).
      * destruct IH as [(j & x & Hj & Hx)|IH].
        -- left. by exists (S j), x.
        -- right. intros x [->|Hx]%elem_of_cons; [cbn; congruence|by apply IH].
    + destruct IH as [(j & x & Hj & Hx)|IH].
      * left. by exists (S j), x.
      * right. intros x [->|Hx]%elem_of_cons; [cbn; congruence|by apply IH].
Qed.

(** Writing again the cell that was just written stores the same integers. *)
Lemma rewritten_fields (off : Z) (blob : bytes) (wd : WorldCell)
    (ch ch1 ch2 : CellHeader) :
  cell_written off blob wd ch ch1 -> cell_written off blob wd ch1 ch2 ->
  same_fields ch1 ch2.
Proof.
  intros (_ & Hnew1 & _) (_ & Hnew2 & Hframe2) t hc ar k i Hl Hk Hi.
  destruct (descriptor_field k) eqn:Hd; [|apply Hframe2; by left].
  destruct (chunk_slot_dec wd t i) as [(j & x & Hj & Hx)|Hfresh];
    [|apply Hframe2; by right].
  specialize (Hnew1 j x Hj). specialize (Hnew2 j x Hj).
  rewrite Hx in Hnew1, Hnew2. cbn [fst snd] in Hnew1, Hnew2.
  apply descriptor_fields in Hnew1 as (Ha1 & Hb1 & Hc1).
  apply descriptor_fields in Hnew2 as (Ha2 & Hb2 & Hc2).
  destruct (descriptor_field_cases k Hd) as [->|[->| ->]]; congruence.
Qed.

(** The model after a write is of the shape [read_file] builds, when no
    compressed chunk is empty. *)
Lemma written_model_wf (self self' : TileFile) (out : bytes) :
  (forall raw, lz4_block_compress raw <> []) ->
  wf_model self = true ->
  build_new_data self = (self', Ok out) ->
  wf_model self' = true.
Proof.
  intros Hcomp Hwf Hrun.
  destruct (build_new_data_spec _ _ _ Hwf Hrun)
    as (h & nd' & Hh & Hoff & Hh' & Hw & Hn & Hhdr & Hnd & Hout & Hcells).
  pose proof (wf_model_lengths _ Hwf) as Hwl.
  unfold wf_model. apply andb_true_iff. split.
  { apply Nat.eqb_eq. by rewrite Hw, Hn. }
  apply forallb_forall. intros [ch' wd] Hin.
  apply list_elem_of_In, list_elem_of_lookup in Hin as [c Hc].
  apply lookup_zip_with_Some in Hc as (ch0 & wd0 & [= <- <-] & Hch' & Hwd).
  rewrite Hw in Hwd.
  destruct (lookup_lt_is_Some_2 (cell_headers self) c) as [ch Hch].
  { rewrite <- Hwl. by eapply lookup_lt_Some. }
  destruct (wf_model_cell _ _ _ _ Hwf Hch Hwd) as [Hwfc Hwfw].
  destruct (Hcells c ch wd Hch Hwd) as (_ & ch1 & b & Hc1 & Hcw & _).
  assert (ch1 = ch') as -> by congruence.
  destruct Hcw as (Hwf' & Hnew & Hframe).
  apply andb_true_iff. split; [done|].
  unfold wf_world_cell. apply andb_true_iff. split.
  { apply strings_eqb_eq. by eapply wf_world_cell_keys. }
  apply forallb_forall. intros [t [hc ar]] Hl.
  destruct (wf_world_cell_get _ _ _ _ _ Hwfw Hl) as (subs & Hg & Hlen & Hsubs).
  rewrite Hg. apply andb_true_iff. split; [by apply Nat.eqb_eq|].
  apply forallb_forall. intros [i sub] Hi.
  apply enumerate_from_In in Hi as [_ Hi]. rewrite Nat.sub_0_r in Hi.
  pose proof (Hsubs i sub Hi) as Hsub.
  assert (valid_slot t i) as Hv.
  { exists hc, ar. split; [by apply layout_In_get|].
    rewrite <- Hlen. by eapply lookup_lt_Some. }
  destruct (wf_world_cell_slot_at _ _ _ _ Hwfw Hv) as (sub' & Hin & _).
  destruct (wf_world_cell_slot _ _ _ _ _ Hwfw Hin) as (subs' & Hg' & Hi' & _).
  assert (sub' = sub) as -> by congruence.
  unfold wf_sub_cell in Hsub |- *.
  destruct sub as [a0 b0 c0|sc].
  - assert (forall x, x ∈ cell_chunks wd -> x.1 <> (t, i)) as Hfresh.
    { intros [[t' i'] sc] Hx [= -> ->]. apply cell_chunks_slot, list_elem_of_In in Hx.
      by pose proof (slot_key_inj _ _ _ _ _ (wf_world_cell_NoDup _ _ Hwfw) Hin Hx). }
    assert (descriptor ch' t i = descriptor ch t i) as ->; [|done].
    unfold descriptor. by rewrite !Hframe by (by right).
  - assert ((t, i, sc) ∈ cell_chunks wd) as [j Hj]%list_elem_of_lookup.
    { by apply cell_chunks_slot, list_elem_of_In. }
    pose proof (Hnew j _ Hj) as Hd. cbn [fst snd] in Hd. rewrite Hd.
    unfold is_unused, new_descriptor.
    cbn [d_index d_compressed].
    pose proof (Hcomp (chunk_raw (t, i, sc))) as Hne. unfold chunk_payload.
    destruct (lz4_block_compress (chunk_raw (t, i, sc))) as [|x0 r0]; [done|].
    cbn [length]. apply negb_true_iff, orb_false_iff.
    split; apply Z.leb_gt; lia.
Qed.

(** Writing twice builds the same bytes: when [write_file] returns on a
    model of the shape [read_file] builds and returns again on the model it
    left, the second call builds byte for byte what the first built, and
    leaves the header, the decoded cells and every integer of the cell
    headers as the first call left them.  (No compressed chunk is empty, as
    with LZ4.) *)
Theorem write_file_twice (path1 path2 : string) (validate1 validate2 : bool)
    (self self1 self2 : TileFile) (r1 r2 : bool * option bytes * list diag) :
  (forall raw, lz4_block_compress raw <> []) ->
  wf_model self = true ->
  write_file path1 validate1 self = (self1, Ok r1) ->
  write_file path2 validate2 self1 = (self2, Ok r2) ->
  exists new_data,
    build_new_data self = (self1, Ok new_data) /\
    build_new_data self1 = (self2, Ok new_data) /\
    header self2 = header self1 /\ world_data self2 = world_data self1 /\
    length (cell_headers self2) = length (cell_headers self1) /\
    forall c ch1 ch2,
      cell_headers self1 !! c = Some ch1 -> cell_headers self2 !! c = Some ch2 ->
      same_fields ch1 ch2.
Proof.
  intros Hcomp Hwf (out1 & Hrun1 & _)%write_file_built
    (out2 & Hrun2 & _)%write_file_built.
  pose proof (written_model_wf _ _ _ Hcomp Hwf Hrun1) as Hwf1.
  destruct (build_new_data_spec _ _ _ Hwf Hrun1)
    as (h & nd1 & Hh & Hoff & Hh1 & Hw1 & Hn1 & Hhdr1 & Hnd1 & Hout1 & Hcells1).
  destruct (build_new_data_spec _ _ _ Hwf1 Hrun2)
    as (h' & nd2 & Hh' & _ & Hh2 & Hw2 & Hn2 & Hhdr2 & Hnd2 & Hout2 & Hcells2).
  assert (h' = h) as -> by congruence.
  pose proof (wf_model_lengths _ Hwf) as Hwl.
  rewrite Hn1 in Hnd2, Hcells2, Hn2. rewrite Hw1 in Hout2, Hcells2.
  set (n := length (cell_headers self)) in *.
  assert (forall c ch1 ch2,
            cell_headers self1 !! c = Some ch1 -> cell_headers self2 !! c = Some ch2 ->
            same_fields ch1 ch2 /\ wf_cell_header ch1 = true /\
            wf_cell_header ch2 = true /\ region c nd1 = region c nd2) as Hsame.
  { intros c ch1 ch2 Hc1 Hc2.
    assert (c < n)%nat as Hc by (rewrite <- Hn1; by eapply lookup_lt_Some).
    destruct (lookup_lt_is_Some_2 (cell_headers self) c) as [ch Hch]; [done|].
    destruct (lookup_lt_is_Some_2 (world_data self) c) as [wd Hwd]; [lia|].
    destruct (Hcells1 c ch wd Hch Hwd) as (_ & ch1' & b1 & Hc1' & Hcw1 & Hb1 & Hr1).
    assert (ch1' = ch1) as -> by congruence.
    destruct (Hcells2 c ch1 wd Hc1 Hwd) as (_ & ch2' & b2 & Hc2' & Hcw2 & Hb2 & Hr2).
    assert (ch2' = ch2) as -> by congruence.
    pose proof (rewritten_fields _ _ _ _ _ _ Hcw1 Hcw2) as Hsf.
    pose proof (proj1 Hcw1) as Hwfa. pose proof (proj1 Hcw2) as Hwfb.
    split_and!; try done.
    rewrite Hr1, Hr2.
    rewrite (create_cell_header_wf _ Hwfa) in Hb1.
    rewrite (create_cell_header_wf _ Hwfb) in Hb2.
    rewrite (cell_values_same _ _ Hsf) in Hb2. congruence. }
  assert (nd1 = nd2) as <-.
  { apply (regions_determine nd1 nd2 n); try done.
    - rewrite (write_header_same self1 self) in Hhdr2 by congruence. congruence.
    - intros c Hc.
      destruct (lookup_lt_is_Some_2 (cell_headers self1) c) as [ch1 Hc1]; [lia|].
      destruct (lookup_lt_is_Some_2 (cell_headers self2) c) as [ch2 Hc2]; [lia|].
      by destruct (Hsame c ch1 ch2 Hc1 Hc2) as (_ & _ & _ & ?). }
  exists out1. split; [done|]. split; [congruence|].
  split; [congruence|]. split; [done|]. split; [congruence|].
  intros c ch1 ch2 Hc1 Hc2. by destruct (Hsame c ch1 ch2 Hc1 Hc2) as [? _].
Qed.

End TileFile.

(** * The properties on a concrete file

    The collaborators are instantiated with the reference block codec, a
    [mip] codec that keeps the raw bytes (and refuses to encode [None]), and
    a file system without files in which every file can be written. *)

Abbreviation mip_read := (fun (raw : bytes) (_ : Meta) => Some raw) (only parsing).
Abbreviation mip_write :=
  (fun (value : option bytes) (_ : Meta) => of_option value TypeError) (only parsing).
Abbreviation writable := (fun (_ : string) (_ : bytes) => true) (only parsing).
Abbreviation no_files := (fun _ : string => @None bytes) (only parsing).
Abbreviation example_model :=
  (loaded bytes LiteralLZ4.decompress mip_read mip_write no_files example_file)
  (only parsing).
Abbreviation example_written :=
  (written_model bytes LiteralLZ4.compress mip_read mip_write example_model)
  (only parsing).
Abbreviation example_output :=
  (written_bytes bytes LiteralLZ4.compress mip_read mip_write example_model)
  (only parsing).

Lemma read_length_run (q : nat) (b : byte) (rest : bytes) (acc : Z) :
  byte_to_Z b <> 255 ->
  LiteralLZ4.read_length (replicate q xff ++ b :: rest) acc
  = Some (acc + 255 * Z.of_nat q + byte_to_Z b, rest).
Proof.
  intros Hb. revert acc. induction q as [|q IH]; intros acc.
  - cbn [replicate app LiteralLZ4.read_length].
    destruct (Z.eqb_spec (byte_to_Z b) 255); [done|]. do 2 f_equal. lia.
  - cbn [replicate app LiteralLZ4.read_length].
    change (byte_to_Z xff =? 255) with true. cbn iota.
    rewrite IH. do 2 f_equal. lia.
Qed.

(** The reference codec undoes itself. *)
Lemma literal_lz4_round_trip (raw : bytes) :
  LiteralLZ4.decompress (LiteralLZ4.compress raw) (Z.of_nat (length raw)) = Some raw.
Proof.
  unfold LiteralLZ4.compress.
  destruct (Nat.ltb_spec (length raw) 15) as [Hlt|Hge].
  - unfold LiteralLZ4.decompress.
    rewrite byte_to_of_Z, (Z.mod_small (16 * Z.of_nat (length raw)) 256) by lia.
    replace (16 * Z.of_nat (length raw) mod 16) with 0
      by (rewrite Z.mul_comm, Z_mod_mult; done).
    replace (16 * Z.of_nat (length raw) / 16) with (Z.of_nat (length raw))
      by (rewrite Z.mul_comm, Z_div_mult; lia).
    cbn [Z.eqb negb].
    destruct (Z.ltb_spec (Z.of_nat (length raw)) 15); [|lia].
    rewrite Z.eqb_refl. by destruct (Z.leb_spec (Z.of_nat (length raw)) (Z.of_nat (length raw))); [|lia].
  - unfold LiteralLZ4.decompress, LiteralLZ4.length_bytes.
    change (byte_to_Z xf0) with 240. change (240 mod 16) with 0. change (240 / 16) with 15.
    cbn [Z.eqb negb Z.ltb Z.compare Pos.compare Pos.compare_cont].
    rewrite <- app_assoc. cbn [app].
    assert (0 <= Z.of_nat ((length raw - 15) mod 255) < 255) as Hr.
    { pose proof (Nat.mod_upper_bound (length raw - 15) 255). lia. }
    rewrite read_length_run by (rewrite byte_to_of_Z, Z.mod_small; lia).
    rewrite byte_to_of_Z, (Z.mod_small _ 256) by lia.
    assert (15 + 255 * Z.of_nat ((length raw - 15) / 255)
            + Z.of_nat ((length raw - 15) mod 255) = Z.of_nat (length raw)) as ->.
    { pose proof (Nat.div_mod_eq (length raw - 15) 255). lia. }
    rewrite Z.eqb_refl. by destruct (Z.leb_spec (Z.of_nat (length raw)) (Z.of_nat (length raw))); [|lia].
Qed.

Abbreviation example_cell :=
  (default [] (world_data bytes example_model !! 0%nat)) (only parsing).
Abbreviation example_cell_header :=
  (default [] (cell_headers bytes example_model !! 0%nat)) (only parsing).
Abbreviation example_mip_chunk :=
  (mkSubCellData bytes "mip" ["w"; "x"; "y"; "z"]%byte
     (Some ["w"; "x"; "y"; "z"]%byte) (mkMeta 456 5 4 None)) (only parsing).
Abbreviation example_clutter_chunk :=
  (mkSubCellData bytes "clutter" ["a"; "b"; "c"]%byte None (mkMeta 452 4 3 None))
  (only parsing).

(** The example loads, and writing it succeeds. *)
Lemma example_model_loads :
  read_file bytes LiteralLZ4.decompress mip_read mip_write no_files
    (Some example_file) (TileFile_init bytes None)
  = (example_model, Ok tt).
Proof. vm_compute. reflexivity. Qed.

Lemma example_model_wf : wf_model bytes example_model = true.
Proof. vm_compute. reflexivity. Qed.

Lemma example_model_written :
  build_new_data bytes LiteralLZ4.compress mip_read mip_write example_model
  = (example_written, Ok example_output).
Proof. vm_compute. reflexivity. Qed.

(** C1, on the example: the file is 461 bytes long with the [clutter] chunk
    at 452 and the [mip] chunk at 456; written (without validation, in a
    module that is imported) and read again, the chunks sit at 453 and
    448. *)
Lemma roundtrip_moves_descriptors :
  exists m m' out m2 ch ch2,
    read_file bytes LiteralLZ4.decompress mip_read mip_write no_files
      (Some example_file) (TileFile_init bytes None) = (m, Ok tt) /\
    write_file bytes LiteralLZ4.decompress LiteralLZ4.compress mip_read mip_write
      no_files writable false "out.tile" false m = (m', Ok (true, Some out, [])) /\
    read_file bytes LiteralLZ4.decompress mip_read mip_write no_files
      (Some out) (TileFile_init bytes None) = (m2, Ok tt) /\
    cell_headers bytes m !! 0%nat = Some ch /\
    cell_headers bytes m2 !! 0%nat = Some ch2 /\
    descriptor ch "clutter" 0 = Some (mkDescriptor 452 4 3) /\
    descriptor ch2 "clutter" 0 = Some (mkDescriptor 453 4 3) /\
    descriptor ch "mip" 0 = Some (mkDescriptor 456 5 4) /\
    descriptor ch2 "mip" 0 = Some (mkDescriptor 448 5 4) /\
    descriptor ch2 "clutter" 0 <> descriptor ch "clutter" 0.
Proof.
  eexists _, _, _, _, _, _.
  split; [vm_compute; reflexivity|].
  split; [vm_compute; reflexivity|].
  split; [vm_compute; reflexivity|].
  split; [vm_compute; reflexivity|].
  split; [vm_compute; reflexivity|].
  split; [vm_compute; reflexivity|].
  split; [vm_compute; reflexivity|].
  split; [vm_compute; reflexivity|].
  split; [vm_compute; reflexivity|].
  vm_compute. discriminate.
Qed.

Lemma roundtrip_descriptors_example :
  exists m2,
    read_file bytes LiteralLZ4.decompress mip_read mip_write no_files
      (Some example_output) (TileFile_init bytes None) = (m2, Ok tt) /\
    header bytes m2 = header bytes example_model /\
    length (cell_headers bytes m2) = length (cell_headers bytes example_model) /\
    forall c ch ch2,
      cell_headers bytes example_model !! c = Some ch ->
      cell_headers bytes m2 !! c = Some ch2 ->
      (exists ch', cell_headers bytes example_written !! c = Some ch' /\
                   same_fields ch' ch2) /\
      forall t i, valid_slot t i ->
        (forall ar, dict_get layout t = Some (true, ar) ->
           field_at ch2 t "count" i = field_at ch t "count" i) /\
        (forall d, descriptor ch t i = Some d -> is_unused d = true ->
           descriptor ch2 t i = Some d) /\
        (forall d, descriptor ch t i = Some d -> is_unused d = false ->
           exists wd j sub_cell,
             world_data bytes example_model !! c = Some wd /\
             cell_chunks bytes wd !! j = Some (t, i, sub_cell)) /\
        (forall wd j sub_cell,
           world_data bytes example_model !! c = Some wd ->
           cell_chunks bytes wd !! j = Some (t, i, sub_cell) ->
           descriptor ch2 t i
           = Some (new_descriptor bytes LiteralLZ4.compress mip_read mip_write
                     (Z.of_nat (60 + 388 * length (cell_headers bytes example_model)))
                     (length (cells_payloads bytes LiteralLZ4.compress mip_read
                                mip_write (take c (world_data bytes example_model))
                              ++ payloads bytes LiteralLZ4.compress mip_read
                                   mip_write (take j (cell_chunks bytes wd))))
                     (t, i, sub_cell))).
Proof.
  apply (roundtrip_descriptors bytes LiteralLZ4.decompress LiteralLZ4.compress
           mip_read mip_write no_files writable false literal_lz4_round_trip
           (fun _ _ raw _ _ => ex_intro _ raw eq_refl)
           example_file None None "out.tile" false example_model example_written
           example_output []).
  - discriminate.
  - exact example_model_loads.
  - intros h. vm_compute. intros [= <-]. reflexivity.
  - vm_compute. reflexivity.
Defined.

(** C2, on the example: the [clutter] chunk is the second chunk written; the
    data blob then holds the five bytes of the [mip] chunk. *)
Lemma offset_reconstruction_example :
  (0 < length (cell_headers bytes example_model))%nat /\
  world_data bytes example_model !! 0%nat = Some example_cell /\
  cell_chunks bytes example_cell !! 1%nat
  = Some ("clutter", 0%nat, example_clutter_chunk) /\
  let data_blob_offset := (60 + 388 * length (cell_headers bytes example_model))%nat in
  let data_blob :=
    cells_payloads bytes LiteralLZ4.compress mip_read mip_write
      (take 0 (world_data bytes example_model))
    ++ payloads bytes LiteralLZ4.compress mip_read mip_write
         (take 1 (cell_chunks bytes example_cell)) in
  exists raw_sub_cell_data cell_header,
    raw_of bytes mip_read mip_write "clutter" example_clutter_chunk
    = Ok raw_sub_cell_data /\
    cell_headers bytes example_written !! 0%nat = Some cell_header /\
    descriptor cell_header "clutter" 0
    = Some (mkDescriptor
              (Z.of_nat (length data_blob) + Z.of_nat data_blob_offset)
              (Z.of_nat (length (LiteralLZ4.compress raw_sub_cell_data)))
              (Z.of_nat (length raw_sub_cell_data))) /\
    exists rest,
      drop data_blob_offset example_output
      = data_blob ++ LiteralLZ4.compress raw_sub_cell_data ++ rest.
Proof.
  assert ((0 < length (cell_headers bytes example_model))%nat) as H1
    by (vm_compute; lia).
  assert (world_data bytes example_model !! 0%nat = Some example_cell) as H2
    by (vm_compute; reflexivity).
  assert (cell_chunks bytes example_cell !! 1%nat
          = Some ("clutter", 0%nat, example_clutter_chunk)) as H3
    by (vm_compute; reflexivity).
  split; [exact H1|]. split; [exact H2|]. split; [exact H3|].
  exact (offset_reconstruction bytes LiteralLZ4.decompress LiteralLZ4.compress
           mip_read mip_write no_files writable example_model example_written example_output
           0%nat 1%nat example_cell "clutter" 0%nat example_clutter_chunk
           example_model_wf example_model_written H1 H2 H3).
Defined.

(** C3, on the example: the [clutter] chunk ends at byte 457, the length of
    the output. *)
Lemma bounds_invariant_example :
  dict_get example_cell "clutter" = Some [Chunk bytes example_clutter_chunk] /\
  exists d,
    written_descriptor example_output 0 "clutter" 0 = Some d /\
    d_index d + d_compressed d <= Z.of_nat (length example_output).
Proof.
  assert (dict_get example_cell "clutter" = Some [Chunk bytes example_clutter_chunk])
    as H by (vm_compute; reflexivity).
  split; [exact H|].
  apply (bounds_invariant bytes LiteralLZ4.decompress LiteralLZ4.compress
           mip_read mip_write no_files writable example_model example_written example_output
           0%nat example_cell "clutter" 0%nat [Chunk bytes example_clutter_chunk]
           example_clutter_chunk example_model_wf example_model_written).
  - vm_compute. lia.
  - vm_compute. reflexivity.
  - exact H.
  - reflexivity.
Defined.

(** C4, on the example: the second [mip] slot is unused and stays [(0, 0, 0)]. *)
Lemma absent_descriptor_stability_example :
  descriptor example_cell_header "mip" 1 = Some (mkDescriptor 0 0 0) /\
  written_descriptor example_output 0 "mip" 1 = Some (mkDescriptor 0 0 0) /\
  (exists ch', cell_headers bytes example_written !! 0%nat = Some ch' /\
               descriptor ch' "mip" 1 = Some (mkDescriptor 0 0 0)) /\
  (exists wd sub_cells a b c0,
     world_data bytes example_model !! 0%nat = Some wd /\
     dict_get wd "mip" = Some sub_cells /\
     sub_cells !! 1%nat = Some (Placeholder bytes a b c0)).
Proof.
  assert (descriptor example_cell_header "mip" 1 = Some (mkDescriptor 0 0 0)) as H
    by (vm_compute; reflexivity).
  split; [exact H|].
  apply (absent_descriptor_stability bytes LiteralLZ4.decompress LiteralLZ4.compress
           mip_read mip_write no_files writable example_model example_written example_output
           0%nat example_cell_header "mip" 1%nat (mkDescriptor 0 0 0)
           example_model_wf example_model_written).
  - vm_compute. reflexivity.
  - exists false, (Some 6%nat). split; [reflexivity|]. vm_compute. lia.
  - exact H.
  - reflexivity.
Defined.

(** C9, on the example: the two payloads tile the bytes from 448 to 457. *)
Lemma data_blob_contiguity_example :
  written_descriptors bytes example_model example_output
  = [Some (mkDescriptor 448 5 4); Some (mkDescriptor 453 4 3)] /\
  contiguous (60 + 388 * Z.of_nat (length (cell_headers bytes example_model)))
    (written_descriptors bytes example_model example_output)
    (Z.of_nat (length example_output)).
Proof.
  split; [vm_compute; reflexivity|].
  apply (data_blob_contiguity bytes LiteralLZ4.decompress LiteralLZ4.compress
           mip_read mip_write no_files writable example_model example_written example_output
           (header_of_bytes example_file) example_model_wf example_model_written).
  vm_compute. reflexivity.
Defined.

(** C5, on the example: the header is the first 60 bytes; a buffer of
    exactly 60 bytes parses and is written back as these 60 bytes, and the
    offset of the cell headers is 60. *)
Lemma header_is_not_64_bytes :
  length example_header = 60%nat /\
  (exists self',
     parse_header bytes example_header (TileFile_init bytes None) = (self', Ok tt) /\
     write_header bytes self' [] = Ok example_header /\
     option_map cell_header_offset (header bytes self') = Some 60) /\
  length example_header <> 64%nat.
Proof.
  split; [reflexivity|]. split; [|vm_compute; lia].
  eexists. split; [vm_compute; reflexivity|].
  split; vm_compute; reflexivity.
Qed.

Lemma header_is_60_bytes_example :
  exists self',
    parse_header bytes example_file (TileFile_init bytes None) = (self', Ok tt) /\
    write_header bytes self' [] = Ok (take 60 example_file) /\
    length (take 60 example_file) = 60%nat.
Proof.
  eexists. split; [vm_compute; reflexivity|].
  apply (proj1 (proj2 (proj2
           (header_is_60_bytes bytes LiteralLZ4.compress mip_read mip_write
              example_file (TileFile_init bytes None))))).
  vm_compute. reflexivity.
Defined.

(** C6, on two inputs without the signature: the example with its first byte
    replaced, and ten bytes. *)
Lemma invalid_magic_aborts_example :
  let data := <[0%nat := "X"%byte]> example_file in
  let self := TileFile_init bytes None in
  take 4 data <> magic_bytes /\
  parse_header bytes data self
  = (log_call bytes CallParseHeader self, Raise invalid_magic) /\
  read_file bytes LiteralLZ4.decompress mip_read mip_write no_files (Some data) self
  = (log_call bytes CallParseHeader (set_original_data bytes data self),
     Raise invalid_magic) /\
  calls bytes
    (read_file bytes LiteralLZ4.decompress mip_read mip_write no_files
       (Some data) self).1
  = calls bytes self ++ [CallParseHeader] /\
  cell_headers bytes
    (read_file bytes LiteralLZ4.decompress mip_read mip_write no_files
       (Some data) self).1
  = cell_headers bytes self.
Proof.
  assert (take 4 (<[0%nat := "X"%byte]> example_file) <> magic_bytes) as H
    by (vm_compute; discriminate).
  assert (<[0%nat := "X"%byte]> example_file <> []) as H0
    by (vm_compute; discriminate).
  split; [exact H|].
  pose proof (invalid_magic_aborts bytes LiteralLZ4.decompress mip_read mip_write
                no_files (<[0%nat := "X"%byte]> example_file)
                (TileFile_init bytes None) H0 H) as P.
  cbv zeta in P.
  change (if (length (<[0%nat := "X"%byte]> example_file) <? 60)%nat
          then StructError else invalid_magic) with invalid_magic in P.
  exact P.
Defined.

Lemma short_input_raises_struct_error :
  take 4 short_garbage <> magic_bytes /\
  parse_header bytes short_garbage (TileFile_init bytes None)
  = (log_call bytes CallParseHeader (TileFile_init bytes None), Raise StructError) /\
  (read_file bytes LiteralLZ4.decompress mip_read mip_write no_files
     (Some short_garbage) (TileFile_init bytes None)).2 = Raise StructError /\
  StructError <> invalid_magic.
Proof.
  split; [vm_compute; discriminate|].
  split; [vm_compute; reflexivity|].
  split; [vm_compute; reflexivity|discriminate].
Qed.



(** C8, on the first 450 bytes of the example: both chunks end beyond the
    buffer, at 460 and at 455. *)
Lemma overflow_example :
  let new_data := take 450 example_file in
  let tile :=
    (read_file bytes LiteralLZ4.decompress mip_read mip_write no_files
       (Some new_data) (set_DEBUG bytes true (TileFile_init bytes None))).1 in
  check_overflow bytes tile new_data []
  = ([WarnCellHeaderOverflow 0 "mip" 460 450;
      WarnCellHeaderOverflow 0 "clutter" 455 450], Ok tt).
Proof.
  exact (proj1 (overflow_flagged_iff_last_ge_length bytes LiteralLZ4.decompress
                  LiteralLZ4.compress mip_read mip_write no_files writable true
                  example_model (take 450 example_file) [])).
Defined.

(** C10, on ten bytes. *)
Lemma short_cell_record_example :
  parse_cell_header short_garbage = Raise StructError.
Proof.
  apply (proj1 (parse_cell_header_size_check_unreachable short_garbage)).
  vm_compute. lia.
Defined.

(** * Further properties, on the example *)

Abbreviation example_mip_slots :=
  (default [] (dict_get example_cell "mip")) (only parsing).
Abbreviation example_written_header :=
  (default [] (cell_headers bytes example_written !! 0%nat)) (only parsing).

Lemma example_file_nonempty : example_file <> [].
Proof. vm_compute. discriminate. Qed.

Lemma example_write_file :
  write_file bytes LiteralLZ4.decompress LiteralLZ4.compress mip_read mip_write
    no_files writable true "out.tile" true example_model
  = (example_written, Ok (true, Some example_output, [])).
Proof. vm_compute. reflexivity. Qed.

Lemma example_cell_header_size (h : Header) :
  header bytes example_model = Some h -> cell_header_size h = 388.
Proof. intros H. vm_compute in H. by injection H as <-. Qed.

Lemma literal_lz4_nonempty (raw : bytes) : LiteralLZ4.compress raw <> [].
Proof. unfold LiteralLZ4.compress. by destruct (_ <? _)%nat. Qed.


(** The example is a grid of one cell. *)
Lemma read_file_builds_grid_example :
  exists h,
    header bytes example_model = Some h /\
    h = header_of_bytes example_file /\
    (60 <= length example_file)%nat /\
    take 4 example_file = magic_bytes /\
    original_data bytes example_model = Some example_file /\
    length (cell_headers bytes example_model) = Z.to_nat (width h * height h) /\
    length (world_data bytes example_model) = length (cell_headers bytes example_model) /\
    (forall c ch,
       cell_headers bytes example_model !! c = Some ch ->
       parse_cell_header
         (cell_record_at example_file (cell_header_offset h) (cell_header_size h) c)
       = Ok ch) /\
    wf_model bytes example_model = true.
Proof.
  exact (read_file_builds_grid bytes LiteralLZ4.decompress mip_read mip_write no_files
           example_file None example_model example_file_nonempty example_model_loads).
Defined.

(** The first [mip] slot of the example holds a decoded chunk, the second
    the triple of an unused descriptor. *)
Lemma loaded_slot_example :
  (exists d,
     descriptor example_cell_header "mip" 0 = Some d /\
     is_unused d = false /\
     sub_type bytes example_mip_chunk = "mip" /\
     sub_meta_data bytes example_mip_chunk
     = {| meta_index := d_index d; meta_compressed := d_compressed d;
          meta_size := d_size d; meta_count := count_at example_cell_header "mip" 0 |} /\
     LiteralLZ4.decompress
       (py_slice example_file (d_index d) (d_index d + d_compressed d)) (d_size d)
     = Some (sub_original_data bytes example_mip_chunk) /\
     sub_data bytes example_mip_chunk
     = match read_for bytes mip_read mip_write "mip" with
       | Some read_func =>
           read_func (sub_original_data bytes example_mip_chunk)
             (sub_meta_data bytes example_mip_chunk)
       | None => None
       end /\
     (read_for bytes mip_read mip_write "mip" = None ->
      raw_of bytes mip_read mip_write "mip" example_mip_chunk
      = Ok (sub_original_data bytes example_mip_chunk))) /\
  (exists d,
     descriptor example_cell_header "mip" 1 = Some d /\
     is_unused d = true /\
     PInt 0 = PInt (d_index d) /\ PInt 0 = PInt (d_size d) /\
     PInt 0 = PInt (d_compressed d)).
Proof.
  assert (cell_headers bytes example_model !! 0%nat = Some example_cell_header) as H1
    by (vm_compute; reflexivity).
  assert (world_data bytes example_model !! 0%nat = Some example_cell) as H2
    by (vm_compute; reflexivity).
  assert (dict_get example_cell "mip" = Some example_mip_slots) as H3
    by (vm_compute; reflexivity).
  split.
  - assert (example_mip_slots !! 0%nat = Some (Chunk bytes example_mip_chunk)) as H4
      by (vm_compute; reflexivity).
    exact (loaded_slot bytes LiteralLZ4.decompress mip_read mip_write no_files
             example_file None example_model 0%nat example_cell_header example_cell
             "mip" example_mip_slots 0%nat (Chunk bytes example_mip_chunk)
             example_file_nonempty example_model_loads H1 H2 H3 H4).
  - assert (example_mip_slots !! 1%nat
            = Some (Placeholder bytes (PInt 0) (PInt 0) (PInt 0))) as H4
      by (vm_compute; reflexivity).
    exact (loaded_slot bytes LiteralLZ4.decompress mip_read mip_write no_files
             example_file None example_model 0%nat example_cell_header example_cell
             "mip" example_mip_slots 1%nat (Placeholder bytes (PInt 0) (PInt 0) (PInt 0))
             example_file_nonempty example_model_loads H1 H2 H3 H4).
Defined.

(** The cell record of the example: the [clutter] descriptor is stored at
    bytes 72 to 83. *)
Lemma cell_record_layout_example :
  i32_at example_cell_record 72 = 452 /\
  exists cell_header,
    parse_cell_header example_cell_record = Ok cell_header /\
    (forall p place,
       places !! p = Some place ->
       place_value cell_header place = Some (i32_at example_cell_record (4 * p))) /\
    field_at cell_header "mip" "index" 5 = Some (i32_at example_cell_record 20) /\
    field_at cell_header "clutter" "index" 0 = Some (i32_at example_cell_record 72) /\
    field_at cell_header "assets" "count" 0 = Some (i32_at example_cell_record 84) /\
    field_at cell_header "voxel_terrain" "size" 0
    = Some (i32_at example_cell_record 384).
Proof.
  split; [vm_compute; reflexivity|].
  apply (cell_record_layout example_cell_record). vm_compute. reflexivity.
Defined.

(** The cell header parsed from the record of the example serialises to
    that record. *)
Lemma parse_then_create_cell_header_example :
  parse_cell_header example_cell_record = Ok example_cell_header /\
  create_cell_header example_cell_header = Ok example_cell_record.
Proof.
  assert (parse_cell_header example_cell_record = Ok example_cell_header) as H
    by (vm_compute; reflexivity).
  split; [exact H|].
  exact (parse_then_create_cell_header example_cell_record example_cell_header H).
Defined.

(** The cell header of the example as the writer leaves it, with lists where
    chunks were stored, parses back from its record. *)
Lemma create_then_parse_cell_header_example :
  create_cell_header example_written_header = Ok (region 0 example_output) /\
  exists cell_header,
    parse_cell_header (region 0 example_output) = Ok cell_header /\
    forall place z,
      In place places ->
      cell_data_item example_written_header place = Ok (PInt z) ->
      place_value cell_header place = Some z.
Proof.
  assert (create_cell_header example_written_header = Ok (region 0 example_output))
    as H by (vm_compute; reflexivity).
  split; [exact H|].
  exact (create_then_parse_cell_header example_written_header
           (region 0 example_output) H).
Defined.

(** The header of the example is written as 60 bytes that parse back to it;
    a header 2^32 cells wide is refused by [struct.pack]. *)
Lemma write_then_parse_header_example :
  header_fits (header_of_bytes example_file) /\
  (exists new_data,
     write_header bytes example_model [] = Ok new_data /\
     length new_data = 60%nat /\
     forall tile,
       parse_header bytes new_data tile
       = (set_header bytes (header_of_bytes example_file)
            (log_call bytes CallParseHeader tile), Ok tt)) /\
  write_header bytes (set_header bytes wide_header example_model) [] = Raise StructError.
Proof.
  assert (header_fits (header_of_bytes example_file)) as Hfits.
  { unfold header_fits. vm_compute. repeat split; discriminate. }
  split; [exact Hfits|]. split.
  - apply (proj1 (write_then_parse_header bytes example_model
                    (header_of_bytes example_file) (take 16 (drop 8 example_file))
                    ltac:(vm_compute; reflexivity) eq_refl
                    ltac:(vm_compute; reflexivity))).
    exact Hfits.
  - apply (proj2 (write_then_parse_header bytes
                    (set_header bytes wide_header example_model)
                    wide_header (replicate 16 x00)
                    eq_refl eq_refl ltac:(vm_compute; reflexivity))).
    intros (_ & _ & [_ H] & _). vm_compute in H. discriminate.
Defined.

(** With the cell headers announced at offset 64, [write_file] raises the
    [ValueError] of its offset test; with a NUL character in the path it
    raises the one of [open], after the cell headers have been rewritten;
    with the uuid ["0g"] it raises the one of [bytes.fromhex]. *)
Lemma write_file_value_errors_example :
  let self := set_header bytes moved_header example_model in
  let e := ValueError "Header offset is incorrect, I have no setup for this :)" in
  let path := String "000"%char "out.tile" in
  write_file bytes LiteralLZ4.decompress LiteralLZ4.compress mip_read mip_write
    no_files writable true "out.tile" false
    (set_header bytes bad_uuid_header example_model)
  = (set_header bytes bad_uuid_header example_model,
     Raise (ValueError
              "non-hexadecimal number found in fromhex() arg at position 1")) /\
  cell_header_offset moved_header = 64 /\
  write_file bytes LiteralLZ4.decompress LiteralLZ4.compress mip_read mip_write
    no_files writable true "out.tile" true self = (self, Raise e) /\
  ((exists h, header bytes self = Some h /\ fromhex (uuid h) = None /\
              e = fromhex_error (uuid h)) \/
   e = ValueError "Header offset is incorrect, I have no setup for this :)" \/
   (has_nul "out.tile" = true /\ e = ValueError "embedded null byte") \/
   (exists (data : option bytes) (meta : Meta) e',
      of_option data TypeError = @Raise bytes e' /\ e = EncoderError e')) /\
  write_file bytes LiteralLZ4.decompress LiteralLZ4.compress mip_read mip_write
    no_files writable true path false example_model
  = (example_written, Raise (ValueError "embedded null byte")) /\
  ((exists h, header bytes example_model = Some h /\ fromhex (uuid h) = None /\
              ValueError "embedded null byte" = fromhex_error (uuid h)) \/
   ValueError "embedded null byte"
   = ValueError "Header offset is incorrect, I have no setup for this :)" \/
   (has_nul path = true /\
    ValueError "embedded null byte" = ValueError "embedded null byte") \/
   (exists (data : option bytes) (meta : Meta) e',
      of_option data TypeError = @Raise bytes e' /\
      ValueError "embedded null byte" = EncoderError e')).
Proof.
  cbv zeta.
  assert (write_file bytes LiteralLZ4.decompress LiteralLZ4.compress mip_read mip_write
            no_files writable true "out.tile" true
            (set_header bytes moved_header example_model)
          = (set_header bytes moved_header example_model,
             Raise (ValueError
                      "Header offset is incorrect, I have no setup for this :)")))
    as H by (vm_compute; reflexivity).
  assert (write_file bytes LiteralLZ4.decompress LiteralLZ4.compress mip_read mip_write
            no_files writable true (String "000"%char "out.tile") false example_model
          = (example_written, Raise (ValueError "embedded null byte")))
    as H' by (vm_compute; reflexivity).
  split; [vm_compute; reflexivity|].
  split; [vm_compute; reflexivity|]. split; [exact H|]. split.
  - exact (write_file_value_errors bytes LiteralLZ4.decompress LiteralLZ4.compress
             mip_read mip_write no_files writable true "out.tile" true
             (set_header bytes moved_header example_model)
             (set_header bytes moved_header example_model)
             (ValueError "Header offset is incorrect, I have no setup for this :)")
             H eq_refl).
  - split; [exact H'|].
    exact (write_file_value_errors bytes LiteralLZ4.decompress LiteralLZ4.compress
             mip_read mip_write no_files writable true (String "000"%char "out.tile")
             false example_model example_written
             (ValueError "embedded null byte") H' eq_refl).
Defined.

(** Writing the example with validation returns [True] and the bytes built;
    with a decompressor that always fails the validator refuses them and
    nothing is written. *)
Lemma write_file_outcome_example :
  (exists new_data,
     build_new_data bytes LiteralLZ4.compress mip_read mip_write example_model
     = (example_written, Ok new_data) /\
     Some example_output = Some new_data /\
     (true = true -> @nil diag = []) /\
     (true = false -> true = true) /\
     (true = true ->
      true = match (read_file bytes LiteralLZ4.decompress mip_read mip_write no_files
                      (Some new_data)
                      (set_DEBUG bytes true (TileFile_init bytes None))).2 with
             | Ok _ => true
             | Raise _ => false
             end)) /\
  (exists printed,
     write_file bytes (fun _ _ => None) LiteralLZ4.compress mip_read mip_write
       no_files writable true "out.tile" true example_model
     = (example_written, Ok (false, None, printed)) /\
     exists new_data,
       build_new_data bytes LiteralLZ4.compress mip_read mip_write example_model
       = (example_written, Ok new_data) /\
       @None bytes = None /\
       (false = true -> printed = []) /\
       (true = false -> false = true) /\
       (true = true ->
        false = match (read_file bytes (fun _ _ => None) mip_read mip_write no_files
                         (Some new_data)
                         (set_DEBUG bytes true (TileFile_init bytes None))).2 with
                | Ok _ => true
                | Raise _ => false
                end)).
Proof.
  split.
  - exact (write_file_outcome bytes LiteralLZ4.decompress LiteralLZ4.compress
             mip_read mip_write no_files writable true "out.tile" true example_model example_written
             true (Some example_output) [] example_write_file).
  - eexists. split; [vm_compute; reflexivity|].
    refine (write_file_outcome bytes (fun _ _ => None) LiteralLZ4.compress
              mip_read mip_write no_files writable true "out.tile" true example_model example_written
              false None _ _).
    vm_compute. reflexivity.
Defined.

(** The 457 bytes written for the example: header, one cell record, nine
    bytes of chunks. *)
Lemma written_file_layout_example :
  let n := length (cell_headers bytes example_model) in
  length example_output
  = (60 + 388 * n
     + length (cells_payloads bytes LiteralLZ4.compress mip_read mip_write
                 (world_data bytes example_model)))%nat /\
  write_header bytes example_model [] = Ok (take 60 example_output) /\
  (forall c cell_header,
     cell_headers bytes example_written !! c = Some cell_header ->
     create_cell_header cell_header = Ok (region c example_output)) /\
  drop (60 + 388 * n) example_output
  = cells_payloads bytes LiteralLZ4.compress mip_read mip_write
      (world_data bytes example_model).
Proof.
  exact (written_file_layout bytes LiteralLZ4.decompress LiteralLZ4.compress
           mip_read mip_write no_files writable true "out.tile" true example_model example_written
           example_output [] example_model_wf example_write_file).
Defined.

(** Writing the example leaves its header and its decoded cells alone. *)
Lemma write_file_updates_cell_headers_example :
  header bytes example_written = header bytes example_model /\
  world_data bytes example_written = world_data bytes example_model /\
  length (cell_headers bytes example_written)
  = length (cell_headers bytes example_model) /\
  exists new_data,
    build_new_data bytes LiteralLZ4.compress mip_read mip_write example_model
    = (example_written, Ok new_data) /\
    forall c cell_header,
      cell_headers bytes example_written !! c = Some cell_header ->
      exists stored,
        parse_cell_header (region c new_data) = Ok stored /\
        same_fields cell_header stored.
Proof.
  exact (write_file_updates_cell_headers bytes LiteralLZ4.decompress
           LiteralLZ4.compress mip_read mip_write no_files writable true "out.tile" true
           example_model example_written (true, Some example_output, [])
           example_model_wf example_write_file).
Defined.

(** Ten bytes: in the script that is run the validator prints its four
    lines and raises [AttributeError]; in a module that is imported it
    raises it at once. *)
Lemma validator_raises_without_header_example :
  (exists e,
     (read_file bytes LiteralLZ4.decompress mip_read mip_write no_files
        (Some short_garbage) (set_DEBUG bytes true (TileFile_init bytes None))).2
     = Raise e /\
     __validate_write bytes LiteralLZ4.decompress mip_read mip_write no_files true
       example_model short_garbage []
     = ([] ++ [ErrorFailedToValidate; ErrorCaught e; DebugAttempting;
               DebugCheckingHeader],
        Raise AttributeError)) /\
  (exists e,
     (read_file bytes LiteralLZ4.decompress mip_read mip_write no_files
        (Some short_garbage) (set_DEBUG bytes true (TileFile_init bytes None))).2
     = Raise e /\
     __validate_write bytes LiteralLZ4.decompress mip_read mip_write no_files false
       example_model short_garbage []
     = ([], Raise AttributeError)).
Proof.
  assert ((length short_garbage < 60)%nat) as H by (vm_compute; lia).
  split.
  - exact (validator_raises_without_header bytes LiteralLZ4.decompress mip_read
             mip_write no_files true example_model short_garbage []
             (or_intror (or_introl H))).
  - exact (validator_raises_without_header bytes LiteralLZ4.decompress mip_read
             mip_write no_files false example_model short_garbage []
             (or_intror (or_introl H))).
Defined.

(** The header of the example against the same header with the cell headers
    at offset 64: one warning, for that field. *)
Lemma header_mismatch_check_example :
  let tile := set_header bytes moved_header example_model in
  let warnings :=
    flat_map (header_warning (header_items (header_of_bytes example_file)))
      (header_items moved_header) in
  warnings = [WarnHeaderMismatch "cell_header_offset" (HInt 60) (HInt 64)] /\
  check_header_values bytes example_model tile [] = ([] ++ warnings, Ok tt) /\
  (warnings = [] <-> header_of_bytes example_file = moved_header) /\
  (forall key expected got,
     In (WarnHeaderMismatch key expected got) warnings <->
     dict_get (header_items (header_of_bytes example_file)) key = Some expected /\
     (key, got) ∈ header_items moved_header /\ expected <> got).
Proof.
  cbv zeta. split; [vm_compute; reflexivity|].
  exact (header_mismatch_check bytes example_model
           (set_header bytes moved_header example_model)
           (header_of_bytes example_file) moved_header []
           ltac:(vm_compute; reflexivity) eq_refl).
Defined.

(** The example, loaded and written with validation: in the script that is
    run it passes; in a module that is imported [write_file] raises. *)
Lemma loaded_file_passes_validation_example :
  (write_file bytes LiteralLZ4.decompress LiteralLZ4.compress mip_read mip_write
     no_files writable true "out.tile" true example_model
   = write_file bytes LiteralLZ4.decompress LiteralLZ4.compress mip_read mip_write
       no_files writable true "out.tile" false example_model /\
   forall m' result written printed,
     write_file bytes LiteralLZ4.decompress LiteralLZ4.compress mip_read mip_write
       no_files writable true "out.tile" true example_model
     = (m', Ok (result, written, printed)) ->
     result = true /\ printed = [] /\
     exists new_data,
       written = Some new_data /\
       build_new_data bytes LiteralLZ4.compress mip_read mip_write example_model
       = (m', Ok new_data) /\
       __validate_write bytes LiteralLZ4.decompress mip_read mip_write no_files true
         m' new_data [] = ([], Ok true) /\
       write_bytes writable "out.tile" new_data = Ok tt) /\
  write_file bytes LiteralLZ4.decompress LiteralLZ4.compress mip_read mip_write
    no_files writable false "out.tile" true example_model
  = (example_written, Raise AttributeError).
Proof.
  split.
  - exact (proj1 (loaded_file_passes_validation bytes LiteralLZ4.decompress
                    LiteralLZ4.compress mip_read mip_write no_files writable true
                    literal_lz4_round_trip
                    (fun _ _ raw _ _ => mk_is_Some (Some raw) raw eq_refl)
                    example_file None "out.tile" example_model
                    example_file_nonempty example_model_loads
                    example_cell_header_size) eq_refl).
  - exact (proj2 (loaded_file_passes_validation bytes LiteralLZ4.decompress
                    LiteralLZ4.compress mip_read mip_write no_files writable false
                    literal_lz4_round_trip
                    (fun _ _ raw _ _ => mk_is_Some (Some raw) raw eq_refl)
                    example_file None "out.tile" example_model
                    example_file_nonempty example_model_loads
                    example_cell_header_size) eq_refl
             example_written example_output example_model_written).
Defined.

(** The first 400 bytes of the example announce a cell record that ends at
    byte 448: [read_file] raises [struct.error]. *)
Lemma truncated_file_raises_example :
  length truncated_file = 400%nat /\
  exists m,
    read_file bytes LiteralLZ4.decompress mip_read mip_write no_files
      (Some truncated_file) (TileFile_init bytes None) = (m, Raise StructError) /\
    world_data bytes m = [].
Proof.
  split; [vm_compute; reflexivity|].
  apply (truncated_file_raises bytes LiteralLZ4.decompress mip_read mip_write no_files
           truncated_file None).
  - vm_compute. lia.
  - vm_compute. reflexivity.
  - right. split; [vm_compute; reflexivity|]. split; vm_compute; [lia|reflexivity].
Defined.

(** The example written twice: the same 457 bytes. *)
Lemma write_file_twice_example :
  exists new_data,
    build_new_data bytes LiteralLZ4.compress mip_read mip_write example_model
    = (example_written, Ok new_data) /\
    build_new_data bytes LiteralLZ4.compress mip_read mip_write example_written
    = (written_model bytes LiteralLZ4.compress mip_read mip_write example_written,
       Ok new_data) /\
    header bytes
      (written_model bytes LiteralLZ4.compress mip_read mip_write example_written)
    = header bytes example_written /\
    world_data bytes
      (written_model bytes LiteralLZ4.compress mip_read mip_write example_written)
    = world_data bytes example_written /\
    length (cell_headers bytes
              (written_model bytes LiteralLZ4.compress mip_read mip_write
                 example_written))
    = length (cell_headers bytes example_written) /\
    forall c ch1 ch2,
      cell_headers bytes example_written !! c = Some ch1 ->
      cell_headers bytes
        (written_model bytes LiteralLZ4.compress mip_read mip_write example_written)
        !! c = Some ch2 ->
      same_fields ch1 ch2.
Proof.
  apply (write_file_twice bytes LiteralLZ4.decompress LiteralLZ4.compress
           mip_read mip_write no_files writable true "out.tile" "again.tile" true false
           example_model example_written
           (written_model bytes LiteralLZ4.compress mip_read mip_write example_written)
           (true, Some example_output, []) (true, Some example_output, [])
           literal_lz4_nonempty example_model_wf example_write_file).
  vm_compute. reflexivity.
Defined.

(** The validator's comparison on the example read back after a write: the
    [clutter] chunk has moved from 452 to 453 and is not reported, its fields
    being plain integers; the [mip] chunk has moved from 456 to 448 and is. *)
Lemma cell_mismatch_check_example :
  let reread :=
    match written_cell_header example_output 0 with
    | Ok cell_header => cell_header
    | Raise _ => []
    end in
  at2 reread "clutter" "index" = Ok (PInt 453) /\
  at2 example_cell_header "clutter" "index" = Ok (PInt 452) /\
  chunk_is_invalid example_cell_header "clutter"
    (default [] (dict_get reread "clutter")) = Ok false /\
  chunk_is_invalid example_cell_header "mip" (default [] (dict_get reread "mip"))
  = Ok true.
Proof.
  cbv zeta. split; [vm_compute; reflexivity|]. split; [vm_compute; reflexivity|].
  split.
  - apply (proj1 (cell_mismatch_check example_cell_header "clutter" _)).
    intros sub_key value H. vm_compute in H.
    repeat (apply elem_of_cons in H as [[= -> ->]|H];
            [split; [reflexivity|eexists; vm_compute; reflexivity]|]).
    by apply elem_of_nil in H.
  - etrans.
    + apply (proj2 (cell_mismatch_check example_cell_header "mip" _)).
      intros sub_key value H. vm_compute in H.
      repeat (apply elem_of_cons in H as [[= -> ->]|H];
              [split; [reflexivity|eexists _, _, _; vm_compute; eauto]|]).
      by apply elem_of_nil in H.
    + vm_compute. reflexivity.
Defined.
